(** * Athena query gateway: a shallow embedding of the three Lambda handlers

    The repository ships three versions of one AWS Lambda function that
    submits a SQL query to Amazon Athena, polls for its completion and
    returns the rows as JSON:

    - [student-datalake/index.py]           (module [Index]),
    - [student-datalake/athena_query.py]    (module [AthenaQuery]),
    - [student-datalake/lambda_enhanced.py] (module [LambdaEnhanced]).

    Each Python function is translated into a Rocq function of the same
    name.  Effects are explicit:

    - the wall clock ([time.time], [time.sleep]) is a rational number of
      seconds kept in the [world];
    - the Athena client is a scripted [Engine]: the k-th call of each
      operation returns what the script says (a value or a botocore
      error), and the [world] counts the calls;
    - Python exceptions are values of type [exn], threaded by the monad
      [M]; [try_except] is the [try ... except] statement.

    Python [str] values are sequences of code points below 256 (Rocq
    [string]); Python [dict]s are insertion-ordered association lists.
    Logging and printing have no effect on any result and are left
    out. *)

From Stdlib Require Import ZArith QArith Qround Qminmax Lqa Lia.
From Stdlib Require Import List String Ascii Bool DecimalString.
Import ListNotations.
Open Scope list_scope.
Open Scope string_scope.

Set Warnings "-register-all".

(* ================================================================== *)
(** * Part I: definitions *)
(* ================================================================== *)

(** ** Python built-ins used by the handlers *)

Module Py.

(** [str(n)] for an integer. *)
Definition str_of_Z (z : Z) : string :=
  NilEmpty.string_of_int (Z.to_int z).

Definition str_of_nat (n : nat) : string := str_of_Z (Z.of_nat n).

(** [int(x)] for a non-integral number: truncation toward zero. *)
Definition int_of_Q (q : Q) : Z := Z.quot (Qnum q) (Zpos (Qden q)).

Definition Qltb (x y : Q) : bool := negb (Qle_bool y x).

(** [min(a, b)]: the first argument unless the second is smaller. *)
Definition min (a b : Q) : Q := if Qltb b a then b else a.

(** [c.isspace()] for a code point below 256; this is also the class
    [\s] of a [str] pattern and the set [str.strip()] removes. *)
Definition isspace (c : ascii) : bool :=
  let n := N_of_ascii c in
  (((9 <=? n) && (n <=? 13)) || ((28 <=? n) && (n <=? 32))
   || (n =? 133) || (n =? 160))%N.

Fixpoint lstrip (s : string) : string :=
  match s with
  | String c s' => if isspace c then lstrip s' else s
  | EmptyString => EmptyString
  end.

Fixpoint rev_string (s acc : string) : string :=
  match s with
  | EmptyString => acc
  | String c s' => rev_string s' (String c acc)
  end.

Definition rstrip (s : string) : string :=
  rev_string (lstrip (rev_string s EmptyString)) EmptyString.

(** [s.strip()] *)
Definition strip (s : string) : string := rstrip (lstrip s).

(** [len(s)] *)
Definition len (s : string) : Z := Z.of_nat (String.length s).

(** [s[:n]] *)
Definition take (n : nat) (s : string) : string := String.substring 0 n s.

(** [s.startswith(p)] *)
Definition startswith (p s : string) : bool := String.prefix p s.

(** [s.split(sep)] for a non-empty separator: the pieces between the
    non-overlapping occurrences of [sep], scanned from the left.
    [skip] counts the characters of a separator still to be passed,
    [cur] is the current piece, reversed. *)
Fixpoint split_go (sep s : string) (skip : nat) (cur : string) : list string :=
  match s with
  | EmptyString => [rev_string cur EmptyString]
  | String c s' =>
      match skip with
      | S k => split_go sep s' k cur
      | O =>
          if String.prefix sep s
          then rev_string cur EmptyString
                 :: split_go sep s' (String.length sep - 1) EmptyString
          else split_go sep s' 0 (String c cur)
      end
  end.

Definition split (sep s : string) : list string := split_go sep s 0 EmptyString.

(** [l[-1]] of a non-empty list *)
Definition last_piece (l : list string) : string := List.last l EmptyString.

(** [int(s)] for a [str]: optional white space and sign around decimal
    digits, which single underscores may separate. *)
Definition digit_of (c : ascii) : option Z :=
  let n := N_of_ascii c in
  if ((48 <=? n) && (n <=? 57))%N then Some (Z.of_N (n - 48)) else None.

Fixpoint parse_digits (s : string) (acc : Z) (after_digit : bool) : option Z :=
  match s with
  | EmptyString => if after_digit then Some acc else None
  | String c s' =>
      match digit_of c with
      | Some n => parse_digits s' (10 * acc + n)%Z true
      | None =>
          if Ascii.eqb c "_" && after_digit then parse_digits s' acc false
          else None
      end
  end.

(** The white space [int()] skips around a numeral: the white space of
    [isspace] but the separators 0x1C to 0x1F. *)
Definition int_space (c : ascii) : bool :=
  let n := N_of_ascii c in
  (isspace c && negb ((28 <=? n) && (n <=? 31)))%N.

Fixpoint int_lstrip (s : string) : string :=
  match s with
  | String c s' => if int_space c then int_lstrip s' else s
  | EmptyString => EmptyString
  end.

Definition int_strip (s : string) : string :=
  rev_string (int_lstrip (rev_string (int_lstrip s) EmptyString)) EmptyString.

Definition int_of_str (s : string) : option Z :=
  match int_strip s with
  | String "+" r => parse_digits r 0 false
  | String "-" r => option_map Z.opp (parse_digits r 0 false)
  | r => parse_digits r 0 false
  end.

(** [repr(s)] of a [str] without quotes, backslashes or control
    characters. *)
Definition repr (s : string) : string := "'" ++ s ++ "'".

(** [repr(l)] of a list of such strings. *)
Definition repr_list (l : list string) : string :=
  "[" ++ String.concat ", " (map repr l) ++ "]".

(** [list(enumerate(l))] *)
Definition enumerate {A} (l : list A) : list (nat * A) :=
  combine (seq 0 (List.length l)) l.

(** [k in l] for a list of strings *)
Definition str_in (k : string) (l : list string) : bool :=
  existsb (String.eqb k) l.

End Py.

(** ** JSON values

    What [json.loads] produces and [json.dumps] consumes.  Numbers are
    integers (a number with a fraction or an exponent is outside the
    model); an object is a Python [dict]: an association list in
    insertion order with unique keys. *)

Inductive json : Type :=
| JNull
| JBool (b : bool)
| JInt (z : Z)
| JStr (s : string)
| JArr (l : list json)
| JObj (d : list (string * json)).

Module Dict.
Section Dict.
Variable V : Type.

Definition dict := list (string * V).

(** [d.get(k)] *)
Fixpoint get (k : string) (d : dict) : option V :=
  match d with
  | [] => None
  | (k', v) :: d' => if String.eqb k k' then Some v else get k d'
  end.

(** [k in d] *)
Definition mem (k : string) (d : dict) : bool :=
  match get k d with Some _ => true | None => false end.

(** [d[k] = v]: overwrite in place, or append a new key *)
Fixpoint set (k : string) (v : V) (d : dict) : dict :=
  match d with
  | [] => [(k, v)]
  | (k', v') :: d' =>
      if String.eqb k k' then (k', v) :: d' else (k', v') :: set k v d'
  end.

(** [{**d1, **d2}], and [{k1: v1, ..., **d2}] when [d1] is the literal part *)
Definition update (d1 d2 : dict) : dict :=
  fold_left (fun d kv => set (fst kv) (snd kv) d) d2 d1.

Definition keys (d : dict) : list string := map fst d.
End Dict.
Arguments get {V} k d.
Arguments mem {V} k d.
Arguments set {V} k v d.
Arguments update {V} d1 d2.
Arguments keys {V} d.
End Dict.

(** Truthiness of a JSON value ([if x:], [not x]). *)
Definition truthy (j : json) : bool :=
  match j with
  | JNull => false
  | JBool b => b
  | JInt z => negb (z =? 0)%Z
  | JStr s => negb (String.eqb s EmptyString)
  | JArr l => match l with [] => false | _ => true end
  | JObj d => match d with [] => false | _ => true end
  end.

(** [a == b] on JSON values: [True] and [False] are the integers 1
    and 0, lists are compared element by element, and two dicts are
    equal when they bind the same keys to equal values, in whatever
    order. *)
Fixpoint json_eqb (a b : json) {struct a} : bool :=
  let fix list_eqb (l1 l2 : list json) {struct l1} : bool :=
    match l1, l2 with
    | [], [] => true
    | x :: l1', y :: l2' => json_eqb x y && list_eqb l1' l2'
    | _, _ => false
    end in
  let fix dict_sub (d1 d2 : list (string * json)) {struct d1} : bool :=
    match d1 with
    | [] => true
    | (k, x) :: d1' =>
        match Dict.get k d2 with
        | Some y => json_eqb x y
        | None => false
        end && dict_sub d1' d2
    end in
  match a, b with
  | JNull, JNull => true
  | JBool x, JBool y => Bool.eqb x y
  | JBool x, JInt y => (y =? (if x then 1 else 0))%Z
  | JInt x, JBool y => (x =? (if y then 1 else 0))%Z
  | JInt x, JInt y => (x =? y)%Z
  | JStr x, JStr y => String.eqb x y
  | JArr x, JArr y => list_eqb x y
  | JObj x, JObj y => (List.length x =? List.length y)%nat && dict_sub x y
  | _, _ => false
  end.

(** [l.index(x)]: the position of the first element equal to [x]. *)
Fixpoint index_of (x : json) (l : list json) : option nat :=
  match l with
  | [] => None
  | y :: l' => if json_eqb y x then Some O
               else option_map S (index_of x l')
  end.

(** ** Regular expressions

    The fragment of Python's [re] syntax the deny-lists use, matched as
    [re.search(pattern, text, re.IGNORECASE)] does on a [str] of code
    points below 256: a letter matches both of its ASCII cases, [.] any
    character but a newline, [\s] the white-space class. *)

Module Regex.

Inductive regex : Type :=
| Empty                      (* matches nothing *)
| Eps                        (* the empty string *)
| Chr (c : ascii)            (* a literal character, either case *)
| AnyChar                    (* [.] *)
| Space                      (* [\s] *)
| Seq (r1 r2 : regex)
| Alt (r1 r2 : regex)
| Star (r : regex).

Definition lower (c : ascii) : ascii :=
  let n := N_of_ascii c in
  if ((65 <=? n) && (n <=? 90))%N then ascii_of_N (n + 32) else c.

Definition ci_eqb (a b : ascii) : bool := Ascii.eqb (lower a) (lower b).

Definition newline : ascii := ascii_of_N 10.

(** [r+] *)
Definition plus (r : regex) : regex := Seq r (Star r).

(** A literal word. *)
Fixpoint lit (s : string) : regex :=
  match s with
  | EmptyString => Eps
  | String c s' => Seq (Chr c) (lit s')
  end.

(** Does [r] match the empty string? *)
Fixpoint nullable (r : regex) : bool :=
  match r with
  | Empty | Chr _ | AnyChar | Space => false
  | Eps | Star _ => true
  | Seq r1 r2 => nullable r1 && nullable r2
  | Alt r1 r2 => nullable r1 || nullable r2
  end.

(** The derivative of [r] by the character [c]. *)
Fixpoint deriv (c : ascii) (r : regex) : regex :=
  match r with
  | Empty | Eps => Empty
  | Chr a => if ci_eqb a c then Eps else Empty
  | AnyChar => if Ascii.eqb c newline then Empty else Eps
  | Space => if Py.isspace c then Eps else Empty
  | Seq r1 r2 =>
      if nullable r1
      then Alt (Seq (deriv c r1) r2) (deriv c r2)
      else Seq (deriv c r1) r2
  | Alt r1 r2 => Alt (deriv c r1) (deriv c r2)
  | Star r1 => Seq (deriv c r1) (Star r1)
  end.

(** Does [r] match some prefix of [s]? *)
Fixpoint match_prefix (r : regex) (s : string) : bool :=
  nullable r
  || match s with
     | EmptyString => false
     | String c s' => match_prefix (deriv c r) s'
     end.

(** [re.search(r, s, re.IGNORECASE) is not None] *)
Fixpoint search (r : regex) (s : string) : bool :=
  match_prefix r s
  || match s with
     | EmptyString => false
     | String _ s' => search r s'
     end.

(** The strings a pattern matches, declaratively. *)
Inductive matches : regex -> string -> Prop :=
| m_eps : matches Eps EmptyString
| m_chr a c : ci_eqb a c = true -> matches (Chr a) (String c EmptyString)
| m_any c : Ascii.eqb c newline = false -> matches AnyChar (String c EmptyString)
| m_space c : Py.isspace c = true -> matches Space (String c EmptyString)
| m_seq r1 r2 s1 s2 :
    matches r1 s1 -> matches r2 s2 -> matches (Seq r1 r2) (s1 ++ s2)
| m_alt_l r1 r2 s : matches r1 s -> matches (Alt r1 r2) s
| m_alt_r r1 r2 s : matches r2 s -> matches (Alt r1 r2) s
| m_star_nil r : matches (Star r) EmptyString
| m_star_cons r s1 s2 :
    matches r s1 -> matches (Star r) s2 -> matches (Star r) (s1 ++ s2).

(** [text] contains a substring matched by [r]. *)
Definition found (r : regex) (text : string) : Prop :=
  exists pre m post, text = (pre ++ m ++ post)%string /\ matches r m.

End Regex.

(** A deny-list entry: the pattern as written in the source, and its
    reading. *)
Definition pattern : Type := (string * Regex.regex)%type.

Definition comment_injection : pattern :=
  (";.*--",
   Regex.Seq (Regex.Chr ";")
     (Regex.Seq (Regex.Star Regex.AnyChar) (Regex.lit "--"))).

(** [WORD1\s+WORD2] *)
Definition two_words (src w1 w2 : string) : pattern :=
  (src, Regex.Seq (Regex.lit w1) (Regex.Seq (Regex.plus Regex.Space) (Regex.lit w2))).

Definition drop_table_cascade : pattern :=
  ("DROP\s+TABLE.*CASCADE",
   Regex.Seq (Regex.lit "DROP")
     (Regex.Seq (Regex.plus Regex.Space)
        (Regex.Seq (Regex.lit "TABLE")
           (Regex.Seq (Regex.Star Regex.AnyChar) (Regex.lit "CASCADE"))))).

(** [WORD\s+] *)
Definition word_space (src w : string) : pattern :=
  (src, Regex.Seq (Regex.lit w) (Regex.plus Regex.Space)).

(** The nine patterns both deny-lists share, in source order. *)
Definition common_patterns : list pattern :=
  [ comment_injection;
    two_words "DROP\s+DATABASE" "DROP" "DATABASE";
    drop_table_cascade;
    word_space "TRUNCATE\s+" "TRUNCATE";
    word_space "GRANT\s+" "GRANT";
    word_space "REVOKE\s+" "REVOKE";
    two_words "ALTER\s+SYSTEM" "ALTER" "SYSTEM";
    two_words "CREATE\s+ROLE" "CREATE" "ROLE";
    two_words "EXECUTE\s+AS" "EXECUTE" "AS" ].

(** The body of [validate_query], common to [athena_query.py] and
    [lambda_enhanced.py] up to the deny-list. *)
Definition validate_query_with (dangerous_patterns : list pattern)
           (query : json) : bool * string :=
  match query with
  | JStr q =>
      if String.eqb q EmptyString then (false, "Query must be a non-empty string"%string)
      else
        let q := Py.strip q in
        if (Py.len q >? 262144)%Z then
          (false, ("Query size (" ++ Py.str_of_Z (Py.len q)
                   ++ " bytes) exceeds maximum of 262144 bytes")%string)
        else
          match find (fun p : pattern => Regex.search (snd p) q)
                     dangerous_patterns with
          | Some p => (false, ("Query contains disallowed pattern: " ++ fst p)%string)
          | None => (true, EmptyString)
          end
  | _ => (false, "Query must be a non-empty string"%string)
  end.

(** ** Exceptions *)

Inductive exn : Type :=
| JSONDecodeError (msg : string)
| ValueError (msg : string)
| TimeoutError (msg : string)
| RuntimeError (msg : string)
| ClientError (code message text : string)
| BotoCoreError (text : string)
| AttributeError (msg : string)
| TypeError (msg : string).

(** [type(e).__name__] *)
Definition exn_name (e : exn) : string :=
  match e with
  | JSONDecodeError _ => "JSONDecodeError"
  | ValueError _ => "ValueError"
  | TimeoutError _ => "TimeoutError"
  | RuntimeError _ => "RuntimeError"
  | ClientError _ _ _ => "ClientError"
  | BotoCoreError _ => "BotoCoreError"
  | AttributeError _ => "AttributeError"
  | TypeError _ => "TypeError"
  end.

(** [str(e)] *)
Definition exn_str (e : exn) : string :=
  match e with
  | JSONDecodeError m | ValueError m | TimeoutError m | RuntimeError m
  | AttributeError m | TypeError m => m
  | ClientError _ _ t => t
  | BotoCoreError t => t
  end.

(** The classes named in the [except] clauses of the handlers.
    [json.JSONDecodeError] is a subclass of [ValueError]; [ClientError]
    and [BotoCoreError] derive from [Exception] directly. *)
Inductive exn_class : Type :=
| CJSONDecodeError | CValueError | CTimeoutError | CRuntimeError
| CClientError | CBotoCoreError | CException.

(** [isinstance(e, C)] *)
Definition isinstance (e : exn) (c : exn_class) : bool :=
  match c, e with
  | CException, _ => true
  | CJSONDecodeError, JSONDecodeError _ => true
  | CValueError, (ValueError _ | JSONDecodeError _) => true
  | CTimeoutError, TimeoutError _ => true
  | CRuntimeError, RuntimeError _ => true
  | CClientError, ClientError _ _ _ => true
  | CBotoCoreError, BotoCoreError _ => true
  | _, _ => false
  end.

(** ** The Athena engine and the world *)

Inductive State : Type := QUEUED | RUNNING | SUCCEEDED | FAILED | CANCELLED.

Definition State_name (s : State) : string :=
  match s with
  | QUEUED => "QUEUED" | RUNNING => "RUNNING" | SUCCEEDED => "SUCCEEDED"
  | FAILED => "FAILED" | CANCELLED => "CANCELLED"
  end.

Definition State_eqb (a b : State) : bool :=
  match a, b with
  | QUEUED, QUEUED | RUNNING, RUNNING | SUCCEEDED, SUCCEEDED
  | FAILED, FAILED | CANCELLED, CANCELLED => true
  | _, _ => false
  end.

(** [response['QueryExecution']] of [get_query_execution]; an absent key
    is [None]. *)
Record QueryExecution : Type := {
  Status_State : State;
  Status_StateChangeReason : option string;
  Status_SubmissionDateTime : option string;
  Status_CompletionDateTime : option string;
  Statistics : option (Dict.dict Z);
  Query : option string
}.

(** One entry of [ResultSetMetadata.ColumnInfo]. *)
Record ColumnInfo : Type := {
  Name : option string;
  Type_ : option string;
  CaseSensitive : option bool;
  Nullable : option string;
  Precision : option Z;
  Scale : option Z
}.

(** One cell of a row: [{'VarCharValue': s}], or [{}] for a NULL. *)
Definition Datum := option string.

(** The response of [get_query_results]; an absent list is empty, which
    every [.get(key, [])] of the handlers makes indistinguishable. *)
Record ResultPage : Type := {
  ResultSet_ColumnInfo : list ColumnInfo;
  ResultSet_Rows : list (list Datum)
}.

(** What botocore raises from a client call. *)
Inductive engine_error : Type :=
| EClientError (code message text : string)
| EBotoCoreError (text : string).

Definition exn_of_engine_error (e : engine_error) : exn :=
  match e with
  | EClientError c m t => ClientError c m t
  | EBotoCoreError t => BotoCoreError t
  end.

(** A scripted engine: the answer to the k-th call of each operation.
    A status call also takes [latency] seconds of wall-clock time. *)
Record Engine : Type := {
  on_start : nat -> engine_error + string;
  latency : nat -> Q;
  on_status : nat -> engine_error + QueryExecution;
  on_results : nat -> engine_error + ResultPage
}.

(** The mutable world of one invocation.  [submitted] lists the query
    texts handed to [start_query_execution] and [slept] the sleeps as
    (clock at the start of the sleep, duration); both newest first. *)
Record world : Type := {
  clock : Q;
  submitted : list string;
  n_status : nat;
  n_results : nat;
  slept : list (Q * Q)
}.

Definition n_start (w : world) : nat := List.length (submitted w).

(** ** The effect monad *)

Inductive outcome (A : Type) : Type :=
| Return (a : A)
| Raise (e : exn)
| OutOfFuel.
Arguments Return {A} a.
Arguments Raise {A} e.
Arguments OutOfFuel {A}.

Definition M (A : Type) : Type := world -> outcome A * world.

Definition ret {A} (a : A) : M A := fun w => (Return a, w).
Definition raise {A} (e : exn) : M A := fun w => (Raise e, w).
Definition out_of_fuel {A} : M A := fun w => (OutOfFuel, w).

Definition bind {A B} (m : M A) (k : A -> M B) : M B :=
  fun w =>
    match m w with
    | (Return a, w') => k a w'
    | (Raise e, w') => (Raise e, w')
    | (OutOfFuel, w') => (OutOfFuel, w')
    end.

Declare Scope py_scope.
Delimit Scope py_scope with py.
Notation "x <- m ;; k" := (bind m (fun x => k))
  (at level 61, m at next level, right associativity) : py_scope.
Notation "m ;;; k" := (bind m (fun _ => k))
  (at level 61, right associativity) : py_scope.

(** [try: body  except Exception as e: handler(e)].  Running out of fuel
    is not a Python exception and is never caught. *)
Definition try_except {A} (body : M A) (handler : exn -> M A) : M A :=
  fun w =>
    match body w with
    | (Raise e, w') => handler e w'
    | r => r
    end.

(** [time.time()] *)
Definition time_time : M Q := fun w => (Return (clock w), w).

(** [time.sleep(s)]: a negative length raises [ValueError]. *)
Definition time_sleep (s : Q) : M unit :=
  fun w =>
    if Py.Qltb s 0
    then (Raise (ValueError "sleep length must be non-negative"), w)
    else (Return tt,
          {| clock := clock w + s; submitted := submitted w;
             n_status := n_status w; n_results := n_results w;
             slept := (clock w, s) :: slept w |}).

Section Client.
Variable E : Engine.

(** [athena_client.start_query_execution(QueryString=query, ...)['QueryExecutionId']] *)
Definition client_start_query_execution (query : string) : M string :=
  fun w =>
    let w' := {| clock := clock w; submitted := query :: submitted w;
                 n_status := n_status w; n_results := n_results w;
                 slept := slept w |} in
    match on_start E (n_start w) with
    | inl e => (Raise (exn_of_engine_error e), w')
    | inr id => (Return id, w')
    end.

(** [athena_client.get_query_execution(QueryExecutionId=id)['QueryExecution']] *)
Definition client_get_query_execution (id : string) : M QueryExecution :=
  fun w =>
    let w' := {| clock := clock w + latency E (n_status w);
                 submitted := submitted w;
                 n_status := S (n_status w); n_results := n_results w;
                 slept := slept w |} in
    match on_status E (n_status w) with
    | inl e => (Raise (exn_of_engine_error e), w')
    | inr x => (Return x, w')
    end.

(** [athena_client.get_query_results(QueryExecutionId=id, MaxResults=n)] *)
Definition client_get_query_results (id : string) : M ResultPage :=
  fun w =>
    let w' := {| clock := clock w; submitted := submitted w;
                 n_status := n_status w; n_results := S (n_results w);
                 slept := slept w |} in
    match on_results E (n_results w) with
    | inl e => (Raise (exn_of_engine_error e), w')
    | inr p => (Return p, w')
    end.
End Client.

(** ** Interpreter-level operations on JSON values *)

Definition type_name (j : json) : string :=
  match j with
  | JNull => "NoneType" | JBool _ => "bool" | JInt _ => "int"
  | JStr _ => "str" | JArr _ => "list" | JObj _ => "dict"
  end.

Definition no_attribute (x : json) (attr : string) : exn :=
  AttributeError ("'" ++ type_name x ++ "' object has no attribute '" ++ attr ++ "'").

(** [x.get(key, default)] *)
Definition py_get (x : json) (key : string) (default : json) : M json :=
  match x with
  | JObj d => ret (match Dict.get key d with Some v => v | None => default end)
  | _ => raise (no_attribute x "get")
  end.

(** [x.strip()] *)
Definition py_strip (x : json) : M string :=
  match x with
  | JStr s => ret (Py.strip s)
  | _ => raise (no_attribute x "strip")
  end.

(** [int(x)] *)
Definition py_int (x : json) : M Z :=
  match x with
  | JInt z => ret z
  | JBool b => ret (if b then 1 else 0)%Z
  | JStr s =>
      match Py.int_of_str s with
      | Some z => ret z
      | None => raise (ValueError ("invalid literal for int() with base 10: "
                                   ++ Py.repr s))
      end
  | _ => raise (TypeError ("int() argument must be a string, a bytes-like object "
                           ++ "or a real number, not '" ++ type_name x ++ "'"))
  end.

(** [x or y] *)
Definition py_or (x y : json) : json := if truthy x then x else y.

(** [x == s] for a string literal [s] *)
Definition is_str (x : json) (s : string) : bool :=
  match x with JStr t => String.eqb t s | _ => false end.

(** [x in [s1, ..., sn]] for string literals *)
Definition in_strs (x : json) (l : list string) : bool :=
  existsb (is_str x) l.

(** [f"{x}"] of a scalar; the rendering of a list or a dict is not
    modelled. *)
Definition fstr (x : json) : string :=
  match x with
  | JNull => "None"
  | JBool b => if b then "True" else "False"
  | JInt z => Py.str_of_Z z
  | JStr s => s
  | JArr _ | JObj _ => EmptyString
  end.

Definition json_of_option (o : option string) : json :=
  match o with Some s => JStr s | None => JNull end.

Definition json_of_option_Z (o : option Z) : json :=
  match o with Some z => JInt z | None => JNull end.

Definition json_of_row (row : Dict.dict Datum) : json :=
  JObj (map (fun kv => (fst kv, json_of_option (snd kv))) row).

Definition or_default {A} (o : option A) (d : A) : A :=
  match o with Some a => a | None => d end.

(** The string held under [k] in a dictionary that was built with a
    string there. *)
Definition str_item (k : string) (d : Dict.dict json) : string :=
  match Dict.get k d with Some (JStr s) => s | _ => EmptyString end.

(** The double-quote character, for messages that contain it. *)
Definition dquote : string := String (ascii_of_nat 34) EmptyString.

(** ** Responses and configuration *)

(** The API Gateway proxy response; [body] is the text [json.dumps]
    returns. *)
Record response : Type := {
  statusCode : Z;
  headers : Dict.dict string;
  body : string;
  isBase64Encoded : option bool
}.

(** The module-level constants of [athena_query.py] and
    [lambda_enhanced.py], read from the environment when the module is
    imported. *)
Record config : Type := {
  DATABASE_NAME : string;
  S3_BUCKET : string;
  RESULTS_PATH : string;
  MAX_WAIT_TIME : Z
}.

(** What the handlers take from the Python runtime: the JSON codec
    ([json.loads] returns a value or the message of a
    [JSONDecodeError]) and the rendering of the clock by
    [datetime.utcnow().isoformat()]. *)
Record runtime : Type := {
  json_loads : string -> string + json;
  json_dumps : json -> string;
  isoformat : Q -> string
}.

Definition loads (R : runtime) (s : string) : M json :=
  match json_loads R s with
  | inr v => ret v
  | inl msg => raise (JSONDecodeError msg)
  end.

(** What [get_query_results] returns. *)
Record results : Type := {
  columnMetadata : list (Dict.dict json);
  rows : list (Dict.dict Datum);
  rowCount : option Z
}.

(** ** The completion poller: shared vocabulary *)

(** The back-off interval after [k] non-terminal observations: it starts
    at one second and each observation multiplies it by 1.5, up to 5. *)
Fixpoint backoff (k : nat) : Q :=
  match k with
  | O => 1
  | S k' => Py.min (backoff k' * (3 # 2)) 5
  end.

(** The message of the [TimeoutError] the pollers raise. *)
Definition timeout_message (max_wait_time elapsed : Z) (id : string) : string :=
  "Query did not complete within " ++ Py.str_of_Z max_wait_time
  ++ " seconds (elapsed: " ++ Py.str_of_Z elapsed ++ "s, ID: " ++ id ++ ")".

(** [str(x)] of an optional text: [None] prints as "None". *)
Definition str_of_option (o : option string) : string :=
  match o with Some s => s | None => "None" end.

(** The status dictionary built by [get_query_status]. *)
Record status_dict : Type := {
  state : State;
  state_change_reason : option string;
  submission_date_time : string;
  completion_date_time : string;
  statistics : Dict.dict Z;
  query : option string
}.

(** [execution['Status']], which [index.py] returns from its poller. *)
Record Status : Type := {
  State_ : State;
  StateChangeReason : option string
}.

Definition nonterminal (s : State) : bool :=
  match s with QUEUED | RUNNING => true | _ => false end.

(* ------------------------------------------------------------------ *)
(** ** [athena_query.py] *)
(* ------------------------------------------------------------------ *)

Module AthenaQuery.

Definition dangerous_patterns : list pattern := common_patterns.

Definition validate_query (query : json) : bool * string :=
  validate_query_with dangerous_patterns query.

Section WithEngine.
Variable E : Engine.
Variable R : runtime.
Variable cfg : config.
Variable fuel : nat.
Local Open Scope py_scope.

Definition format_response (status_code : Z) (body : json) : response :=
  {| statusCode := status_code;
     headers :=
       [ ("Content-Type", "application/json");
         ("Access-Control-Allow-Origin", "*");
         ("Access-Control-Allow-Methods", "POST, GET, OPTIONS");
         ("Access-Control-Allow-Headers", "Content-Type, Authorization") ];
     body := json_dumps R body;
     isBase64Encoded := Some false |}.

(** [start_query_execution]: the [except ClientError] clause logs
    and re-raises. *)
Definition start_query_execution (query : string) (database output_location : json)
  : M string :=
  client_start_query_execution E query.

(** [get_query_status]: the [except ClientError] clause logs and
    re-raises. *)
Definition get_query_status (query_execution_id : string) : M status_dict :=
  execution <- client_get_query_execution E query_execution_id ;;
  ret {| state := Status_State execution;
         state_change_reason := Status_StateChangeReason execution;
         submission_date_time := str_of_option (Status_SubmissionDateTime execution);
         completion_date_time := str_of_option (Status_CompletionDateTime execution);
         statistics := or_default (Statistics execution) [];
         query := Query execution |}.

(** The [while] loop of [wait_for_query_completion]; one unit of
    [fuel] per evaluation of the loop condition. *)
Fixpoint wait_loop (fuel : nat) (query_execution_id : string)
         (max_wait_time : Z) (start_time poll_interval : Q)
  : M status_dict :=
  match fuel with
  | O => out_of_fuel
  | S fuel' =>
      now <- time_time ;;
      if Py.Qltb (now - start_time) (inject_Z max_wait_time) then
        status <- get_query_status query_execution_id ;;
        match state status with
        | SUCCEEDED => ret status
        | FAILED =>
            raise (RuntimeError ("Query execution failed: "
                                 ++ str_of_option (state_change_reason status)))
        | CANCELLED => raise (RuntimeError "Query was cancelled")
        | QUEUED | RUNNING =>
            let poll_interval := Py.min (poll_interval * (3 # 2)) 5 in
            now <- time_time ;;
            let elapsed := Py.int_of_Q (now - start_time) in
            let remaining := (max_wait_time - elapsed)%Z in
            let poll_interval :=
              if Py.Qltb (inject_Z remaining) poll_interval
              then inject_Z remaining else poll_interval in
            time_sleep poll_interval ;;;
            wait_loop fuel' query_execution_id max_wait_time start_time
                      poll_interval
        end
      else
        now <- time_time ;;
        let elapsed := Py.int_of_Q (now - start_time) in
        raise (TimeoutError (timeout_message max_wait_time elapsed
                                             query_execution_id))
  end.

Definition wait_for_query_completion (query_execution_id : string)
           (max_wait_time : Z) : M status_dict :=
  start_time <- time_time ;;
  wait_loop fuel query_execution_id max_wait_time start_time 1.

(** One entry of [column_metadata]. *)
Definition column_metadata_entry (ic : nat * ColumnInfo) : Dict.dict json :=
  let (i, col) := ic in
  [ ("name", JStr (or_default (Name col) ("col_" ++ Py.str_of_nat i)));
    ("type", JStr (or_default (Type_ col) "unknown"));
    ("case_sensitive", JBool (or_default (CaseSensitive col) false));
    ("nullable", JStr (or_default (Nullable col) "UNKNOWN"));
    ("precision", json_of_option_Z (Precision col));
    ("scale", json_of_option_Z (Scale col)) ].

(** The inner loop over the cells of one row. *)
Definition parse_row (column_metadata : list (Dict.dict json))
           (data : list Datum) : Dict.dict Datum :=
  fold_left
    (fun row_dict (ic : nat * Datum) =>
       let (i, col) := ic in
       if (i <? List.length column_metadata)%nat then
         let col_name := str_item "name" (nth i column_metadata []) in
         let value := col in
         Dict.set col_name value row_dict
       else row_dict)
    (Py.enumerate data) [].

(** [get_query_results]: the [except ClientError] clause logs and
    re-raises. *)
Definition get_query_results (query_execution_id : string) (max_rows : Z)
  : M results :=
  response <- client_get_query_results E query_execution_id ;;
  let column_info := ResultSet_ColumnInfo response in
  let column_metadata := map column_metadata_entry (Py.enumerate column_info) in
  let rows := ResultSet_Rows response in
  let data_rows := List.tl rows in
  let parsed_rows := map (parse_row column_metadata) data_rows in
  ret {| columnMetadata := column_metadata;
         rows := parsed_rows;
         rowCount := Some (Z.of_nat (List.length parsed_rows)) |}.

Definition execute_athena_query (query : string)
           (database output_location : json) (max_wait_time max_rows : Z)
  : M (Dict.dict json) :=
  let (is_valid, error_msg) := validate_query (JStr query) in
  if negb is_valid then raise (ValueError error_msg)
  else
    let db := py_or database (JStr (DATABASE_NAME cfg)) in
    let output := py_or output_location (JStr (RESULTS_PATH cfg)) in
    query_execution_id <- start_query_execution query db output ;;
    status <- wait_for_query_completion query_execution_id max_wait_time ;;
    let statistics := statistics status in
    rc <- (match state status with
           | SUCCEEDED =>
               results <- get_query_results query_execution_id max_rows ;;
               ret (rows results, columnMetadata results)
           | _ => ret ([], [])
           end) ;;
    let (rows, column_metadata) := (rc : list (Dict.dict Datum) * list (Dict.dict json)) in
    ret [ ("message", JStr "Query executed successfully");
          ("queryExecutionId", JStr query_execution_id);
          ("state", JStr (State_name (state status)));
          ("stateChangeReason", json_of_option (state_change_reason status));
          ("rows", JArr (map json_of_row rows));
          ("columnMetadata", JArr (map JObj column_metadata));
          ("rowCount", JInt (Z.of_nat (List.length rows)));
          ("dataScannedInBytes",
           JInt (or_default (Dict.get "DataScannedInBytes" statistics) 0%Z));
          ("executionTimeInMillis",
           JInt (or_default (Dict.get "TotalExecutionTimeInMillis" statistics) 0%Z));
          ("query", JStr query);
          ("database", db) ].

(** The statements of [lambda_handler] inside [try]. *)
Definition lambda_handler_try (event : Dict.dict json) : M response :=
  let body := or_default (Dict.get "body" event) JNull in
  body <- (match body with
           | JStr s => loads R s
           | _ => if negb (truthy body) then ret (JObj []) else ret body
           end) ;;
  q <- py_get body "query" (JStr EmptyString) ;;
  query <- py_strip q ;;
  mw <- py_get body "maxWaitTime" (JInt (MAX_WAIT_TIME cfg)) ;;
  max_wait_time <- py_int mw ;;
  output_location <- py_get body "outputLocation" JNull ;;
  if ((max_wait_time <? 1) || (max_wait_time >? 900))%Z then
    raise (ValueError ("maxWaitTime must be between 1 and 900 seconds, got "
                       ++ Py.str_of_Z max_wait_time))
  else
    result <- execute_athena_query query JNull output_location max_wait_time 1000 ;;
    ret (format_response 200 (JObj result)).

(** The [except] clauses of [lambda_handler], in source order. *)
Definition lambda_handler_except (e : exn) : M response :=
  if isinstance e CJSONDecodeError then
    ret (format_response 400
           (JObj [("error", JStr "Invalid JSON"); ("message", JStr (exn_str e))]))
  else if isinstance e CValueError then
    ret (format_response 400
           (JObj [("error", JStr "Invalid request"); ("message", JStr (exn_str e))]))
  else if isinstance e CTimeoutError then
    ret (format_response 408
           (JObj [("error", JStr "Query timeout"); ("message", JStr (exn_str e))]))
  else if isinstance e CRuntimeError then
    ret (format_response 400
           (JObj [("error", JStr "Query execution failed");
                  ("message", JStr (exn_str e))]))
  else if isinstance e CBotoCoreError then
    ret (format_response 500
           (JObj [("error", JStr "Service error");
                  ("message", JStr "An error occurred while processing your request")]))
  else
    ret (format_response 500
           (JObj [("error", JStr "Internal server error");
                  ("message", JStr "An unexpected error occurred");
                  ("type", JStr (exn_name e))])).

(** [lambda_handler(event, context)].  [context] is the
    [function_name] of the context object, or [None] when the
    context is [None]; the first statement reads
    [context.function_name] before the [try] block is entered. *)
Definition lambda_handler (event : Dict.dict json) (context : option string)
  : M response :=
  match context with
  | None => raise (no_attribute JNull "function_name")
  | Some _ => try_except (lambda_handler_try event) lambda_handler_except
  end.
End WithEngine.
End AthenaQuery.

(* ------------------------------------------------------------------ *)
(** ** [lambda_enhanced.py] *)
(* ------------------------------------------------------------------ *)

Module LambdaEnhanced.

(** The catalog of pre-defined queries, in source order. *)
Definition QUERY_TEMPLATES : Dict.dict string :=
[
  ("gpa_by_platform",
"
        SELECT 
            platform,
            AVG(gpa) as avg_gpa,
            AVG(hours_per_day) as avg_hours,
            COUNT(*) as student_count
        FROM student_social_media_usage
        WHERE gpa IS NOT NULL AND hours_per_day IS NOT NULL
        GROUP BY platform
        ORDER BY avg_gpa DESC
        LIMIT 100
    ");
  ("gpa_vs_hours",
"
        SELECT 
            student_id,
            AVG(hours_per_day) as social_media_hours,
            AVG(gpa) as gpa
        FROM student_social_media_usage
        WHERE gpa IS NOT NULL AND hours_per_day IS NOT NULL
        GROUP BY student_id
        LIMIT 500
    ");
  ("gpa_distribution",
"
        SELECT 
            CASE 
                WHEN gpa >= 3.5 THEN '3.5-4.0'
                WHEN gpa >= 3.0 THEN '3.0-3.4'
                WHEN gpa >= 2.5 THEN '2.5-2.9'
                WHEN gpa >= 2.0 THEN '2.0-2.4'
                ELSE '< 2.0'
            END as gpa_range,
            COUNT(*) as student_count,
            AVG(hours_per_day) as avg_social_media_hours
        FROM student_social_media_usage
        WHERE gpa IS NOT NULL
        GROUP BY 1
    ");
  ("sleep_vs_stress",
"
        SELECT 
            student_id,
            AVG(sleep_hours) as sleep_hours,
            AVG(stress_level) as stress_level,
            AVG(mental_health_score) as mental_health
        FROM student_sleep_stress
        WHERE sleep_hours IS NOT NULL AND stress_level IS NOT NULL
        GROUP BY student_id
        LIMIT 500
    ");
  ("sleep_by_day",
"
        SELECT 
            day_of_week,
            AVG(sleep_hours) as avg_sleep,
            AVG(stress_level) as avg_stress
        FROM student_sleep_stress
        WHERE day_of_week IS NOT NULL
        GROUP BY day_of_week
        ORDER BY 
            CASE day_of_week
                WHEN 'Monday' THEN 1
                WHEN 'Tuesday' THEN 2
                WHEN 'Wednesday' THEN 3
                WHEN 'Thursday' THEN 4
                WHEN 'Friday' THEN 5
                WHEN 'Saturday' THEN 6
                WHEN 'Sunday' THEN 7
            END
        LIMIT 50
    ");
  ("stress_distribution",
"
        SELECT 
            CASE 
                WHEN stress_level >= 8 THEN 'Very High'
                WHEN stress_level >= 6 THEN 'High'
                WHEN stress_level >= 4 THEN 'Moderate'
                WHEN stress_level >= 2 THEN 'Low'
                ELSE 'Very Low'
            END as stress_category,
            COUNT(*) as student_count,
            AVG(sleep_hours) as avg_sleep_hours
        FROM student_sleep_stress
        WHERE stress_level IS NOT NULL
        GROUP BY 1
    ");
  ("platform_usage",
"
        SELECT 
            platform,
            AVG(hours_per_day) as avg_hours,
            MIN(hours_per_day) as min_hours,
            MAX(hours_per_day) as max_hours,
            COUNT(DISTINCT student_id) as unique_users
        FROM student_social_media_usage
        GROUP BY platform
        ORDER BY avg_hours DESC
        LIMIT 50
    ");
  ("platform_popularity",
"
        SELECT 
            platform,
            COUNT(DISTINCT student_id) as user_count
        FROM student_social_media_usage
        GROUP BY platform
        ORDER BY user_count DESC
        LIMIT 50
    ");
  ("weekly_pattern",
"
        SELECT 
            day_of_week,
            AVG(hours_per_day) as avg_daily_hours,
            COUNT(DISTINCT student_id) as active_users
        FROM student_social_media_usage
        GROUP BY day_of_week
        ORDER BY 
            CASE day_of_week
                WHEN 'Monday' THEN 1
                WHEN 'Tuesday' THEN 2
                WHEN 'Wednesday' THEN 3
                WHEN 'Thursday' THEN 4
                WHEN 'Friday' THEN 5
                WHEN 'Saturday' THEN 6
                WHEN 'Sunday' THEN 7
            END
        LIMIT 20
    ");
  ("mental_health_correlation",
"
        SELECT 
            student_id,
            AVG(hours_per_day) as social_media_hours,
            AVG(mental_health_score) as mental_health_score
        FROM student_social_media_usage u
        JOIN student_mental_health m ON u.student_id = m.student_id
        GROUP BY student_id
        LIMIT 500
    ");
  ("mental_health_by_platform",
"
        SELECT 
            platform,
            AVG(mental_health_score) as avg_mental_health,
            AVG(hours_per_day) as avg_hours
        FROM student_social_media_usage
        WHERE mental_health_score IS NOT NULL
        GROUP BY platform
        ORDER BY avg_mental_health DESC
        LIMIT 50
    ");
  ("summary_stats",
"
        SELECT 
            COUNT(DISTINCT student_id) as total_students,
            AVG(gpa) as avg_gpa,
            AVG(hours_per_day) as avg_social_media_hours,
            AVG(sleep_hours) as avg_sleep_hours,
            AVG(stress_level) as avg_stress_level
        FROM student_social_media_usage s
        LEFT JOIN student_sleep_stress ss ON s.student_id = ss.student_id
    ")
].

Definition dangerous_patterns : list pattern :=
  common_patterns ++ [word_space "EXEC\s+" "EXEC"].

Definition validate_query (query : json) : bool * string :=
  validate_query_with dangerous_patterns query.

(** [sanitize_value] on a cell, which is a [str] or [None]; the
    clauses for the other types cannot apply. *)
Definition sanitize_value (value : Datum) : Datum :=
  match value with
  | None => None
  | Some s => Some (if String.eqb s EmptyString then EmptyString else Py.strip s)
  end.

(** [sanitize_results(rows, columns)] *)
Definition sanitize_results (rows : list (Dict.dict Datum))
           (columns : list (Dict.dict json)) : list (Dict.dict Datum) :=
  map (fun row =>
         fold_left
           (fun sanitized_row col =>
              let col_name :=
                match Dict.get "Name" col with
                | Some v => fstr v
                | None =>
                    "col_" ++ Py.str_of_nat
                                (or_default (index_of (JObj col) (map JObj columns)) O)
                end in
              let value := or_default (Dict.get col_name row) None in
              Dict.set col_name (sanitize_value value) sanitized_row)
           columns [])
      rows.

Section WithEngine.
Variable E : Engine.
Variable R : runtime.
Variable cfg : config.
Variable fuel : nat.
Local Open Scope py_scope.

Definition format_response (status_code : Z) (body : json) : response :=
  {| statusCode := status_code;
     headers :=
       [ ("Content-Type", "application/json");
         ("Access-Control-Allow-Origin", "*");
         ("Access-Control-Allow-Methods", "POST, GET, OPTIONS");
         ("Access-Control-Allow-Headers",
          "Content-Type, Authorization, X-API-Key") ];
     body := json_dumps R body;
     isBase64Encoded := Some false |}.

(** [start_query_execution], [get_query_status] and
    [wait_for_query_completion] have the text of their namesakes in
    [athena_query.py]. *)
Definition start_query_execution := AthenaQuery.start_query_execution E.
Definition get_query_status := AthenaQuery.get_query_status E.
Definition wait_for_query_completion := AthenaQuery.wait_for_query_completion E fuel.

Definition column_metadata_entry (ic : nat * ColumnInfo) : Dict.dict json :=
  let (i, col) := ic in
  [ ("name", JStr (or_default (Name col) ("col_" ++ Py.str_of_nat i)));
    ("type", JStr (or_default (Type_ col) "unknown")) ].

(** [get_query_results]: the row loop is the one of
    [athena_query.py]. *)
Definition get_query_results (query_execution_id : string) (max_rows : Z)
  : M results :=
  response <- client_get_query_results E query_execution_id ;;
  let column_info := ResultSet_ColumnInfo response in
  let column_metadata := map column_metadata_entry (Py.enumerate column_info) in
  let rows := ResultSet_Rows response in
  let data_rows := List.tl rows in
  let parsed_rows := map (AthenaQuery.parse_row column_metadata) data_rows in
  ret {| columnMetadata := column_metadata;
         rows := parsed_rows;
         rowCount := Some (Z.of_nat (List.length parsed_rows)) |}.

Definition execute_query (query : json) (database output_location : json)
           (max_wait_time max_rows : Z) : M (Dict.dict json) :=
  let (is_valid, error_msg) := validate_query query in
  if negb is_valid then raise (ValueError error_msg)
  else
    match query with
    | JStr q =>
        let db := py_or database (JStr (DATABASE_NAME cfg)) in
        let output := py_or output_location (JStr (RESULTS_PATH cfg)) in
        query_execution_id <- start_query_execution q db output ;;
        status <- wait_for_query_completion query_execution_id max_wait_time ;;
        let statistics := statistics status in
        rc <- (match state status with
               | SUCCEEDED =>
                   results <- get_query_results query_execution_id max_rows ;;
                   ret (sanitize_results (rows results) (columnMetadata results),
                        columnMetadata results)
               | _ => ret ([], [])
               end) ;;
        let (rows, column_metadata) :=
          (rc : list (Dict.dict Datum) * list (Dict.dict json)) in
        ret [ ("queryExecutionId", JStr query_execution_id);
              ("state", JStr (State_name (state status)));
              ("stateChangeReason", json_of_option (state_change_reason status));
              ("rows", JArr (map json_of_row rows));
              ("columnMetadata", JArr (map JObj column_metadata));
              ("rowCount", JInt (Z.of_nat (List.length rows)));
              ("dataScannedInBytes",
               JInt (or_default (Dict.get "DataScannedInBytes" statistics) 0%Z));
              ("executionTimeInMillis",
               JInt (or_default (Dict.get "TotalExecutionTimeInMillis" statistics) 0%Z));
              ("database", db) ]
    | _ =>
        (* not reached: [validate_query] accepts a [str] only *)
        raise (TypeError "QueryString must be a string")
    end.

(** [query_type not in QUERY_TEMPLATES]; a list or a dict cannot be
    hashed. *)
Definition not_in_templates (query_type : json) : M bool :=
  match query_type with
  | JStr s => ret (negb (Dict.mem s QUERY_TEMPLATES))
  | JArr _ | JObj _ =>
      raise (TypeError ("unhashable type: '" ++ type_name query_type ++ "'"))
  | _ => ret true
  end.

Definition handle_template_query (query_type : json) (max_wait_time : Z)
  : M (Dict.dict json) :=
  unknown <- not_in_templates query_type ;;
  if unknown then
    raise (ValueError ("Unknown query type: " ++ fstr query_type
                       ++ ". Available types: "
                       ++ Py.repr_list (Dict.keys QUERY_TEMPLATES)))
  else
    let query := or_default (Dict.get (fstr query_type) QUERY_TEMPLATES) EmptyString in
    result <- execute_query (JStr query) JNull JNull max_wait_time 1000 ;;
    ret (Dict.update
           [ ("message", JStr ("Query type " ++ dquote ++ fstr query_type
                               ++ dquote ++ " executed successfully"));
             ("queryType", query_type) ]
           result).

Definition handle_custom_query (query : json) (max_wait_time : Z)
  : M (Dict.dict json) :=
  result <- execute_query query JNull JNull max_wait_time 1000 ;;
  let q := fstr query in
  ret (Dict.update
         [ ("message", JStr "Custom query executed successfully");
           ("query", JStr (if (Py.len q >? 500)%Z then Py.take 500 q else q)) ]
         result).

(** The body of the [for] loop of [handle_batch_queries] for the
    item [q] at position [i]: the entry appended to [results].  The
    two [q.get] calls precede the [try] block. *)
Definition batch_item (i : nat) (q : json) (max_wait_time : Z)
  : M (Dict.dict json) :=
  query_type <- py_get q "type" JNull ;;
  custom_query <- py_get q "query" JNull ;;
  let index := JInt (Z.of_nat i + 1) in
  try_except
    (result <-
       (if truthy query_type then handle_template_query query_type max_wait_time
        else if truthy custom_query then handle_custom_query custom_query max_wait_time
        else ret [ ("error", JStr ("Query " ++ Py.str_of_Z (Z.of_nat i + 1)
                                   ++ " missing type or query"));
                   ("index", index) ]) ;;
     ret (Dict.update
            [ ("index", index);
              ("success", JBool (negb (Dict.mem "error" result))) ]
            result))
    (fun e =>
       ret [ ("index", index);
             ("success", JBool false);
             ("error", JStr (exn_str e)) ]).

(** The [for] loop over [enumerate(queries)]. *)
Fixpoint batch_loop (queries : list (nat * json)) (max_wait_time : Z)
         (results : list (Dict.dict json)) : M (list (Dict.dict json)) :=
  match queries with
  | [] => ret results
  | (i, q) :: rest =>
      entry <- batch_item i q max_wait_time ;;
      batch_loop rest max_wait_time (results ++ [entry])%list
  end.

(** [sum(1 for r in results if r['success'])] *)
Definition count_success (results : list (Dict.dict json)) : Z :=
  Z.of_nat (List.length
              (filter (fun r => truthy (or_default (Dict.get "success" r) JNull))
                      results)).

(** The statements of [handle_batch_queries] on any list. *)
Definition batch (queries : list json) (max_wait_time : Z) : M (Dict.dict json) :=
  results <- batch_loop (Py.enumerate queries) max_wait_time [] ;;
  let n := Z.of_nat (List.length results) in
  ret [ ("message",
         JStr ("Batch query completed with " ++ Py.str_of_Z (count_success results)
               ++ "/" ++ Py.str_of_Z n ++ " successful"));
        ("results", JArr (map JObj results));
        ("totalQueries", JInt n);
        ("successfulQueries", JInt (count_success results)) ].


(** [handle_batch_queries(queries, ...)] as [lambda_handler] calls
    it, on whatever [body.get('queries', [])] holds (it is truthy
    there): the loop runs over the elements of a list, the keys of
    a dict or the characters of a string. *)
Definition call_batch (queries : json) (max_wait_time : Z) : M (Dict.dict json) :=
  match queries with
  | JArr l => batch l max_wait_time
  | JObj d => batch (map JStr (Dict.keys d)) max_wait_time
  | JStr s =>
      batch (map (fun c => JStr (String c EmptyString)) (list_ascii_of_string s))
            max_wait_time
  | _ => raise (TypeError ("'" ++ type_name queries ++ "' object is not iterable"))
  end.

Definition available_routes : json :=
  JArr [ JStr "GET  /health"; JStr "GET  /queries"; JStr "POST /query";
         JStr "POST /query/{query_type}"; JStr "POST /batch" ].

Definition strs (l : list string) : json := JArr (map JStr l).

(** The statements of [lambda_handler] inside [try]. *)
Definition lambda_handler_try (event : Dict.dict json) : M response :=
  let http_method := or_default (Dict.get "httpMethod" event) (JStr "POST") in
  let path := or_default (Dict.get "path" event) (JStr "/query") in
  let body := or_default (Dict.get "body" event) JNull in
  body <- (match body with
           | JStr s => if String.eqb s EmptyString then ret (JObj []) else loads R s
           | _ => if negb (truthy body) then ret (JObj []) else ret body
           end) ;;
  if is_str http_method "GET" && in_strs path ["/health"; "/health/"] then
    now <- time_time ;;
    ret (format_response 200
           (JObj [ ("status", JStr "healthy");
                   ("timestamp", JStr (isoformat R now));
                   ("database", JStr (DATABASE_NAME cfg));
                   ("bucket", JStr (S3_BUCKET cfg)) ]))
  else
    query_type <-
      (match path with
       | JStr p =>
           if Py.startswith "/query/" p
           then ret (JStr (Py.strip (Py.last_piece (Py.split "/query/" p))))
           else ret JNull
       | _ => raise (no_attribute path "startswith")
       end) ;;
    custom_query <- py_get body "query" JNull ;;
    mw <- py_get body "maxWaitTime" (JInt (MAX_WAIT_TIME cfg)) ;;
    max_wait_time <- py_int mw ;;
    output_location <- py_get body "outputLocation" JNull ;;
    if ((max_wait_time <? 1) || (max_wait_time >? 900))%Z then
      raise (ValueError ("maxWaitTime must be between 1 and 900 seconds, got "
                         ++ Py.str_of_Z max_wait_time))
    else if is_str http_method "POST" && in_strs path ["/batch"; "/batch/"] then
      queries <- py_get body "queries" (JArr []) ;;
      if negb (truthy queries) then
        raise (ValueError "Batch query requires 'queries' array")
      else
        result <- call_batch queries max_wait_time ;;
        ret (format_response 200 (JObj result))
    else if in_strs http_method ["POST"; "GET"] && truthy query_type then
      unknown <- not_in_templates query_type ;;
      if unknown then
        raise (ValueError ("Unknown query type: " ++ fstr query_type))
      else
        result <- handle_template_query query_type max_wait_time ;;
        ret (format_response 200 (JObj result))
    else if is_str http_method "POST" && in_strs path ["/query"; "/query/"] then
      if negb (truthy custom_query) then
        raise (ValueError "Custom query requires 'query' field in body")
      else
        result <- handle_custom_query custom_query max_wait_time ;;
        ret (format_response 200 (JObj result))
    else if is_str http_method "GET" && in_strs path ["/queries"; "/queries/"] then
      ret (format_response 200
             (JObj [ ("message", JStr "Available query types");
                     ("queryTypes", strs (Dict.keys QUERY_TEMPLATES));
                     ("categories",
                      JObj [ ("gpa", strs ["gpa_by_platform"; "gpa_vs_hours";
                                           "gpa_distribution"]);
                             ("sleep_stress", strs ["sleep_vs_stress"; "sleep_by_day";
                                                    "stress_distribution"]);
                             ("platform", strs ["platform_usage"; "platform_popularity";
                                                "weekly_pattern"]);
                             ("mental_health", strs ["mental_health_correlation";
                                                     "mental_health_by_platform"]);
                             ("summary", strs ["summary_stats"]) ]) ]))
    else
      ret (format_response 404
             (JObj [ ("error", JStr "Not Found");
                     ("message", JStr ("Route " ++ fstr http_method ++ " "
                                       ++ fstr path ++ " not found"));
                     ("availableRoutes", available_routes) ])).

(** The [except] clauses of [lambda_handler], in source order. *)
Definition lambda_handler_except (e : exn) : M response :=
  if isinstance e CJSONDecodeError then
    ret (format_response 400
           (JObj [("error", JStr "Invalid JSON"); ("message", JStr (exn_str e))]))
  else if isinstance e CValueError then
    ret (format_response 400
           (JObj [("error", JStr "Invalid request"); ("message", JStr (exn_str e))]))
  else if isinstance e CTimeoutError then
    ret (format_response 408
           (JObj [("error", JStr "Query timeout"); ("message", JStr (exn_str e))]))
  else if isinstance e CRuntimeError then
    ret (format_response 400
           (JObj [("error", JStr "Query execution failed");
                  ("message", JStr (exn_str e))]))
  else if isinstance e CBotoCoreError then
    ret (format_response 500
           (JObj [("error", JStr "Service error");
                  ("message", JStr "An error occurred while processing your request")]))
  else
    ret (format_response 500
           (JObj [("error", JStr "Internal server error");
                  ("message", JStr "An unexpected error occurred");
                  ("type", JStr (exn_name e))])).

(** [lambda_handler(event, context)]: the first statement guards a
    [None] context ([context.function_name if context else
    'unknown']). *)
Definition lambda_handler (event : Dict.dict json) (context : option string)
  : M response :=
  try_except (lambda_handler_try event) lambda_handler_except.
End WithEngine.
End LambdaEnhanced.

(* ------------------------------------------------------------------ *)
(** ** [index.py] *)
(* ------------------------------------------------------------------ *)

Module Index.
Section WithEngine.
Variable E : Engine.
Variable R : runtime.
(** [os.environ] *)
Variable environ : Dict.dict string.
Variable fuel : nat.
Local Open Scope py_scope.

Definition format_response (status_code : Z) (body : json) : response :=
  {| statusCode := status_code;
     headers :=
       [ ("Content-Type", "application/json");
         ("Access-Control-Allow-Origin", "*") ];
     body := json_dumps R body;
     isBase64Encoded := None |}.

Definition validate_env_var (var_name : string) : M string :=
  match Dict.get var_name environ with
  | Some value =>
      if String.eqb value EmptyString then
        raise (ValueError ("Required environment variable '" ++ var_name
                           ++ "' is not set"))
      else ret value
  | None =>
      raise (ValueError ("Required environment variable '" ++ var_name
                         ++ "' is not set"))
  end.

(** The [while] loop of [wait_for_query_completion]: the sleep is
    the back-off interval itself.  The [except ClientError] clause
    prints and re-raises. *)
Fixpoint wait_loop (fuel : nat) (query_execution_id : string)
         (max_wait_time : Z) (start_time poll_interval : Q)
  : M Status :=
  match fuel with
  | O => out_of_fuel
  | S fuel' =>
      now <- time_time ;;
      if Py.Qltb (now - start_time) (inject_Z max_wait_time) then
        execution <- client_get_query_execution E query_execution_id ;;
        let state := Status_State execution in
        if negb (nonterminal state) then
          ret {| State_ := state;
                 StateChangeReason := Status_StateChangeReason execution |}
        else
          let poll_interval := Py.min (poll_interval * (3 # 2)) 5 in
          time_sleep poll_interval ;;;
          wait_loop fuel' query_execution_id max_wait_time start_time
                    poll_interval
      else
        now <- time_time ;;
        let elapsed := Py.int_of_Q (now - start_time) in
        raise (TimeoutError (timeout_message max_wait_time elapsed
                                             query_execution_id))
  end.

Definition wait_for_query_completion (query_execution_id : string)
           (max_wait_time : Z) : M Status :=
  start_time <- time_time ;;
  wait_loop fuel query_execution_id max_wait_time start_time 1.

Definition column_metadata_entry (col : ColumnInfo) : Dict.dict json :=
  [ ("name", JStr (or_default (Name col) "unknown"));
    ("type", JStr (or_default (Type_ col) "unknown")) ].

(** The dict comprehension over [range(min(len(data),
    len(column_metadata)))]; a NULL cell reads as the empty string.
    The indices are in range, so the [except (IndexError, KeyError)]
    clause around it never applies. *)
Definition row_data (column_metadata : list (Dict.dict json))
           (data : list Datum) : Dict.dict Datum :=
  fold_left
    (fun d i =>
       Dict.set (str_item "name" (nth i column_metadata []))
                (Some (or_default (nth i data None) EmptyString)) d)
    (seq 0 (Nat.min (List.length data) (List.length column_metadata))) [].

Definition get_query_results (query_execution_id : string) : M results :=
  response <- client_get_query_results E query_execution_id ;;
  let column_info := ResultSet_ColumnInfo response in
  match column_info with
  | [] => ret {| columnMetadata := []; rows := []; rowCount := None |}
  | _ =>
      let column_metadata := map column_metadata_entry column_info in
      let rows := map (row_data column_metadata) (List.tl (ResultSet_Rows response)) in
      ret {| columnMetadata := column_metadata; rows := rows; rowCount := None |}
  end.

(** The statements of [handler] inside [try]. *)
Definition handler_try (event : Dict.dict json) : M response :=
  database <- validate_env_var "DATABASE_NAME" ;;
  bucket <- validate_env_var "S3_BUCKET" ;;
  let results_path :=
    or_default (Dict.get "RESULTS_PATH" environ)
               ("s3://" ++ bucket ++ "/athena-results/") in
  body <- (match Dict.get "body" event with
           | Some (JStr s) => loads R s
           | Some b => ret b
           | None => ret (JObj [])
           end) ;;
  q <- py_get body "query" (JStr EmptyString) ;;
  query <- py_strip q ;;
  mw <- py_get body "maxWaitTime" (JInt 60) ;;
  max_wait_time <- py_int mw ;;
  if String.eqb query EmptyString then
    ret (format_response 400
           (JObj [ ("error", JStr "Invalid input");
                   ("message",
                    JStr "Query parameter is required and cannot be empty") ]))
  else if (Py.len query >? 262144)%Z then
    ret (format_response 400
           (JObj [ ("error", JStr "Query too large");
                   ("message",
                    JStr ("Query size " ++ Py.str_of_Z (Py.len query)
                          ++ " bytes exceeds maximum of 262144 bytes")) ]))
  else if ((max_wait_time <? 1) || (max_wait_time >? 900))%Z then
    ret (format_response 400
           (JObj [ ("error", JStr "Invalid maxWaitTime");
                   ("message",
                    JStr "maxWaitTime must be between 1 and 900 seconds") ]))
  else
    query_execution_id <- client_start_query_execution E query ;;
    query_status <- wait_for_query_completion query_execution_id max_wait_time ;;
    match State_ query_status with
    | FAILED =>
        let error_reason :=
          or_default (StateChangeReason query_status) "Unknown error" in
        ret (format_response 400
               (JObj [ ("error", JStr "Query execution failed");
                       ("queryExecutionId", JStr query_execution_id);
                       ("reason", JStr error_reason);
                       ("state", JStr (State_name (State_ query_status))) ]))
    | CANCELLED =>
        ret (format_response 400
               (JObj [ ("error", JStr "Query was cancelled");
                       ("queryExecutionId", JStr query_execution_id);
                       ("state", JStr (State_name (State_ query_status))) ]))
    | _ =>
        results <- get_query_results query_execution_id ;;
        ret (format_response 200
               (JObj [ ("message", JStr "Query executed successfully");
                       ("queryExecutionId", JStr query_execution_id);
                       ("state", JStr (State_name (State_ query_status)));
                       ("rows", JArr (map json_of_row (rows results)));
                       ("columnMetadata", JArr (map JObj (columnMetadata results)));
                       ("rowCount", JInt (Z.of_nat (List.length (rows results))));
                       (* [query_status] is [execution['Status']], which
                          holds no ['Statistics']: both defaults apply *)
                       ("dataScannedInBytes", JInt 0);
                       ("executionTimeInMillis", JInt 0) ]))
    end.

(** The status a [ClientError] code is given. *)
Definition client_error_status (error_code : string) : Z * string :=
  if String.eqb error_code "InvalidRequestException" then (400%Z, "Invalid request")
  else if String.eqb error_code "AccessDeniedException" then (403%Z, "Access denied")
  else if String.eqb error_code "ThrottlingException" then (429%Z, "Rate limited")
  else if String.eqb error_code "InternalServerException"
       then (503%Z, "Service unavailable")
  else (500%Z, error_code).

(** The [except] clauses of [handler], in source order. *)
Definition handler_except (e : exn) : M response :=
  if isinstance e CTimeoutError then
    ret (format_response 408
           (JObj [("error", JStr "Query timeout"); ("message", JStr (exn_str e))]))
  else
    match e with
    | ClientError error_code error_message _ =>
        let (status, error_type) := client_error_status error_code in
        ret (format_response status
               (JObj [ ("error", JStr error_type);
                       ("code", JStr error_code);
                       ("message", JStr error_message) ]))
    | _ =>
        if isinstance e CJSONDecodeError then
          ret (format_response 400
                 (JObj [ ("error", JStr "Invalid JSON");
                         ("message",
                          JStr ("Failed to parse request body: " ++ exn_str e)) ]))
        else if isinstance e CValueError then
          ret (format_response 400
                 (JObj [ ("error", JStr "Invalid parameter");
                         ("message", JStr (exn_str e)) ]))
        else
          ret (format_response 500
                 (JObj [ ("error", JStr "Unexpected error");
                         ("type", JStr (exn_name e));
                         ("message", JStr (exn_str e)) ]))
    end.

(** [handler(event, context)] *)
Definition handler (event : Dict.dict json) (context : option string)
  : M response :=
  try_except (handler_try event) handler_except.
End WithEngine.
End Index.

(* ------------------------------------------------------------------ *)
(** ** Vocabulary of the statements *)
(* ------------------------------------------------------------------ *)

(** The world after one status call, and after a sleep of [s] seconds. *)
Definition after_status (E : Engine) (w : world) : world :=
  {| clock := clock w + latency E (n_status w); submitted := submitted w;
     n_status := S (n_status w); n_results := n_results w; slept := slept w |}.

Definition after_sleep (s : Q) (w : world) : world :=
  {| clock := clock w + s; submitted := submitted w;
     n_status := n_status w; n_results := n_results w;
     slept := (clock w, s) :: slept w |}.

(** The status dictionary [get_query_status] builds from an execution. *)
Definition mk_status (x : QueryExecution) : status_dict :=
  {| state := Status_State x;
     state_change_reason := Status_StateChangeReason x;
     submission_date_time := str_of_option (Status_SubmissionDateTime x);
     completion_date_time := str_of_option (Status_CompletionDateTime x);
     statistics := or_default (Statistics x) [];
     query := Query x |}.

(** Every status call takes between 0 and [L] seconds. *)
Definition latency_within (E : Engine) (L : Q) : Prop :=
  forall n, 0 <= latency E n <= L.

(** The engine answers every status call with QUEUED or RUNNING. *)
Definition never_terminal (E : Engine) : Prop :=
  forall n, exists x,
    on_status E n = inr x /\ nonterminal (Status_State x) = true.

(** The sleeps made between [w] and a later world [w'], oldest first, as
    (clock at the start of the sleep, duration). *)
Definition sleeps_since (w w' : world) : list (Q * Q) :=
  rev (firstn (List.length (slept w') - List.length (slept w)) (slept w')).

(** The state reported by the last status call made between [w] and
    [w'], if there was one and it was answered. *)
Definition last_observed (E : Engine) (w w' : world) : option State :=
  if (n_status w <? n_status w')%nat then
    match on_status E (Nat.pred (n_status w')) with
    | inr x => Some (Status_State x)
    | inl _ => None
    end
  else None.

(** The number of [get_query_results] calls made between [w] and [w']. *)
Definition fetches (w w' : world) : nat := n_results w' - n_results w.

(** The row list and the state of a response dictionary. *)
Definition rows_of (body : Dict.dict json) : list json :=
  match Dict.get "rows" body with Some (JArr l) => l | _ => [] end.

Definition state_of (body : Dict.dict json) : option string :=
  match Dict.get "state" body with Some (JStr s) => Some s | _ => None end.


(** A request body the statements before the routing accept: a JSON
    object whose [maxWaitTime], if present, is an integer from 1 to 900. *)
Definition routable_body (cfg : config) (body : Dict.dict json) : bool :=
  match Dict.get "maxWaitTime" body with
  | Some (JInt z) => ((1 <=? z) && (z <=? 900))%Z
  | Some _ => false
  | None => ((1 <=? MAX_WAIT_TIME cfg) && (MAX_WAIT_TIME cfg <=? 900))%Z
  end.

(** An engine that accepts every query and keeps it RUNNING, with
    status calls that take no time; and one whose submissions are
    refused with the given error code. *)
Definition running_execution : QueryExecution :=
  {| Status_State := RUNNING; Status_StateChangeReason := None;
     Status_SubmissionDateTime := None; Status_CompletionDateTime := None;
     Statistics := None; Query := None |}.

Definition empty_page : ResultPage :=
  {| ResultSet_ColumnInfo := []; ResultSet_Rows := [] |}.

Definition always_running : Engine :=
  {| on_start := fun _ => inr "q-1";
     latency := fun _ => 0;
     on_status := fun _ => inr running_execution;
     on_results := fun _ => inr empty_page |}.


(** An engine that answers SUCCEEDED at once and returns [page]. *)
Definition succeeding (page : ResultPage) : Engine :=
  {| on_start := fun _ => inr "q-1";
     latency := fun _ => 0;
     on_status := fun _ =>
       inr {| Status_State := SUCCEEDED; Status_StateChangeReason := None;
              Status_SubmissionDateTime := None; Status_CompletionDateTime := None;
              Statistics := None; Query := None |};
     on_results := fun _ => inr page |}.

Definition initial_world : world :=
  {| clock := 0; submitted := []; n_status := 0; n_results := 0; slept := [] |}.

Definition test_runtime : runtime :=
  {| json_loads := fun _ => inl "Expecting value";
     json_dumps := fun _ => "{}";
     isoformat := fun _ => "1970-01-01T00:00:00" |}.

Definition test_config : config :=
  {| DATABASE_NAME := "student_db";
     S3_BUCKET := "student-socialmedia-datalake";
     RESULTS_PATH := "s3://student-socialmedia-datalake/athena-results/";
     MAX_WAIT_TIME := 60 |}.

Definition test_environ : Dict.dict string :=
  [ ("DATABASE_NAME", "student_db");
    ("S3_BUCKET", "student-socialmedia-datalake");
    ("RESULTS_PATH", "s3://student-socialmedia-datalake/athena-results/") ].

(** A request as API Gateway delivers it, with the body already a
    dictionary. *)
Definition request (http_method path : string) (body : Dict.dict json)
  : Dict.dict json :=
  [ ("httpMethod", JStr http_method); ("path", JStr path); ("body", JObj body) ].

Definition column (name : string) : ColumnInfo :=
  {| Name := Some name; Type_ := Some "varchar"; CaseSensitive := None;
     Nullable := None; Precision := None; Scale := None |}.

(** What a run of the loop of [athena_query.wait_for_query_completion]
    guarantees when it starts after [k] non-terminal observations at
    world [w], with [t0] the start time and [d] the deadline: it ends;
    the [i]-th sleep is the back-off interval clamped to the deadline
    minus the whole seconds elapsed, and ends before [d + 1]; a status
    is returned only for SUCCEEDED and before [d + L]; a
    [TimeoutError] is raised only in the second after the deadline. *)
Definition athena_loop_post (E : Engine) (L : Q) (id : string) (d : Z) (t0 : Q)
           (k : nat) (w : world) (r : outcome status_dict) (w' : world) : Prop :=
  r <> OutOfFuel
  /\ clock w <= clock w'
  /\ (exists new, slept w' = (new ++ slept w)%list
      /\ forall i t s, nth_error (rev new) i = Some (t, s) ->
           s = Py.min (backoff (S (k + i))) (inject_Z (d - Py.int_of_Q (t - t0)))
           /\ 0 <= s /\ t - t0 < inject_Z d + L
           /\ t + s - t0 < inject_Z d + 1)
  /\ (forall st, r = Return st ->
        state st = SUCCEEDED /\ clock w' - t0 < inject_Z d + L)
  /\ (forall m, r = Raise (TimeoutError m) ->
        inject_Z d <= clock w' - t0 < inject_Z d + 1
        /\ m = timeout_message d d id)
  /\ (never_terminal E -> L <= 1 ->
        r = Raise (TimeoutError (timeout_message d d id))).

(** The same for the loop of [index.py], whose sleeps are not clamped. *)
Definition index_loop_post (E : Engine) (L : Q) (id : string) (d : Z) (t0 : Q)
           (k : nat) (w : world) (r : outcome Status) (w' : world) : Prop :=
  r <> OutOfFuel
  /\ clock w <= clock w'
  /\ (exists new, slept w' = (new ++ slept w)%list
      /\ forall i t s, nth_error (rev new) i = Some (t, s) ->
           s = backoff (S (k + i))
           /\ t - t0 < inject_Z d + L
           /\ t + s - t0 < inject_Z d + L + 5)
  /\ (forall st, r = Return st ->
        nonterminal (State_ st) = false /\ clock w' - t0 < inject_Z d + L)
  /\ (forall m, r = Raise (TimeoutError m) ->
        inject_Z d <= clock w' - t0 < inject_Z d + L + 5
        /\ m = timeout_message d (Py.int_of_Q (clock w' - t0)) id)
  /\ (never_terminal E ->
        r = Raise (TimeoutError
                     (timeout_message d (Py.int_of_Q (clock w' - t0)) id))).

(** Between [w] and [w'] there was at most one result fetch, and there
    was one exactly when the last status call reported SUCCEEDED. *)
Definition fetched_iff_succeeded (E : Engine) (w w' : world) : Prop :=
  (fetches w w' <= 1)%nat
  /\ (fetches w w' = 1%nat <-> last_observed E w w' = Some SUCCEEDED).

(** A response dictionary holds no rows unless its state is SUCCEEDED. *)
Definition rows_only_if_succeeded (body : Dict.dict json) : Prop :=
  state_of body <> Some "SUCCEEDED" -> rows_of body = [].

(** A computation that neither reads the engine nor moves the clock: it
    returns or raises in the world it started from. *)
Definition pure {A} (m : M A) : Prop :=
  forall w, (exists a, m w = (Return a, w)) \/ (exists e, m w = (Raise e, w)).

(** The texts a deny-list rejects: the empty text, and the texts that
    after [strip()] are longer than 262144 characters or hold a match of
    one of the patterns. *)
Definition offending (patterns : list pattern) (q : string) : Prop :=
  exists p, In p patterns /\ Regex.found (snd p) (Py.strip q).

Definition rejected_text (patterns : list pattern) (q : string) : Prop :=
  q = EmptyString
  \/ (262144 < Py.len (Py.strip q))%Z
  \/ offending patterns q.

(** [p] is the first pattern of the list, in the order of the list,
    that has a match in [text]. *)
Definition first_match (patterns : list pattern) (text : string) (p : pattern)
  : Prop :=
  exists before after,
    patterns = (before ++ p :: after)%list
    /\ Regex.found (snd p) text
    /\ forall p', In p' before -> ~ Regex.found (snd p') text.

(** The request body the handler of [index.py] reads from an event:
    the value under ['body'] when it is a dictionary, and what
    [json.loads] makes of it when it is a text. *)
Definition carries_body (R : runtime) (event : Dict.dict json)
           (body : Dict.dict json) : Prop :=
  Dict.get "body" event = Some (JObj body)
  \/ exists s, Dict.get "body" event = Some (JStr s)
               /\ json_loads R s = inr (JObj body).

(** The response of [index.py] to a query text that is empty or too
    long after [strip()]. *)
Definition index_refusal (R : runtime) (query : string) : response :=
  if String.eqb query EmptyString then
    Index.format_response R 400
      (JObj [ ("error", JStr "Invalid input");
              ("message", JStr "Query parameter is required and cannot be empty") ])
  else
    Index.format_response R 400
      (JObj [ ("error", JStr "Query too large");
              ("message",
               JStr ("Query size " ++ Py.str_of_Z (Py.len query)
                     ++ " bytes exceeds maximum of 262144 bytes")) ]).

(** The rows of a run of [get_query_results] that returned. *)
Definition returned_rows (run : outcome results * world) : option (list (Dict.dict Datum)) :=
  match fst run with
  | Return res => Some (rows res)
  | _ => None
  end.

(** A result page with the header row first. *)
Definition page_of (columns : list ColumnInfo) (header : list Datum)
           (data_rows : list (list Datum)) : ResultPage :=
  {| ResultSet_ColumnInfo := columns; ResultSet_Rows := header :: data_rows |}.

(** The status code of a handler run that returned a response. *)
Definition status_of_run (run : outcome response * world) : option Z :=
  match fst run with
  | Return resp => Some (statusCode resp)
  | _ => None
  end.

(** The template name [lambda_handler] reads from a path under
    [/query/]. *)
Definition template_name (path : string) : string :=
  Py.strip (Py.last_piece (Py.split "/query/" path)).


(** An entry of a batch result for the item at position [i]: it is
    tagged with [i + 1], and either reports success with the state
    SUCCEEDED and no error, or reports failure with an error text. *)
Definition well_formed_entry (i : nat) (entry : Dict.dict json) : Prop :=
  Dict.get "index" entry = Some (JInt (Z.of_nat i + 1))
  /\ ((Dict.get "success" entry = Some (JBool true)
       /\ state_of entry = Some "SUCCEEDED"
       /\ Dict.mem "error" entry = false)
      \/ (Dict.get "success" entry = Some (JBool false)
          /\ state_of entry = None
          /\ exists msg, Dict.get "error" entry = Some (JStr msg))).




(** A computation that never runs out of fuel. *)
Definition terminates {A} (m : M A) : Prop :=
  forall w, fst (m w) <> OutOfFuel.


(** A response envelope announces a JSON body. *)
Definition json_envelope (resp : response) : Prop :=
  Dict.get "Content-Type" (headers resp) = Some "application/json".

(** ** Vocabulary of the further properties *)

(** Two texts that differ at most in the case of their ASCII letters. *)
Fixpoint same_up_to_case (a b : string) : bool :=
  match a, b with
  | EmptyString, EmptyString => true
  | String x a', String y b' => Regex.ci_eqb x y && same_up_to_case a' b'
  | _, _ => false
  end.

(** The 256 code points of a character. *)
Definition all_ascii : list ascii := map ascii_of_nat (seq 0 256).

(** Two characters that [re.IGNORECASE] identifies are both white space
    or both not, and both a newline or both not. *)
Definition case_blind_classes (x y : ascii) : bool :=
  implb (Regex.ci_eqb x y)
        (Bool.eqb (Py.isspace x) (Py.isspace y)
         && Bool.eqb (Ascii.eqb x Regex.newline) (Ascii.eqb y Regex.newline)).

(** Every text a computation hands to [start_query_execution]
    satisfies [P]. *)
Definition submits_only (P : string -> Prop) {A} (m : M A) : Prop :=
  forall w r w', m w = (r, w') ->
    exists new, submitted w' = (new ++ submitted w)%list /\ Forall P new.

(** The deadline a request body asks for: its [maxWaitTime] when that
    is an integer, the default otherwise. *)
Definition deadline_of (default : Z) (body : Dict.dict json) : Z :=
  match Dict.get "maxWaitTime" body with
  | Some (JInt z) => z
  | _ => default
  end.

(** The status calls of a poller run from [w] to [w'], where [t0] is
    the poller's start time and [d] its deadline: none when the
    deadline has passed at [w], and fewer than the time left plus one
    otherwise. *)
Definition few_polls (d : Z) (t0 : Q) (w w' : world) : Prop :=
  exists n : nat,
    n_status w' = (n_status w + n)%nat
    /\ (inject_Z d <= clock w - t0 -> n = 0%nat)
    /\ (clock w - t0 < inject_Z d ->
        inject_Z (Z.of_nat n) < inject_Z d - (clock w - t0) + 1).

(** The engine's answer to the last status call made between [w] and
    [w'], if there was one. *)
Definition last_answer (E : Engine) (w w' : world)
  : option (engine_error + QueryExecution) :=
  if (n_status w <? n_status w')%nat
  then Some (on_status E (Nat.pred (n_status w')))
  else None.

(** A poller started at [t0] ends at [w'] with its [TimeoutError]:
    the message carries the whole seconds elapsed, and the deadline
    has passed. *)
Definition timed_out {A} (d : Z) (id : string) (t0 : Q) (w' : world)
           (r : outcome A) : Prop :=
  r = Raise (TimeoutError (timeout_message d (Py.int_of_Q (clock w' - t0)) id))
  /\ inject_Z d <= clock w' - t0.

(** Every status call made between [w] and [w'] but the last one was
    answered QUEUED or RUNNING. *)
Definition polled_until_last (E : Engine) (w w' : world) : Prop :=
  forall i, (n_status w <= i)%nat -> (S i < n_status w')%nat ->
            exists x, on_status E i = inr x /\ nonterminal (Status_State x) = true.

(** How a run of [wait_for_query_completion] of [athena_query.py]
    ends, given the answer to its last status call: a SUCCEEDED answer
    is returned as a status; a FAILED or CANCELLED answer raises
    [RuntimeError], with the reason as [str] prints it; an error of
    the engine is raised as it is; after a QUEUED or RUNNING answer,
    and when no status call was made, the run raises [TimeoutError],
    or the [ValueError] of [time.sleep] right after the answer. *)
Definition athena_outcome (d : Z) (id : string) (t0 : Q) (w' : world)
           (last : option (engine_error + QueryExecution))
           (r : outcome status_dict) : Prop :=
  match last with
  | Some (inl err) => r = Raise (exn_of_engine_error err)
  | Some (inr x) =>
      match Status_State x with
      | SUCCEEDED => r = Return (mk_status x)
      | FAILED =>
          r = Raise (RuntimeError ("Query execution failed: "
                                   ++ str_of_option (Status_StateChangeReason x)))
      | CANCELLED => r = Raise (RuntimeError "Query was cancelled")
      | QUEUED | RUNNING =>
          r = Raise (ValueError "sleep length must be non-negative")
          \/ timed_out d id t0 w' r \/ r = OutOfFuel
      end
  | None => timed_out d id t0 w' r \/ r = OutOfFuel
  end.

(** The same for the poller of [index.py]: the [Status] of a
    SUCCEEDED, FAILED or CANCELLED answer is returned. *)
Definition index_outcome (d : Z) (id : string) (t0 : Q) (w' : world)
           (last : option (engine_error + QueryExecution))
           (r : outcome Status) : Prop :=
  match last with
  | Some (inl err) => r = Raise (exn_of_engine_error err)
  | Some (inr x) =>
      if nonterminal (Status_State x)
      then timed_out d id t0 w' r \/ r = OutOfFuel
      else r = Return {| State_ := Status_State x;
                         StateChangeReason := Status_StateChangeReason x |}
  | None => timed_out d id t0 w' r \/ r = OutOfFuel
  end.

(** An engine that accepts every query and keeps it RUNNING, with
    status calls that take [l] seconds each. *)
Definition slow_engine (l : Q) : Engine :=
  {| on_start := fun _ => inr "q-1";
     latency := fun _ => l;
     on_status := fun _ => inr running_execution;
     on_results := fun _ => inr empty_page |}.

(** The name [get_query_results] of [athena_query.py] and
    [lambda_enhanced.py] gives the column at position [i]. *)
Definition column_name (i : nat) (col : ColumnInfo) : string :=
  or_default (Name col) ("col_" ++ Py.str_of_nat i).

(** A NULL cell read as the empty string, as [index.py] does. *)
Definition null_as_empty (kv : string * Datum) : string * Datum :=
  (fst kv, Some (or_default (snd kv) EmptyString)).

(** The name [get_query_results] of [index.py] gives a column. *)
Definition index_column_name (col : ColumnInfo) : string :=
  or_default (Name col) "unknown".

(** ** [athena_query.py]: the helper its handler does not call *)

Module AthenaQueryHelpers.

(** [sanitize_results(results, columns)] on rows whose cells are a
    [str] or [None], as [get_query_results] builds them; the clauses
    for the other types cannot apply.  The value a column has under
    ['Name'] is read as a [str], which is what Athena's [ColumnInfo]
    holds ([names_are_text] below). *)
Definition sanitize_results (results : list (Dict.dict Datum))
           (columns : list (Dict.dict json)) : list (Dict.dict Datum) :=
  map (fun row =>
         fold_left
           (fun sanitized_row col =>
              let col_name :=
                match Dict.get "Name" col with
                | Some v => fstr v
                | None =>
                    "col_" ++ Py.str_of_nat
                                (or_default (index_of (JObj col) (map JObj columns)) O)
                end in
              let value := or_default (Dict.get col_name row) None in
              match value with
              | None => Dict.set col_name None sanitized_row
              | Some s =>
                  Dict.set col_name
                           (Some (if String.eqb s EmptyString then EmptyString
                                  else Py.strip s))
                           sanitized_row
              end)
           columns [])
      results.

End AthenaQueryHelpers.

(** The value of every column under ['Name'], when there is one, is a
    [str]. *)
Definition names_are_text (columns : list (Dict.dict json)) : Prop :=
  forall col v, In col columns -> Dict.get "Name" col = Some v ->
                exists s, v = JStr s.

(** The name [sanitize_results] reads from a column that carries one
    under ['Name']. *)
Definition Name_of (col : Dict.dict json) : string :=
  match Dict.get "Name" col with Some v => fstr v | None => EmptyString end.

(** The field [k] of a request body is an integer, or absent. *)
Definition int_or_absent (k : string) (body : Dict.dict json) : bool :=
  match Dict.get k body with
  | Some (JInt _) | None => true
  | Some _ => false
  end.

(** The field [k] of a request body is a text, or absent. *)
Definition text_or_absent (k : string) (body : Dict.dict json) : bool :=
  match Dict.get k body with
  | Some (JStr _) | None => true
  | Some _ => false
  end.

(** An integer the interpreter prints: [str] and [json.dumps] refuse
    an integer of more than 4300 digits. *)
Definition few_digits (z : Z) : Prop := (Z.abs z < 10 ^ 4300)%Z.

(** The request does not ask for the health route of
    [lambda_enhanced.py]. *)
Definition not_health (http_method path : string) : bool :=
  negb (String.eqb http_method "GET" && Py.str_in path ["/health"; "/health/"]).

(** What the template route needs of a catalog entry: the path
    [/query/<name>] leads to the name, the name is bound to the entry's
    text, and the text passes [validate_query]. *)
Definition template_route_ok (kv : string * string) : bool :=
  let name := fst kv in
  Py.startswith "/query/" ("/query/" ++ name)
  && String.eqb (template_name ("/query/" ++ name)) name
  && negb (String.eqb name EmptyString)
  && match Dict.get name LambdaEnhanced.QUERY_TEMPLATES with
     | Some t => String.eqb t (snd kv)
     | None => false
     end
  && fst (LambdaEnhanced.validate_query (JStr (snd kv))).

(** ** The module-level configuration of [athena_query.py] and
       [lambda_enhanced.py]

    Both files start with the same [get_env_var] and the same four
    assignments, which run when the module is imported. *)

Module Environment.

(** What the import can raise: the [EnvironmentError] of
    [get_env_var], or the exception of [int()]. *)
Inductive import_error : Type :=
| EnvironmentError (msg : string)
| Raised (e : exn).

(** Truthiness of an [Optional[str]]. *)
Definition truthy_str (value : option string) : bool :=
  match value with
  | Some s => negb (String.eqb s EmptyString)
  | None => false
  end.

(** [get_env_var(name, required)] *)
Definition get_env_var (environ : Dict.dict string) (name : string) (required : bool)
  : import_error + option string :=
  let value := Dict.get name environ in
  if required && negb (truthy_str value) then
    inl (EnvironmentError ("Required environment variable '" ++ name
                           ++ "' is not set"))
  else inr value.

(** The four module-level assignments, in source order.  A required
    variable is a non-empty [str] once [get_env_var] has returned. *)
Definition module_constants (environ : Dict.dict string) : import_error + config :=
  match get_env_var environ "DATABASE_NAME" true with
  | inl e => inl e
  | inr database_name =>
      match get_env_var environ "S3_BUCKET" true with
      | inl e => inl e
      | inr s3_bucket =>
          match get_env_var environ "RESULTS_PATH" false with
          | inl e => inl e
          | inr results_path =>
              let results_path :=
                if truthy_str results_path then or_default results_path EmptyString
                else "s3://" ++ str_of_option s3_bucket ++ "/athena-results/" in
              let constants (z : Z) : config :=
                {| DATABASE_NAME := or_default database_name EmptyString;
                   S3_BUCKET := or_default s3_bucket EmptyString;
                   RESULTS_PATH := results_path;
                   MAX_WAIT_TIME := z |} in
              match get_env_var environ "MAX_WAIT_TIME" false with
              | inl e => inl e
              | inr max_wait_time =>
                  if truthy_str max_wait_time then
                    let s := or_default max_wait_time EmptyString in
                    match Py.int_of_str s with
                    | Some z => inr (constants z)
                    | None =>
                        inl (Raised (ValueError
                                       ("invalid literal for int() with base 10: "
                                        ++ Py.repr s)))
                    end
                  else inr (constants 60%Z)
              end
          end
      end
  end.

End Environment.

(* ================================================================== *)
(** * Part II: lemmas and theorems *)
(* ================================================================== *)

Open Scope list_scope.

(** ** Rational arithmetic of the clock *)

Lemma Qltb_true (x y : Q) : Py.Qltb x y = true <-> x < y.
Proof.
  unfold Py.Qltb. rewrite negb_true_iff.
  split; intro H.
  - apply Qnot_le_lt. intro H'. apply Qle_bool_iff in H'. congruence.
  - destruct (Qle_bool y x) eqn:Hb; [|reflexivity].
    apply Qle_bool_iff in Hb. lra.
Qed.

Lemma Qltb_false (x y : Q) : Py.Qltb x y = false <-> y <= x.
Proof.
  unfold Py.Qltb. rewrite negb_false_iff. apply Qle_bool_iff.
Qed.

Lemma int_of_Q_floor (q : Q) : 0 <= q -> Py.int_of_Q q = Qfloor q.
Proof.
  destruct q as [n d]. unfold Qle, Py.int_of_Q, Qfloor. simpl. intro H.
  apply Z.quot_div_nonneg; lia.
Qed.

Lemma Qfloor_unique (q : Q) (z : Z) :
  inject_Z z <= q -> q < inject_Z (z + 1) -> Qfloor q = z.
Proof.
  intros Hlo Hhi.
  pose proof (Qfloor_le q) as H1. pose proof (Qlt_floor q) as H2.
  assert (inject_Z (Qfloor q) < inject_Z (z + 1)) as H3 by lra.
  assert (inject_Z z < inject_Z (Qfloor q + 1)) as H4 by lra.
  rewrite <- Zlt_Qlt in H3, H4. lia.
Qed.

Lemma backoff_ge_1 k : 1 <= backoff k.
Proof.
  induction k; simpl.
  - lra.
  - unfold Py.min. destruct (Py.Qltb 5 _) eqn:Hb.
    + lra.
    + lra.
Qed.

Lemma backoff_le_5 k : backoff (S k) <= 5.
Proof.
  simpl. unfold Py.min. destruct (Py.Qltb 5 _) eqn:Hb.
  - lra.
  - apply Qltb_false in Hb. exact Hb.
Qed.

Lemma min_cases (a b : Q) :
  (b < a /\ Py.min a b = b) \/ (a <= b /\ Py.min a b = a).
Proof.
  unfold Py.min. destruct (Py.Qltb b a) eqn:H.
  - left. split; [apply Qltb_true; exact H | reflexivity].
  - right. split; [apply Qltb_false; exact H | reflexivity].
Qed.

(** ** The poller of [athena_query.py] and [lambda_enhanced.py] *)

Lemma athena_wait_loop_step E fuel id d t0 b w :
  AthenaQuery.wait_loop E (S fuel) id d t0 b w =
  if Py.Qltb (clock w - t0) (inject_Z d) then
    match on_status E (n_status w) with
    | inl e => (Raise (exn_of_engine_error e), after_status E w)
    | inr x =>
        if nonterminal (Status_State x) then
          let w1 := after_status E w in
          let s := Py.min (Py.min (b * (3 # 2)) 5)
                          (inject_Z (d - Py.int_of_Q (clock w1 - t0))) in
          if Py.Qltb s 0
          then (Raise (ValueError "sleep length must be non-negative"), w1)
          else AthenaQuery.wait_loop E fuel id d t0 s (after_sleep s w1)
        else
          (match Status_State x with
           | SUCCEEDED => Return (mk_status x)
           | FAILED => Raise (RuntimeError ("Query execution failed: "
                          ++ str_of_option (Status_StateChangeReason x)))
           | _ => Raise (RuntimeError "Query was cancelled")
           end, after_status E w)
    end
  else (Raise (TimeoutError (timeout_message d (Py.int_of_Q (clock w - t0)) id)), w).
Proof.
  destruct w as [c sub ns nr sl].
  cbn [AthenaQuery.wait_loop].
  cbv beta iota zeta delta [bind time_time AthenaQuery.get_query_status
    client_get_query_execution time_sleep ret raise after_sleep after_status
    mk_status Py.min state state_change_reason clock nonterminal
    submitted n_status n_results slept].
  destruct (Py.Qltb (c - t0) (inject_Z d)); [|reflexivity].
  destruct (on_status E ns) as [e|x]; [reflexivity|].
  destruct (Status_State x); try reflexivity.
  all: match goal with |- context [Py.Qltb ?a 0] => destruct (Py.Qltb a 0) end; reflexivity.
Qed.

Section AthenaPoller.
Variable E : Engine.
Variable L : Q.
Variable id : string.
Variable d : Z.
Variable t0 : Q.
Hypothesis latency_bounds : latency_within E L.

Lemma int_of_elapsed_at_deadline (e : Q) :
  inject_Z d <= e -> e < inject_Z d + 1 -> (0 <= d)%Z -> Py.int_of_Q e = d.
Proof.
  intros H1 H2 Hd.
  assert (0 <= e) as He.
  { rewrite Zle_Qle in Hd. change (inject_Z 0) with 0 in Hd. lra. }
  rewrite int_of_Q_floor by exact He.
  apply Qfloor_unique; [exact H1|].
  rewrite inject_Z_plus. exact H2.
Qed.

Ltac post_goals :=
  unfold athena_loop_post;
  refine (conj _ (conj _ (conj _ (conj _ (conj _ _))))).

Ltac no_new_sleeps :=
  exists []; split; [reflexivity | intros [|?] ? ?; discriminate].

Lemma athena_wait_loop_inv (Hd : (0 <= d)%Z) :
  forall fuel k b w,
    (b = backoff k \/ inject_Z d <= clock w - t0) ->
    0 <= clock w - t0 ->
    clock w - t0 < inject_Z d + 1 ->
    (1 <= fuel)%nat ->
    (clock w - t0 < inject_Z d ->
     inject_Z d - (clock w - t0) + 1 < inject_Z (Z.of_nat fuel)) ->
    forall r w', AthenaQuery.wait_loop E fuel id d t0 b w = (r, w') ->
    athena_loop_post E L id d t0 k w r w'.
Proof.
  induction fuel as [|fuel IH]; intros k b w Hb Hlo Hhi Hf1 Hfuel r w' Hrun; [lia|].
  rewrite athena_wait_loop_step in Hrun.
  destruct (Py.Qltb (clock w - t0) (inject_Z d)) eqn:Hlt.
  - (* the loop condition holds: one status check *)
    apply Qltb_true in Hlt.
    destruct Hb as [Hb|Hb]; [|lra]. subst b.
    pose proof (latency_bounds (n_status w)) as [Hl0 HlL].
    specialize (Hfuel Hlt).
    destruct (on_status E (n_status w)) as [e|x] eqn:Hst.
    + inversion Hrun; subst r w'; clear Hrun.
      post_goals; cbn [after_status clock slept].
      * discriminate.
      * lra.
      * no_new_sleeps.
      * discriminate.
      * intros m H; destruct e; discriminate.
      * intros Hnt _. destruct (Hnt (n_status w)) as (x & Hx & _). congruence.
    + destruct (nonterminal (Status_State x)) eqn:Hnt.
      * (* non-terminal: back off and sleep *)
        cbv zeta in Hrun.
        set (w1 := after_status E w) in *.
        set (s := Py.min (Py.min (backoff k * (3 # 2)) 5)
                         (inject_Z (d - Py.int_of_Q (clock w1 - t0)))) in *.
        assert (Hw1 : clock w1 == clock w + latency E (n_status w)) by reflexivity.
        assert (He1 : 0 <= clock w1 - t0) by lra.
        pose proof (int_of_Q_floor _ He1) as Hint.
        pose proof (Qfloor_le (clock w1 - t0)) as Hfl.
        pose proof (Qlt_floor (clock w1 - t0)) as Hfu.
        rewrite inject_Z_plus in Hfu. change (inject_Z 1) with 1 in Hfu.
        assert (Hrem : inject_Z (d - Py.int_of_Q (clock w1 - t0))
                       == inject_Z d - inject_Z (Qfloor (clock w1 - t0))).
        { rewrite Hint. unfold Z.sub. rewrite inject_Z_plus, inject_Z_opp. lra. }
        destruct (Py.Qltb s 0) eqn:Hneg.
        -- inversion Hrun; subst r w'; clear Hrun.
           post_goals; try discriminate.
           ++ lra.
           ++ no_new_sleeps.
           ++ intros Hnever HL1. exfalso.
              apply Qltb_true in Hneg. unfold s, Py.min in Hneg.
              pose proof (backoff_ge_1 (S k)) as Hb1. cbn [backoff] in Hb1.
              unfold Py.min in Hb1.
              destruct (Py.Qltb (inject_Z (d - Py.int_of_Q (clock w1 - t0))) _) eqn:Hc.
              ** rewrite Hrem in Hneg.
                 assert (inject_Z (Qfloor (clock w1 - t0)) < inject_Z (d + 1)) as H.
                 { rewrite inject_Z_plus. change (inject_Z 1) with 1.
                   lra. }
                 rewrite <- Zlt_Qlt in H.
                 assert (inject_Z (Qfloor (clock w1 - t0)) <= inject_Z d)
                   by (rewrite <- Zle_Qle; lia).
                 lra.
              ** lra.
        -- apply Qltb_false in Hneg.
           assert (Hs_def : s = Py.min (backoff (S (k + 0)))
                     (inject_Z (d - Py.int_of_Q (clock w1 - t0)))).
           { rewrite Nat.add_0_r. reflexivity. }
           assert (Hs_hi : clock w1 + s - t0 < inject_Z d + 1
                           /\ (s = backoff (S k)
                               \/ inject_Z d <= clock w1 + s - t0)).
           { pose proof (backoff_ge_1 (S k)) as Hb1.
             destruct (min_cases (Py.min (backoff k * (3 # 2)) 5)
                      (inject_Z (d - Py.int_of_Q (clock w1 - t0))))
               as [[Hc Hmin]|[Hc Hmin]];
               fold s in Hmin.
             - assert (s == inject_Z (d - Py.int_of_Q (clock w1 - t0))) as Hq
                 by (rewrite Hmin; reflexivity).
               split; [|right]; lra.
             - assert (s == backoff (S k)) as Hq by (rewrite Hmin; reflexivity).
               change (Py.min (backoff k * (3 # 2)) 5) with (backoff (S k)) in Hc.
               split; [lra | left; exact Hmin]. }
           destruct Hs_hi as [Hs_hi Hcase].
           assert (Hs1 : inject_Z d <= clock w1 + s - t0 \/ 1 <= s).
           { destruct Hcase as [-> | H]; [right; apply backoff_ge_1 | left; exact H]. }
           assert (Hfuel' : (1 <= fuel)%nat).
           { destruct fuel; [|lia]. exfalso. cbn in Hfuel.
             change (inject_Z 1) with 1 in Hfuel. lra. }
           specialize (IH (S k) s (after_sleep s w1)).
           cbn [after_sleep clock] in IH.
           specialize (IH Hcase ltac:(lra) Hs_hi Hfuel').
           assert (Hm : clock w1 + s - t0 < inject_Z d ->
                   inject_Z d - (clock w1 + s - t0) + 1 < inject_Z (Z.of_nat fuel)).
           { intro Hx. destruct Hs1 as [?|Hs1]; [lra|].
             rewrite Nat2Z.inj_succ in Hfuel. unfold Z.succ in Hfuel.
             rewrite inject_Z_plus in Hfuel. change (inject_Z 1) with 1 in Hfuel.
             lra. }
           specialize (IH Hm r w' Hrun).
           destruct IH as (Hr & Hclk & (new & Hnew & Hsl) & Hret & Hto & Hnever).
           cbn [after_sleep clock slept] in *.
           post_goals.
           ++ exact Hr.
           ++ lra.
           ++ exists (new ++ [(clock w1, s)]). split.
              ** rewrite Hnew, <- app_assoc. reflexivity.
              ** intros i t s'. rewrite rev_app_distr. cbn [rev app].
                 destruct i as [|i]; cbn [nth_error].
                 --- intros [= <- <-].
                     split; [exact Hs_def|]. split; [exact Hneg|]. split; [lra|exact Hs_hi].
                 --- intro Hi. destruct (Hsl i t s' Hi) as (Ha & Hb' & Hc' & Hd').
                     rewrite Nat.add_succ_r. cbn [plus] in Ha.
                     repeat split; assumption.
           ++ exact Hret.
           ++ exact Hto.
           ++ exact Hnever.
      * (* a terminal state *)
        inversion Hrun; subst r w'; clear Hrun.
        post_goals; cbn [after_status clock slept].
        -- destruct (Status_State x); discriminate.
        -- lra.
        -- no_new_sleeps.
        -- intros st H. split; [|lra].
           destruct (Status_State x) eqn:Hx; try discriminate.
           inversion H. exact Hx.
        -- intros m H. destruct (Status_State x); discriminate.
        -- intros Hnever _. destruct (Hnever (n_status w)) as (x' & Hx & Hx').
           rewrite Hst in Hx. inversion Hx; subst x'. congruence.
  - (* the deadline has passed *)
    apply Qltb_false in Hlt.
    inversion Hrun; subst r w'; clear Hrun.
    rewrite (int_of_elapsed_at_deadline _ Hlt Hhi Hd).
    post_goals.
    + discriminate.
    + lra.
    + no_new_sleeps.
    + discriminate.
    + intros m H. split; [split; assumption|]. inversion H. reflexivity.
    + reflexivity.
Qed.
End AthenaPoller.

(** ** The poller of [index.py] *)

Lemma index_wait_loop_step E fuel id d t0 b w :
  Index.wait_loop E (S fuel) id d t0 b w =
  if Py.Qltb (clock w - t0) (inject_Z d) then
    match on_status E (n_status w) with
    | inl e => (Raise (exn_of_engine_error e), after_status E w)
    | inr x =>
        if nonterminal (Status_State x) then
          let s := Py.min (b * (3 # 2)) 5 in
          if Py.Qltb s 0
          then (Raise (ValueError "sleep length must be non-negative"),
                after_status E w)
          else Index.wait_loop E fuel id d t0 s (after_sleep s (after_status E w))
        else
          (Return {| State_ := Status_State x;
                     StateChangeReason := Status_StateChangeReason x |},
           after_status E w)
    end
  else (Raise (TimeoutError (timeout_message d (Py.int_of_Q (clock w - t0)) id)), w).
Proof.
  destruct w as [c sub ns nr sl].
  cbn [Index.wait_loop].
  cbv beta iota zeta delta [bind time_time client_get_query_execution time_sleep
    ret raise after_sleep after_status clock submitted n_status n_results slept].
  destruct (Py.Qltb (c - t0) (inject_Z d)); [|reflexivity].
  destruct (on_status E ns) as [e|x]; [reflexivity|].
  destruct (nonterminal (Status_State x)) eqn:Hnt; cbn [negb]; [|reflexivity].
  destruct (Py.Qltb (Py.min (b * (3 # 2)) 5) 0); reflexivity.
Qed.

Section IndexPoller.
Variable E : Engine.
Variable L : Q.
Variable id : string.
Variable d : Z.
Variable t0 : Q.
Hypothesis latency_bounds : latency_within E L.

Ltac post_goals :=
  unfold index_loop_post;
  refine (conj _ (conj _ (conj _ (conj _ (conj _ _))))).

Ltac no_new_sleeps :=
  exists []; split; [reflexivity | intros [|?] ? ?; discriminate].

Lemma index_wait_loop_inv :
  forall fuel k w,
    0 <= clock w - t0 ->
    clock w - t0 < inject_Z d + L + 5 ->
    (1 <= fuel)%nat ->
    (clock w - t0 < inject_Z d ->
     inject_Z d - (clock w - t0) + 1 < inject_Z (Z.of_nat fuel)) ->
    forall r w', Index.wait_loop E fuel id d t0 (backoff k) w = (r, w') ->
    index_loop_post E L id d t0 k w r w'.
Proof.
  induction fuel as [|fuel IH]; intros k w Hlo Hhi Hf1 Hfuel r w' Hrun; [lia|].
  rewrite index_wait_loop_step in Hrun.
  destruct (Py.Qltb (clock w - t0) (inject_Z d)) eqn:Hlt.
  - apply Qltb_true in Hlt.
    pose proof (latency_bounds (n_status w)) as [Hl0 HlL].
    specialize (Hfuel Hlt).
    destruct (on_status E (n_status w)) as [e|x] eqn:Hst.
    + inversion Hrun; subst r w'; clear Hrun.
      post_goals; cbn [after_status clock slept].
      * discriminate.
      * lra.
      * no_new_sleeps.
      * discriminate.
      * intros m H; destruct e; discriminate.
      * intros Hnt. destruct (Hnt (n_status w)) as (x & Hx & _). congruence.
    + destruct (nonterminal (Status_State x)) eqn:Hnt.
      * cbv zeta in Hrun.
        change (Py.min (backoff k * (3 # 2)) 5) with (backoff (S k)) in Hrun.
        pose proof (backoff_ge_1 (S k)) as Hb1.
        pose proof (backoff_le_5 k) as Hb5.
        set (w1 := after_status E w) in *.
        assert (Hw1 : clock w1 == clock w + latency E (n_status w)) by reflexivity.
        destruct (Py.Qltb (backoff (S k)) 0) eqn:Hneg.
        { apply Qltb_true in Hneg. lra. }
        assert (Hfuel' : (1 <= fuel)%nat).
        { destruct fuel; [|lia]. exfalso. cbn in Hfuel.
          change (inject_Z 1) with 1 in Hfuel. lra. }
        specialize (IH (S k) (after_sleep (backoff (S k)) w1)).
        cbn [after_sleep clock] in IH.
        specialize (IH ltac:(lra) ltac:(lra) Hfuel').
        assert (Hm : clock w1 + backoff (S k) - t0 < inject_Z d ->
                inject_Z d - (clock w1 + backoff (S k) - t0) + 1
                < inject_Z (Z.of_nat fuel)).
        { intro Hx.
          rewrite Nat2Z.inj_succ in Hfuel. unfold Z.succ in Hfuel.
          rewrite inject_Z_plus in Hfuel. change (inject_Z 1) with 1 in Hfuel.
          lra. }
        specialize (IH Hm r w' Hrun).
        destruct IH as (Hr & Hclk & (new & Hnew & Hsl) & Hret & Hto & Hnever).
        cbn [after_sleep clock slept] in *.
        post_goals.
        -- exact Hr.
        -- lra.
        -- exists (new ++ [(clock w1, backoff (S k))]). split.
           ++ rewrite Hnew, <- app_assoc. reflexivity.
           ++ intros i t s'. rewrite rev_app_distr. cbn [rev app].
              destruct i as [|i]; cbn [nth_error].
              ** intros [= <- <-]. rewrite Nat.add_0_r.
                 split; [reflexivity|]. split; [lra|]. change (Py.min (backoff k * (3 # 2)) 5) with (backoff (S k)). lra.
              ** intro Hi. destruct (Hsl i t s' Hi) as (Ha & Hb' & Hc').
                 rewrite Nat.add_succ_r. cbn [plus] in Ha.
                 repeat split; assumption.
        -- exact Hret.
        -- exact Hto.
        -- exact Hnever.
      * inversion Hrun; subst r w'; clear Hrun.
        post_goals; cbn [after_status clock slept].
        -- discriminate.
        -- lra.
        -- no_new_sleeps.
        -- intros st H. inversion H. cbn [State_]. split; [exact Hnt | lra].
        -- intros m H. discriminate.
        -- intros Hnever. destruct (Hnever (n_status w)) as (x' & Hx & Hx').
           rewrite Hst in Hx. inversion Hx; subst x'. congruence.
  - apply Qltb_false in Hlt.
    inversion Hrun; subst r w'; clear Hrun.
    post_goals.
    + discriminate.
    + lra.
    + no_new_sleeps.
    + discriminate.
    + intros m H. split; [split; assumption|]. inversion H. reflexivity.
    + reflexivity.
Qed.
End IndexPoller.

(** ** The pollers from their entry points *)

Lemma sleeps_since_app (w w' : world) (new : list (Q * Q)) :
  slept w' = new ++ slept w -> sleeps_since w w' = rev new.
Proof.
  intro H. unfold sleeps_since. rewrite H, length_app.
  replace (List.length new + List.length (slept w) - List.length (slept w))%nat
    with (List.length new + 0)%nat by lia.
  rewrite firstn_app_2. cbn [firstn]. rewrite app_nil_r. reflexivity.
Qed.

Lemma fuel_covers_deadline (d : Z) (fuel : nat) :
  (0 <= d)%Z -> (Z.to_nat d + 2 <= fuel)%nat ->
  inject_Z d - (0 - 0) + 1 < inject_Z (Z.of_nat fuel).
Proof.
  intros Hd Hf.
  assert (inject_Z (d + 2) <= inject_Z (Z.of_nat fuel)) as H
    by (rewrite <- Zle_Qle; lia).
  rewrite inject_Z_plus in H. change (inject_Z 2) with 2 in H. lra.
Qed.

Lemma athena_poller_post E L id d fuel w :
  (0 <= d)%Z -> (Z.to_nat d + 2 <= fuel)%nat -> latency_within E L ->
  forall r w', AthenaQuery.wait_for_query_completion E fuel id d w = (r, w') ->
  athena_loop_post E L id d (clock w) 0 w r w'.
Proof.
  intros Hd Hf Hlat r w' Hrun.
  unfold AthenaQuery.wait_for_query_completion, bind, time_time in Hrun.
  pose proof (fuel_covers_deadline d fuel Hd Hf) as Hcover.
  rewrite Zle_Qle in Hd. change (inject_Z 0) with 0 in Hd.
  apply (athena_wait_loop_inv E L id d (clock w) Hlat ltac:(rewrite Zle_Qle; exact Hd)
           fuel 0%nat 1 w); try assumption.
  - left. reflexivity.
  - lra.
  - lra.
  - lia.
  - intros _. lra.
Qed.

Lemma index_poller_post E L id d fuel w :
  (0 <= d)%Z -> (Z.to_nat d + 2 <= fuel)%nat -> latency_within E L ->
  forall r w', Index.wait_for_query_completion E fuel id d w = (r, w') ->
  index_loop_post E L id d (clock w) 0 w r w'.
Proof.
  intros Hd Hf Hlat r w' Hrun.
  unfold Index.wait_for_query_completion, bind, time_time in Hrun.
  pose proof (fuel_covers_deadline d fuel Hd Hf) as Hcover.
  pose proof (Hlat 0%nat) as [HL0 HL1].
  rewrite Zle_Qle in Hd. change (inject_Z 0) with 0 in Hd.
  apply (index_wait_loop_inv E L id d (clock w) Hlat fuel 0%nat w);
    try assumption.
  - lra.
  - lra.
  - lia.
  - intros _. lra.
Qed.

Lemma always_running_never_terminal : never_terminal always_running.
Proof. intro n. exists running_execution. split; reflexivity. Qed.

Lemma always_running_latency : latency_within always_running 0.
Proof. intro n. cbn. split; apply Qle_refl. Defined.

Lemma backoff_from_4 (k : nat) : (4 <= k)%nat -> backoff k = 5.
Proof.
  intro H. replace k with (4 + (k - 4))%nat by lia.
  induction (k - 4)%nat as [|j IH].
  - reflexivity.
  - rewrite Nat.add_succ_r. cbn [backoff]. rewrite IH. reflexivity.
Qed.

(** C1 (amended).  For a deadline [d] from 1 to 900 and an engine whose
    status calls take between 0 and [L] seconds, both pollers end, and
    every status check starts before the deadline, so a state is
    returned before [d + L].  The poller of [athena_query.py] (which is
    also the one of [lambda_enhanced.py]) clamps each sleep to [d] minus
    the whole seconds elapsed: a sleep ends before [d + 1] and not
    always by [d]; a [TimeoutError] is raised only in the second that
    follows the deadline, its message carries [d], the whole seconds
    elapsed (which is [d]) and the execution id, and it is what the
    poller raises when the engine stays QUEUED or RUNNING and [L <= 1].
    The poller of [index.py] does not clamp: its sleeps end before
    [d + L + 5], and its [TimeoutError] carries the whole seconds
    elapsed and the id. *)
Theorem C1_poller_deadline :
  forall (E : Engine) (L : Q) (id : string) (d : Z) (w : world),
    (1 <= d <= 900)%Z ->
    latency_within E L ->
    (let run := AthenaQuery.wait_for_query_completion E (Z.to_nat d + 2) id d w in
     let elapsed := clock (snd run) - clock w in
     fst run <> OutOfFuel
     /\ (forall t s, In (t, s) (sleeps_since w (snd run)) ->
           0 <= s /\ t - clock w < inject_Z d + L
           /\ t + s - clock w < inject_Z d + 1)
     /\ (forall st, fst run = Return st ->
           state st = SUCCEEDED /\ elapsed < inject_Z d + L)
     /\ (forall m, fst run = Raise (TimeoutError m) ->
           inject_Z d <= elapsed < inject_Z d + 1
           /\ m = timeout_message d d id)
     /\ (never_terminal E -> L <= 1 ->
           fst run = Raise (TimeoutError (timeout_message d d id))))
    /\
    (let run := Index.wait_for_query_completion E (Z.to_nat d + 2) id d w in
     let elapsed := clock (snd run) - clock w in
     fst run <> OutOfFuel
     /\ (forall t s, In (t, s) (sleeps_since w (snd run)) ->
           t - clock w < inject_Z d + L
           /\ t + s - clock w < inject_Z d + L + 5)
     /\ (forall st, fst run = Return st ->
           nonterminal (State_ st) = false /\ elapsed < inject_Z d + L)
     /\ (forall m, fst run = Raise (TimeoutError m) ->
           inject_Z d <= elapsed < inject_Z d + L + 5
           /\ m = timeout_message d (Py.int_of_Q elapsed) id)
     /\ (never_terminal E ->
           fst run = Raise (TimeoutError
                              (timeout_message d (Py.int_of_Q elapsed) id)))).
Proof.
  intros E L id d w Hd Hlat. split.
  - destruct (AthenaQuery.wait_for_query_completion E (Z.to_nat d + 2) id d w)
      as [r w'] eqn:Hrun.
    cbn [fst snd].
    destruct (athena_poller_post E L id d _ w ltac:(lia) (le_n _) Hlat r w' Hrun)
      as (Hr & _ & (new & Hnew & Hsl) & Hret & Hto & Hnever).
    rewrite (sleeps_since_app w w' new Hnew).
    repeat split; try assumption.
    + destruct (In_nth_error _ _ H) as [i Hi].
      destruct (Hsl i t s Hi) as (_ & H0 & _). exact H0.
    + destruct (In_nth_error _ _ H) as [i Hi].
      destruct (Hsl i t s Hi) as (_ & _ & H0 & _). exact H0.
    + destruct (In_nth_error _ _ H) as [i Hi].
      destruct (Hsl i t s Hi) as (_ & _ & _ & H0). exact H0.
    + apply (Hret st H).
    + apply (Hret st H).
    + apply (Hto m H).
    + apply (Hto m H).
    + apply (Hto m H).
  - destruct (Index.wait_for_query_completion E (Z.to_nat d + 2) id d w)
      as [r w'] eqn:Hrun.
    cbn [fst snd].
    destruct (index_poller_post E L id d _ w ltac:(lia) (le_n _) Hlat r w' Hrun)
      as (Hr & _ & (new & Hnew & Hsl) & Hret & Hto & Hnever).
    rewrite (sleeps_since_app w w' new Hnew).
    repeat split; try assumption.
    + destruct (In_nth_error _ _ H) as [i Hi].
      destruct (Hsl i t s Hi) as (_ & H0 & _). exact H0.
    + destruct (In_nth_error _ _ H) as [i Hi].
      destruct (Hsl i t s Hi) as (_ & _ & H0). exact H0.
    + apply (Hret st H).
    + apply (Hret st H).
    + apply (Hto m H).
    + apply (Hto m H).
    + apply (Hto m H).
Qed.

Lemma C1_poller_deadline_witness :
  (1 <= 2 <= 900)%Z
  /\ latency_within always_running 0
  /\ fst (AthenaQuery.wait_for_query_completion always_running (Z.to_nat 2 + 2)
            "q-1" 2 initial_world) <> OutOfFuel.
Proof.
  split; [lia|]. split; [exact always_running_latency|].
  exact (proj1 (proj1 (C1_poller_deadline always_running 0 "q-1" 2 initial_world
                         ltac:(lia) always_running_latency))).
Defined.

(** C1 as stated fails: with a deadline of 2 seconds and an engine that
    answers RUNNING at once, the second sleep starts at 1.5 s, is clamped
    to 2 - int(1.5) = 1 second and ends at 2.5 s, past the deadline
    although the polls take no time. *)
Lemma C1_counterexample :
  latency_within always_running 0
  /\ (let run := AthenaQuery.wait_for_query_completion always_running 4 "q-1" 2
                   initial_world in
      fst run = Raise (TimeoutError (timeout_message 2 2 "q-1"))
      /\ sleeps_since initial_world (snd run) = [(0, 3 # 2); (3 # 2, 1)]
      /\ ~ (clock (snd run) - clock initial_world <= inject_Z 2 + 0)).
Proof.
  split; [exact always_running_latency|].
  cbv zeta. split; [vm_compute; reflexivity|].
  split; [vm_compute; reflexivity|].
  intro H. vm_compute in H. apply H. reflexivity.
Qed.

(** C2 (amended).  The interval variable starts at 1 second and is
    multiplied by 1.5, up to 5, after each non-terminal observation and
    before the sleep, so the back-off values slept are 1.5, 2.25, 3.375,
    5, 5, ...  In [athena_query.py] and [lambda_enhanced.py] the [i]-th
    sleep is the smaller of that value and the deadline minus the whole
    seconds elapsed; in [index.py] it is that value. *)
Theorem C2_backoff_sequence :
  forall (E : Engine) (L : Q) (id : string) (d : Z) (w : world),
    (1 <= d <= 900)%Z ->
    latency_within E L ->
    (forall i t s,
        nth_error (sleeps_since w
                     (snd (AthenaQuery.wait_for_query_completion
                             E (Z.to_nat d + 2) id d w))) i = Some (t, s) ->
        s = Py.min (backoff (S i)) (inject_Z (d - Py.int_of_Q (t - clock w))))
    /\ (forall i t s,
        nth_error (sleeps_since w
                     (snd (Index.wait_for_query_completion
                             E (Z.to_nat d + 2) id d w))) i = Some (t, s) ->
        s = backoff (S i))
    /\ backoff 0 = 1 /\ backoff 1 = 3 # 2 /\ backoff 2 = 9 # 4
    /\ backoff 3 = 27 # 8 /\ (forall k, (4 <= k)%nat -> backoff k = 5).
Proof.
  intros E L id d w Hd Hlat.
  split; [|split].
  - destruct (AthenaQuery.wait_for_query_completion E (Z.to_nat d + 2) id d w)
      as [r w'] eqn:Hrun.
    cbn [snd]. intros i t s Hi.
    destruct (athena_poller_post E L id d _ w ltac:(lia) (le_n _) Hlat r w' Hrun)
      as (_ & _ & (new & Hnew & Hsl) & _).
    rewrite (sleeps_since_app w w' new Hnew) in Hi.
    apply (Hsl i t s Hi).
  - destruct (Index.wait_for_query_completion E (Z.to_nat d + 2) id d w)
      as [r w'] eqn:Hrun.
    cbn [snd]. intros i t s Hi.
    destruct (index_poller_post E L id d _ w ltac:(lia) (le_n _) Hlat r w' Hrun)
      as (_ & _ & (new & Hnew & Hsl) & _).
    rewrite (sleeps_since_app w w' new Hnew) in Hi.
    apply (Hsl i t s Hi).
  - repeat split; try reflexivity. exact backoff_from_4.
Qed.

Lemma C2_backoff_sequence_witness :
  (1 <= 10 <= 900)%Z
  /\ latency_within always_running 0
  /\ forall k, (4 <= k)%nat -> backoff k = 5.
Proof.
  split; [lia|]. split; [exact always_running_latency|].
  exact (proj2 (proj2 (proj2 (proj2 (proj2 (proj2
           (C2_backoff_sequence always_running 0 "q-1" 10 initial_world
              ltac:(lia) always_running_latency))))))).
Defined.

(** C2 as stated fails: the first sleep lasts 1.5 s, not 1 s; and with a
    deadline of 10 s the fourth sleep starts at 7.125 s and lasts
    10 - 7 = 3 s in [athena_query.py], not min(5, 10 - 7.125), and 5 s in
    [index.py]. *)
Lemma C2_counterexample :
  (let run := AthenaQuery.wait_for_query_completion always_running 12 "q-1" 10
                initial_world in
   sleeps_since initial_world (snd run)
   = [(0, 3 # 2); (3 # 2, 9 # 4); (30 # 8, 27 # 8); (456 # 64, 3)]
   /\ ~ (3 # 2 == 1)
   /\ ~ (3 == Qmin 5 (10 - (456 # 64))))
  /\ (let run := Index.wait_for_query_completion always_running 12 "q-1" 10
                   initial_world in
      sleeps_since initial_world (snd run)
      = [(0, 3 # 2); (3 # 2, 9 # 4); (30 # 8, 27 # 8); (456 # 64, 5)]
      /\ ~ (5 == Qmin 5 (10 - (456 # 64)))).
Proof.
  cbv zeta. repeat split; try (vm_compute; reflexivity);
    intro H; vm_compute in H; discriminate H.
Qed.

(** ** What the pollers do to the call counters *)

Lemma last_observed_none (E : Engine) (w w' : world) :
  n_status w' = n_status w -> last_observed E w w' = None.
Proof.
  intro H. unfold last_observed. rewrite H, Nat.ltb_irrefl. reflexivity.
Qed.

Lemma last_observed_one (E : Engine) (w w' : world) :
  n_status w' = S (n_status w) ->
  last_observed E w w' =
  match on_status E (n_status w) with
  | inr x => Some (Status_State x)
  | inl _ => None
  end.
Proof.
  intro H. unfold last_observed. rewrite H.
  replace (n_status w <? S (n_status w))%nat with true
    by (symmetry; apply Nat.ltb_lt; lia).
  reflexivity.
Qed.

Lemma last_observed_step (E : Engine) (w w2 w' : world) :
  n_status w2 = S (n_status w) ->
  (n_status w2 <= n_status w')%nat ->
  last_observed E w w' =
  if (n_status w2 <? n_status w')%nat then last_observed E w2 w'
  else match on_status E (n_status w) with
       | inr x => Some (Status_State x)
       | inl _ => None
       end.
Proof.
  intros H2 Hle. unfold last_observed.
  replace (n_status w <? n_status w')%nat with true
    by (symmetry; apply Nat.ltb_lt; lia).
  destruct (n_status w2 <? n_status w')%nat eqn:Hlt; [reflexivity|].
  apply Nat.ltb_ge in Hlt.
  replace (n_status w') with (S (n_status w)) by lia. reflexivity.
Qed.

Lemma nonterminal_not_succeeded (s : State) :
  nonterminal s = true -> Some s <> Some SUCCEEDED.
Proof. destruct s; intros H; try discriminate H; intros [=]. Qed.

Lemma athena_wait_loop_frame E id d t0 :
  forall fuel b w r w',
    AthenaQuery.wait_loop E fuel id d t0 b w = (r, w') ->
    submitted w' = submitted w
    /\ n_results w' = n_results w
    /\ (n_status w <= n_status w')%nat
    /\ (forall st, r = Return st ->
          state st = SUCCEEDED /\ last_observed E w w' = Some SUCCEEDED)
    /\ (last_observed E w w' = Some SUCCEEDED -> exists st, r = Return st).
Proof.
  induction fuel as [|fuel IH]; intros b w r w' Hrun.
  - inversion Hrun; subst r w'.
    rewrite (last_observed_none E w w eq_refl).
    repeat split; try reflexivity; try lia; discriminate.
  - rewrite athena_wait_loop_step in Hrun.
    destruct (Py.Qltb (clock w - t0) (inject_Z d)).
    2:{ inversion Hrun; subst r w'.
        rewrite (last_observed_none E w w eq_refl).
        repeat split; try reflexivity; try lia; discriminate. }
    assert (H1 : n_status (after_status E w) = S (n_status w)) by reflexivity.
    pose proof (last_observed_one E w (after_status E w) H1) as Hone.
    destruct (on_status E (n_status w)) as [e|x] eqn:Hst.
    { inversion Hrun; subst r w'. rewrite Hone.
      repeat split; try reflexivity; try (cbn; lia); try discriminate.
      all: destruct e; discriminate. }
    destruct (nonterminal (Status_State x)) eqn:Hnt.
    + cbv zeta in Hrun.
      pose proof (nonterminal_not_succeeded _ Hnt) as Hns.
      match type of Hrun with
      | (if Py.Qltb ?s 0 then _ else _) = _ => set (sl := s) in *
      end.
      destruct (Py.Qltb sl 0).
      { inversion Hrun; subst r w'. rewrite Hone.
        repeat split; try reflexivity; try (cbn; lia); try discriminate.
        intro H; contradiction. }
      destruct (IH _ _ _ _ Hrun) as (Hs & Hr & Hn & Hret & Hlast).
      cbn [after_sleep after_status submitted n_results n_status] in Hs, Hr, Hn.
      assert (Hstep := last_observed_step E w (after_sleep sl (after_status E w)) w'
                         eq_refl Hn).
      rewrite Hst in Hstep.
      split; [exact Hs|]. split; [exact Hr|]. split; [lia|].
      destruct (n_status (after_sleep sl (after_status E w)) <? n_status w')%nat eqn:Hlt.
      * rewrite Hstep. split; assumption.
      * rewrite Hstep. split.
        -- intros st H. destruct (Hret st H) as [_ Hl].
           apply Nat.ltb_ge in Hlt.
           rewrite last_observed_none in Hl; [discriminate|].
           cbn [after_sleep after_status n_status] in *. lia.
        -- intro H; contradiction.
    + inversion Hrun; subst r w'. rewrite Hone.
      split; [reflexivity|]. split; [reflexivity|]. split; [cbn; lia|].
      destruct (Status_State x) eqn:Hx; try discriminate Hnt.
      * split; [intros st [= <-]; split; [exact Hx | reflexivity]
               | intros _; eexists; reflexivity].
      * split; [discriminate | intros [=]].
      * split; [discriminate | intros [=]].
Qed.

Lemma index_wait_loop_frame E id d t0 :
  forall fuel b w r w',
    Index.wait_loop E fuel id d t0 b w = (r, w') ->
    submitted w' = submitted w
    /\ n_results w' = n_results w
    /\ (n_status w <= n_status w')%nat
    /\ (forall st, r = Return st ->
          nonterminal (State_ st) = false
          /\ last_observed E w w' = Some (State_ st))
    /\ (last_observed E w w' = Some SUCCEEDED -> exists st, r = Return st).
Proof.
  induction fuel as [|fuel IH]; intros b w r w' Hrun.
  - inversion Hrun; subst r w'.
    rewrite (last_observed_none E w w eq_refl).
    repeat split; try reflexivity; try lia; discriminate.
  - rewrite index_wait_loop_step in Hrun.
    destruct (Py.Qltb (clock w - t0) (inject_Z d)).
    2:{ inversion Hrun; subst r w'.
        rewrite (last_observed_none E w w eq_refl).
        repeat split; try reflexivity; try lia; discriminate. }
    assert (H1 : n_status (after_status E w) = S (n_status w)) by reflexivity.
    pose proof (last_observed_one E w (after_status E w) H1) as Hone.
    destruct (on_status E (n_status w)) as [e|x] eqn:Hst.
    { inversion Hrun; subst r w'. rewrite Hone.
      repeat split; try reflexivity; try (cbn; lia); try discriminate.
      all: destruct e; discriminate. }
    destruct (nonterminal (Status_State x)) eqn:Hnt.
    + cbv zeta in Hrun.
      pose proof (nonterminal_not_succeeded _ Hnt) as Hns.
      destruct (Py.Qltb (Py.min (b * (3 # 2)) 5) 0).
      { inversion Hrun; subst r w'. rewrite Hone.
        repeat split; try reflexivity; try (cbn; lia); try discriminate.
        intro H; contradiction. }
      destruct (IH _ _ _ _ Hrun) as (Hs & Hr & Hn & Hret & Hlast).
      cbn [after_sleep after_status submitted n_results n_status] in Hs, Hr, Hn.
      assert (Hstep := last_observed_step E w
                         (after_sleep (Py.min (b * (3 # 2)) 5) (after_status E w)) w'
                         eq_refl Hn).
      rewrite Hst in Hstep.
      split; [exact Hs|]. split; [exact Hr|]. split; [lia|].
      destruct (n_status (after_sleep (Py.min (b * (3 # 2)) 5) (after_status E w))
                <? n_status w')%nat eqn:Hlt.
      * rewrite Hstep. split; assumption.
      * rewrite Hstep. split.
        -- intros st H. destruct (Hret st H) as [_ Hl].
           apply Nat.ltb_ge in Hlt.
           rewrite last_observed_none in Hl; [discriminate|].
           cbn [after_sleep after_status n_status] in *. lia.
        -- intro H; contradiction.
    + inversion Hrun; subst r w'. rewrite Hone.
      split; [reflexivity|]. split; [reflexivity|]. split; [cbn; lia|].
      split.
      * intros st [= <-]. split; [exact Hnt | reflexivity].
      * intros _. eexists; reflexivity.
Qed.

(** ** The orchestrators fetch results exactly after SUCCEEDED *)

Lemma fetched_none (E : Engine) (w w' : world) :
  n_results w' = n_results w ->
  last_observed E w w' <> Some SUCCEEDED ->
  fetched_iff_succeeded E w w'.
Proof.
  intros Hr Hl. unfold fetched_iff_succeeded, fetches. rewrite Hr, Nat.sub_diag.
  split; [lia|]. split; [discriminate | intro H; contradiction].
Qed.

Lemma fetched_one (E : Engine) (w w' : world) :
  n_results w' = S (n_results w) ->
  last_observed E w w' = Some SUCCEEDED ->
  fetched_iff_succeeded E w w'.
Proof.
  intros Hr Hl. unfold fetched_iff_succeeded, fetches. rewrite Hr.
  replace (S (n_results w) - n_results w)%nat with 1%nat by lia.
  split; [lia|]. split; [intros _; exact Hl | reflexivity].
Qed.

Lemma last_observed_same_calls (E : Engine) (w0 w w' w1 : world) :
  n_status w0 = n_status w -> n_status w1 = n_status w' ->
  last_observed E w0 w1 = last_observed E w w'.
Proof. intros H0 H1. unfold last_observed. rewrite H0, H1. reflexivity. Qed.

Lemma athena_poller_frame E fuel id d w r w' :
  AthenaQuery.wait_for_query_completion E fuel id d w = (r, w') ->
  submitted w' = submitted w
  /\ n_results w' = n_results w
  /\ (n_status w <= n_status w')%nat
  /\ (forall st, r = Return st ->
        state st = SUCCEEDED /\ last_observed E w w' = Some SUCCEEDED)
  /\ (last_observed E w w' = Some SUCCEEDED -> exists st, r = Return st).
Proof.
  unfold AthenaQuery.wait_for_query_completion, bind, time_time.
  apply athena_wait_loop_frame.
Qed.

Lemma index_poller_frame E fuel id d w r w' :
  Index.wait_for_query_completion E fuel id d w = (r, w') ->
  submitted w' = submitted w
  /\ n_results w' = n_results w
  /\ (n_status w <= n_status w')%nat
  /\ (forall st, r = Return st ->
        nonterminal (State_ st) = false
        /\ last_observed E w w' = Some (State_ st))
  /\ (last_observed E w w' = Some SUCCEEDED -> exists st, r = Return st).
Proof.
  unfold Index.wait_for_query_completion, bind, time_time.
  apply index_wait_loop_frame.
Qed.

Lemma athena_get_query_results_run E id max_rows w :
  exists r, AthenaQuery.get_query_results E id max_rows w
            = (r, {| clock := clock w; submitted := submitted w;
                     n_status := n_status w; n_results := S (n_results w);
                     slept := slept w |}).
Proof.
  unfold AthenaQuery.get_query_results, bind, client_get_query_results, ret.
  destruct (on_results E (n_results w)); eexists; reflexivity.
Qed.

Lemma enhanced_get_query_results_run E id max_rows w :
  exists r, LambdaEnhanced.get_query_results E id max_rows w
            = (r, {| clock := clock w; submitted := submitted w;
                     n_status := n_status w; n_results := S (n_results w);
                     slept := slept w |}).
Proof.
  unfold LambdaEnhanced.get_query_results, bind, client_get_query_results, ret.
  destruct (on_results E (n_results w)); eexists; reflexivity.
Qed.

Lemma index_get_query_results_run E id w :
  exists r, Index.get_query_results E id w
            = (r, {| clock := clock w; submitted := submitted w;
                     n_status := n_status w; n_results := S (n_results w);
                     slept := slept w |}).
Proof.
  unfold Index.get_query_results, bind, client_get_query_results, ret.
  destruct (on_results E (n_results w)) as [e|p]; [eexists; reflexivity|].
  destruct (ResultSet_ColumnInfo p); eexists; reflexivity.
Qed.

Ltac finish_run H := inversion H; subst; clear H.

Lemma athena_execute_fetch E cfg fuel query database output d max_rows w r w' :
  AthenaQuery.execute_athena_query E cfg fuel query database output
    d max_rows w = (r, w') ->
  fetched_iff_succeeded E w w'
  /\ forall result, r = Return result -> state_of result = Some "SUCCEEDED".
Proof.
  unfold AthenaQuery.execute_athena_query.
  destruct (AthenaQuery.validate_query (JStr query)) as [valid msg].
  destruct valid; cbn [negb].
  2:{ unfold raise. intro Hrun. finish_run Hrun. split; [|discriminate].
      apply fetched_none; [reflexivity|].
      rewrite (last_observed_none E w' w' eq_refl). discriminate. }
  unfold bind at 1.
  unfold AthenaQuery.start_query_execution, client_start_query_execution.
  set (w1 := {| clock := clock w; submitted := query :: submitted w;
                n_status := n_status w; n_results := n_results w;
                slept := slept w |}).
  destruct (on_start E (n_start w)) as [e|id].
  { intro Hrun. finish_run Hrun. split; [|discriminate].
    apply fetched_none; [reflexivity|].
    rewrite (last_observed_none E w w1 eq_refl). discriminate. }
  unfold bind at 1.
  destruct (AthenaQuery.wait_for_query_completion E fuel id d w1) as [rp w2] eqn:Hpoll.
  destruct (athena_poller_frame E fuel id d w1 rp w2 Hpoll)
    as (Hs & Hr & Hn & Hret & Hlast).
  assert (Hobs : last_observed E w w2 = last_observed E w1 w2)
    by (apply last_observed_same_calls; reflexivity).
  destruct rp as [st|e|].
  - destruct (Hret st eq_refl) as [Hst Hl].
    rewrite Hst. unfold bind at 1. unfold bind at 1.
    destruct (athena_get_query_results_run E id max_rows w2) as [rr Hrr].
    rewrite Hrr.
    assert (Hw3 : fetched_iff_succeeded E w
                    {| clock := clock w2; submitted := submitted w2;
                       n_status := n_status w2; n_results := S (n_results w2);
                       slept := slept w2 |}).
    { apply fetched_one; [cbn; rewrite Hr; reflexivity|].
      rewrite <- Hl, <- Hobs. apply last_observed_same_calls; reflexivity. }
    destruct rr as [res|e|]; unfold ret; intro Hrun; finish_run Hrun;
      (split; [exact Hw3|]); try discriminate.
    intros result [= <-]. reflexivity.
  - intro Hrun. finish_run Hrun. split; [|discriminate].
    apply fetched_none; [rewrite Hr; reflexivity|].
    rewrite Hobs. intro H. destruct (Hlast H) as [st Hst]. discriminate.
  - intro Hrun. finish_run Hrun. split; [|discriminate].
    apply fetched_none; [rewrite Hr; reflexivity|].
    rewrite Hobs. intro H. destruct (Hlast H) as [st Hst]. discriminate.
Qed.

Lemma enhanced_execute_fetch E cfg fuel query database output d max_rows w r w' :
  LambdaEnhanced.execute_query E cfg fuel query database output
    d max_rows w = (r, w') ->
  fetched_iff_succeeded E w w'
  /\ forall result, r = Return result -> state_of result = Some "SUCCEEDED".
Proof.
  unfold LambdaEnhanced.execute_query.
  destruct (LambdaEnhanced.validate_query query) as [valid msg].
  assert (Hquiet : forall e, (Raise e, w) = (r, w') ->
            fetched_iff_succeeded E w w'
            /\ forall result, r = Return result -> state_of result = Some "SUCCEEDED").
  { intros e Hrun. finish_run Hrun. split; [|discriminate].
    apply fetched_none; [reflexivity|].
    rewrite (last_observed_none E w' w' eq_refl). discriminate. }
  destruct valid; cbn [negb]; [|apply Hquiet].
  destruct query as [| | |q| |]; try apply Hquiet.
  clear Hquiet.
  unfold bind at 1.
  unfold LambdaEnhanced.start_query_execution, AthenaQuery.start_query_execution,
    client_start_query_execution.
  set (w1 := {| clock := clock w; submitted := q :: submitted w;
                n_status := n_status w; n_results := n_results w;
                slept := slept w |}).
  destruct (on_start E (n_start w)) as [e|id].
  { intro Hrun. finish_run Hrun. split; [|discriminate].
    apply fetched_none; [reflexivity|].
    rewrite (last_observed_none E w w1 eq_refl). discriminate. }
  unfold bind at 1. unfold LambdaEnhanced.wait_for_query_completion.
  destruct (AthenaQuery.wait_for_query_completion E fuel id d w1) as [rp w2] eqn:Hpoll.
  destruct (athena_poller_frame E fuel id d w1 rp w2 Hpoll)
    as (Hs & Hr & Hn & Hret & Hlast).
  assert (Hobs : last_observed E w w2 = last_observed E w1 w2)
    by (apply last_observed_same_calls; reflexivity).
  destruct rp as [st|e|].
  - destruct (Hret st eq_refl) as [Hst Hl].
    rewrite Hst. unfold bind at 1. unfold bind at 1.
    destruct (enhanced_get_query_results_run E id max_rows w2) as [rr Hrr].
    rewrite Hrr.
    assert (Hw3 : fetched_iff_succeeded E w
                    {| clock := clock w2; submitted := submitted w2;
                       n_status := n_status w2; n_results := S (n_results w2);
                       slept := slept w2 |}).
    { apply fetched_one; [cbn; rewrite Hr; reflexivity|].
      rewrite <- Hl, <- Hobs. apply last_observed_same_calls; reflexivity. }
    destruct rr as [res|e|]; unfold ret; intro Hrun; finish_run Hrun;
      (split; [exact Hw3|]); try discriminate.
    intros result [= <-]. reflexivity.
  - intro Hrun. finish_run Hrun. split; [|discriminate].
    apply fetched_none; [rewrite Hr; reflexivity|].
    rewrite Hobs. intro H. destruct (Hlast H) as [st Hst]. discriminate.
  - intro Hrun. finish_run Hrun. split; [|discriminate].
    apply fetched_none; [rewrite Hr; reflexivity|].
    rewrite Hobs. intro H. destruct (Hlast H) as [st Hst]. discriminate.
Qed.

(** ** Inversion of the monad's combinators *)

Lemma bind_inv {A B} (m : M A) (k : A -> M B) w r w' :
  bind m k w = (r, w') ->
  exists r1 w1, m w = (r1, w1)
    /\ match r1 with
       | Return a => k a w1 = (r, w')
       | Raise e => r = Raise e /\ w' = w1
       | OutOfFuel => r = OutOfFuel /\ w' = w1
       end.
Proof.
  unfold bind. destruct (m w) as [[a|e|] w1]; intro H;
    eexists; exists w1; (split; [reflexivity|]).
  - exact H.
  - inversion H; split; reflexivity.
  - inversion H; split; reflexivity.
Qed.

Lemma bind_pure_inv {A B} (m : M A) (k : A -> M B) w r w' :
  pure m ->
  bind m k w = (r, w') ->
  (exists a, m w = (Return a, w) /\ k a w = (r, w'))
  \/ (exists e, r = Raise e /\ w' = w).
Proof.
  intros Hp H. unfold bind in H.
  destruct (Hp w) as [[a Ha]|[e He]].
  - rewrite Ha in H. left. exists a. split; [exact Ha | exact H].
  - rewrite He in H. right. exists e. inversion H. split; reflexivity.
Qed.

Lemma try_except_inv {A} (body : M A) (handler : exn -> M A) w r w' :
  try_except body handler w = (r, w') ->
  exists r1 w1, body w = (r1, w1)
    /\ match r1 with
       | Raise e => handler e w1 = (r, w')
       | _ => r = r1 /\ w' = w1
       end.
Proof.
  unfold try_except. destruct (body w) as [[a|e|] w1]; intro H;
    eexists; exists w1; (split; [reflexivity|]).
  - inversion H; split; reflexivity.
  - exact H.
  - inversion H; split; reflexivity.
Qed.

Lemma pure_ret {A} (a : A) : pure (ret a).
Proof. intro w. left. exists a. reflexivity. Qed.

Lemma pure_raise {A} (e : exn) : pure (@raise A e).
Proof. intro w. right. exists e. reflexivity. Qed.

Lemma pure_py_get x k dflt : pure (py_get x k dflt).
Proof. destruct x; try apply pure_raise. apply pure_ret. Qed.

Lemma pure_py_strip x : pure (py_strip x).
Proof. destruct x; try apply pure_raise. apply pure_ret. Qed.

Lemma pure_py_int x : pure (py_int x).
Proof.
  destruct x; try apply pure_raise; try apply pure_ret.
  cbn. destruct (Py.int_of_str s); [apply pure_ret | apply pure_raise].
Qed.

Lemma pure_loads R s : pure (loads R s).
Proof. unfold loads. destruct (json_loads R s); [apply pure_raise | apply pure_ret]. Qed.

Lemma pure_validate_env_var environ name : pure (Index.validate_env_var environ name).
Proof.
  unfold Index.validate_env_var. destruct (Dict.get name environ) as [v|];
    [destruct (String.eqb v EmptyString)|]; try apply pure_raise; apply pure_ret.
Qed.

Lemma pure_not_in_templates x : pure (LambdaEnhanced.not_in_templates x).
Proof. destruct x; try apply pure_raise; apply pure_ret. Qed.

Lemma index_handler_except_run R e w :
  exists code b,
    Index.handler_except R e w = (Return (Index.format_response R code (JObj b)), w)
    /\ rows_of b = [].
Proof.
  unfold Index.handler_except.
  destruct (isinstance e CTimeoutError).
  { do 2 eexists. split; reflexivity. }
  destruct e; cbn [isinstance];
    try (do 2 eexists; split; reflexivity).
  destruct (Index.client_error_status code) as [status error_type].
  do 2 eexists. split; reflexivity.
Qed.

Lemma index_handler_try_fetch E R environ fuel event w r w' :
  Index.handler_try E R environ fuel event w = (r, w') ->
  fetched_iff_succeeded E w w'
  /\ forall resp, r = Return resp ->
       exists code b, resp = Index.format_response R code (JObj b)
                      /\ rows_only_if_succeeded b.
Proof.
  assert (Hquiet : forall r0 : outcome response,
            (forall resp, r0 = Return resp ->
               exists code b, resp = Index.format_response R code (JObj b)
                              /\ rows_only_if_succeeded b) ->
            fetched_iff_succeeded E w w
            /\ forall resp, r0 = Return resp ->
                 exists code b, resp = Index.format_response R code (JObj b)
                                /\ rows_only_if_succeeded b).
  { intros r0 H0. split; [|exact H0].
    apply fetched_none; [reflexivity|].
    rewrite (last_observed_none E w w eq_refl). discriminate. }
  assert (Hraise : forall e : exn,
            fetched_iff_succeeded E w w
            /\ forall resp, @Raise response e = Return resp ->
                 exists code b, resp = Index.format_response R code (JObj b)
                                /\ rows_only_if_succeeded b).
  { intro e. apply Hquiet. discriminate. }
  assert (Hplain : forall code b, rows_of b = [] ->
            fetched_iff_succeeded E w w
            /\ forall resp, Return (Index.format_response R code (JObj b)) = Return resp ->
                 exists code b, resp = Index.format_response R code (JObj b)
                                /\ rows_only_if_succeeded b).
  { intros code b Hb. apply Hquiet. intros resp [= <-].
    exists code, b. split; [reflexivity | intros _; exact Hb]. }
  unfold Index.handler_try. intro Hrun.
  apply bind_pure_inv in Hrun; [|apply pure_validate_env_var].
  destruct Hrun as [(database & _ & Hrun)|(e & -> & ->)]; [|apply Hraise].
  apply bind_pure_inv in Hrun; [|apply pure_validate_env_var].
  destruct Hrun as [(bucket & _ & Hrun)|(e & -> & ->)]; [|apply Hraise].
  cbv zeta in Hrun.
  apply bind_pure_inv in Hrun.
  2:{ destruct (Dict.get "body" event) as [[]|];
        try apply pure_ret; apply pure_loads. }
  destruct Hrun as [(body & _ & Hrun)|(e & -> & ->)]; [|apply Hraise].
  apply bind_pure_inv in Hrun; [|apply pure_py_get].
  destruct Hrun as [(q & _ & Hrun)|(e & -> & ->)]; [|apply Hraise].
  apply bind_pure_inv in Hrun; [|apply pure_py_strip].
  destruct Hrun as [(query & _ & Hrun)|(e & -> & ->)]; [|apply Hraise].
  apply bind_pure_inv in Hrun; [|apply pure_py_get].
  destruct Hrun as [(mw & _ & Hrun)|(e & -> & ->)]; [|apply Hraise].
  apply bind_pure_inv in Hrun; [|apply pure_py_int].
  destruct Hrun as [(max_wait_time & _ & Hrun)|(e & -> & ->)]; [|apply Hraise].
  destruct (String.eqb query EmptyString).
  { unfold ret in Hrun. finish_run Hrun. apply Hplain. reflexivity. }
  destruct (Py.len query >? 262144)%Z.
  { unfold ret in Hrun. finish_run Hrun. apply Hplain. reflexivity. }
  destruct ((max_wait_time <? 1)%Z || (max_wait_time >? 900)%Z).
  { unfold ret in Hrun. finish_run Hrun. apply Hplain. reflexivity. }
  clear Hquiet Hraise Hplain.
  unfold bind at 1 in Hrun. unfold client_start_query_execution in Hrun.
  set (w1 := {| clock := clock w; submitted := query :: submitted w;
                n_status := n_status w; n_results := n_results w;
                slept := slept w |}) in *.
  destruct (on_start E (n_start w)) as [e|id].
  { finish_run Hrun. split; [|discriminate].
    apply fetched_none; [reflexivity|].
    rewrite (last_observed_none E w w1 eq_refl). discriminate. }
  unfold bind at 1 in Hrun.
  destruct (Index.wait_for_query_completion E fuel id max_wait_time w1)
    as [rp w2] eqn:Hpoll.
  destruct (index_poller_frame E fuel id max_wait_time w1 rp w2 Hpoll)
    as (Hs & Hr & Hn & Hret & Hlast).
  assert (Hobs : last_observed E w w2 = last_observed E w1 w2)
    by (apply last_observed_same_calls; reflexivity).
  destruct rp as [st|e|].
  - destruct (Hret st eq_refl) as [Hst Hl].
    destruct (State_ st) eqn:Hstate; try discriminate Hst.
    + (* SUCCEEDED *)
      unfold bind at 1 in Hrun.
      destruct (index_get_query_results_run E id w2) as [rr Hrr].
      rewrite Hrr in Hrun.
      assert (Hw3 : fetched_iff_succeeded E w
                      {| clock := clock w2; submitted := submitted w2;
                         n_status := n_status w2; n_results := S (n_results w2);
                         slept := slept w2 |}).
      { apply fetched_one; [cbn; rewrite Hr; reflexivity|].
        rewrite <- Hl, <- Hobs. apply last_observed_same_calls; reflexivity. }
      destruct rr as [res|e|]; unfold ret in Hrun; finish_run Hrun;
        (split; [exact Hw3|]); try discriminate.
      intros resp [= <-]. do 2 eexists. split; [reflexivity|].
      intro H. exfalso. apply H. reflexivity.
    + (* FAILED *)
      unfold ret in Hrun. finish_run Hrun. split.
      * apply fetched_none; [rewrite Hr; reflexivity|].
        rewrite Hobs, Hl. discriminate.
      * intros resp [= <-]. do 2 eexists. split; [reflexivity|].
        intros _. reflexivity.
    + (* CANCELLED *)
      unfold ret in Hrun. finish_run Hrun. split.
      * apply fetched_none; [rewrite Hr; reflexivity|].
        rewrite Hobs, Hl. discriminate.
      * intros resp [= <-]. do 2 eexists. split; [reflexivity|].
        intros _. reflexivity.
  - finish_run Hrun. split; [|discriminate].
    apply fetched_none; [rewrite Hr; reflexivity|].
    rewrite Hobs. intro H. destruct (Hlast H) as [st Hst]. discriminate.
  - finish_run Hrun. split; [|discriminate].
    apply fetched_none; [rewrite Hr; reflexivity|].
    rewrite Hobs. intro H. destruct (Hlast H) as [st Hst]. discriminate.
Qed.

Lemma index_handler_fetch E R environ fuel event context w r w' :
  Index.handler E R environ fuel event context w = (r, w') ->
  fetched_iff_succeeded E w w'
  /\ forall resp, r = Return resp ->
       exists code b, resp = Index.format_response R code (JObj b)
                      /\ rows_only_if_succeeded b.
Proof.
  unfold Index.handler. intro Hrun.
  apply try_except_inv in Hrun. destruct Hrun as (r1 & w1 & Htry & Hrest).
  destruct (index_handler_try_fetch E R environ fuel event w r1 w1 Htry)
    as [Hfetch Hresp].
  destruct r1 as [resp|e|].
  - destruct Hrest as [-> ->]. split; assumption.
  - destruct (index_handler_except_run R e w1) as (code & b & Hex & Hb).
    rewrite Hex in Hrest. finish_run Hrest.
    split; [exact Hfetch|].
    intros resp [= <-]. exists code, b. split; [reflexivity | intros _; exact Hb].
  - destruct Hrest as [-> ->]. split; assumption.
Qed.

(** C3.  Every orchestrator fetches results at most once, and does so
    exactly when the last status it observed is SUCCEEDED (never after a
    timeout, FAILED or CANCELLED); a result or response whose state is
    not SUCCEEDED holds no rows.  [execute_athena_query] and
    [execute_query] return a result for SUCCEEDED only; the handler of
    [index.py] answers FAILED and CANCELLED with a body without rows. *)
Theorem C3_rows_only_after_success :
  forall (E : Engine) (R : runtime) (cfg : config) (environ : Dict.dict string)
         (fuel : nat) (w : world),
    (forall query database output d max_rows,
        let run := AthenaQuery.execute_athena_query E cfg fuel query database
                     output d max_rows w in
        fetched_iff_succeeded E w (snd run)
        /\ forall result, fst run = Return result -> rows_only_if_succeeded result)
    /\ (forall query database output d max_rows,
        let run := LambdaEnhanced.execute_query E cfg fuel query database
                     output d max_rows w in
        fetched_iff_succeeded E w (snd run)
        /\ forall result, fst run = Return result -> rows_only_if_succeeded result)
    /\ (forall event context,
        let run := Index.handler E R environ fuel event context w in
        fetched_iff_succeeded E w (snd run)
        /\ forall resp, fst run = Return resp ->
             exists code b, resp = Index.format_response R code (JObj b)
                            /\ rows_only_if_succeeded b).
Proof.
  intros E R cfg environ fuel w. split; [|split].
  - intros query database output d max_rows run. subst run.
    destruct (AthenaQuery.execute_athena_query E cfg fuel query database output
                d max_rows w) as [r w'] eqn:Hrun.
    destruct (athena_execute_fetch _ _ _ _ _ _ _ _ _ _ _ Hrun) as [Hf Hs].
    split; [exact Hf|]. intros result Hres Hne. exfalso. apply Hne.
    apply Hs. exact Hres.
  - intros query database output d max_rows run. subst run.
    destruct (LambdaEnhanced.execute_query E cfg fuel query database output
                d max_rows w) as [r w'] eqn:Hrun.
    destruct (enhanced_execute_fetch _ _ _ _ _ _ _ _ _ _ _ Hrun) as [Hf Hs].
    split; [exact Hf|]. intros result Hres Hne. exfalso. apply Hne.
    apply Hs. exact Hres.
  - intros event context run. subst run.
    destruct (Index.handler E R environ fuel event context w) as [r w'] eqn:Hrun.
    exact (index_handler_fetch _ _ _ _ _ _ _ _ _ Hrun).
Qed.

(** ** The matcher finds exactly the substrings the patterns describe *)

Module RegexFacts.
Import Regex.

Lemma app_nil_r (s : string) : (s ++ EmptyString)%string = s.
Proof. induction s as [|c s IH]; cbn; [reflexivity | rewrite IH; reflexivity]. Qed.

Lemma app_assoc (a b c : string) :
  ((a ++ b) ++ c)%string = (a ++ (b ++ c))%string.
Proof. induction a as [|x a IH]; cbn; [reflexivity | rewrite IH; reflexivity]. Qed.

Lemma app_eq_nil (a b : string) :
  (a ++ b)%string = EmptyString -> a = EmptyString /\ b = EmptyString.
Proof. destruct a; cbn; [intros ->; split; reflexivity | discriminate]. Qed.

Lemma seq_inv (r1 r2 : regex) (s : string) :
  matches (Seq r1 r2) s ->
  exists s1 s2, s = (s1 ++ s2)%string /\ matches r1 s1 /\ matches r2 s2.
Proof. intro H. inversion H; subst. do 2 eexists. repeat split; eassumption. Qed.

Lemma nullable_spec (r : regex) : nullable r = true <-> matches r EmptyString.
Proof.
  induction r as [| |a| | |r1 IH1 r2 IH2|r1 IH1 r2 IH2|r IH]; cbn [nullable].
  - split; [discriminate | intro H; inversion H].
  - split; [intros _; constructor | reflexivity].
  - split; [discriminate | intro H; inversion H].
  - split; [discriminate | intro H; inversion H].
  - split; [discriminate | intro H; inversion H].
  - rewrite andb_true_iff, IH1, IH2. split.
    + intros [H1 H2]. exact (m_seq _ _ _ _ H1 H2).
    + intro H. destruct (seq_inv _ _ _ H) as (s1 & s2 & Heq & H1 & H2).
      symmetry in Heq. destruct (app_eq_nil _ _ Heq) as [-> ->].
      split; assumption.
  - rewrite orb_true_iff, IH1, IH2. split.
    + intros [H|H]; [apply m_alt_l | apply m_alt_r]; exact H.
    + intro H. inversion H; subst; [left | right]; assumption.
  - split; [intros _; constructor | reflexivity].
Qed.

(** A non-empty match of [r*] starts with a non-empty match of [r]. *)
Lemma star_cons_inv (r : regex) (s : string) :
  matches (Star r) s ->
  forall c s', s = String c s' ->
  exists s1 s2, s' = (s1 ++ s2)%string
                /\ matches r (String c s1) /\ matches (Star r) s2.
Proof.
  intro H. remember (Star r) as r' eqn:Hr.
  induction H as [| | | | | | | |r0 s1 s2 H1 _ H2 IH2]; try discriminate Hr.
  - intros c s' Heq. discriminate Heq.
  - injection Hr as ->. intros c s' Heq.
    destruct s1 as [|c1 s1].
    + cbn in Heq. exact (IH2 eq_refl c s' Heq).
    + cbn in Heq. injection Heq as -> <-.
      exists s1, s2. repeat split; assumption.
Qed.

Lemma deriv_spec (r : regex) :
  forall c s, matches (deriv c r) s <-> matches r (String c s).
Proof.
  induction r as [| |a| | |r1 IH1 r2 IH2|r1 IH1 r2 IH2|r IH];
    intros c s; cbn [deriv].
  - split; intro H; inversion H.
  - split; intro H; inversion H.
  - destruct (ci_eqb a c) eqn:Hc; split; intro H; inversion H; subst.
    + constructor. exact Hc.
    + constructor.
    + congruence.
  - destruct (Ascii.eqb c newline) eqn:Hc; split; intro H; inversion H; subst.
    + congruence.
    + constructor. exact Hc.
    + constructor.
  - destruct (Py.isspace c) eqn:Hc; split; intro H; inversion H; subst.
    + constructor. exact Hc.
    + constructor.
    + congruence.
  - assert (Hseq : matches (Seq (deriv c r1) r2) s ->
                   matches (Seq r1 r2) (String c s)).
    { intro H. destruct (seq_inv _ _ _ H) as (s1 & s2 & -> & H1 & H2).
      apply IH1 in H1. exact (m_seq _ _ _ _ H1 H2). }
    assert (Hinv : matches (Seq r1 r2) (String c s) ->
                   matches (Seq (deriv c r1) r2) s
                   \/ (matches r1 EmptyString /\ matches r2 (String c s))).
    { intro H. destruct (seq_inv _ _ _ H) as (s1 & s2 & Heq & H1 & H2).
      destruct s1 as [|c1 s1]; cbn in Heq.
      - right. subst s2. split; assumption.
      - injection Heq as <- ->. left.
        apply (m_seq _ _ _ _ (proj2 (IH1 _ _) H1) H2). }
    destruct (nullable r1) eqn:Hn.
    + split.
      * intro H. inversion H; subst; [apply Hseq; assumption|].
        apply (m_seq r1 r2 EmptyString (String c s)).
        -- apply nullable_spec. exact Hn.
        -- apply IH2. assumption.
      * intro H. destruct (Hinv H) as [H1|[_ H2]].
        -- apply m_alt_l. exact H1.
        -- apply m_alt_r. apply IH2. exact H2.
    + split; [exact Hseq|].
      intro H. destruct (Hinv H) as [H1|[H1 _]]; [exact H1|].
      apply nullable_spec in H1. congruence.
  - split; intro H; inversion H; subst.
    + apply m_alt_l. apply IH1. assumption.
    + apply m_alt_r. apply IH2. assumption.
    + apply m_alt_l. apply IH1. assumption.
    + apply m_alt_r. apply IH2. assumption.
  - split.
    + intro H. destruct (seq_inv _ _ _ H) as (s1 & s2 & -> & H1 & H2).
      apply IH in H1.
      exact (m_star_cons r (String c s1) s2 H1 H2).
    + intro H. destruct (star_cons_inv r _ H c s eq_refl) as (s1 & s2 & -> & H1 & H2).
      apply m_seq; [apply IH; exact H1 | exact H2].
Qed.

Lemma match_prefix_spec (s : string) :
  forall r, match_prefix r s = true <->
            exists m post, s = (m ++ post)%string /\ matches r m.
Proof.
  induction s as [|c s IH]; intro r; cbn [match_prefix].
  - rewrite orb_false_r, nullable_spec. split.
    + intro H. exists EmptyString, EmptyString. split; [reflexivity | exact H].
    + intros (m & post & Heq & H). symmetry in Heq.
      destruct (app_eq_nil _ _ Heq) as [-> _]. exact H.
  - rewrite orb_true_iff, nullable_spec, IH. split.
    + intros [H|(m & post & -> & H)].
      * exists EmptyString, (String c s). split; [reflexivity | exact H].
      * exists (String c m), post. split; [reflexivity|].
        apply deriv_spec. exact H.
    + intros (m & post & Heq & H). destruct m as [|c' m]; cbn in Heq.
      * left. exact H.
      * injection Heq as <- ->. right. exists m, post.
        split; [reflexivity|]. apply deriv_spec. exact H.
Qed.

(** [re.search] succeeds exactly when the text holds a match. *)
Lemma search_spec (r : regex) (s : string) :
  search r s = true <-> found r s.
Proof.
  unfold found. induction s as [|c s IH]; cbn [search].
  - rewrite orb_false_r, match_prefix_spec. split.
    + intros (m & post & Heq & H). exists EmptyString, m, post.
      split; [exact Heq | exact H].
    + intros (pre & m & post & Heq & H). symmetry in Heq.
      destruct (app_eq_nil _ _ Heq) as [-> Heq'].
      exists m, post. split; [symmetry; exact Heq' | exact H].
  - rewrite orb_true_iff, match_prefix_spec, IH. split.
    + intros [(m & post & Heq & H)|(pre & m & post & -> & H)].
      * exists EmptyString, m, post. split; [exact Heq | exact H].
      * exists (String c pre), m, post. split; [reflexivity | exact H].
    + intros (pre & m & post & Heq & H). destruct pre as [|c' pre]; cbn in Heq.
      * left. exists m, post. split; [exact Heq | exact H].
      * injection Heq as <- ->. right. exists pre, m, post.
        split; [reflexivity | exact H].
Qed.
End RegexFacts.

(** ** Validation *)

Lemma validate_query_with_spec (patterns : list pattern) (q : string) :
  (fst (validate_query_with patterns (JStr q)) = false <-> rejected_text patterns q)
  /\ (q <> EmptyString -> (Py.len (Py.strip q) <= 262144)%Z ->
      offending patterns q ->
      exists p, In p patterns /\ Regex.found (snd p) (Py.strip q)
                /\ snd (validate_query_with patterns (JStr q))
                   = ("Query contains disallowed pattern: " ++ fst p)%string).
Proof.
  unfold validate_query_with, rejected_text, offending.
  destruct (String.eqb_spec q EmptyString) as [->|Hne].
  { split; [split; [intros _; left; reflexivity | reflexivity]|].
    intro H; contradiction H; reflexivity. }
  cbv zeta.
  destruct (Py.len (Py.strip q) >? 262144)%Z eqn:Hlen.
  { apply Z.gtb_lt in Hlen.
    split; [split; [intros _; right; left; exact Hlen | reflexivity]|].
    intros _ H. lia. }
  assert (Hle : (Py.len (Py.strip q) <= 262144)%Z).
  { destruct (Z.gtb_spec (Py.len (Py.strip q)) 262144); [discriminate | assumption]. }
  destruct (find (fun p : pattern => Regex.search (snd p) (Py.strip q)) patterns)
    as [p|] eqn:Hfind.
  - apply find_some in Hfind. destruct Hfind as [Hin Hs].
    apply RegexFacts.search_spec in Hs.
    split.
    + split; [intros _; right; right; exists p; split; assumption | reflexivity].
    + intros _ _ _. exists p. repeat split; assumption.
  - split.
    + split; [discriminate|].
      intros [H|[H|(p & Hin & Hf)]]; [contradiction | lia |].
      apply RegexFacts.search_spec in Hf.
      pose proof (find_none _ _ Hfind p Hin) as Hn. cbn beta in Hn. congruence.
    + intros _ _ (p & Hin & Hf).
      apply RegexFacts.search_spec in Hf.
      pose proof (find_none _ _ Hfind p Hin) as Hn. cbn beta in Hn. congruence.
Qed.

Lemma validate_query_with_false (patterns : list pattern) (q : string) :
  rejected_text patterns q ->
  validate_query_with patterns (JStr q)
  = (false, snd (validate_query_with patterns (JStr q))).
Proof.
  intro H. apply (proj1 (validate_query_with_spec patterns q)) in H.
  destruct (validate_query_with patterns (JStr q)) as [b m].
  cbn in H |- *. rewrite H. reflexivity.
Qed.

Lemma in_range (z : Z) :
  (1 <= z <= 900)%Z -> ((z <? 1) || (z >? 900))%Z = false.
Proof.
  intro H. apply orb_false_iff. split; [apply Z.ltb_ge; lia|].
  rewrite Z.gtb_ltb. apply Z.ltb_ge; lia.
Qed.

Lemma py_int_deadline (default : Z) (body : Dict.dict json) :
  int_or_absent "maxWaitTime" body = true ->
  py_int (match Dict.get "maxWaitTime" body with
          | Some v => v
          | None => JInt default
          end) = ret (deadline_of default body).
Proof.
  unfold int_or_absent, deadline_of.
  destruct (Dict.get "maxWaitTime" body) as [[| | z | | |]|];
    try discriminate; reflexivity.
Qed.

Lemma index_env_ok environ name value w :
  Dict.get name environ = Some value -> value <> EmptyString ->
  Index.validate_env_var environ name w = (Return value, w).
Proof.
  intros Hget Hne. unfold Index.validate_env_var. rewrite Hget.
  replace (String.eqb value EmptyString) with false
    by (symmetry; apply String.eqb_neq; exact Hne).
  reflexivity.
Qed.

Lemma index_env_present environ name w :
  Environment.truthy_str (Dict.get name environ) = true ->
  exists v, Dict.get name environ = Some v /\ v <> EmptyString
            /\ Index.validate_env_var environ name w = (Return v, w).
Proof.
  unfold Environment.truthy_str.
  destruct (Dict.get name environ) as [v|] eqn:Hget; [|discriminate].
  intro H. apply negb_true_iff, String.eqb_neq in H.
  exists v. split; [reflexivity|]. split; [exact H|].
  exact (index_env_ok environ name v w Hget H).
Qed.

(** [find] returns the first element that passes the test. *)
Lemma find_first {A} (f : A -> bool) (l : list A) (x : A) :
  find f l = Some x ->
  exists before after,
    l = before ++ x :: after /\ f x = true
    /\ forall y, In y before -> f y = false.
Proof.
  induction l as [|a l IH]; [discriminate|].
  cbn [find]. destruct (f a) eqn:Hfa.
  - intros [= ->]. exists [], l. repeat split; [exact Hfa|]. intros y [].
  - intro H. destruct (IH H) as (before & after & -> & Hx & Hb).
    exists (a :: before), after. repeat split; [exact Hx|].
    intros y [<-|Hy]; [exact Hfa | exact (Hb y Hy)].
Qed.

(** The message of a refusal for a pattern names the first pattern of
    the list that matches the stripped text. *)
Lemma validate_query_with_first (patterns : list pattern) (q : string) :
  q <> EmptyString -> (Py.len (Py.strip q) <= 262144)%Z ->
  offending patterns q ->
  exists p, first_match patterns (Py.strip q) p
            /\ validate_query_with patterns (JStr q)
               = (false, ("Query contains disallowed pattern: " ++ fst p)%string).
Proof.
  intros Hne Hlen (p0 & Hin0 & Hf0).
  unfold validate_query_with.
  replace (String.eqb q EmptyString) with false
    by (symmetry; apply String.eqb_neq; exact Hne).
  cbv zeta.
  replace (Py.len (Py.strip q) >? 262144)%Z with false
    by (symmetry; rewrite Z.gtb_ltb; apply Z.ltb_ge; exact Hlen).
  destruct (find (fun p : pattern => Regex.search (snd p) (Py.strip q)) patterns)
    as [p|] eqn:Hfind.
  - destruct (find_first _ _ _ Hfind) as (before & after & Hl & Hp & Hb).
    exists p. split; [|reflexivity].
    exists before, after. split; [exact Hl|].
    split; [apply RegexFacts.search_spec; exact Hp|].
    intros p' Hin Hf. apply RegexFacts.search_spec in Hf.
    rewrite (Hb p' Hin) in Hf. discriminate.
  - apply RegexFacts.search_spec in Hf0.
    pose proof (find_none _ _ Hfind p0 Hin0) as Hn. cbn beta in Hn. congruence.
Qed.

(** ** The text checks of [index.py] *)

Lemma index_body_read R (event body : Dict.dict json) :
  carries_body R event body ->
  match Dict.get "body" event with
  | Some (JStr s) => loads R s
  | Some b => ret b
  | None => ret (JObj [])
  end = ret (JObj body).
Proof.
  intros [H|(s & H & Hs)]; rewrite H; [reflexivity|].
  unfold loads. rewrite Hs. reflexivity.
Qed.

Lemma index_handler_except_world R e w :
  snd (Index.handler_except R e w) = w.
Proof.
  destruct (index_handler_except_run R e w) as (code & b & H & _).
  rewrite H. reflexivity.
Qed.

(** With its environment set and an integer [maxWaitTime], [index.py]
    answers a text that is empty or too long after [strip()] with
    [index_refusal]. *)
Lemma index_refusal_exact E R environ fuel event context body q w :
  carries_body R event body ->
  Dict.get "query" body = Some (JStr q) ->
  Py.strip q = EmptyString \/ (262144 < Py.len (Py.strip q))%Z ->
  Environment.truthy_str (Dict.get "DATABASE_NAME" environ) = true ->
  Environment.truthy_str (Dict.get "S3_BUCKET" environ) = true ->
  int_or_absent "maxWaitTime" body = true ->
  Index.handler E R environ fuel event context w
  = (Return (index_refusal R (Py.strip q)), w).
Proof.
  intros Hbody Hq Hbad Hdb Hbk Hint.
  destruct (index_env_present environ "DATABASE_NAME" w Hdb) as (db & _ & _ & Hdb').
  destruct (index_env_present environ "S3_BUCKET" w Hbk) as (bk & _ & _ & Hbk').
  unfold Index.handler, try_except, Index.handler_try.
  unfold bind at 1. rewrite Hdb'.
  unfold bind at 1. rewrite Hbk'.
  cbv zeta. rewrite (index_body_read R event body Hbody).
  cbv beta iota zeta delta [bind ret py_get py_strip].
  rewrite Hq. rewrite (py_int_deadline _ body Hint). cbv beta iota delta [ret].
  unfold index_refusal.
  destruct (String.eqb (Py.strip q) EmptyString) eqn:Hempty; [reflexivity|].
  destruct Hbad as [Hbad|Hbad].
  { rewrite Hbad in Hempty. discriminate. }
  replace (Py.len (Py.strip q) >? 262144)%Z with true
    by (symmetry; rewrite Z.gtb_ltb; apply Z.ltb_lt; exact Hbad).
  reflexivity.
Qed.

(** Whatever the state of the environment and of [maxWaitTime], a
    text that is empty or too long after [strip()] ends the request
    without an engine call and without success. *)
Lemma index_refuses_text E R environ fuel event context body q w :
  carries_body R event body ->
  Dict.get "query" body = Some (JStr q) ->
  Py.strip q = EmptyString \/ (262144 < Py.len (Py.strip q))%Z ->
  exists resp,
    Index.handler E R environ fuel event context w = (Return resp, w)
    /\ statusCode resp <> 200%Z.
Proof.
  intros Hbody Hq Hbad.
  unfold Index.handler, try_except.
  assert (Hex : forall e, exists resp,
             Index.handler_except R e w = (Return resp, w) /\ statusCode resp <> 200%Z).
  { intro e. unfold Index.handler_except.
    destruct (isinstance e CTimeoutError).
    { eexists. split; [reflexivity | discriminate]. }
    destruct e; cbn [isinstance];
      try (eexists; split; [reflexivity | discriminate]).
    unfold Index.client_error_status.
    repeat match goal with
           | |- context [if ?b then _ else _] => destruct b
           end; eexists; (split; [reflexivity | discriminate]). }
  destruct (Index.handler_try E R environ fuel event w) as [r w'] eqn:Hrun.
  unfold Index.handler_try in Hrun.
  apply bind_pure_inv in Hrun; [|apply pure_validate_env_var].
  destruct Hrun as [(database & _ & Hrun)|(e & -> & ->)]; [|apply Hex].
  apply bind_pure_inv in Hrun; [|apply pure_validate_env_var].
  destruct Hrun as [(bucket & _ & Hrun)|(e & -> & ->)]; [|apply Hex].
  cbv zeta in Hrun. rewrite (index_body_read R event body Hbody) in Hrun.
  unfold bind at 1 in Hrun. unfold ret at 1 in Hrun.
  unfold bind at 1 in Hrun. unfold py_get at 1 in Hrun. rewrite Hq in Hrun.
  unfold ret at 1 in Hrun.
  unfold bind at 1 in Hrun. unfold py_strip at 1, ret at 1 in Hrun.
  apply bind_pure_inv in Hrun; [|apply pure_py_get].
  destruct Hrun as [(mw & _ & Hrun)|(e & -> & ->)]; [|apply Hex].
  apply bind_pure_inv in Hrun; [|apply pure_py_int].
  destruct Hrun as [(max_wait_time & _ & Hrun)|(e & -> & ->)]; [|apply Hex].
  destruct Hbad as [Hbad|Hbad].
  - rewrite Hbad in Hrun. cbn [String.eqb] in Hrun. unfold ret in Hrun.
    inversion Hrun; subst. eexists. split; [reflexivity | discriminate].
  - destruct (String.eqb (Py.strip q) EmptyString).
    { unfold ret in Hrun. inversion Hrun; subst.
      eexists. split; [reflexivity | discriminate]. }
    replace (Py.len (Py.strip q) >? 262144)%Z with true in Hrun
      by (symmetry; apply Z.gtb_lt; exact Hbad).
    unfold ret in Hrun. inversion Hrun; subst.
    eexists. split; [reflexivity | discriminate].
Qed.

(** Every other text is handed to the engine, stripped, whatever it
    holds: [index.py] has no deny-list. *)
Lemma index_submits_text E R environ fuel event context body q w :
  carries_body R event body ->
  Dict.get "query" body = Some (JStr q) ->
  Py.strip q <> EmptyString -> (Py.len (Py.strip q) <= 262144)%Z ->
  Environment.truthy_str (Dict.get "DATABASE_NAME" environ) = true ->
  Environment.truthy_str (Dict.get "S3_BUCKET" environ) = true ->
  int_or_absent "maxWaitTime" body = true ->
  (1 <= deadline_of 60 body <= 900)%Z ->
  submitted (snd (Index.handler E R environ fuel event context w))
  = Py.strip q :: submitted w.
Proof.
  intros Hbody Hq Hne Hlen Hdb Hbk Hint Hz.
  destruct (index_env_present environ "DATABASE_NAME" w Hdb) as (db & _ & _ & Hdb').
  destruct (index_env_present environ "S3_BUCKET" w Hbk) as (bk & _ & _ & Hbk').
  unfold Index.handler, try_except.
  destruct (Index.handler_try E R environ fuel event w) as [r w'] eqn:Hrun.
  assert (Hw : submitted w' = Py.strip q :: submitted w).
  { unfold Index.handler_try in Hrun.
    unfold bind at 1 in Hrun. rewrite Hdb' in Hrun.
    unfold bind at 1 in Hrun. rewrite Hbk' in Hrun.
    cbv zeta in Hrun. rewrite (index_body_read R event body Hbody) in Hrun.
    unfold bind at 1 in Hrun. unfold ret at 1 in Hrun.
    unfold bind at 1 in Hrun. unfold py_get at 1 in Hrun. rewrite Hq in Hrun.
    unfold ret at 1 in Hrun.
    unfold bind at 1 in Hrun. unfold py_strip at 1, ret at 1 in Hrun.
    unfold bind at 1 in Hrun. unfold py_get at 1, ret at 1 in Hrun.
    unfold bind at 1 in Hrun.
    rewrite (py_int_deadline _ body Hint) in Hrun. unfold ret at 1 in Hrun.
    replace (String.eqb (Py.strip q) EmptyString) with false in Hrun
      by (symmetry; apply String.eqb_neq; exact Hne).
    replace (Py.len (Py.strip q) >? 262144)%Z with false in Hrun
      by (symmetry; rewrite Z.gtb_ltb; apply Z.ltb_ge; exact Hlen).
    rewrite (in_range _ Hz) in Hrun.
    apply bind_inv in Hrun. destruct Hrun as (r1 & w1 & Hstart & Hrun).
    assert (H1 : submitted w1 = Py.strip q :: submitted w).
    { unfold client_start_query_execution in Hstart.
      destruct (on_start E (n_start w)); inversion Hstart; reflexivity. }
    destruct r1 as [id|e|]; [|destruct Hrun as [_ ->]; exact H1
                             |destruct Hrun as [_ ->]; exact H1].
    apply bind_inv in Hrun. destruct Hrun as (r2 & w2 & Hpoll & Hrun).
    apply index_poller_frame in Hpoll. destruct Hpoll as (H2 & _).
    destruct r2 as [st|e|]; [|destruct Hrun as [_ ->]; congruence
                             |destruct Hrun as [_ ->]; congruence].
    assert (Hfetch : forall k : results -> M response,
               (forall res w0, snd (k res w0) = w0) ->
               bind (Index.get_query_results E id) k w2 = (r, w') ->
               submitted w' = submitted w2).
    { intros k Hk Hb. apply bind_inv in Hb. destruct Hb as (r3 & w3 & Hres & Hb).
      destruct (index_get_query_results_run E id w2) as [r0 H0].
      rewrite H0 in Hres. injection Hres as <- Hw3.
      assert (H3 : submitted w3 = submitted w2) by (rewrite <- Hw3; reflexivity).
      destruct r0 as [res|e|]; [|destruct Hb as [_ ->]; exact H3
                                |destruct Hb as [_ ->]; exact H3].
      pose proof (Hk res w3) as Hk'. rewrite Hb in Hk'. cbn [snd] in Hk'.
      subst w'. exact H3. }
    destruct (State_ st);
      try (unfold ret in Hrun; inversion Hrun; subst; congruence);
      (apply Hfetch in Hrun; [congruence | intros; reflexivity]). }
  destruct r as [resp|e|]; cbn [snd]; try exact Hw.
  rewrite index_handler_except_world. exact Hw.
Qed.

(** C4 (amended).  [validate_query] rejects a text exactly when it is
    empty or, after [strip()], is longer than 262144 characters or holds
    a match of a deny-list pattern (case-insensitive); the orchestrator
    then raises [ValueError] without any engine call, and for a pattern
    the message names the first pattern of the list that matches.  The
    list of [lambda_enhanced.py] has the ten patterns; the list of
    [athena_query.py] has the first nine (no [EXEC\s+]).  The handler of
    [index.py] has no deny-list: it refuses, without submitting, the
    texts that after [strip()] are empty or longer than 262144
    characters, and only these: once its environment and [maxWaitTime]
    are in order it hands every other text to the engine, stripped. *)
Theorem C4_validation_rejects_before_submission :
  forall (q : string),
    (map fst LambdaEnhanced.dangerous_patterns
     = [ ";.*--"; "DROP\s+DATABASE"; "DROP\s+TABLE.*CASCADE"; "TRUNCATE\s+";
         "GRANT\s+"; "REVOKE\s+"; "ALTER\s+SYSTEM"; "CREATE\s+ROLE";
         "EXECUTE\s+AS"; "EXEC\s+" ]%string
     /\ LambdaEnhanced.dangerous_patterns
        = AthenaQuery.dangerous_patterns ++ [word_space "EXEC\s+" "EXEC"])
    /\ (rejected_text LambdaEnhanced.dangerous_patterns q ->
        fst (LambdaEnhanced.validate_query (JStr q)) = false
        /\ (forall E cfg fuel database output d max_rows w,
               LambdaEnhanced.execute_query E cfg fuel (JStr q) database output
                 d max_rows w
               = (Raise (ValueError (snd (LambdaEnhanced.validate_query (JStr q)))), w))
        /\ (q <> EmptyString -> (Py.len (Py.strip q) <= 262144)%Z ->
            exists p, first_match LambdaEnhanced.dangerous_patterns (Py.strip q) p
                      /\ snd (LambdaEnhanced.validate_query (JStr q))
                         = ("Query contains disallowed pattern: " ++ fst p)%string))
    /\ (rejected_text AthenaQuery.dangerous_patterns q ->
        fst (AthenaQuery.validate_query (JStr q)) = false
        /\ (forall E cfg fuel database output d max_rows w,
               AthenaQuery.execute_athena_query E cfg fuel q database output
                 d max_rows w
               = (Raise (ValueError (snd (AthenaQuery.validate_query (JStr q)))), w))
        /\ (q <> EmptyString -> (Py.len (Py.strip q) <= 262144)%Z ->
            exists p, first_match AthenaQuery.dangerous_patterns (Py.strip q) p
                      /\ snd (AthenaQuery.validate_query (JStr q))
                         = ("Query contains disallowed pattern: " ++ fst p)%string))
    /\ (Py.strip q = EmptyString \/ (262144 < Py.len (Py.strip q))%Z ->
        forall E R environ fuel event context body w,
          carries_body R event body ->
          Dict.get "query" body = Some (JStr q) ->
          (exists resp,
              Index.handler E R environ fuel event context w = (Return resp, w)
              /\ statusCode resp <> 200%Z)
          /\ (Environment.truthy_str (Dict.get "DATABASE_NAME" environ) = true ->
              Environment.truthy_str (Dict.get "S3_BUCKET" environ) = true ->
              int_or_absent "maxWaitTime" body = true ->
              Index.handler E R environ fuel event context w
              = (Return (index_refusal R (Py.strip q)), w)))
    /\ (Py.strip q <> EmptyString -> (Py.len (Py.strip q) <= 262144)%Z ->
        forall E R environ fuel event context body w,
          carries_body R event body ->
          Dict.get "query" body = Some (JStr q) ->
          Environment.truthy_str (Dict.get "DATABASE_NAME" environ) = true ->
          Environment.truthy_str (Dict.get "S3_BUCKET" environ) = true ->
          int_or_absent "maxWaitTime" body = true ->
          (1 <= deadline_of 60 body <= 900)%Z ->
          submitted (snd (Index.handler E R environ fuel event context w))
          = Py.strip q :: submitted w)
    /\ (fst (LambdaEnhanced.validate_query (JStr q)) = false
        -> rejected_text LambdaEnhanced.dangerous_patterns q)
    /\ (fst (AthenaQuery.validate_query (JStr q)) = false
        -> rejected_text AthenaQuery.dangerous_patterns q).
Proof.
  intro q.
  assert (Hmsg : forall patterns,
             rejected_text patterns q ->
             q <> EmptyString -> (Py.len (Py.strip q) <= 262144)%Z ->
             exists p, first_match patterns (Py.strip q) p
                       /\ snd (validate_query_with patterns (JStr q))
                          = ("Query contains disallowed pattern: " ++ fst p)%string).
  { intros patterns Hrej Hne Hlen.
    destruct (validate_query_with_first patterns q Hne Hlen) as (p & Hp & Hv).
    - destruct Hrej as [H|[H|H]]; [contradiction | lia | exact H].
    - exists p. split; [exact Hp|]. rewrite Hv. reflexivity. }
  split; [split; reflexivity|].
  split; [|split; [|split; [|split; [|split]]]].
  - intro Hrej.
    pose proof (validate_query_with_false _ _ Hrej) as Hv.
    split; [apply validate_query_with_spec; exact Hrej|].
    split; [|apply Hmsg; exact Hrej].
    intros. unfold LambdaEnhanced.execute_query, LambdaEnhanced.validate_query.
    rewrite Hv. reflexivity.
  - intro Hrej.
    pose proof (validate_query_with_false _ _ Hrej) as Hv.
    split; [apply validate_query_with_spec; exact Hrej|].
    split; [|apply Hmsg; exact Hrej].
    intros. unfold AthenaQuery.execute_athena_query, AthenaQuery.validate_query.
    rewrite Hv. reflexivity.
  - intros Hbad E R environ fuel event context body w Hbody Hq. split.
    + exact (index_refuses_text E R environ fuel event context body q w
               Hbody Hq Hbad).
    + intros Hdb Hbk Hint.
      exact (index_refusal_exact E R environ fuel event context body q w
               Hbody Hq Hbad Hdb Hbk Hint).
  - intros Hne Hlen E R environ fuel event context body w Hbody Hq Hdb Hbk Hint Hz.
    exact (index_submits_text E R environ fuel event context body q w
             Hbody Hq Hne Hlen Hdb Hbk Hint Hz).
  - apply validate_query_with_spec.
  - apply validate_query_with_spec.
Qed.

Lemma C4_validation_rejects_before_submission_witness :
  rejected_text LambdaEnhanced.dangerous_patterns "SELECT 1; DROP DATABASE x --"
  /\ "SELECT 1; DROP DATABASE x --"%string <> EmptyString
  /\ (Py.len (Py.strip "SELECT 1; DROP DATABASE x --") <= 262144)%Z
  /\ fst (LambdaEnhanced.validate_query (JStr "SELECT 1; DROP DATABASE x --")) = false
  /\ (exists p,
         first_match LambdaEnhanced.dangerous_patterns
                     (Py.strip "SELECT 1; DROP DATABASE x --") p
         /\ snd (LambdaEnhanced.validate_query (JStr "SELECT 1; DROP DATABASE x --"))
            = ("Query contains disallowed pattern: " ++ fst p)%string)
  /\ LambdaEnhanced.validate_query (JStr "SELECT 1; DROP DATABASE x --")
     = (false, "Query contains disallowed pattern: ;.*--"%string).
Proof.
  assert (H : rejected_text LambdaEnhanced.dangerous_patterns
                            "SELECT 1; DROP DATABASE x --").
  { right. right. exists (two_words "DROP\s+DATABASE" "DROP" "DATABASE").
    split; [right; left; reflexivity|].
    apply RegexFacts.search_spec. vm_compute. reflexivity. }
  assert (Hne : "SELECT 1; DROP DATABASE x --"%string <> EmptyString) by discriminate.
  assert (Hlen : (Py.len (Py.strip "SELECT 1; DROP DATABASE x --") <= 262144)%Z)
    by (vm_compute; discriminate).
  split; [exact H|]. split; [exact Hne|]. split; [exact Hlen|].
  destruct (proj1 (proj2 (C4_validation_rejects_before_submission
                            "SELECT 1; DROP DATABASE x --")) H) as (Hv & _ & Hm).
  split; [exact Hv|]. split; [exact (Hm Hne Hlen)|].
  vm_compute. reflexivity.
Defined.

(** C4 as stated fails: [athena_query.py] accepts and submits a text
    that matches the exec pattern; the handler of [index.py] submits a
    text that matches the drop-database pattern; and a text that
    matches [TRUNCATE\s+] only through its trailing blank is stripped
    before the patterns are tried, accepted and submitted as typed. *)
Lemma C4_counterexample :
  (Regex.found (snd (word_space "EXEC\s+" "EXEC")) "EXEC sp_who"
   /\ AthenaQuery.validate_query (JStr "EXEC sp_who") = (true, EmptyString)
   /\ submitted (snd (AthenaQuery.execute_athena_query always_running test_config 4
                        "EXEC sp_who" JNull JNull 2 1000 initial_world))
      = ["EXEC sp_who"])
  /\ (Regex.found (snd (two_words "DROP\s+DATABASE" "DROP" "DATABASE"))
                  "DROP DATABASE x"
      /\ submitted (snd (Index.handler always_running test_runtime test_environ 4
                           (request "POST" "/query"
                              [("query", JStr "DROP DATABASE x");
                               ("maxWaitTime", JInt 2)])
                           None initial_world))
         = ["DROP DATABASE x"])
  /\ (Regex.found (snd (word_space "TRUNCATE\s+" "TRUNCATE")) "TRUNCATE "
      /\ LambdaEnhanced.validate_query (JStr "TRUNCATE ") = (true, EmptyString)
      /\ submitted (snd (LambdaEnhanced.execute_query always_running test_config 4
                           (JStr "TRUNCATE ") JNull JNull 2 1000 initial_world))
         = ["TRUNCATE "]).
Proof.
  repeat split;
    try (apply RegexFacts.search_spec); vm_compute; reflexivity.
Qed.

(** ** Dictionaries and the row loops *)

Module DictFacts.
Section Facts.
Variable V : Type.
Implicit Types (d : Dict.dict V) (k : string) (v : V).

Lemma get_set k k' v d :
  Dict.get k (Dict.set k' v d)
  = if String.eqb k k' then Some v else Dict.get k d.
Proof.
  induction d as [|[k0 v0] d IH]; cbn [Dict.set Dict.get].
  - reflexivity.
  - destruct (String.eqb_spec k' k0) as [->|Hne]; cbn [Dict.get].
    + destruct (String.eqb k k0); reflexivity.
    + rewrite IH. destruct (String.eqb_spec k k0) as [->|Hne'].
      * destruct (String.eqb_spec k0 k') as [->|_]; [contradiction Hne|];
          reflexivity.
      * reflexivity.
Qed.

Lemma mem_set k k' v d :
  Dict.mem k (Dict.set k' v d) = String.eqb k k' || Dict.mem k d.
Proof.
  unfold Dict.mem. rewrite get_set.
  destruct (String.eqb k k'); reflexivity.
Qed.

Lemma set_fresh k v d :
  Dict.get k d = None -> Dict.set k v d = d ++ [(k, v)].
Proof.
  induction d as [|[k0 v0] d IH]; cbn [Dict.set Dict.get app]; intro H.
  - reflexivity.
  - destruct (String.eqb k k0); [discriminate|]. rewrite IH by exact H.
    reflexivity.
Qed.

End Facts.
End DictFacts.

Lemma athena_parse_row_keys_from cm :
  forall data n d k,
    Dict.mem k
      (fold_left
         (fun row_dict (ic : nat * Datum) =>
            let (i, col) := ic in
            if (i <? List.length cm)%nat
            then Dict.set (str_item "name" (nth i cm [])) col row_dict
            else row_dict)
         (combine (seq n (List.length data)) data) d) = true
    <-> Dict.mem k d = true
        \/ exists i, (n <= i < n + List.length data)%nat
                     /\ (i < List.length cm)%nat
                     /\ k = str_item "name" (nth i cm []).
Proof.
  induction data as [|x data IH]; intros n d k; cbn [List.length seq combine fold_left].
  - split; [intro H; left; exact H|].
    intros [H|(i & Hi & _)]; [exact H | lia].
  - rewrite IH. split.
    + intros [H|(i & Hi & Hc & Hk)].
      * destruct (Nat.ltb_spec n (List.length cm)) as [Hlt|Hge].
        -- rewrite DictFacts.mem_set, orb_true_iff in H.
           destruct H as [H|H]; [|left; exact H].
           apply String.eqb_eq in H. right. exists n. repeat split; [lia | lia | exact Hlt | exact H].
        -- left. exact H.
      * right. exists i. repeat split; [lia | lia | exact Hc | exact Hk].
    + intros [H|(i & Hi & Hc & Hk)].
      * left. destruct (n <? List.length cm)%nat; [|exact H].
        rewrite DictFacts.mem_set, H. apply orb_true_r.
      * destruct (Nat.eq_dec i n) as [->|Hne].
        -- left. replace (n <? List.length cm)%nat with true
             by (symmetry; apply Nat.ltb_lt; exact Hc).
           rewrite DictFacts.mem_set, Hk, String.eqb_refl. reflexivity.
        -- right. exists i. repeat split; [lia | lia | exact Hc | exact Hk].
Qed.

(** The keys of a parsed row are the names of the columns that have a
    positional value. *)
Lemma athena_parse_row_keys cm data k :
  Dict.mem k (AthenaQuery.parse_row cm data) = true
  <-> exists i, (i < List.length data)%nat /\ (i < List.length cm)%nat
                /\ k = str_item "name" (nth i cm []).
Proof.
  unfold AthenaQuery.parse_row, Py.enumerate.
  rewrite athena_parse_row_keys_from. cbn [Dict.mem Dict.get]. split.
  - intros [H|(i & Hi & Hc & Hk)]; [discriminate|].
    exists i. repeat split; [lia | exact Hc | exact Hk].
  - intros (i & Hi & Hc & Hk). right. exists i.
    repeat split; [lia | lia | exact Hc | exact Hk].
Qed.


Lemma mem_false_get {V} (k : string) (d : Dict.dict V) :
  Dict.mem k d <> true -> Dict.get k d = None.
Proof.
  unfold Dict.mem. destruct (Dict.get k d); [intro H; contradiction H|]; reflexivity.
Qed.

(** ** Result normalization *)




Lemma str_item_name (s : string) (rest : Dict.dict json) :
  str_item "name" (("name", JStr s) :: rest) = s.
Proof. reflexivity. Qed.

(** C6.  For a page whose columns are named [H1] and [H2] and whose
    rows are a header row followed by [[a, b]] and [[c, d]],
    [get_query_results] of [athena_query.py] and of [lambda_enhanced.py]
    drops the header row, pairs the values of each remaining row with the
    column names by position and returns [{H1: a, H2: b}] and
    [{H1: c, H2: d}], with a row count of 2. *)
Theorem C6_header_row_discarded :
  forall (E : Engine) (id : string) (max_rows : Z) (w : world)
         (c1 c2 : ColumnInfo) (H1 H2 : string) (header : list Datum)
         (a b c d : Datum),
    Name c1 = Some H1 -> Name c2 = Some H2 -> H1 <> H2 ->
    on_results E (n_results w) = inr (page_of [c1; c2] header [[a; b]; [c; d]]) ->
    (exists meta w',
        AthenaQuery.get_query_results E id max_rows w
        = (Return {| columnMetadata := meta;
                     rows := [[(H1, a); (H2, b)]; [(H1, c); (H2, d)]];
                     rowCount := Some 2%Z |}, w')
        /\ map (str_item "name") meta = [H1; H2])
    /\ (exists meta w',
        LambdaEnhanced.get_query_results E id max_rows w
        = (Return {| columnMetadata := meta;
                     rows := [[(H1, a); (H2, b)]; [(H1, c); (H2, d)]];
                     rowCount := Some 2%Z |}, w')
        /\ map (str_item "name") meta = [H1; H2]).
Proof.
  intros E id max_rows w c1 c2 H1 H2 header a b c d Hn1 Hn2 Hne Hpage.
  assert (Hneq : String.eqb H2 H1 = false).
  { apply String.eqb_neq. intro H. apply Hne. symmetry. exact H. }
  split.
  - unfold AthenaQuery.get_query_results, bind, client_get_query_results, ret.
    rewrite Hpage. do 2 eexists.
    cbn -[String.eqb str_item]. rewrite Hn1, Hn2. cbn -[String.eqb str_item].
    rewrite !str_item_name. rewrite Hneq. split; reflexivity.
  - unfold LambdaEnhanced.get_query_results, bind, client_get_query_results, ret.
    rewrite Hpage. do 2 eexists.
    cbn -[String.eqb str_item]. rewrite Hn1, Hn2. cbn -[String.eqb str_item].
    rewrite !str_item_name. rewrite Hneq. split; reflexivity.
Qed.

Lemma C6_header_row_discarded_witness :
  let page := page_of [column "H1"; column "H2"] [Some "H1"; Some "H2"]
                      [[Some "a"; Some "b"]; [Some "c"; Some "d"]] in
  Name (column "H1") = Some "H1" /\ Name (column "H2") = Some "H2" /\ "H1" <> "H2"
  /\ on_results (succeeding page) (n_results initial_world) = inr page
  /\ returned_rows (AthenaQuery.get_query_results (succeeding page) "q-1" 1000
                      initial_world)
     = Some [[("H1", Some "a"); ("H2", Some "b")];
             [("H1", Some "c"); ("H2", Some "d")]].
Proof.
  cbv zeta.
  assert (Hne : "H1" <> "H2") by discriminate.
  split; [reflexivity|]. split; [reflexivity|]. split; [exact Hne|].
  split; [reflexivity|].
  destruct (C6_header_row_discarded
              (succeeding (page_of [column "H1"; column "H2"] [Some "H1"; Some "H2"]
                                   [[Some "a"; Some "b"]; [Some "c"; Some "d"]]))
              "q-1" 1000 initial_world (column "H1") (column "H2") "H1" "H2"
              [Some "H1"; Some "H2"] (Some "a") (Some "b") (Some "c") (Some "d")
              eq_refl eq_refl Hne eq_refl)
    as [(meta & w' & Hrun & _) _].
  unfold returned_rows. rewrite Hrun. reflexivity.
Defined.

(** ** Routing in [lambda_enhanced.py] *)

Lemma in_strs_str (p : string) (l : list string) :
  in_strs (JStr p) l = Py.str_in p l.
Proof. reflexivity. Qed.

Lemma routable_max_wait_time cfg body :
  routable_body cfg body = true ->
  exists v z, (1 <= z <= 900)%Z
              /\ py_get (JObj body) "maxWaitTime" (JInt (MAX_WAIT_TIME cfg)) = ret v
              /\ py_int v = ret z.
Proof.
  unfold routable_body, py_get.
  destruct (Dict.get "maxWaitTime" body) as [[| |z| | |]|]; try discriminate.
  - intro H. exists (JInt z), z. split; [lia | split; reflexivity].
  - intro H. exists (JInt (MAX_WAIT_TIME cfg)), (MAX_WAIT_TIME cfg).
    split; [lia | split; reflexivity].
Qed.

Lemma enhanced_handler_try_routing E R cfg fuel m p body w :
  routable_body cfg body = true ->
  (String.eqb m "GET" && Py.str_in p ["/health"; "/health/"]) = false ->
  exists z, (1 <= z <= 900)%Z /\
  LambdaEnhanced.lambda_handler_try E R cfg fuel (request m p body) w =
  let query_type :=
    if Py.startswith "/query/" p
    then JStr (Py.strip (Py.last_piece (Py.split "/query/" p))) else JNull in
  let custom_query := or_default (Dict.get "query" body) JNull in
  (if String.eqb m "POST" && Py.str_in p ["/batch"; "/batch/"] then
     bind (py_get (JObj body) "queries" (JArr []))
          (fun queries =>
             if negb (truthy queries) then
               raise (ValueError "Batch query requires 'queries' array")
             else
               bind (LambdaEnhanced.call_batch E cfg fuel queries z)
                    (fun result => ret (LambdaEnhanced.format_response R 200 (JObj result))))
   else if Py.str_in m ["POST"; "GET"] && truthy query_type then
     bind (LambdaEnhanced.not_in_templates query_type)
          (fun unknown =>
             if unknown then
               raise (ValueError ("Unknown query type: " ++ fstr query_type))
             else
               bind (LambdaEnhanced.handle_template_query E cfg fuel query_type z)
                    (fun result => ret (LambdaEnhanced.format_response R 200 (JObj result))))
   else if String.eqb m "POST" && Py.str_in p ["/query"; "/query/"] then
     if negb (truthy custom_query) then
       raise (ValueError "Custom query requires 'query' field in body")
     else
       bind (LambdaEnhanced.handle_custom_query E cfg fuel custom_query z)
            (fun result => ret (LambdaEnhanced.format_response R 200 (JObj result)))
   else if String.eqb m "GET" && Py.str_in p ["/queries"; "/queries/"] then
     ret (LambdaEnhanced.format_response R 200
            (JObj [ ("message", JStr "Available query types");
                    ("queryTypes",
                     LambdaEnhanced.strs (Dict.keys LambdaEnhanced.QUERY_TEMPLATES));
                    ("categories",
                     JObj [ ("gpa", LambdaEnhanced.strs
                                      ["gpa_by_platform"; "gpa_vs_hours";
                                       "gpa_distribution"]);
                            ("sleep_stress", LambdaEnhanced.strs
                                      ["sleep_vs_stress"; "sleep_by_day";
                                       "stress_distribution"]);
                            ("platform", LambdaEnhanced.strs
                                      ["platform_usage"; "platform_popularity";
                                       "weekly_pattern"]);
                            ("mental_health", LambdaEnhanced.strs
                                      ["mental_health_correlation";
                                       "mental_health_by_platform"]);
                            ("summary", LambdaEnhanced.strs ["summary_stats"]) ]) ]))
   else
     ret (LambdaEnhanced.format_response R 404
            (JObj [ ("error", JStr "Not Found");
                    ("message", JStr ("Route " ++ m ++ " " ++ p ++ " not found"));
                    ("availableRoutes", LambdaEnhanced.available_routes) ]))) w.
Proof.
  intros Hbody Hhealth.
  destruct (routable_max_wait_time cfg body Hbody) as (v & z & Hz & Hmw & Hint).
  exists z. split; [exact Hz|].
  unfold LambdaEnhanced.lambda_handler_try.
  change (or_default (Dict.get "httpMethod" (request m p body)) (JStr "POST"))
    with (JStr m).
  change (or_default (Dict.get "path" (request m p body)) (JStr "/query"))
    with (JStr p).
  change (or_default (Dict.get "body" (request m p body)) JNull) with (JObj body).
  cbv beta iota zeta.
  assert (Hb : forall (k : json -> M response) w,
            bind (if negb (truthy (JObj body)) then ret (JObj []) else ret (JObj body))
                 k w
            = k (JObj body) w).
  { intros k w0. destruct body; reflexivity. }
  rewrite Hb.
  change (is_str (JStr m) "GET") with (String.eqb m "GET").
  rewrite in_strs_str, Hhealth.
  unfold bind at 1.
  rewrite Hmw.
  assert (Hrange : ((z <? 1)%Z || (z >? 900)%Z) = false).
  { apply orb_false_iff. split; [apply Z.ltb_ge; lia|].
    rewrite Z.gtb_ltb. apply Z.ltb_ge. lia. }
  destruct (Py.startswith "/query/" p) eqn:Hstart;
    unfold bind, ret, py_get; rewrite Hint; unfold ret; rewrite Hrange;
    reflexivity.
Qed.

Lemma query_path_is_no_other_route (p : string) (l : list string) :
  Py.startswith "/query/" p = true ->
  l = ["/health"; "/health/"] \/ l = ["/batch"; "/batch/"] ->
  Py.str_in p l = false.
Proof.
  intros Hstart Hl. unfold Py.str_in.
  destruct (existsb (String.eqb p) l) eqn:Hex; [|reflexivity].
  apply existsb_exists in Hex. destruct Hex as (x & Hin & Heq).
  apply String.eqb_eq in Heq. subst x.
  destruct Hl as [-> | ->]; destruct Hin as [<-|[<-|[]]]; discriminate Hstart.
Qed.




(** ** Status codes of engine errors *)




(** ** The handlers at the public interface *)

(** C10 (the code at the failing input).  [athena_query.lambda_handler]
    reads [context.function_name] before it enters its [try] block: called
    with a [None] context, as the [__main__] block of the file does, it
    raises [AttributeError] to the caller for every event. *)
Theorem C10_athena_handler_raises_without_context :
  forall (E : Engine) (R : runtime) (cfg : config) (fuel : nat)
         (event : Dict.dict json) (w : world),
    AthenaQuery.lambda_handler E R cfg fuel event None w
    = (Raise (AttributeError "'NoneType' object has no attribute 'function_name'"), w).
Proof. reflexivity. Qed.

(** Behind their [try] blocks the three handlers never raise. *)
Lemma handlers_never_raise E R cfg environ fuel event (context : option string) w :
  (forall e, fst (LambdaEnhanced.lambda_handler E R cfg fuel event context w) <> Raise e)
  /\ (forall e, fst (Index.handler E R environ fuel event context w) <> Raise e)
  /\ (forall fn e,
         fst (AthenaQuery.lambda_handler E R cfg fuel event (Some fn) w) <> Raise e).
Proof.
  split; [|split]; intros.
  - unfold LambdaEnhanced.lambda_handler, try_except.
    destruct (LambdaEnhanced.lambda_handler_try E R cfg fuel event w) as [[a|e0|] w1];
      try discriminate.
    unfold LambdaEnhanced.lambda_handler_except.
    repeat match goal with
           | |- context [if ?b then _ else _] => destruct b
           end; discriminate.
  - unfold Index.handler, try_except.
    destruct (Index.handler_try E R environ fuel event w) as [[a|e0|] w1];
      try discriminate.
    destruct (index_handler_except_run R e0 w1) as (code & b & -> & _). discriminate.
  - unfold AthenaQuery.lambda_handler, try_except.
    destruct (AthenaQuery.lambda_handler_try E R cfg fuel event w) as [[a|e0|] w1];
      try discriminate.
    unfold AthenaQuery.lambda_handler_except.
    repeat match goal with
           | |- context [if ?b then _ else _] => destruct b
           end; discriminate.
Qed.

(** ** Batches *)

Section Batch.
Variable E : Engine.
Variable cfg : config.
Variable fuel : nat.
Variable L : Q.
Variable d : Z.
Hypothesis latency_bounds : latency_within E L.
Hypothesis deadline_nonneg : (0 <= d)%Z.
Hypothesis enough_fuel : (Z.to_nat d + 2 <= fuel)%nat.

(** With enough fuel [execute_query] returns or raises, and what it
    returns has the nine keys of its result literal, with the state
    SUCCEEDED. *)
Lemma enhanced_execute_result q database output max_rows w r w' :
  LambdaEnhanced.execute_query E cfg fuel q database output d max_rows w = (r, w') ->
  r <> OutOfFuel
  /\ forall result, r = Return result ->
       exists x1 x3 x4 x5 x6 x7 x8 x9,
         result = [ ("queryExecutionId", x1); ("state", JStr "SUCCEEDED");
                    ("stateChangeReason", x3); ("rows", x4);
                    ("columnMetadata", x5); ("rowCount", x6);
                    ("dataScannedInBytes", x7); ("executionTimeInMillis", x8);
                    ("database", x9) ].
Proof.
  unfold LambdaEnhanced.execute_query.
  destruct (LambdaEnhanced.validate_query q) as [valid msg].
  assert (Hquiet : forall e w0, (@Raise (Dict.dict json) e, w0) = (r, w') ->
            r <> OutOfFuel
            /\ forall result, r = Return result ->
                 exists x1 x3 x4 x5 x6 x7 x8 x9,
                   result = [ ("queryExecutionId", x1); ("state", JStr "SUCCEEDED");
                              ("stateChangeReason", x3); ("rows", x4);
                              ("columnMetadata", x5); ("rowCount", x6);
                              ("dataScannedInBytes", x7);
                              ("executionTimeInMillis", x8); ("database", x9) ]).
  { intros e w0 Hrun. inversion Hrun; subst. split; discriminate. }
  destruct valid; cbn [negb]; [|apply Hquiet].
  destruct q as [| | |q| |]; try apply Hquiet.
  unfold bind at 1.
  unfold LambdaEnhanced.start_query_execution, AthenaQuery.start_query_execution,
    client_start_query_execution.
  destruct (on_start E (n_start w)) as [e|id]; [apply Hquiet|].
  unfold bind at 1. unfold LambdaEnhanced.wait_for_query_completion.
  match goal with
  | |- context [AthenaQuery.wait_for_query_completion E fuel id d ?w1] =>
      destruct (AthenaQuery.wait_for_query_completion E fuel id d w1)
        as [rp w2] eqn:Hpoll
  end.
  destruct (athena_poller_post E L id d fuel _ deadline_nonneg enough_fuel
              latency_bounds rp w2 Hpoll) as (Hfuel & _ & _ & Hret & _).
  destruct rp as [st|e|]; [| apply Hquiet | contradiction Hfuel; reflexivity].
  destruct (Hret st eq_refl) as [Hst _]. rewrite Hst.
  unfold bind at 1. unfold bind at 1.
  destruct (enhanced_get_query_results_run E id max_rows w2) as [rr Hrr].
  rewrite Hrr.
  destruct rr as [res|e|].
  - unfold ret. intro Hrun. inversion Hrun; subst. split; [discriminate|].
    intros result [= <-]. do 8 eexists. reflexivity.
  - apply Hquiet.
  - exfalso. unfold LambdaEnhanced.get_query_results, bind, client_get_query_results,
      ret in Hrr.
    destruct (on_results E (n_results w2)); discriminate Hrr.
Qed.

Lemma template_query_result query_type w r w' :
  LambdaEnhanced.handle_template_query E cfg fuel query_type d w = (r, w') ->
  r <> OutOfFuel
  /\ forall result, r = Return result ->
       exists x0 x1 x3 x4 x5 x6 x7 x8 x9,
         result = [ ("message", x0); ("queryType", query_type);
                    ("queryExecutionId", x1); ("state", JStr "SUCCEEDED");
                    ("stateChangeReason", x3); ("rows", x4);
                    ("columnMetadata", x5); ("rowCount", x6);
                    ("dataScannedInBytes", x7); ("executionTimeInMillis", x8);
                    ("database", x9) ].
Proof.
  unfold LambdaEnhanced.handle_template_query. intro Hrun.
  apply bind_pure_inv in Hrun; [|apply pure_not_in_templates].
  destruct Hrun as [(unknown & _ & Hrun)|(e & -> & ->)]; [|split; discriminate].
  destruct unknown.
  { inversion Hrun; subst. split; discriminate. }
  apply bind_inv in Hrun. destruct Hrun as (r1 & w1 & Hex & Hrest).
  destruct (enhanced_execute_result _ _ _ _ _ _ _ Hex) as [Hfuel Hshape].
  destruct r1 as [res|e|]; [| destruct Hrest as [-> ->]; split; discriminate
                           | contradiction Hfuel; reflexivity].
  destruct (Hshape res eq_refl) as (x1 & x3 & x4 & x5 & x6 & x7 & x8 & x9 & ->).
  unfold ret in Hrest. inversion Hrest; subst. split; [discriminate|].
  intros result [= <-]. do 9 eexists. reflexivity.
Qed.

Lemma custom_query_result q w r w' :
  LambdaEnhanced.handle_custom_query E cfg fuel q d w = (r, w') ->
  r <> OutOfFuel
  /\ forall result, r = Return result ->
       exists x0 xq x1 x3 x4 x5 x6 x7 x8 x9,
         result = [ ("message", x0); ("query", xq);
                    ("queryExecutionId", x1); ("state", JStr "SUCCEEDED");
                    ("stateChangeReason", x3); ("rows", x4);
                    ("columnMetadata", x5); ("rowCount", x6);
                    ("dataScannedInBytes", x7); ("executionTimeInMillis", x8);
                    ("database", x9) ].
Proof.
  unfold LambdaEnhanced.handle_custom_query. intro Hrun.
  apply bind_inv in Hrun. destruct Hrun as (r1 & w1 & Hex & Hrest).
  destruct (enhanced_execute_result _ _ _ _ _ _ _ Hex) as [Hfuel Hshape].
  destruct r1 as [res|e|]; [| destruct Hrest as [-> ->]; split; discriminate
                           | contradiction Hfuel; reflexivity].
  destruct (Hshape res eq_refl) as (x1 & x3 & x4 & x5 & x6 & x7 & x8 & x9 & ->).
  unfold ret in Hrest. inversion Hrest; subst. split; [discriminate|].
  intros result [= <-]. do 10 eexists. reflexivity.
Qed.

(** The item at position [i] always yields its entry: an exception of
    the sub-query is turned into a failure record. *)
Lemma batch_item_returns i q w :
  exists entry w1,
    LambdaEnhanced.batch_item E cfg fuel i (JObj q) d w = (Return entry, w1)
    /\ well_formed_entry i entry.
Proof.
  unfold LambdaEnhanced.batch_item.
  unfold bind at 1, py_get at 1, ret at 1.
  unfold bind at 1, py_get at 1, ret at 1.
  set (query_type := match Dict.get "type" q with Some v => v | None => JNull end).
  set (custom_query := match Dict.get "query" q with Some v => v | None => JNull end).
  unfold try_except.
  match goal with
  | |- context [bind ?m ?k w] => destruct (bind m k w) as [r w1] eqn:Hbody
  end.
  apply bind_inv in Hbody. destruct Hbody as (r1 & w2 & Hres & Hrest).
  assert (Hfail : forall (e : exn) (w0 : world),
             exists entry w3,
               (@Return (Dict.dict json)
                  [("index", JInt (Z.of_nat i + 1)); ("success", JBool false);
                   ("error", JStr (exn_str e))], w0) = (Return entry, w3)
               /\ well_formed_entry i entry).
  { intros e w0. do 2 eexists. split; [reflexivity|].
    split; [reflexivity|]. right. split; [reflexivity|].
    split; [reflexivity|]. eexists. reflexivity. }
  destruct (truthy query_type).
  - destruct (template_query_result _ _ _ _ Hres) as [Hfuel Hshape].
    destruct r1 as [res|e|]; [| | contradiction Hfuel; reflexivity].
    + destruct (Hshape res eq_refl)
        as (x0 & x1 & x3 & x4 & x5 & x6 & x7 & x8 & x9 & ->).
      unfold ret in Hrest. inversion Hrest; subst.
      do 2 eexists. split; [reflexivity|].
      split; [reflexivity|]. left. repeat split; reflexivity.
    + destruct Hrest as [-> ->]. unfold ret. apply Hfail.
  - destruct (truthy custom_query).
    + destruct (custom_query_result _ _ _ _ Hres) as [Hfuel Hshape].
      destruct r1 as [res|e|]; [| | contradiction Hfuel; reflexivity].
      * destruct (Hshape res eq_refl)
          as (x0 & xq & x1 & x3 & x4 & x5 & x6 & x7 & x8 & x9 & ->).
        unfold ret in Hrest. inversion Hrest; subst.
        do 2 eexists. split; [reflexivity|].
        split; [reflexivity|]. left. repeat split; reflexivity.
      * destruct Hrest as [-> ->]. unfold ret. apply Hfail.
    + unfold ret in Hres. inversion Hres; subst.
      unfold ret in Hrest. inversion Hrest; subst.
      do 2 eexists. split; [reflexivity|].
      split; [reflexivity|]. right. split; [reflexivity|].
      split; [reflexivity|]. eexists. reflexivity.
Qed.

Lemma batch_loop_returns :
  forall (queries : list (Dict.dict json)) (n : nat) (acc : list (Dict.dict json))
         (w : world),
  exists entries w',
    LambdaEnhanced.batch_loop E cfg fuel
      (combine (seq n (List.length queries)) (map JObj queries)) d acc w
    = (Return (acc ++ entries), w')
    /\ List.length entries = List.length queries
    /\ (forall i entry, nth_error entries i = Some entry ->
                        well_formed_entry (n + i) entry)
    /\ (forall i q, nth_error queries i = Some q ->
          exists entry wi wi',
            nth_error entries i = Some entry
            /\ LambdaEnhanced.batch_item E cfg fuel (n + i) (JObj q) d wi
               = (Return entry, wi')).
Proof.
  induction queries as [|q queries IH]; intros n acc w.
  - exists [], w. cbn. rewrite app_nil_r.
    split; [reflexivity|]. split; [reflexivity|].
    split; [intros [|i] entry; discriminate | intros [|i] q; discriminate].
  - cbn [List.length seq map combine LambdaEnhanced.batch_loop].
    destruct (batch_item_returns n q w) as (entry & w1 & Hitem & Hwf).
    unfold bind at 1. rewrite Hitem.
    destruct (IH (S n) (acc ++ [entry]) w1)
      as (entries & w' & Hloop & Hlen & Hall & Heach).
    exists (entry :: entries), w'. rewrite Hloop, <- app_assoc.
    split; [reflexivity|]. split; [cbn; rewrite Hlen; reflexivity|]. split.
    + intros [|i] entry'; cbn [nth_error].
      * intros [= <-]. rewrite Nat.add_0_r. exact Hwf.
      * intro Hi. rewrite Nat.add_succ_r. exact (Hall i entry' Hi).
    + intros [|i] q'; cbn [nth_error].
      * intros [= <-]. exists entry, w, w1. rewrite Nat.add_0_r.
        split; [reflexivity | exact Hitem].
      * intro Hi. rewrite Nat.add_succ_r. exact (Heach i q' Hi).
Qed.


End Batch.





(** ** The handlers return a response *)








Section Termination.
Variable E : Engine.
Variable R : runtime.
Variable cfg : config.
Variable environ : Dict.dict string.
Variable fuel : nat.
Variable L : Q.
Hypothesis latency_bounds : latency_within E L.
Hypothesis enough_fuel : (902 <= fuel)%nat.





Lemma terminates_enhanced_results id n :
  terminates (LambdaEnhanced.get_query_results E id n).
Proof.
  intro w.
  unfold LambdaEnhanced.get_query_results, bind, client_get_query_results, ret.
  destruct (on_results E (n_results w)); discriminate.
Qed.



Lemma terminates_enhanced_execute q db out d n :
  (0 <= d)%Z -> (Z.to_nat d + 2 <= fuel)%nat ->
  terminates (LambdaEnhanced.execute_query E cfg fuel q db out d n).
Proof.
  intros Hd Hf w.
  destruct (LambdaEnhanced.execute_query E cfg fuel q db out d n w) as [r w'] eqn:Hrun.
  exact (proj1 (enhanced_execute_result E cfg fuel L d latency_bounds Hd Hf
                  q db out n w r w' Hrun)).
Qed.


















Lemma enhanced_except_envelope e w :
  exists resp, LambdaEnhanced.lambda_handler_except R e w = (Return resp, w)
               /\ json_envelope resp.
Proof.
  unfold LambdaEnhanced.lambda_handler_except.
  repeat match goal with
         | |- context [if ?b then _ else _] => destruct b
         end; eexists; split; reflexivity.
Qed.

Lemma athena_except_envelope e w :
  exists resp, AthenaQuery.lambda_handler_except R e w = (Return resp, w)
               /\ json_envelope resp.
Proof.
  unfold AthenaQuery.lambda_handler_except.
  repeat match goal with
         | |- context [if ?b then _ else _] => destruct b
         end; eexists; split; reflexivity.
Qed.

Lemma index_except_envelope e w :
  exists resp, Index.handler_except R e w = (Return resp, w)
               /\ json_envelope resp.
Proof.
  destruct (index_handler_except_run R e w) as (code & b & -> & _).
  eexists; split; reflexivity.
Qed.

End Termination.

(* ================================================================== *)
(** * Part III: further properties of the three modules *)

(** ** Further properties of [validate_query] *)

Lemma in_all_ascii (c : ascii) : In c all_ascii.
Proof.
  unfold all_ascii. rewrite <- (ascii_nat_embedding c).
  apply in_map, in_seq. pose proof (nat_ascii_bounded c). lia.
Qed.

Lemma case_blind_classes_all :
  forallb (fun x => forallb (case_blind_classes x) all_ascii) all_ascii = true.
Proof. vm_compute. reflexivity. Qed.

Lemma ci_eqb_classes (x y : ascii) :
  Regex.ci_eqb x y = true ->
  Py.isspace x = Py.isspace y
  /\ Ascii.eqb x Regex.newline = Ascii.eqb y Regex.newline
  /\ forall a, Regex.ci_eqb a x = Regex.ci_eqb a y.
Proof.
  intro H.
  pose proof case_blind_classes_all as Hall.
  rewrite forallb_forall in Hall. specialize (Hall x (in_all_ascii x)).
  rewrite forallb_forall in Hall. specialize (Hall y (in_all_ascii y)).
  unfold case_blind_classes in Hall. rewrite H in Hall. cbn [implb] in Hall.
  apply andb_true_iff in Hall. destruct Hall as [H1 H2].
  apply eqb_prop in H1. apply eqb_prop in H2.
  split; [exact H1|]. split; [exact H2|].
  intro a. unfold Regex.ci_eqb in *. apply Ascii.eqb_eq in H. rewrite H. reflexivity.
Qed.

Lemma deriv_case_blind (x y : ascii) (r : Regex.regex) :
  Regex.ci_eqb x y = true -> Regex.deriv x r = Regex.deriv y r.
Proof.
  intro H. destruct (ci_eqb_classes x y H) as (Hs & Hn & Hc).
  induction r; cbn [Regex.deriv]; try reflexivity.
  - rewrite Hc. reflexivity.
  - rewrite Hn. reflexivity.
  - rewrite Hs. reflexivity.
  - rewrite IHr1, IHr2. reflexivity.
  - rewrite IHr1, IHr2. reflexivity.
  - rewrite IHr. reflexivity.
Qed.

Lemma match_prefix_case_blind (a : string) :
  forall b r, same_up_to_case a b = true ->
              Regex.match_prefix r a = Regex.match_prefix r b.
Proof.
  induction a as [|x a IH]; intros [|y b] r H; try discriminate H.
  - reflexivity.
  - cbn [same_up_to_case] in H. apply andb_true_iff in H. destruct H as [Hxy Hab].
    cbn [Regex.match_prefix]. rewrite (deriv_case_blind x y r Hxy).
    rewrite (IH b _ Hab). reflexivity.
Qed.

Lemma search_case_blind (a : string) :
  forall b r, same_up_to_case a b = true ->
              Regex.search r a = Regex.search r b.
Proof.
  induction a as [|x a IH]; intros [|y b] r H; try discriminate H.
  - reflexivity.
  - pose proof (match_prefix_case_blind _ _ r H) as Hm.
    cbn [same_up_to_case] in H. apply andb_true_iff in H. destruct H as [Hxy Hab].
    cbn [Regex.search]. rewrite Hm, (IH b r Hab). reflexivity.
Qed.

Lemma same_up_to_case_refl (a : string) : same_up_to_case a a = true.
Proof.
  induction a as [|x a IH]; [reflexivity|].
  cbn [same_up_to_case]. rewrite IH. unfold Regex.ci_eqb.
  rewrite Ascii.eqb_refl. reflexivity.
Qed.

Lemma lstrip_case_blind (a : string) :
  forall b, same_up_to_case a b = true ->
            same_up_to_case (Py.lstrip a) (Py.lstrip b) = true.
Proof.
  induction a as [|x a IH]; intros [|y b] H; try discriminate H.
  - reflexivity.
  - pose proof H as H0.
    cbn [same_up_to_case] in H. apply andb_true_iff in H. destruct H as [Hxy Hab].
    destruct (ci_eqb_classes x y Hxy) as (Hs & _).
    cbn [Py.lstrip]. rewrite <- Hs. destruct (Py.isspace x).
    + apply IH. exact Hab.
    + exact H0.
Qed.

Lemma rev_string_case_blind (a : string) :
  forall b acc acc',
    same_up_to_case a b = true -> same_up_to_case acc acc' = true ->
    same_up_to_case (Py.rev_string a acc) (Py.rev_string b acc') = true.
Proof.
  induction a as [|x a IH]; intros [|y b] acc acc' H Hacc; try discriminate H.
  - exact Hacc.
  - cbn [same_up_to_case] in H. apply andb_true_iff in H. destruct H as [Hxy Hab].
    cbn [Py.rev_string]. apply IH; [exact Hab|].
    cbn [same_up_to_case]. rewrite Hxy, Hacc. reflexivity.
Qed.

Lemma strip_case_blind (a b : string) :
  same_up_to_case a b = true ->
  same_up_to_case (Py.strip a) (Py.strip b) = true.
Proof.
  intro H. unfold Py.strip, Py.rstrip.
  apply rev_string_case_blind; [|reflexivity].
  apply lstrip_case_blind.
  apply rev_string_case_blind; [|reflexivity].
  apply lstrip_case_blind. exact H.
Qed.

Lemma same_up_to_case_length (a : string) :
  forall b, same_up_to_case a b = true -> String.length a = String.length b.
Proof.
  induction a as [|x a IH]; intros [|y b] H; try discriminate H.
  - reflexivity.
  - cbn [same_up_to_case] in H. apply andb_true_iff in H. destruct H as [_ Hab].
    cbn [String.length]. rewrite (IH b Hab). reflexivity.
Qed.

Lemma find_agree {A} (f g : A -> bool) (l : list A) :
  (forall x, f x = g x) -> find f l = find g l.
Proof.
  intro H. induction l as [|x l IH]; [reflexivity|].
  cbn [find]. rewrite H, IH. reflexivity.
Qed.

Lemma validate_query_with_case_blind (patterns : list pattern) (a b : string) :
  same_up_to_case a b = true ->
  validate_query_with patterns (JStr a) = validate_query_with patterns (JStr b).
Proof.
  intro H. unfold validate_query_with.
  pose proof (strip_case_blind a b H) as Hs.
  destruct a as [|x a], b as [|y b]; try discriminate H; [reflexivity|].
  cbn [String.eqb].
  unfold Py.len. rewrite (same_up_to_case_length _ _ Hs).
  rewrite (find_agree (fun p : pattern => Regex.search (snd p) (Py.strip (String x a)))
                      (fun p : pattern => Regex.search (snd p) (Py.strip (String y b))))
    by (intro p; apply search_case_blind; exact Hs).
  reflexivity.
Qed.

(** X1.  [validate_query] is blind to the case of ASCII letters, as
    [re.IGNORECASE] asks: two query texts that differ only in the case
    of their letters get the same verdict and the same message, in
    [athena_query.py] and in [lambda_enhanced.py]. *)
Theorem X1_validate_query_ignores_case :
  forall a b : string,
    same_up_to_case a b = true ->
    AthenaQuery.validate_query (JStr a) = AthenaQuery.validate_query (JStr b)
    /\ LambdaEnhanced.validate_query (JStr a) = LambdaEnhanced.validate_query (JStr b).
Proof.
  intros a b H. split; apply validate_query_with_case_blind; exact H.
Qed.

Lemma X1_validate_query_ignores_case_witness :
  same_up_to_case "drop  database x" "DROP  Database X" = true
  /\ AthenaQuery.validate_query (JStr "drop  database x")
     = AthenaQuery.validate_query (JStr "DROP  Database X")
  /\ fst (AthenaQuery.validate_query (JStr "drop  database x")) = false.
Proof.
  split; [reflexivity|]. split.
  - apply (X1_validate_query_ignores_case "drop  database x" "DROP  Database X").
    reflexivity.
  - reflexivity.
Defined.

(** ** [str.strip] *)

Lemma string_app_nil (s : string) : (s ++ EmptyString)%string = s.
Proof. induction s as [|c s IH]; [reflexivity|]. cbn. rewrite IH. reflexivity. Qed.

Lemma string_app_assoc (a b c : string) :
  ((a ++ b) ++ c)%string = (a ++ (b ++ c))%string.
Proof. induction a as [|x a IH]; [reflexivity|]. cbn. rewrite IH. reflexivity. Qed.

Lemma rev_string_acc (s : string) :
  forall acc, Py.rev_string s acc = (Py.rev_string s EmptyString ++ acc)%string.
Proof.
  induction s as [|c s IH]; intro acc; [reflexivity|].
  cbn [Py.rev_string]. rewrite (IH (String c acc)), (IH (String c EmptyString)).
  rewrite string_app_assoc. reflexivity.
Qed.

Lemma rev_string_app (a b : string) :
  Py.rev_string (a ++ b) EmptyString
  = (Py.rev_string b EmptyString ++ Py.rev_string a EmptyString)%string.
Proof.
  induction a as [|c a IH]; cbn [String.append Py.rev_string].
  - rewrite string_app_nil. reflexivity.
  - rewrite (rev_string_acc (a ++ b)), IH, (rev_string_acc a (String c EmptyString)).
    rewrite string_app_assoc. reflexivity.
Qed.

Lemma rev_string_involutive (s : string) :
  Py.rev_string (Py.rev_string s EmptyString) EmptyString = s.
Proof.
  induction s as [|c s IH]; [reflexivity|].
  cbn [Py.rev_string]. rewrite (rev_string_acc s), rev_string_app, IH. reflexivity.
Qed.

Lemma lstrip_idempotent (s : string) : Py.lstrip (Py.lstrip s) = Py.lstrip s.
Proof.
  induction s as [|c s IH]; [reflexivity|].
  cbn [Py.lstrip]. destruct (Py.isspace c) eqn:Hc; [exact IH|].
  cbn [Py.lstrip]. rewrite Hc. reflexivity.
Qed.

Lemma rstrip_idempotent (s : string) : Py.rstrip (Py.rstrip s) = Py.rstrip s.
Proof.
  unfold Py.rstrip. rewrite rev_string_involutive, lstrip_idempotent. reflexivity.
Qed.

Lemma lstrip_snoc (u : string) (c : ascii) :
  Py.isspace c = false ->
  Py.lstrip (u ++ String c EmptyString)
  = (Py.lstrip u ++ String c EmptyString)%string.
Proof.
  intro Hc. induction u as [|a u IH]; cbn [String.append Py.lstrip].
  - rewrite Hc. reflexivity.
  - destruct (Py.isspace a); [exact IH | reflexivity].
Qed.

Lemma rstrip_cons (c : ascii) (t : string) :
  Py.isspace c = false -> Py.rstrip (String c t) = String c (Py.rstrip t).
Proof.
  intro Hc. unfold Py.rstrip. cbn [Py.rev_string].
  rewrite (rev_string_acc t), (lstrip_snoc _ c Hc), rev_string_app. reflexivity.
Qed.

Lemma strip_empty : Py.strip EmptyString = EmptyString.
Proof. reflexivity. Qed.

Lemma lstrip_head (s : string) :
  match Py.lstrip s with
  | EmptyString => True
  | String c _ => Py.isspace c = false
  end.
Proof.
  induction s as [|c s IH]; [exact I|].
  cbn [Py.lstrip]. destruct (Py.isspace c) eqn:Hc; [exact IH | exact Hc].
Qed.

Lemma strip_idempotent (s : string) : Py.strip (Py.strip s) = Py.strip s.
Proof.
  unfold Py.strip.
  pose proof (lstrip_head s) as Hh.
  destruct (Py.lstrip s) as [|c t] eqn:Hl.
  - reflexivity.
  - rewrite (rstrip_cons c t Hh). cbn [Py.lstrip]. rewrite Hh.
    rewrite <- (rstrip_cons c t Hh). apply rstrip_idempotent.
Qed.

(** ** The two deny-lists *)

Lemma find_app {A} (f : A -> bool) (l l' : list A) :
  find f (l ++ l') = match find f l with Some x => Some x | None => find f l' end.
Proof.
  induction l as [|x l IH]; [reflexivity|].
  cbn [app find]. destruct (f x); [reflexivity | exact IH].
Qed.

Lemma deny_list_extends (q : json) :
  (fst (AthenaQuery.validate_query q) = false ->
   LambdaEnhanced.validate_query q = AthenaQuery.validate_query q)
  /\ (fst (LambdaEnhanced.validate_query q) = true ->
      AthenaQuery.validate_query q = (true, EmptyString)).
Proof.
  unfold AthenaQuery.validate_query, LambdaEnhanced.validate_query,
    AthenaQuery.dangerous_patterns, LambdaEnhanced.dangerous_patterns,
    validate_query_with.
  destruct q as [| | |s| |]; try (split; [reflexivity | discriminate]).
  destruct (String.eqb s EmptyString); [split; [reflexivity | discriminate]|].
  destruct (Py.len (Py.strip s) >? 262144)%Z; [split; [reflexivity | discriminate]|].
  rewrite find_app.
  destruct (find (fun p : pattern => Regex.search (snd p) (Py.strip s)) common_patterns).
  - split; [reflexivity | discriminate].
  - split; [discriminate | reflexivity].
Qed.

(** X2.  The deny-list of [lambda_enhanced.py] extends the one of
    [athena_query.py] at its end: whatever [athena_query.validate_query]
    refuses, [lambda_enhanced.validate_query] refuses with the same
    message, and whatever the latter accepts the former accepts. *)
Theorem X2_enhanced_validation_is_stricter :
  forall q : json,
    (fst (AthenaQuery.validate_query q) = false ->
     LambdaEnhanced.validate_query q = AthenaQuery.validate_query q)
    /\ (fst (LambdaEnhanced.validate_query q) = true ->
        AthenaQuery.validate_query q = (true, EmptyString)).
Proof. exact deny_list_extends. Qed.

(** X3.  White space around a query text does not change what
    [validate_query] answers: the text and its [strip()] get the same
    verdict and message, provided the stripped text is not empty. *)
Theorem X3_validate_query_ignores_outer_space :
  forall q : string,
    Py.strip q <> EmptyString ->
    AthenaQuery.validate_query (JStr q) = AthenaQuery.validate_query (JStr (Py.strip q))
    /\ LambdaEnhanced.validate_query (JStr q)
       = LambdaEnhanced.validate_query (JStr (Py.strip q)).
Proof.
  intros q Hq.
  assert (Hne : String.eqb q EmptyString = false).
  { destruct q; [contradiction Hq; reflexivity | reflexivity]. }
  assert (Hne' : String.eqb (Py.strip q) EmptyString = false).
  { destruct (Py.strip q); [contradiction Hq; reflexivity | reflexivity]. }
  unfold AthenaQuery.validate_query, LambdaEnhanced.validate_query, validate_query_with.
  rewrite Hne, Hne', strip_idempotent. split; reflexivity.
Qed.

Lemma X3_validate_query_ignores_outer_space_witness :
  Py.strip "  GRANT all  " <> EmptyString
  /\ AthenaQuery.validate_query (JStr "  GRANT all  ")
     = AthenaQuery.validate_query (JStr (Py.strip "  GRANT all  ")).
Proof.
  split; [discriminate|].
  apply (X3_validate_query_ignores_outer_space "  GRANT all  "). discriminate.
Defined.

Lemma X2_enhanced_validation_is_stricter_witness :
  fst (AthenaQuery.validate_query (JStr "TRUNCATE t")) = false
  /\ LambdaEnhanced.validate_query (JStr "TRUNCATE t")
     = AthenaQuery.validate_query (JStr "TRUNCATE t")
  /\ fst (LambdaEnhanced.validate_query (JStr "SELECT 1")) = true
  /\ AthenaQuery.validate_query (JStr "SELECT 1") = (true, EmptyString).
Proof.
  split; [reflexivity|]. split.
  - apply (proj1 (X2_enhanced_validation_is_stricter (JStr "TRUNCATE t"))). reflexivity.
  - split; [reflexivity|].
    apply (proj2 (X2_enhanced_validation_is_stricter (JStr "SELECT 1"))). reflexivity.
Defined.

(** ** What the orchestrators submit *)

Lemma athena_results_submitted E id n w r w' :
  AthenaQuery.get_query_results E id n w = (r, w') -> submitted w' = submitted w.
Proof.
  destruct (athena_get_query_results_run E id n w) as [r0 H0].
  rewrite H0. intros [= _ <-]. reflexivity.
Qed.

Lemma enhanced_results_submitted E id n w r w' :
  LambdaEnhanced.get_query_results E id n w = (r, w') -> submitted w' = submitted w.
Proof.
  destruct (enhanced_get_query_results_run E id n w) as [r0 H0].
  rewrite H0. intros [= _ <-]. reflexivity.
Qed.

Lemma index_results_submitted E id w r w' :
  Index.get_query_results E id w = (r, w') -> submitted w' = submitted w.
Proof.
  destruct (index_get_query_results_run E id w) as [r0 H0].
  rewrite H0. intros [= _ <-]. reflexivity.
Qed.

Lemma client_start_submitted E q w r w' :
  client_start_query_execution E q w = (r, w') -> submitted w' = q :: submitted w.
Proof.
  unfold client_start_query_execution.
  destruct (on_start E (n_start w)); intros [= _ <-]; reflexivity.
Qed.

(** Once the text has passed [validate_query], [execute_query] hands
    it to the engine, once and as it is. *)
Lemma enhanced_execute_submitted E cfg fuel q db out d n w r w' :
  LambdaEnhanced.execute_query E cfg fuel (JStr q) db out d n w = (r, w') ->
  submitted w'
  = (if fst (LambdaEnhanced.validate_query (JStr q)) then [q] else []) ++ submitted w.
Proof.
  unfold LambdaEnhanced.execute_query.
  destruct (LambdaEnhanced.validate_query (JStr q)) as [valid msg].
  destruct valid; cbn [negb fst].
  2:{ intros [= _ <-]. reflexivity. }
  intro Hrun. apply bind_inv in Hrun. destruct Hrun as (r1 & w1 & Hstart & Hrest).
  apply client_start_submitted in Hstart.
  destruct r1 as [id|e|]; [|destruct Hrest as [_ ->]; exact Hstart ..].
  apply bind_inv in Hrest. destruct Hrest as (r2 & w2 & Hpoll & Hrest).
  apply athena_poller_frame in Hpoll. destruct Hpoll as (Hs & _).
  destruct r2 as [st|e|]; [|destruct Hrest as [_ ->]; cbn; congruence ..].
  apply bind_inv in Hrest. destruct Hrest as (r3 & w3 & Hfetch & Hrest).
  assert (Hs3 : submitted w3 = submitted w2).
  { destruct (state st); try (inversion Hfetch; reflexivity).
    apply bind_inv in Hfetch. destruct Hfetch as (r4 & w4 & Hres & Hrest4).
    apply enhanced_results_submitted in Hres.
    destruct r4; [inversion Hrest4; subst; exact Hres
                 | destruct Hrest4 as [_ ->]; exact Hres ..]. }
  destruct r3 as [[rows meta]|e|]; [inversion Hrest; subst
                                   | destruct Hrest as [_ ->] ..];
    cbn; congruence.
Qed.

Lemma athena_execute_submitted E cfg fuel q db out d n w r w' :
  AthenaQuery.execute_athena_query E cfg fuel q db out d n w = (r, w') ->
  submitted w'
  = (if fst (AthenaQuery.validate_query (JStr q)) then [q] else []) ++ submitted w.
Proof.
  unfold AthenaQuery.execute_athena_query.
  destruct (AthenaQuery.validate_query (JStr q)) as [valid msg].
  destruct valid; cbn [negb fst].
  2:{ intros [= _ <-]. reflexivity. }
  intro Hrun. apply bind_inv in Hrun. destruct Hrun as (r1 & w1 & Hstart & Hrest).
  apply client_start_submitted in Hstart.
  destruct r1 as [id|e|]; [|destruct Hrest as [_ ->]; exact Hstart ..].
  apply bind_inv in Hrest. destruct Hrest as (r2 & w2 & Hpoll & Hrest).
  apply athena_poller_frame in Hpoll. destruct Hpoll as (Hs & _).
  destruct r2 as [st|e|]; [|destruct Hrest as [_ ->]; cbn; congruence ..].
  apply bind_inv in Hrest. destruct Hrest as (r3 & w3 & Hfetch & Hrest).
  assert (Hs3 : submitted w3 = submitted w2).
  { destruct (state st); try (inversion Hfetch; reflexivity).
    apply bind_inv in Hfetch. destruct Hfetch as (r4 & w4 & Hres & Hrest4).
    apply athena_results_submitted in Hres.
    destruct r4; [inversion Hrest4; subst; exact Hres
                 | destruct Hrest4 as [_ ->]; exact Hres ..]. }
  destruct r3 as [[rows meta]|e|]; [inversion Hrest; subst
                                   | destruct Hrest as [_ ->] ..];
    cbn; congruence.
Qed.

(** ** The statements of the handlers before the query runs *)

Lemma routable_deadline cfg body :
  routable_body cfg body = true ->
  (1 <= deadline_of (MAX_WAIT_TIME cfg) body <= 900)%Z
  /\ py_int (match Dict.get "maxWaitTime" body with
             | Some v => v
             | None => JInt (MAX_WAIT_TIME cfg)
             end) = ret (deadline_of (MAX_WAIT_TIME cfg) body).
Proof.
  unfold routable_body, deadline_of.
  destruct (Dict.get "maxWaitTime" body) as [[| | z | | |]|]; try discriminate;
    intro H; apply andb_true_iff in H; destruct H as [H1 H2];
    apply Z.leb_le in H1; apply Z.leb_le in H2; (split; [lia | reflexivity]).
Qed.

(** For a body that is an object with a text under [query] and an
    acceptable [maxWaitTime], the [try] block of
    [athena_query.lambda_handler] comes down to the call of
    [execute_athena_query] on the stripped text. *)
Lemma athena_handler_try_run E R cfg fuel event body q w :
  Dict.get "body" event = Some (JObj body) ->
  Dict.get "query" body = Some (JStr q) ->
  routable_body cfg body = true ->
  AthenaQuery.lambda_handler_try E R cfg fuel event w
  = bind (AthenaQuery.execute_athena_query E cfg fuel (Py.strip q) JNull
            (or_default (Dict.get "outputLocation" body) JNull)
            (deadline_of (MAX_WAIT_TIME cfg) body) 1000)
         (fun result => ret (AthenaQuery.format_response R 200 (JObj result))) w.
Proof.
  intros Hbody Hq Hroute.
  destruct (routable_deadline cfg body Hroute) as (Hz & Hint).
  unfold AthenaQuery.lambda_handler_try.
  rewrite Hbody. cbn [or_default].
  assert (Ht : truthy (JObj body) = true).
  { destruct body; [discriminate Hq | reflexivity]. }
  rewrite Ht. cbn [negb].
  cbv beta iota zeta delta [bind ret py_get py_strip].
  rewrite Hq, Hint. cbv beta iota delta [ret].
  rewrite (in_range _ Hz).
  destruct (Dict.get "outputLocation" body); reflexivity.
Qed.

Lemma athena_except_value_error R msg w :
  AthenaQuery.lambda_handler_except R (ValueError msg) w
  = (Return (AthenaQuery.format_response R 400
               (JObj [ ("error", JStr "Invalid request"); ("message", JStr msg) ])), w).
Proof. reflexivity. Qed.

Lemma no_pattern_matches_nothing :
  find (fun p : pattern => Regex.search (snd p) EmptyString)
       LambdaEnhanced.dangerous_patterns = None.
Proof. reflexivity. Qed.

(** X4.  A query text made of white space only is not empty, so
    [validate_query] strips it and then finds nothing wrong with it:
    both validators accept it, and [execute_query] and
    [execute_athena_query] hand it to the engine as it is.
    [athena_query.lambda_handler] strips the text before it validates
    and so answers 400 without a submission. *)
Theorem X4_blank_query :
  forall q : string,
    q <> EmptyString -> Py.strip q = EmptyString ->
    LambdaEnhanced.validate_query (JStr q) = (true, EmptyString)
    /\ AthenaQuery.validate_query (JStr q) = (true, EmptyString)
    /\ (forall E cfg fuel db out d n w,
          submitted (snd (LambdaEnhanced.execute_query E cfg fuel (JStr q) db out d n w))
          = q :: submitted w)
    /\ (forall E cfg fuel db out d n w,
          submitted (snd (AthenaQuery.execute_athena_query E cfg fuel q db out d n w))
          = q :: submitted w)
    /\ (forall E R cfg fuel event fn body w,
          Dict.get "body" event = Some (JObj body) ->
          Dict.get "query" body = Some (JStr q) ->
          routable_body cfg body = true ->
          AthenaQuery.lambda_handler E R cfg fuel event (Some fn) w
          = (Return (AthenaQuery.format_response R 400
                       (JObj [ ("error", JStr "Invalid request");
                               ("message", JStr "Query must be a non-empty string") ])),
             w)).
Proof.
  intros q Hne Hblank.
  assert (Hv : LambdaEnhanced.validate_query (JStr q) = (true, EmptyString)).
  { unfold LambdaEnhanced.validate_query, validate_query_with.
    destruct q as [|c q]; [contradiction Hne; reflexivity|].
    cbn [String.eqb]. rewrite Hblank.
    change (Py.len EmptyString >? 262144)%Z with false. cbv iota.
    rewrite no_pattern_matches_nothing. reflexivity. }
  assert (Hv' : AthenaQuery.validate_query (JStr q) = (true, EmptyString)).
  { apply (proj2 (deny_list_extends (JStr q))). rewrite Hv. reflexivity. }
  split; [exact Hv|]. split; [exact Hv'|]. split; [|split].
  - intros. 
    destruct (LambdaEnhanced.execute_query E cfg fuel (JStr q) db out d n w)
      as [r w'] eqn:Hrun.
    apply enhanced_execute_submitted in Hrun. rewrite Hv in Hrun. exact Hrun.
  - intros.
    destruct (AthenaQuery.execute_athena_query E cfg fuel q db out d n w)
      as [r w'] eqn:Hrun.
    apply athena_execute_submitted in Hrun. rewrite Hv' in Hrun. exact Hrun.
  - intros E R cfg fuel event fn body w Hbody Hq Hroute.
    unfold AthenaQuery.lambda_handler, try_except.
    rewrite (athena_handler_try_run E R cfg fuel event body q w Hbody Hq Hroute).
    rewrite Hblank.
    unfold bind, AthenaQuery.execute_athena_query.
    change (AthenaQuery.validate_query (JStr EmptyString))
      with (false, "Query must be a non-empty string"%string).
    reflexivity.
Qed.

Lemma X4_blank_query_witness :
  LambdaEnhanced.validate_query (JStr "   ") = (true, EmptyString)
  /\ submitted (snd (LambdaEnhanced.execute_query always_running test_config 3
                       (JStr "   ") JNull JNull 1 1000 initial_world)) = ["   "].
Proof.
  assert (H1 : "   " <> EmptyString) by discriminate.
  assert (H2 : Py.strip "   " = EmptyString) by reflexivity.
  destruct (X4_blank_query "   " H1 H2) as (Ha & _ & Hb & _).
  split; [exact Ha|].
  exact (Hb always_running test_config 3%nat JNull JNull 1%Z 1000%Z initial_world).
Defined.

(** ** Further properties of the pollers *)

Lemma int_of_Q_zero (q : Q) : Py.int_of_Q (q - q) = 0%Z.
Proof.
  destruct q as [n d]. unfold Py.int_of_Q, Qminus, Qplus, Qopp. cbn [Qnum Qden].
  replace (n * Z.pos d + - n * Z.pos d)%Z with 0%Z by lia.
  apply Z.quot_0_l. discriminate.
Qed.

Lemma athena_poller_unfold E fuel id d w :
  AthenaQuery.wait_for_query_completion E fuel id d w
  = AthenaQuery.wait_loop E fuel id d (clock w) 1 w.
Proof. reflexivity. Qed.

Lemma index_poller_unfold E fuel id d w :
  Index.wait_for_query_completion E fuel id d w
  = Index.wait_loop E fuel id d (clock w) 1 w.
Proof. reflexivity. Qed.

(** X5.  With a deadline of zero or less the loop of
    [wait_for_query_completion] is not entered: the poller raises
    [TimeoutError] at once, with 0 seconds elapsed in its message, and
    makes no status call and no sleep.  This holds for the poller of
    [athena_query.py] and [lambda_enhanced.py] and for the one of
    [index.py]. *)
Theorem X5_poller_without_time :
  forall (E : Engine) (fuel : nat) (id : string) (d : Z) (w : world),
    (d <= 0)%Z ->
    AthenaQuery.wait_for_query_completion E (S fuel) id d w
    = (Raise (TimeoutError (timeout_message d 0 id)), w)
    /\ Index.wait_for_query_completion E (S fuel) id d w
       = (Raise (TimeoutError (timeout_message d 0 id)), w).
Proof.
  intros E fuel id d w Hd.
  assert (Hlt : Py.Qltb (clock w - clock w) (inject_Z d) = false).
  { apply Qltb_false. rewrite Zle_Qle in Hd. change (inject_Z 0) with 0 in Hd. lra. }
  split.
  - rewrite athena_poller_unfold, athena_wait_loop_step, Hlt, int_of_Q_zero.
    reflexivity.
  - rewrite index_poller_unfold, index_wait_loop_step, Hlt, int_of_Q_zero.
    reflexivity.
Qed.

Lemma X5_poller_without_time_witness :
  AthenaQuery.wait_for_query_completion always_running 1 "q-1" 0 initial_world
  = (Raise (TimeoutError (timeout_message 0 0 "q-1")), initial_world).
Proof.
  apply (X5_poller_without_time always_running 0 "q-1" 0 initial_world). lia.
Defined.

(** *** The number of status calls *)

Section PollCount.
Variable E : Engine.
Variable L : Q.
Variable id : string.
Variable d : Z.
Variable t0 : Q.
Hypothesis latency_bounds : latency_within E L.

Lemma few_polls_none (w : world) : few_polls d t0 w w.
Proof.
  exists 0%nat. split; [lia|]. split; [reflexivity|].
  intro H. change (inject_Z (Z.of_nat 0)) with 0. lra.
Qed.

Lemma few_polls_one (w w' : world) :
  n_status w' = S (n_status w) -> clock w - t0 < inject_Z d -> few_polls d t0 w w'.
Proof.
  intros Hn Hlt. exists 1%nat. split; [lia|]. split; [intro; lra|].
  intros _. change (inject_Z (Z.of_nat 1)) with 1. lra.
Qed.

Lemma few_polls_step (w w1 w' : world) :
  n_status w1 = S (n_status w) ->
  clock w - t0 < inject_Z d ->
  (clock w + 1 <= clock w1 \/ inject_Z d <= clock w1 - t0) ->
  few_polls d t0 w1 w' -> few_polls d t0 w w'.
Proof.
  intros Hn Hlt Hadv (n & Hn' & Hz & Hb).
  exists (S n). split; [lia|]. split; [intro; lra|]. intros _.
  rewrite Nat2Z.inj_succ. unfold Z.succ. rewrite inject_Z_plus.
  change (inject_Z 1) with 1.
  destruct (Qlt_le_dec (clock w1 - t0) (inject_Z d)) as [Hc|Hc].
  - specialize (Hb Hc). destruct Hadv as [Hadv|Hadv]; lra.
  - rewrite (Hz Hc). change (inject_Z (Z.of_nat 0)) with 0. lra.
Qed.

Lemma athena_wait_loop_polls :
  forall fuel b w r w',
    (1 <= b \/ inject_Z d <= clock w - t0) ->
    0 <= clock w - t0 ->
    AthenaQuery.wait_loop E fuel id d t0 b w = (r, w') ->
    few_polls d t0 w w'.
Proof.
  induction fuel as [|fuel IH]; intros b w r w' Hb Hlo Hrun.
  - inversion Hrun; subst. apply few_polls_none.
  - rewrite athena_wait_loop_step in Hrun.
    destruct (Py.Qltb (clock w - t0) (inject_Z d)) eqn:Hlt.
    2:{ inversion Hrun; subst. apply few_polls_none. }
    apply Qltb_true in Hlt.
    destruct Hb as [Hb|Hb]; [|lra].
    pose proof (latency_bounds (n_status w)) as [Hl0 _].
    destruct (on_status E (n_status w)) as [e|x].
    { inversion Hrun; subst. apply few_polls_one; [reflexivity | exact Hlt]. }
    destruct (nonterminal (Status_State x)).
    2:{ inversion Hrun; subst. apply few_polls_one; [reflexivity | exact Hlt]. }
    cbv zeta in Hrun.
    set (w1 := after_status E w) in *.
    set (s := Py.min (Py.min (b * (3 # 2)) 5)
                     (inject_Z (d - Py.int_of_Q (clock w1 - t0)))) in *.
    assert (Hw1 : clock w1 == clock w + latency E (n_status w)) by reflexivity.
    destruct (Py.Qltb s 0) eqn:Hneg.
    { inversion Hrun; subst. apply few_polls_one; [reflexivity | exact Hlt]. }
    apply Qltb_false in Hneg.
    assert (He1 : 0 <= clock w1 - t0) by lra.
    pose proof (int_of_Q_floor _ He1) as Hint.
    pose proof (Qfloor_le (clock w1 - t0)) as Hfl.
    assert (Hrem : inject_Z (d - Py.int_of_Q (clock w1 - t0))
                   == inject_Z d - inject_Z (Qfloor (clock w1 - t0))).
    { rewrite Hint. unfold Z.sub. rewrite inject_Z_plus, inject_Z_opp. lra. }
    assert (Hcase : 1 <= s \/ inject_Z d <= clock w1 + s - t0).
    { destruct (min_cases (Py.min (b * (3 # 2)) 5)
                  (inject_Z (d - Py.int_of_Q (clock w1 - t0))))
        as [[Hc Hmin]|[Hc Hmin]]; fold s in Hmin.
      - right. assert (s == inject_Z (d - Py.int_of_Q (clock w1 - t0))) as Hq
          by (rewrite Hmin; reflexivity). lra.
      - left. assert (s == Py.min (b * (3 # 2)) 5) as Hq
          by (rewrite Hmin; reflexivity).
        destruct (min_cases (b * (3 # 2)) 5) as [[_ Hm]|[_ Hm]];
          rewrite Hm in Hq; lra. }
    apply (few_polls_step w (after_sleep s w1) w'); [reflexivity | exact Hlt | |].
    + cbn [after_sleep clock]. destruct Hcase as [H|H]; [left; lra | right; exact H].
    + apply (IH s (after_sleep s w1) r w'); cbn [after_sleep clock];
        [exact Hcase | lra | exact Hrun].
Qed.

Lemma index_wait_loop_polls :
  forall fuel b w r w',
    1 <= b ->
    Index.wait_loop E fuel id d t0 b w = (r, w') ->
    few_polls d t0 w w'.
Proof.
  induction fuel as [|fuel IH]; intros b w r w' Hb Hrun.
  - inversion Hrun; subst. apply few_polls_none.
  - rewrite index_wait_loop_step in Hrun.
    destruct (Py.Qltb (clock w - t0) (inject_Z d)) eqn:Hlt.
    2:{ inversion Hrun; subst. apply few_polls_none. }
    apply Qltb_true in Hlt.
    pose proof (latency_bounds (n_status w)) as [Hl0 _].
    destruct (on_status E (n_status w)) as [e|x].
    { inversion Hrun; subst. apply few_polls_one; [reflexivity | exact Hlt]. }
    destruct (nonterminal (Status_State x)).
    2:{ inversion Hrun; subst. apply few_polls_one; [reflexivity | exact Hlt]. }
    cbv zeta in Hrun.
    set (s := Py.min (b * (3 # 2)) 5) in *.
    assert (Hs : 1 <= s).
    { unfold s. destruct (min_cases (b * (3 # 2)) 5) as [[_ Hm]|[_ Hm]];
        rewrite Hm; lra. }
    destruct (Py.Qltb s 0).
    { inversion Hrun; subst. apply few_polls_one; [reflexivity | exact Hlt]. }
    apply (few_polls_step w (after_sleep s (after_status E w)) w');
      [reflexivity | exact Hlt | |].
    + left. cbn [after_sleep after_status clock]. lra.
    + apply (IH s _ r w' Hs Hrun).
Qed.
End PollCount.

Lemma few_polls_from_start (d : Z) (w w' : world) :
  few_polls d (clock w) w w' ->
  (n_status w' <= n_status w + Z.to_nat d)%nat.
Proof.
  intros (n & Hn & Hz & Hb). rewrite Hn.
  destruct (Qlt_le_dec (clock w - clock w) (inject_Z d)) as [Hc|Hc].
  - specialize (Hb Hc).
    assert (H : inject_Z (Z.of_nat n) < inject_Z (d + 1)).
    { rewrite inject_Z_plus. change (inject_Z 1) with 1. lra. }
    rewrite <- Zlt_Qlt in H. lia.
  - rewrite (Hz Hc). lia.
Qed.

(** X6.  Whatever the engine answers, a run of
    [wait_for_query_completion] with deadline [d] makes at most [d]
    status calls (none when [d] is not positive), provided no status
    call takes a negative time: between two calls the poller sleeps a
    second or more unless the sleep reaches the deadline.  This holds
    for both pollers and for every amount of fuel. *)
Theorem X6_poller_status_calls :
  forall (E : Engine) (L : Q) (fuel : nat) (id : string) (d : Z) (w : world),
    latency_within E L ->
    (n_status (snd (AthenaQuery.wait_for_query_completion E fuel id d w))
     <= n_status w + Z.to_nat d)%nat
    /\ (n_status (snd (Index.wait_for_query_completion E fuel id d w))
        <= n_status w + Z.to_nat d)%nat.
Proof.
  intros E L fuel id d w Hlat.
  assert (H0 : 0 <= clock w - clock w) by lra.
  split; apply few_polls_from_start.
  - destruct (AthenaQuery.wait_for_query_completion E fuel id d w) as [r w'] eqn:Hrun.
    rewrite athena_poller_unfold in Hrun.
    apply (athena_wait_loop_polls E L id d (clock w) Hlat fuel 1 w r w');
      [left; lra | exact H0 | exact Hrun].
  - destruct (Index.wait_for_query_completion E fuel id d w) as [r w'] eqn:Hrun.
    rewrite index_poller_unfold in Hrun.
    apply (index_wait_loop_polls E L id d (clock w) Hlat fuel 1 w r w');
      [lra | exact Hrun].
Qed.

Lemma X6_poller_status_calls_witness :
  latency_within always_running 0
  /\ (n_status (snd (AthenaQuery.wait_for_query_completion always_running 10 "q-1" 3
                       initial_world)) <= 0 + Z.to_nat 3)%nat.
Proof.
  split; [exact always_running_latency|].
  exact (proj1 (X6_poller_status_calls always_running 0 10 "q-1" 3 initial_world
                  always_running_latency)).
Defined.

(** *** How the pollers end *)

Lemma last_answer_none (E : Engine) (w w' : world) :
  n_status w' = n_status w -> last_answer E w w' = None.
Proof.
  intro H. unfold last_answer. rewrite H, Nat.ltb_irrefl. reflexivity.
Qed.

Lemma last_answer_one (E : Engine) (w w' : world) :
  n_status w' = S (n_status w) ->
  last_answer E w w' = Some (on_status E (n_status w)).
Proof.
  intro H. unfold last_answer. rewrite H.
  replace (n_status w <? S (n_status w))%nat with true
    by (symmetry; apply Nat.ltb_lt; lia).
  reflexivity.
Qed.

Lemma last_answer_later (E : Engine) (w w2 w' : world) :
  n_status w2 = S (n_status w) ->
  (n_status w2 < n_status w')%nat ->
  last_answer E w w' = last_answer E w2 w'.
Proof.
  intros H2 Hlt. unfold last_answer.
  replace (n_status w <? n_status w')%nat with true
    by (symmetry; apply Nat.ltb_lt; lia).
  replace (n_status w2 <? n_status w')%nat with true
    by (symmetry; apply Nat.ltb_lt; lia).
  reflexivity.
Qed.

Lemma polled_until_last_one (E : Engine) (w w' : world) :
  (n_status w' <= S (n_status w))%nat -> polled_until_last E w w'.
Proof. intros H i Hi Hi'. lia. Qed.

(** One more status call in front, answered QUEUED or RUNNING. *)
Lemma polled_until_last_step (E : Engine) (w w2 w' : world) x :
  on_status E (n_status w) = inr x -> nonterminal (Status_State x) = true ->
  n_status w2 = S (n_status w) ->
  polled_until_last E w2 w' -> polled_until_last E w w'.
Proof.
  intros Hst Hnt H2 Hp i Hi Hi'.
  destruct (Nat.eq_dec i (n_status w)) as [->|Hne].
  - exists x. split; assumption.
  - apply Hp; lia.
Qed.

Lemma outcome_lift_athena E d id t0 (w w2 w' : world) x r :
  on_status E (n_status w) = inr x -> nonterminal (Status_State x) = true ->
  n_status w2 = S (n_status w) ->
  (n_status w2 <= n_status w')%nat ->
  athena_outcome d id t0 w' (last_answer E w2 w') r ->
  athena_outcome d id t0 w' (last_answer E w w') r.
Proof.
  intros Hst Hnt H2 Hle H.
  destruct (Nat.eq_dec (n_status w') (n_status w2)) as [Heq|Hne].
  - rewrite (last_answer_none E w2 w' Heq) in H.
    rewrite (last_answer_one E w w') by lia. rewrite Hst.
    unfold athena_outcome in *.
    destruct (Status_State x); try discriminate Hnt; right; exact H.
  - rewrite (last_answer_later E w w2 w' H2) by lia. exact H.
Qed.

Lemma outcome_lift_index E d id t0 (w w2 w' : world) x r :
  on_status E (n_status w) = inr x -> nonterminal (Status_State x) = true ->
  n_status w2 = S (n_status w) ->
  (n_status w2 <= n_status w')%nat ->
  index_outcome d id t0 w' (last_answer E w2 w') r ->
  index_outcome d id t0 w' (last_answer E w w') r.
Proof.
  intros Hst Hnt H2 Hle H.
  destruct (Nat.eq_dec (n_status w') (n_status w2)) as [Heq|Hne].
  - rewrite (last_answer_none E w2 w' Heq) in H.
    rewrite (last_answer_one E w w') by lia. rewrite Hst.
    unfold index_outcome in *. rewrite Hnt. exact H.
  - rewrite (last_answer_later E w w2 w' H2) by lia. exact H.
Qed.

(** The loop of [athena_query.py] reads the status answers in order,
    stops at the first that is not QUEUED or RUNNING, and makes a
    status call whenever it is entered before the deadline. *)
Lemma athena_wait_loop_outcome E id d t0 :
  forall fuel b w r w',
    AthenaQuery.wait_loop E fuel id d t0 b w = (r, w') ->
    athena_outcome d id t0 w' (last_answer E w w') r
    /\ polled_until_last E w w'
    /\ (clock w - t0 < inject_Z d -> (0 < fuel)%nat ->
        (n_status w < n_status w')%nat).
Proof.
  induction fuel as [|fuel IH]; intros b w r w' Hrun.
  - inversion Hrun; subst.
    rewrite (last_answer_none E w' w' eq_refl).
    split; [right; reflexivity|].
    split; [apply polled_until_last_one; lia | lia].
  - rewrite athena_wait_loop_step in Hrun.
    destruct (Py.Qltb (clock w - t0) (inject_Z d)) eqn:Hlt.
    2:{ inversion Hrun; subst. apply Qltb_false in Hlt.
        rewrite (last_answer_none E w' w' eq_refl).
        split; [left; split; [reflexivity | exact Hlt]|].
        split; [apply polled_until_last_one; lia | intros H _; lra]. }
    destruct (on_status E (n_status w)) as [e|x] eqn:Hst.
    { inversion Hrun; subst.
      rewrite (last_answer_one E w (after_status E w) eq_refl), Hst.
      split; [reflexivity|].
      split; [apply polled_until_last_one; cbn; lia | cbn; lia]. }
    destruct (nonterminal (Status_State x)) eqn:Hnt.
    + cbv zeta in Hrun.
      match type of Hrun with
      | (if Py.Qltb ?s 0 then _ else _) = _ => set (sl := s) in *
      end.
      destruct (Py.Qltb sl 0).
      { inversion Hrun; subst.
        rewrite (last_answer_one E w (after_status E w) eq_refl), Hst.
        split; [|split; [apply polled_until_last_one; cbn; lia | cbn; lia]].
        unfold athena_outcome.
        destruct (Status_State x); try discriminate Hnt; left; reflexivity. }
      pose proof (athena_wait_loop_frame E id d t0 fuel sl _ r w' Hrun)
        as (_ & _ & Hmono' & _).
      destruct (IH _ _ _ _ Hrun) as (Hout & Hpoll & _).
      split; [|split].
      * apply (outcome_lift_athena E d id t0 w
                 (after_sleep sl (after_status E w)) w' x);
          [exact Hst | exact Hnt | reflexivity | exact Hmono' | exact Hout].
      * apply (polled_until_last_step E w (after_sleep sl (after_status E w)) w' x);
          [exact Hst | exact Hnt | reflexivity | exact Hpoll].
      * intros _ _. cbn in Hmono'. lia.
    + inversion Hrun; subst.
      rewrite (last_answer_one E w (after_status E w) eq_refl), Hst.
      split; [|split; [apply polled_until_last_one; cbn; lia | cbn; lia]].
      unfold athena_outcome.
      destruct (Status_State x); try discriminate Hnt; reflexivity.
Qed.

Lemma index_wait_loop_outcome E id d t0 :
  forall fuel b w r w',
    0 <= b ->
    Index.wait_loop E fuel id d t0 b w = (r, w') ->
    index_outcome d id t0 w' (last_answer E w w') r
    /\ polled_until_last E w w'
    /\ (clock w - t0 < inject_Z d -> (0 < fuel)%nat ->
        (n_status w < n_status w')%nat).
Proof.
  induction fuel as [|fuel IH]; intros b w r w' Hb Hrun.
  - inversion Hrun; subst.
    rewrite (last_answer_none E w' w' eq_refl).
    split; [right; reflexivity|].
    split; [apply polled_until_last_one; lia | lia].
  - rewrite index_wait_loop_step in Hrun.
    destruct (Py.Qltb (clock w - t0) (inject_Z d)) eqn:Hlt.
    2:{ inversion Hrun; subst. apply Qltb_false in Hlt.
        rewrite (last_answer_none E w' w' eq_refl).
        split; [left; split; [reflexivity | exact Hlt]|].
        split; [apply polled_until_last_one; lia | intros H _; lra]. }
    destruct (on_status E (n_status w)) as [e|x] eqn:Hst.
    { inversion Hrun; subst.
      rewrite (last_answer_one E w (after_status E w) eq_refl), Hst.
      split; [reflexivity|].
      split; [apply polled_until_last_one; cbn; lia | cbn; lia]. }
    destruct (nonterminal (Status_State x)) eqn:Hnt.
    + cbv zeta in Hrun.
      assert (Hs : 0 <= Py.min (b * (3 # 2)) 5).
      { destruct (min_cases (b * (3 # 2)) 5) as [[_ Hm]|[_ Hm]]; rewrite Hm; lra. }
      destruct (Py.Qltb (Py.min (b * (3 # 2)) 5) 0) eqn:Hneg.
      { apply Qltb_true in Hneg. lra. }
      pose proof (index_wait_loop_frame E id d t0 fuel _ _ r w' Hrun)
        as (_ & _ & Hmono' & _).
      destruct (IH _ _ _ _ Hs Hrun) as (Hout & Hpoll & _).
      split; [|split].
      * apply (outcome_lift_index E d id t0 w
                 (after_sleep (Py.min (b * (3 # 2)) 5) (after_status E w)) w' x);
          [exact Hst | exact Hnt | reflexivity | exact Hmono' | exact Hout].
      * apply (polled_until_last_step E w
                 (after_sleep (Py.min (b * (3 # 2)) 5) (after_status E w)) w' x);
          [exact Hst | exact Hnt | reflexivity | exact Hpoll].
      * intros _ _. cbn in Hmono'. lia.
    + inversion Hrun; subst.
      rewrite (last_answer_one E w (after_status E w) eq_refl), Hst.
      split; [|split; [apply polled_until_last_one; cbn; lia | cbn; lia]].
      unfold index_outcome. rewrite Hnt. reflexivity.
Qed.

(** With status calls that take a second at most, the sleep of the
    poller of [athena_query.py] is never negative. *)
Lemma athena_wait_loop_sleeps E L id d t0 :
  latency_within E L -> L <= 1 ->
  forall fuel b w r w',
    0 <= b -> 0 <= clock w - t0 ->
    AthenaQuery.wait_loop E fuel id d t0 b w = (r, w') ->
    forall m, r <> Raise (ValueError m).
Proof.
  intros Hlat HL.
  induction fuel as [|fuel IH]; intros b w r w' Hb Hlo Hrun m.
  - inversion Hrun; subst. discriminate.
  - rewrite athena_wait_loop_step in Hrun.
    destruct (Py.Qltb (clock w - t0) (inject_Z d)) eqn:Hlt.
    2:{ inversion Hrun; subst. discriminate. }
    apply Qltb_true in Hlt.
    pose proof (Hlat (n_status w)) as [Hl0 HlL].
    destruct (on_status E (n_status w)) as [e|x].
    { inversion Hrun; subst. destruct e; discriminate. }
    destruct (nonterminal (Status_State x)).
    2:{ inversion Hrun; subst. destruct (Status_State x); discriminate. }
    cbv zeta in Hrun.
    set (w1 := after_status E w) in *.
    set (s := Py.min (Py.min (b * (3 # 2)) 5)
                     (inject_Z (d - Py.int_of_Q (clock w1 - t0)))) in *.
    assert (Hw1 : clock w1 == clock w + latency E (n_status w)) by reflexivity.
    assert (He1 : 0 <= clock w1 - t0) by lra.
    pose proof (int_of_Q_floor _ He1) as Hint.
    pose proof (Qfloor_le (clock w1 - t0)) as Hfl.
    assert (Hrem : inject_Z (d - Py.int_of_Q (clock w1 - t0))
                   == inject_Z d - inject_Z (Qfloor (clock w1 - t0))).
    { rewrite Hint. unfold Z.sub. rewrite inject_Z_plus, inject_Z_opp. lra. }
    assert (Hfd : inject_Z (Qfloor (clock w1 - t0)) <= inject_Z d).
    { assert (inject_Z (Qfloor (clock w1 - t0)) < inject_Z (d + 1)) as H.
      { rewrite inject_Z_plus. change (inject_Z 1) with 1. lra. }
      rewrite <- Zlt_Qlt in H. rewrite <- Zle_Qle. lia. }
    assert (Hs : 0 <= s).
    { destruct (min_cases (Py.min (b * (3 # 2)) 5)
                  (inject_Z (d - Py.int_of_Q (clock w1 - t0))))
        as [[Hc Hmin]|[Hc Hmin]]; fold s in Hmin.
      - rewrite Hmin. lra.
      - rewrite Hmin.
        destruct (min_cases (b * (3 # 2)) 5) as [[_ Hm]|[_ Hm]]; rewrite Hm; lra. }
    destruct (Py.Qltb s 0) eqn:Hneg.
    { apply Qltb_true in Hneg. lra. }
    apply (IH s (after_sleep s w1) r w'); cbn [after_sleep clock];
      [exact Hs | lra | exact Hrun].
Qed.

(** With status calls that take no negative time and fuel for the
    deadline, the pollers do not run out of fuel. *)
Lemma athena_poller_fuel E L fuel id d w :
  latency_within E L -> (Z.to_nat d + 2 <= fuel)%nat ->
  fst (AthenaQuery.wait_for_query_completion E fuel id d w) <> OutOfFuel.
Proof.
  intros Hlat Hf.
  destruct (Z_le_gt_dec 0 d) as [Hd|Hd].
  - destruct (AthenaQuery.wait_for_query_completion E fuel id d w) as [r w'] eqn:Hrun.
    exact (proj1 (athena_poller_post E L id d fuel w Hd Hf Hlat r w' Hrun)).
  - destruct fuel as [|fuel]; [lia|].
    rewrite athena_poller_unfold, athena_wait_loop_step.
    replace (Py.Qltb (clock w - clock w) (inject_Z d)) with false; [discriminate|].
    symmetry. apply Qltb_false.
    assert (inject_Z d <= 0) by (change 0 with (inject_Z 0); rewrite <- Zle_Qle; lia).
    lra.
Qed.

Lemma index_poller_fuel E L fuel id d w :
  latency_within E L -> (Z.to_nat d + 2 <= fuel)%nat ->
  fst (Index.wait_for_query_completion E fuel id d w) <> OutOfFuel.
Proof.
  intros Hlat Hf.
  destruct (Z_le_gt_dec 0 d) as [Hd|Hd].
  - destruct (Index.wait_for_query_completion E fuel id d w) as [r w'] eqn:Hrun.
    exact (proj1 (index_poller_post E L id d fuel w Hd Hf Hlat r w' Hrun)).
  - destruct fuel as [|fuel]; [lia|].
    rewrite index_poller_unfold, index_wait_loop_step.
    replace (Py.Qltb (clock w - clock w) (inject_Z d)) with false; [discriminate|].
    symmetry. apply Qltb_false.
    assert (inject_Z d <= 0) by (change 0 with (inject_Z 0); rewrite <- Zle_Qle; lia).
    lra.
Qed.

Lemma zero_lt_deadline (d : Z) (t : Q) : (0 < d)%Z -> t - t < inject_Z d.
Proof.
  intro H. assert (0 < inject_Z d) by (change 0 with (inject_Z 0); rewrite <- Zlt_Qlt; lia).
  lra.
Qed.

(** X7.  A run of [wait_for_query_completion] reads the engine's
    status answers in order and stops at the first one that is not
    QUEUED or RUNNING; with a positive deadline it makes one status
    call at least.  The answer to the last call decides how the run
    ends.  In [athena_query.py] and [lambda_enhanced.py]: a SUCCEEDED
    answer is returned as a status; FAILED raises [RuntimeError] with
    the reason as [str] prints it (a missing reason reads [None]: the
    key is always present, so the default [Unknown error] never
    applies); CANCELLED raises [RuntimeError]; an error of the engine
    is passed on; after a QUEUED or RUNNING answer the run ends with
    [TimeoutError], raised only once the deadline has passed, or with
    the [ValueError] of a negative sleep, which cannot happen when
    status calls take a second at most.  In [index.py] the [Status] of
    any SUCCEEDED, FAILED or CANCELLED answer is returned and an error
    of the engine is passed on; otherwise the run ends with
    [TimeoutError] once the deadline has passed.  With fuel for the
    deadline and status calls that take no negative time, a run ends
    in one of these ways. *)
Theorem X7_poller_outcomes :
  forall (E : Engine) (fuel : nat) (id : string) (d : Z) (w : world),
    (let run := AthenaQuery.wait_for_query_completion E fuel id d w in
     athena_outcome d id (clock w) (snd run) (last_answer E w (snd run)) (fst run)
     /\ polled_until_last E w (snd run)
     /\ ((0 < d)%Z -> (0 < fuel)%nat -> (n_status w < n_status (snd run))%nat)
     /\ forall L, latency_within E L ->
                  ((Z.to_nat d + 2 <= fuel)%nat -> fst run <> OutOfFuel)
                  /\ (L <= 1 -> forall m, fst run <> Raise (ValueError m)))
    /\ (let run := Index.wait_for_query_completion E fuel id d w in
        index_outcome d id (clock w) (snd run) (last_answer E w (snd run)) (fst run)
        /\ polled_until_last E w (snd run)
        /\ ((0 < d)%Z -> (0 < fuel)%nat -> (n_status w < n_status (snd run))%nat)
        /\ forall L, latency_within E L -> (Z.to_nat d + 2 <= fuel)%nat ->
                     fst run <> OutOfFuel).
Proof.
  intros E fuel id d w. split; cbv zeta.
  - pose proof (athena_poller_fuel E) as Hfuel.
    specialize (fun L => Hfuel L fuel id d w).
    destruct (AthenaQuery.wait_for_query_completion E fuel id d w) as [r w'] eqn:Hrun.
    rewrite athena_poller_unfold in Hrun. cbn [fst snd] in *.
    destruct (athena_wait_loop_outcome E id d (clock w) fuel 1 w r w' Hrun)
      as (Hout & Hpoll & Hprog).
    split; [exact Hout|]. split; [exact Hpoll|].
    split; [intros Hd Hf; apply Hprog; [apply zero_lt_deadline; exact Hd | exact Hf]|].
    intros L Hlat. split; [exact (Hfuel L Hlat)|].
    intro HL.
    apply (athena_wait_loop_sleeps E L id d (clock w) Hlat HL fuel 1 w r w');
      [lra | lra | exact Hrun].
  - pose proof (index_poller_fuel E) as Hfuel.
    specialize (fun L => Hfuel L fuel id d w).
    destruct (Index.wait_for_query_completion E fuel id d w) as [r w'] eqn:Hrun.
    rewrite index_poller_unfold in Hrun. cbn [fst snd] in *.
    destruct (index_wait_loop_outcome E id d (clock w) fuel 1 w r w' ltac:(lra) Hrun)
      as (Hout & Hpoll & Hprog).
    split; [exact Hout|]. split; [exact Hpoll|].
    split; [intros Hd Hf; apply Hprog; [apply zero_lt_deadline; exact Hd | exact Hf]|].
    intros L Hlat. exact (Hfuel L Hlat).
Qed.

Lemma X7_poller_outcomes_witness :
  latency_within always_running 0 /\ 0 <= 1
  /\ (Z.to_nat 2 + 2 <= 5)%nat
  /\ fst (AthenaQuery.wait_for_query_completion always_running 5 "q-1" 2
            initial_world) <> OutOfFuel
  /\ (forall m,
       fst (AthenaQuery.wait_for_query_completion always_running 5 "q-1" 2
              initial_world) <> Raise (ValueError m))
  /\ (n_status initial_world
      < n_status (snd (Index.wait_for_query_completion always_running 5 "q-1" 2
                         initial_world)))%nat.
Proof.
  split; [exact always_running_latency|]. split; [lra|].
  split; [cbn; lia|].
  pose proof (X7_poller_outcomes always_running 5 "q-1" 2 initial_world) as [Ha Hi].
  cbv zeta in Ha, Hi.
  destruct Ha as (_ & _ & _ & Ha). destruct (Ha 0 always_running_latency) as [Hf Hv].
  destruct Hi as (_ & _ & Hp & _).
  split; [apply Hf; cbn; lia|].
  split; [apply Hv; lra|].
  apply Hp; lia.
Defined.

(** *** A status call that returns after the deadline *)

Lemma min_le_r (a b : Q) : Py.min a b <= b.
Proof. destruct (min_cases a b) as [[H ->]|[H ->]]; lra. Qed.

Lemma athena_poller_late_call E fuel id d w x :
  (1 <= d)%Z ->
  on_status E (n_status w) = inr x ->
  nonterminal (Status_State x) = true ->
  inject_Z d + 1 <= latency E (n_status w) ->
  AthenaQuery.wait_for_query_completion E (S fuel) id d w
  = (Raise (ValueError "sleep length must be non-negative"), after_status E w).
Proof.
  intros Hd Hst Hnt Hlate.
  rewrite athena_poller_unfold, athena_wait_loop_step.
  assert (Hd' : 1 <= inject_Z d).
  { rewrite Zle_Qle in Hd. exact Hd. }
  replace (Py.Qltb (clock w - clock w) (inject_Z d)) with true
    by (symmetry; apply Qltb_true; lra).
  rewrite Hst, Hnt. cbv zeta.
  set (w1 := after_status E w).
  assert (Hw1 : clock w1 == clock w + latency E (n_status w)) by reflexivity.
  assert (He1 : 0 <= clock w1 - clock w) by lra.
  pose proof (int_of_Q_floor _ He1) as Hint.
  pose proof (Qlt_floor (clock w1 - clock w)) as Hfu.
  rewrite inject_Z_plus in Hfu. change (inject_Z 1) with 1 in Hfu.
  assert (Hrem : inject_Z (d - Py.int_of_Q (clock w1 - clock w))
                 == inject_Z d - inject_Z (Qfloor (clock w1 - clock w))).
  { rewrite Hint. unfold Z.sub. rewrite inject_Z_plus, inject_Z_opp. lra. }
  pose proof (min_le_r (Py.min (1 * (3 # 2)) 5)
                (inject_Z (d - Py.int_of_Q (clock w1 - clock w)))) as Hmin.
  replace (Py.Qltb _ 0) with true; [reflexivity|].
  symmetry. apply Qltb_true. lra.
Qed.

(** X8.  When the first status call of the poller of
    [athena_query.py] and [lambda_enhanced.py] reports QUEUED or
    RUNNING a second or more after the deadline, the time left is
    negative and is taken as the sleep length: [time.sleep] raises
    [ValueError], which [athena_query.lambda_handler] reports as an
    invalid request (status 400) and not as a timeout. *)
Theorem X8_status_call_past_deadline :
  forall (E : Engine) (fuel : nat) (d : Z) (w : world) (x : QueryExecution),
    (1 <= d)%Z ->
    on_status E (n_status w) = inr x ->
    nonterminal (Status_State x) = true ->
    inject_Z d + 1 <= latency E (n_status w) ->
    (forall id,
        AthenaQuery.wait_for_query_completion E (S fuel) id d w
        = (Raise (ValueError "sleep length must be non-negative"), after_status E w))
    /\ (forall R cfg event fn body q id,
          Dict.get "body" event = Some (JObj body) ->
          Dict.get "query" body = Some (JStr q) ->
          routable_body cfg body = true ->
          deadline_of (MAX_WAIT_TIME cfg) body = d ->
          fst (AthenaQuery.validate_query (JStr (Py.strip q))) = true ->
          on_start E (n_start w) = inr id ->
          fst (AthenaQuery.lambda_handler E R cfg (S fuel) event (Some fn) w)
          = Return (AthenaQuery.format_response R 400
                      (JObj [ ("error", JStr "Invalid request");
                              ("message", JStr "sleep length must be non-negative") ]))).
Proof.
  intros E fuel d w x Hd Hst Hnt Hlate. split.
  - intro id. apply (athena_poller_late_call E fuel id d w x); assumption.
  - intros R cfg event fn body q id Hbody Hq Hroute Hdl Hvalid Hstart.
    unfold AthenaQuery.lambda_handler, try_except.
    rewrite (athena_handler_try_run E R cfg (S fuel) event body q w Hbody Hq Hroute).
    rewrite Hdl.
    unfold bind at 1. unfold AthenaQuery.execute_athena_query.
    destruct (AthenaQuery.validate_query (JStr (Py.strip q))) as [valid msg].
    cbn [fst] in Hvalid. subst valid. cbn [negb].
    unfold bind at 1.
    unfold AthenaQuery.start_query_execution, client_start_query_execution.
    rewrite Hstart.
    unfold bind at 1.
    match goal with
    | |- context [AthenaQuery.wait_for_query_completion E (S fuel) id d ?w1] =>
        rewrite (athena_poller_late_call E fuel id d w1 x Hd Hst Hnt Hlate)
    end.
    reflexivity.
Qed.

Lemma X8_status_call_past_deadline_witness :
  (1 <= 1)%Z
  /\ on_status (slow_engine 5) (n_status initial_world) = inr running_execution
  /\ nonterminal (Status_State running_execution) = true
  /\ inject_Z 1 + 1 <= latency (slow_engine 5) (n_status initial_world)
  /\ fst (AthenaQuery.wait_for_query_completion (slow_engine 5) 1 "q-1" 1 initial_world)
     = Raise (ValueError "sleep length must be non-negative").
Proof.
  assert (H1 : (1 <= 1)%Z) by lia.
  assert (H2 : inject_Z 1 + 1 <= latency (slow_engine 5) (n_status initial_world))
    by (vm_compute; discriminate).
  split; [exact H1|]. split; [reflexivity|]. split; [reflexivity|]. split; [exact H2|].
  rewrite (proj1 (X8_status_call_past_deadline (slow_engine 5) 0 1 initial_world
                    running_execution H1 eq_refl eq_refl H2) "q-1").
  reflexivity.
Defined.

(** ** Further properties of [get_query_results] *)

Lemma athena_row_fold_untouched cm :
  forall (data : list Datum) n d k,
    (forall i, (n <= i < n + List.length data)%nat -> (i < List.length cm)%nat ->
               str_item "name" (nth i cm []) <> k) ->
    Dict.get k
      (fold_left
         (fun row_dict (ic : nat * Datum) =>
            let (i, col) := ic in
            if (i <? List.length cm)%nat
            then Dict.set (str_item "name" (nth i cm [])) col row_dict
            else row_dict)
         (combine (seq n (List.length data)) data) d)
    = Dict.get k d.
Proof.
  induction data as [|x data IH]; intros n d k Hk; cbn [List.length seq combine fold_left].
  - reflexivity.
  - rewrite IH.
    + destruct (Nat.ltb_spec n (List.length cm)) as [Hlt|Hge]; [|reflexivity].
      rewrite DictFacts.get_set.
      destruct (String.eqb_spec k (str_item "name" (nth n cm []))) as [->|_];
        [|reflexivity].
      exfalso. apply (Hk n); [cbn; lia | exact Hlt | reflexivity].
    + intros i Hi. apply Hk. cbn [List.length]. lia.
Qed.

Lemma athena_row_fold_get cm :
  forall (data : list Datum) n d i,
    (n <= i < n + List.length data)%nat -> (i < List.length cm)%nat ->
    (forall j, (i < j < n + List.length data)%nat -> (j < List.length cm)%nat ->
               str_item "name" (nth j cm []) <> str_item "name" (nth i cm [])) ->
    Dict.get (str_item "name" (nth i cm []))
      (fold_left
         (fun row_dict (ic : nat * Datum) =>
            let (i, col) := ic in
            if (i <? List.length cm)%nat
            then Dict.set (str_item "name" (nth i cm [])) col row_dict
            else row_dict)
         (combine (seq n (List.length data)) data) d)
    = Some (nth (i - n) data None).
Proof.
  induction data as [|x data IH]; intros n d i Hi Hc Hlast;
    cbn [List.length seq combine fold_left] in *; [lia|].
  destruct (Nat.eq_dec i n) as [->|Hne].
  - rewrite athena_row_fold_untouched.
    + replace (n <? List.length cm)%nat with true
        by (symmetry; apply Nat.ltb_lt; exact Hc).
      rewrite DictFacts.get_set, String.eqb_refl, Nat.sub_diag. reflexivity.
    + intros j Hj Hjc. apply Hlast; [lia | exact Hjc].
  - rewrite (IH (S n) _ i); [| lia | exact Hc |].
    + replace (i - n)%nat with (S (i - S n)) by lia. reflexivity.
    + intros j Hj. apply Hlast. lia.
Qed.

(** The cell a parsed row holds under a column's name: the cell at the
    column's position, or at the last position that bears the name. *)
Lemma athena_parse_row_get cm data i :
  (i < List.length data)%nat -> (i < List.length cm)%nat ->
  (forall j, (i < j < List.length data)%nat -> (j < List.length cm)%nat ->
             str_item "name" (nth j cm []) <> str_item "name" (nth i cm [])) ->
  Dict.get (str_item "name" (nth i cm [])) (AthenaQuery.parse_row cm data)
  = Some (nth i data None).
Proof.
  intros Hi Hc Hlast.
  assert (Hlast' : forall j, (i < j < 0 + List.length data)%nat ->
                             (j < List.length cm)%nat ->
             str_item "name" (nth j cm []) <> str_item "name" (nth i cm [])).
  { intros j Hj. apply Hlast. lia. }
  pose proof (athena_row_fold_get cm data 0 [] i ltac:(lia) Hc Hlast') as H.
  rewrite Nat.sub_0_r in H. exact H.
Qed.

Lemma map_null_as_empty_set k v (d : Dict.dict Datum) :
  map null_as_empty (Dict.set k v d)
  = Dict.set k (Some (or_default v EmptyString)) (map null_as_empty d).
Proof.
  induction d as [|[k0 v0] d IH]; cbn [Dict.set map]; [reflexivity|].
  cbn [null_as_empty fst snd].
  destruct (String.eqb k k0); cbn [map]; [reflexivity|].
  rewrite IH. reflexivity.
Qed.

Lemma athena_row_fold_out_of_range cm :
  forall (data : list Datum) n (d : Dict.dict Datum),
    (List.length cm <= n)%nat ->
    fold_left
      (fun row_dict (ic : nat * Datum) =>
         let (i, col) := ic in
         if (i <? List.length cm)%nat
         then Dict.set (str_item "name" (nth i cm [])) col row_dict
         else row_dict)
      (combine (seq n (List.length data)) data) d
    = d.
Proof.
  induction data as [|x data IH]; intros n d Hn; cbn [List.length seq combine fold_left].
  - reflexivity.
  - replace (n <? List.length cm)%nat with false
      by (symmetry; apply Nat.ltb_ge; exact Hn).
    apply IH. lia.
Qed.

Lemma row_folds_agree cm :
  forall (data pre : list Datum) (d : Dict.dict Datum),
    fold_left
      (fun d i =>
         Dict.set (str_item "name" (nth i cm []))
                  (Some (or_default (nth i (pre ++ data) None) EmptyString)) d)
      (seq (List.length pre)
           (Nat.min (List.length (pre ++ data)) (List.length cm) - List.length pre))
      (map null_as_empty d)
    = map null_as_empty
        (fold_left
           (fun row_dict (ic : nat * Datum) =>
              let (i, col) := ic in
              if (i <? List.length cm)%nat
              then Dict.set (str_item "name" (nth i cm [])) col row_dict
              else row_dict)
           (combine (seq (List.length pre) (List.length data)) data) d).
Proof.
  induction data as [|x data IH]; intros pre d.
  - rewrite app_nil_r.
    replace (Nat.min (List.length pre) (List.length cm) - List.length pre)%nat
      with 0%nat by lia.
    reflexivity.
  - cbn [List.length seq combine fold_left].
    destruct (Nat.ltb_spec (List.length pre) (List.length cm)) as [Hlt|Hge].
    + assert (Hlen : List.length (pre ++ x :: data)
                     = S (List.length pre + List.length data)).
      { rewrite length_app. cbn [List.length]. lia. }
      replace (Nat.min (List.length (pre ++ x :: data)) (List.length cm)
               - List.length pre)%nat
        with (S (Nat.min (List.length ((pre ++ [x]) ++ data)) (List.length cm)
                 - List.length (pre ++ [x])))
        by (rewrite Hlen, <- app_assoc, !length_app; cbn [List.length app]; lia).
      cbn [seq fold_left].
      replace (nth (List.length pre) (pre ++ x :: data) None) with x
        by (rewrite app_nth2 by lia; rewrite Nat.sub_diag; reflexivity).
      rewrite <- map_null_as_empty_set.
      replace (pre ++ x :: data) with ((pre ++ [x]) ++ data)
        by (rewrite <- app_assoc; reflexivity).
      replace (S (List.length pre)) with (List.length (pre ++ [x]))
        by (rewrite length_app; cbn [List.length]; lia).
      apply IH.
    + replace (Nat.min (List.length (pre ++ x :: data)) (List.length cm)
               - List.length pre)%nat with 0%nat by lia.
      rewrite athena_row_fold_out_of_range by lia. reflexivity.
Qed.

(** The row of [index.py] is the row of [athena_query.py] with the
    NULL cells read as empty strings. *)
Lemma index_row_data_as_parse_row cm data :
  Index.row_data cm data = map null_as_empty (AthenaQuery.parse_row cm data).
Proof.
  unfold Index.row_data, AthenaQuery.parse_row, Py.enumerate.
  pose proof (row_folds_agree cm data [] []) as H.
  cbn [List.length app map] in H. rewrite Nat.sub_0_r in H. exact H.
Qed.

Lemma get_map_null_as_empty k (d : Dict.dict Datum) :
  Dict.get k (map null_as_empty d)
  = option_map (fun v => Some (or_default v EmptyString)) (Dict.get k d).
Proof.
  induction d as [|[k0 v0] d IH]; cbn [map Dict.get null_as_empty fst snd];
    [reflexivity|].
  destruct (String.eqb k k0); [reflexivity | exact IH].
Qed.

Lemma nth_error_enumerate_from {A} (l : list A) :
  forall n i, nth_error (combine (seq n (List.length l)) l) i
              = option_map (pair (n + i)%nat) (nth_error l i).
Proof.
  induction l as [|x l IH]; intros n i; cbn [List.length seq combine].
  - destruct i; reflexivity.
  - destruct i as [|i]; cbn [nth_error option_map].
    + rewrite Nat.add_0_r. reflexivity.
    + rewrite IH. replace (S n + i)%nat with (n + S i)%nat by lia. reflexivity.
Qed.

Lemma nth_error_enumerate {A} (l : list A) (i : nat) :
  nth_error (Py.enumerate l) i = option_map (pair i) (nth_error l i).
Proof. unfold Py.enumerate. apply nth_error_enumerate_from. Qed.

Lemma length_enumerate {A} (l : list A) :
  List.length (Py.enumerate l) = List.length l.
Proof.
  unfold Py.enumerate. rewrite length_combine, length_seq. apply Nat.min_id.
Qed.

Lemma nth_of_nth_error {A} (l : list A) (i : nat) (x d : A) :
  nth_error l i = Some x -> nth i l d = x.
Proof. intro H. apply nth_error_nth. exact H. Qed.

Lemma athena_meta_name columns i col :
  nth_error columns i = Some col ->
  str_item "name"
    (nth i (map AthenaQuery.column_metadata_entry (Py.enumerate columns)) [])
  = column_name i col.
Proof.
  intro H.
  rewrite (nth_of_nth_error _ i (AthenaQuery.column_metadata_entry (i, col))).
  - reflexivity.
  - rewrite nth_error_map, nth_error_enumerate, H. reflexivity.
Qed.

Lemma enhanced_meta_name columns i col :
  nth_error columns i = Some col ->
  str_item "name"
    (nth i (map LambdaEnhanced.column_metadata_entry (Py.enumerate columns)) [])
  = column_name i col.
Proof.
  intro H.
  rewrite (nth_of_nth_error _ i (LambdaEnhanced.column_metadata_entry (i, col))).
  - reflexivity.
  - rewrite nth_error_map, nth_error_enumerate, H. reflexivity.
Qed.

Lemma index_meta_name columns i col :
  nth_error columns i = Some col ->
  str_item "name" (nth i (map Index.column_metadata_entry columns) [])
  = index_column_name col.
Proof.
  intro H.
  rewrite (nth_of_nth_error _ i (Index.column_metadata_entry col)).
  - reflexivity.
  - rewrite nth_error_map, H. reflexivity.
Qed.

Lemma nth_error_tl {A} (l : list A) (j : nat) :
  nth_error (List.tl l) j = nth_error l (S j).
Proof. destruct l; [destruct j|]; reflexivity. Qed.

Lemma length_tl {A} (l : list A) : List.length (List.tl l) = Nat.pred (List.length l).
Proof. destruct l; reflexivity. Qed.

Lemma nth_error_in_range {A} (l : list A) (i : nat) (x : A) :
  nth_error l i = Some x -> (i < List.length l)%nat.
Proof. intro H. apply nth_error_Some. rewrite H. discriminate. Qed.

Lemma nth_error_at {A} (l : list A) (i : nat) :
  (i < List.length l)%nat -> exists x, nth_error l i = Some x.
Proof.
  intro H. destruct (nth_error l i) as [x|] eqn:Hx; [exists x; reflexivity|].
  apply nth_error_None in Hx. lia.
Qed.

(** The rows built from a page, for a list of metadata entries whose
    names are given by [name]. *)
Lemma parsed_rows_pair (cm : list (Dict.dict json)) (columns : list ColumnInfo)
      (name : nat -> ColumnInfo -> string) (page_rows : list (list Datum)) :
  List.length cm = List.length columns ->
  (forall i col, nth_error columns i = Some col ->
                 str_item "name" (nth i cm []) = name i col) ->
  forall j data i col,
    nth_error page_rows (S j) = Some data ->
    nth_error columns i = Some col ->
    (i < List.length data)%nat ->
    (forall i' col', (i < i' < List.length data)%nat ->
                     nth_error columns i' = Some col' ->
                     name i' col' <> name i col) ->
    exists row,
      nth_error (map (AthenaQuery.parse_row cm) (List.tl page_rows)) j = Some row
      /\ Dict.get (name i col) row = Some (nth i data None).
Proof.
  intros Hlen Hname j data i col Hrow Hcol Hi Hlast.
  exists (AthenaQuery.parse_row cm data). split.
  2: assert (Hlen' : forall n, (n < List.length cm)%nat <-> (n < List.length columns)%nat)
       by (intro n; rewrite Hlen; reflexivity).
  - rewrite nth_error_map, nth_error_tl, Hrow. reflexivity.
  - rewrite <- (Hname i col Hcol).
    apply athena_parse_row_get; [exact Hi | |].
    + apply Hlen'. exact (nth_error_in_range _ _ _ Hcol).
    + intros i' Hi' Hc'. apply Hlen' in Hc'.
      destruct (nth_error_at columns i' Hc') as [col' Hcol'].
      intro Heq. apply (Hlast i' col' Hi' Hcol').
      rewrite <- (Hname i' col' Hcol'), <- (Hname i col Hcol). exact Heq.
Qed.

(** X9.  [get_query_results] of [athena_query.py] and of
    [lambda_enhanced.py] turns every page into rows: one row for each
    page row after the first, in the page's order, with [rowCount]
    their number (none for an empty page).  In the row for a page row,
    the name of a column ([Name], or [col_i] for a column without one)
    is bound to the cell at the column's position; when several
    columns bear one name, the cell of the last one that has a cell
    wins. *)
Theorem X9_rows_pair_names_with_cells :
  forall (E : Engine) (id : string) (max_rows : Z) (w : world) (page : ResultPage),
    on_results E (n_results w) = inr page ->
    (exists res w',
        AthenaQuery.get_query_results E id max_rows w = (Return res, w')
        /\ List.length (rows res) = Nat.pred (List.length (ResultSet_Rows page))
        /\ rowCount res = Some (Z.of_nat (List.length (rows res)))
        /\ forall j data i col,
             nth_error (ResultSet_Rows page) (S j) = Some data ->
             nth_error (ResultSet_ColumnInfo page) i = Some col ->
             (i < List.length data)%nat ->
             (forall i' col', (i < i' < List.length data)%nat ->
                              nth_error (ResultSet_ColumnInfo page) i' = Some col' ->
                              column_name i' col' <> column_name i col) ->
             exists row, nth_error (rows res) j = Some row
                         /\ Dict.get (column_name i col) row = Some (nth i data None))
    /\ (exists res w',
        LambdaEnhanced.get_query_results E id max_rows w = (Return res, w')
        /\ List.length (rows res) = Nat.pred (List.length (ResultSet_Rows page))
        /\ rowCount res = Some (Z.of_nat (List.length (rows res)))
        /\ forall j data i col,
             nth_error (ResultSet_Rows page) (S j) = Some data ->
             nth_error (ResultSet_ColumnInfo page) i = Some col ->
             (i < List.length data)%nat ->
             (forall i' col', (i < i' < List.length data)%nat ->
                              nth_error (ResultSet_ColumnInfo page) i' = Some col' ->
                              column_name i' col' <> column_name i col) ->
             exists row, nth_error (rows res) j = Some row
                         /\ Dict.get (column_name i col) row = Some (nth i data None)).
Proof.
  intros E id max_rows w page Hpage. split.
  - unfold AthenaQuery.get_query_results, bind, client_get_query_results, ret.
    rewrite Hpage. do 2 eexists. split; [reflexivity|]. cbn [rows rowCount].
    split; [rewrite length_map; apply length_tl|]. split; [reflexivity|].
    apply parsed_rows_pair.
    + rewrite length_map. apply length_enumerate.
    + apply athena_meta_name.
  - unfold LambdaEnhanced.get_query_results, bind, client_get_query_results, ret.
    rewrite Hpage. do 2 eexists. split; [reflexivity|]. cbn [rows rowCount].
    split; [rewrite length_map; apply length_tl|]. split; [reflexivity|].
    apply parsed_rows_pair.
    + rewrite length_map. apply length_enumerate.
    + apply enhanced_meta_name.
Qed.

Lemma X9_rows_pair_names_with_cells_witness :
  let page := page_of [column "H1"; column "H1"] [Some "H1"; Some "H1"]
                      [[Some "a"; None]] in
  on_results (succeeding page) (n_results initial_world) = inr page
  /\ returned_rows (AthenaQuery.get_query_results (succeeding page) "q-1" 1000
                      initial_world)
     = Some [[("H1", None)]].
Proof.
  cbv zeta. split; [reflexivity|].
  destruct (X9_rows_pair_names_with_cells
              (succeeding (page_of [column "H1"; column "H1"] [Some "H1"; Some "H1"]
                                   [[Some "a"; None]]))
              "q-1" 1000 initial_world
              (page_of [column "H1"; column "H1"] [Some "H1"; Some "H1"]
                       [[Some "a"; None]]) eq_refl)
    as [(res & w' & Hrun & _) _].
  unfold returned_rows. rewrite Hrun. cbn [fst].
  vm_compute in Hrun. injection Hrun as <- _. reflexivity.
Defined.

Lemma fold_left_agree {A B} (f g : A -> B -> A) (l : list B) (a : A) :
  (forall x b, In b l -> f x b = g x b) -> fold_left f l a = fold_left g l a.
Proof.
  revert a. induction l as [|b l IH]; intros a H; [reflexivity|].
  cbn [fold_left]. rewrite (H a b (or_introl eq_refl)).
  apply IH. intros x b' Hb'. apply H. right. exact Hb'.
Qed.

Lemma in_enumerate_from {A} (l : list A) :
  forall n i x, In (i, x) (combine (seq n (List.length l)) l) ->
                (n <= i < n + List.length l)%nat.
Proof.
  induction l as [|y l IH]; intros n i x H; cbn [List.length seq combine] in H.
  - destruct H.
  - destruct H as [[= <- _]|H]; [cbn; lia|].
    apply IH in H. cbn [List.length]. lia.
Qed.

(** The row loop reads the metadata only for the names. *)
Lemma parse_row_names (cm cm' : list (Dict.dict json)) (data : list Datum) :
  List.length cm = List.length cm' ->
  (forall i, (i < List.length cm)%nat ->
             str_item "name" (nth i cm []) = str_item "name" (nth i cm' [])) ->
  AthenaQuery.parse_row cm data = AthenaQuery.parse_row cm' data.
Proof.
  intros Hlen Hname. unfold AthenaQuery.parse_row.
  apply fold_left_agree. intros d [i x] _.
  rewrite <- Hlen.
  destruct (Nat.ltb_spec i (List.length cm)) as [Hlt|_]; [|reflexivity].
  rewrite (Hname i Hlt). reflexivity.
Qed.

(** X10.  [get_query_results] of [index.py] answers a page without
    column information with no rows and no metadata, whatever rows the
    page holds.  Otherwise it returns one row for each page row after
    the first, and binds the name of a column ([Name], or [unknown])
    to the cell at the column's position, a NULL cell being read as
    the empty string.  When every column has a name, its rows are the
    rows of [athena_query.py] with the NULL cells replaced by empty
    strings. *)
Theorem X10_index_rows :
  forall (E : Engine) (id : string) (max_rows : Z) (w : world) (page : ResultPage),
    on_results E (n_results w) = inr page ->
    exists res w',
      Index.get_query_results E id w = (Return res, w')
      /\ (ResultSet_ColumnInfo page = [] -> rows res = [] /\ columnMetadata res = [])
      /\ (ResultSet_ColumnInfo page <> [] ->
          List.length (rows res) = Nat.pred (List.length (ResultSet_Rows page)))
      /\ (forall j data i col,
             nth_error (ResultSet_Rows page) (S j) = Some data ->
             nth_error (ResultSet_ColumnInfo page) i = Some col ->
             (i < List.length data)%nat ->
             (forall i' col', (i < i' < List.length data)%nat ->
                              nth_error (ResultSet_ColumnInfo page) i' = Some col' ->
                              index_column_name col' <> index_column_name col) ->
             exists row, nth_error (rows res) j = Some row
                         /\ Dict.get (index_column_name col) row
                            = Some (Some (or_default (nth i data None) EmptyString)))
      /\ (ResultSet_ColumnInfo page <> [] ->
          (forall col, In col (ResultSet_ColumnInfo page) -> Name col <> None) ->
          forall res0 w0,
            AthenaQuery.get_query_results E id max_rows w = (Return res0, w0) ->
            rows res = map (map null_as_empty) (rows res0)).
Proof.
  intros E id max_rows w page Hpage.
  unfold Index.get_query_results, AthenaQuery.get_query_results,
    bind, client_get_query_results, ret.
  rewrite Hpage.
  destruct (ResultSet_ColumnInfo page) as [|c0 columns] eqn:Hcols.
  - do 2 eexists. split; [reflexivity|]. cbn [rows columnMetadata].
    split; [intros _; split; reflexivity|].
    split; [intro H; contradiction H; reflexivity|].
    split; [|intro H; contradiction H; reflexivity].
    intros j data i col _ Hcol. destruct i; discriminate Hcol.
  - do 2 eexists. split; [reflexivity|]. cbn [rows columnMetadata].
    split; [discriminate|].
    split; [intros _; rewrite length_map; apply length_tl|].
    set (cm := map Index.column_metadata_entry (c0 :: columns)).
    set (cm0 := map AthenaQuery.column_metadata_entry (Py.enumerate (c0 :: columns))).
    assert (Hcm0 : cm0 = map AthenaQuery.column_metadata_entry
                           (Py.enumerate (c0 :: columns))) by reflexivity.
    clearbody cm0.
    split.
    + intros j data i col Hrow Hcol Hi Hlast.
      destruct (parsed_rows_pair cm (c0 :: columns) (fun _ => index_column_name)
                  (ResultSet_Rows page) (length_map _ _)
                  (index_meta_name (c0 :: columns))
                  j data i col Hrow Hcol Hi Hlast) as (row & Hr & Hget).
      exists (map null_as_empty row). split.
      * rewrite nth_error_map in Hr |- *.
        destruct (nth_error (List.tl (ResultSet_Rows page)) j) as [data'|];
          [|discriminate Hr].
        cbn [option_map] in *. injection Hr as <-.
        rewrite index_row_data_as_parse_row. reflexivity.
      * rewrite get_map_null_as_empty, Hget. reflexivity.
    + intros _ Hnamed res0 w0 [= <- _]. cbn [rows].
      rewrite map_map. apply map_ext. intro data.
      rewrite index_row_data_as_parse_row. f_equal.
      apply parse_row_names.
      * subst cm0. unfold cm. rewrite !length_map, length_enumerate. reflexivity.
      * intros i Hi. unfold cm in Hi. rewrite length_map in Hi.
        destruct (nth_error_at (c0 :: columns) i Hi) as [col Hcol].
        subst cm0. unfold cm. rewrite (index_meta_name _ i col Hcol),
          (athena_meta_name _ i col Hcol).
        unfold index_column_name, column_name.
        destruct (Name col) as [n|] eqn:Hn; [reflexivity|].
        exfalso. apply (Hnamed col); [|exact Hn].
        apply (nth_error_In _ i). exact Hcol.
Qed.

Lemma X10_index_rows_witness :
  let page := page_of [column "H1"; column "H2"] [Some "H1"; Some "H2"]
                      [[Some "a"; None]] in
  on_results (succeeding page) (n_results initial_world) = inr page
  /\ returned_rows (Index.get_query_results (succeeding page) "q-1" initial_world)
     = Some [[("H1", Some "a"); ("H2", Some EmptyString)]].
Proof.
  cbv zeta. split; [reflexivity|].
  destruct (X10_index_rows
              (succeeding (page_of [column "H1"; column "H2"] [Some "H1"; Some "H2"]
                                   [[Some "a"; None]]))
              "q-1" 1000 initial_world
              (page_of [column "H1"; column "H2"] [Some "H1"; Some "H2"]
                       [[Some "a"; None]]) eq_refl)
    as (res & w' & Hrun & _).
  unfold returned_rows. rewrite Hrun. cbn [fst].
  vm_compute in Hrun. injection Hrun as <- _. reflexivity.
Defined.

(** ** [sanitize_results] *)

Lemma in_set_inv {V} (k k' : string) (v v' : V) (d : Dict.dict V) :
  In (k, v) (Dict.set k' v' d) -> (k = k' /\ v = v') \/ In (k, v) d.
Proof.
  induction d as [|[k0 v0] d IH]; cbn [Dict.set].
  - intros [[= <- <-]|[]]. left. split; reflexivity.
  - destruct (String.eqb_spec k' k0) as [->|Hne]; cbn [In].
    + intros [[= <- <-]|H]; [left; split; reflexivity | right; right; exact H].
    + intros [H|H]; [right; left; exact H|].
      destruct (IH H) as [H'|H']; [left; exact H' | right; right; exact H'].
Qed.

Lemma in_fold_set_inv {A V} (key : A -> string) (val : A -> V) (l : list A) :
  forall (d : Dict.dict V) k v,
    In (k, v) (fold_left (fun d a => Dict.set (key a) (val a) d) l d) ->
    In (k, v) d \/ exists a, In a l /\ k = key a /\ v = val a.
Proof.
  induction l as [|a l IH]; intros d k v H; cbn [fold_left] in H.
  - left. exact H.
  - destruct (IH _ _ _ H) as [H'|(b & Hb & Hk & Hv)].
    + destruct (in_set_inv _ _ _ _ _ H') as [[-> ->]|H''].
      * right. exists a. split; [left; reflexivity | split; reflexivity].
      * left. exact H''.
    + right. exists b. split; [right; exact Hb | split; assumption].
Qed.

Lemma get_fold_set {A V} (key : A -> string) (val : string -> V) (l : list A) :
  forall (d : Dict.dict V) k,
    Dict.get k (fold_left (fun d a => Dict.set (key a) (val (key a)) d) l d)
    = if Py.str_in k (map key l) then Some (val k) else Dict.get k d.
Proof.
  induction l as [|a l IH]; intros d k; cbn [fold_left map].
  - reflexivity.
  - rewrite IH, DictFacts.get_set. unfold Py.str_in. cbn [existsb].
    destruct (existsb (String.eqb k) (map key l)); [rewrite orb_true_r; reflexivity|].
    rewrite orb_false_r.
    destruct (String.eqb_spec k (key a)) as [->|_]; reflexivity.
Qed.

Lemma sanitize_value_idempotent (v : Datum) :
  LambdaEnhanced.sanitize_value (LambdaEnhanced.sanitize_value v)
  = LambdaEnhanced.sanitize_value v.
Proof.
  destruct v as [s|]; [|reflexivity]. cbn [LambdaEnhanced.sanitize_value].
  destruct (String.eqb_spec s EmptyString) as [->|Hs]; [reflexivity|].
  destruct (String.eqb_spec (Py.strip s) EmptyString) as [->|Hs']; [reflexivity|].
  rewrite strip_idempotent. reflexivity.
Qed.

(** [sanitize_results] over columns that carry a name. *)
Lemma sanitize_results_named (rows : list (Dict.dict Datum))
      (columns : list (Dict.dict json)) :
  (forall col, In col columns -> Dict.mem "Name" col = true) ->
  LambdaEnhanced.sanitize_results rows columns
  = map (fun row =>
           fold_left
             (fun d col =>
                Dict.set (Name_of col)
                         ((fun k => LambdaEnhanced.sanitize_value
                                      (or_default (Dict.get k row) None))
                            (Name_of col)) d)
             columns [])
        rows.
Proof.
  intro Hnamed. unfold LambdaEnhanced.sanitize_results.
  apply map_ext. intro row. apply fold_left_agree. intros d col Hcol.
  specialize (Hnamed col Hcol). unfold Dict.mem in Hnamed. unfold Name_of.
  destruct (Dict.get "Name" col); [reflexivity | discriminate Hnamed].
Qed.

Lemma sanitize_results_agree (rows : list (Dict.dict Datum))
      (columns : list (Dict.dict json)) :
  AthenaQueryHelpers.sanitize_results rows columns
  = LambdaEnhanced.sanitize_results rows columns.
Proof.
  unfold AthenaQueryHelpers.sanitize_results, LambdaEnhanced.sanitize_results.
  apply map_ext. intro row. apply fold_left_agree. intros d col _. cbv zeta.
  destruct (or_default (Dict.get _ row) None); reflexivity.
Qed.

(** X11.  On columns whose ['Name'], when present, is a text,
    [sanitize_results] of [athena_query.py] and of
    [lambda_enhanced.py] compute the same rows.  For columns that
    carry their name under ['Name'], the sanitized row binds exactly
    the column names: a name the row binds to a text gets the text
    stripped, any other name gets [None]; the other keys of the row
    are dropped.  Sanitizing a second time changes nothing. *)
Theorem X11_sanitize_results :
  forall (rows : list (Dict.dict Datum)) (columns : list (Dict.dict json)),
    names_are_text columns ->
    AthenaQueryHelpers.sanitize_results rows columns
    = LambdaEnhanced.sanitize_results rows columns
    /\ ((forall col, In col columns -> Dict.mem "Name" col = true) ->
        List.length (LambdaEnhanced.sanitize_results rows columns) = List.length rows
        /\ (forall j row,
              nth_error rows j = Some row ->
              exists out,
                nth_error (LambdaEnhanced.sanitize_results rows columns) j = Some out
                /\ forall k,
                     Dict.get k out
                     = if Py.str_in k (map Name_of columns)
                       then Some (LambdaEnhanced.sanitize_value
                                    (or_default (Dict.get k row) None))
                       else None)
        /\ LambdaEnhanced.sanitize_results
             (LambdaEnhanced.sanitize_results rows columns) columns
           = LambdaEnhanced.sanitize_results rows columns).
Proof.
  intros rows columns _. split; [apply sanitize_results_agree|].
  intro Hnamed.
  split; [unfold LambdaEnhanced.sanitize_results; apply length_map|]. split.
  - intros j row Hrow. rewrite (sanitize_results_named rows columns Hnamed).
    eexists. split.
    + apply (map_nth_error _ _ _ Hrow).
    + intro k. cbv beta.
      exact (get_fold_set Name_of
               (fun k => LambdaEnhanced.sanitize_value
                           (or_default (Dict.get k row) None)) columns [] k).
  - rewrite (sanitize_results_named _ columns Hnamed).
    rewrite (sanitize_results_named rows columns Hnamed).
    rewrite map_map. apply map_ext. intro row.
    apply fold_left_agree. intros d col Hcol. cbv beta. f_equal.
    pose proof (get_fold_set Name_of
                  (fun k => LambdaEnhanced.sanitize_value
                              (or_default (Dict.get k row) None))
                  columns [] (Name_of col)) as Hget.
    cbv beta in Hget.
    replace (Py.str_in (Name_of col) (map Name_of columns)) with true in Hget.
    + match goal with
      | |- LambdaEnhanced.sanitize_value (or_default ?g None) = _ =>
          replace g with (Some (LambdaEnhanced.sanitize_value
                                  (or_default (Dict.get (Name_of col) row) None)))
            by (symmetry; exact Hget)
      end.
      cbn [or_default]. apply sanitize_value_idempotent.
    + symmetry. unfold Py.str_in. apply existsb_exists.
      exists (Name_of col). split; [apply in_map; exact Hcol | apply String.eqb_refl].
Qed.

Lemma X11_sanitize_results_witness :
  names_are_text [[("Name", JStr "H1")]; [("Name", JStr "H2")]]
  /\ (forall col, In col [[("Name", JStr "H1")]; [("Name", JStr "H2")]] ->
                  Dict.mem "Name" col = true)
  /\ LambdaEnhanced.sanitize_results [[("H1", Some "  a "); ("H3", Some "c")]]
       [[("Name", JStr "H1")]; [("Name", JStr "H2")]]
     = [[("H1", Some "a"); ("H2", None)]]
  /\ AthenaQueryHelpers.sanitize_results [[("H1", Some "  a "); ("H3", Some "c")]]
       [[("Name", JStr "H1")]; [("Name", JStr "H2")]]
     = LambdaEnhanced.sanitize_results [[("H1", Some "  a "); ("H3", Some "c")]]
         [[("Name", JStr "H1")]; [("Name", JStr "H2")]]
  /\ List.length (LambdaEnhanced.sanitize_results [[("H1", Some "  a "); ("H3", Some "c")]]
                    [[("Name", JStr "H1")]; [("Name", JStr "H2")]]) = 1%nat.
Proof.
  assert (T : names_are_text [[("Name", JStr "H1")]; [("Name", JStr "H2")]]).
  { intros col v [<-|[<-|[]]] [= <-]; eexists; reflexivity. }
  assert (H : forall col, In col [[("Name", JStr "H1")]; [("Name", JStr "H2")]] ->
                          Dict.mem "Name" col = true).
  { intros col [<-|[<-|[]]]; reflexivity. }
  split; [exact T|]. split; [exact H|]. split; [reflexivity|].
  split.
  - exact (proj1 (X11_sanitize_results
                    [[("H1", Some "  a "); ("H3", Some "c")]]
                    [[("Name", JStr "H1")]; [("Name", JStr "H2")]] T)).
  - exact (proj1 (proj2 (X11_sanitize_results
                           [[("H1", Some "  a "); ("H3", Some "c")]]
                           [[("Name", JStr "H1")]; [("Name", JStr "H2")]] T) H)).
Defined.

(** The metadata entries [get_query_results] builds have no key
    ['Name']. *)
Lemma enhanced_meta_has_no_Name (columns : list ColumnInfo) (col : Dict.dict json) :
  In col (map LambdaEnhanced.column_metadata_entry (Py.enumerate columns)) ->
  Dict.get "Name" col = None.
Proof.
  intro H. apply in_map_iff in H. destruct H as ([i c] & <- & _). reflexivity.
Qed.

Lemma prefix_col (s : string) : Py.startswith "col_" ("col_" ++ s)%string = true.
Proof.
  unfold Py.startswith. cbn. destruct s; reflexivity.
Qed.

(** X12.  In [lambda_enhanced.py], [execute_query] passes the rows
    and the metadata of [get_query_results] to [sanitize_results],
    which looks for the column name under ['Name'] where the metadata
    has ['name'].  It therefore rebuilds every row under the keys
    [col_0], [col_1], ..., and when no column of the page is named
    like that, none of these keys is bound in the parsed row: every
    value of every sanitized row is [None]. *)
Theorem X12_enhanced_rows_lose_their_values :
  forall (E : Engine) (id : string) (max_rows : Z) (w w' : world)
         (page : ResultPage) (res : results),
    on_results E (n_results w) = inr page ->
    (forall col, In col (ResultSet_ColumnInfo page) ->
                 exists n, Name col = Some n /\ Py.startswith "col_" n = false) ->
    LambdaEnhanced.get_query_results E id max_rows w = (Return res, w') ->
    List.length (LambdaEnhanced.sanitize_results (rows res) (columnMetadata res))
    = Nat.pred (List.length (ResultSet_Rows page))
    /\ forall row,
         In row (LambdaEnhanced.sanitize_results (rows res) (columnMetadata res)) ->
         forall k v, In (k, v) row -> v = None /\ Py.startswith "col_" k = true.
Proof.
  intros E id max_rows w w' page res Hpage Hnames.
  unfold LambdaEnhanced.get_query_results, bind, client_get_query_results, ret.
  rewrite Hpage.
  set (cm := map LambdaEnhanced.column_metadata_entry
                 (Py.enumerate (ResultSet_ColumnInfo page))).
  assert (Hcm : cm = map LambdaEnhanced.column_metadata_entry
                         (Py.enumerate (ResultSet_ColumnInfo page))) by reflexivity.
  clearbody cm.
  set (parsed := map (AthenaQuery.parse_row cm) (List.tl (ResultSet_Rows page))).
  assert (Hparsed : parsed = map (AthenaQuery.parse_row cm)
                                 (List.tl (ResultSet_Rows page))) by reflexivity.
  clearbody parsed.
  intro Hrun. assert (Hres : res = {| columnMetadata := cm; rows := parsed;
                                      rowCount := Some (Z.of_nat (List.length parsed)) |})
    by congruence.
  subst res. cbn [rows columnMetadata]. clear Hrun.
  unfold LambdaEnhanced.sanitize_results. split.
  { rewrite length_map, Hparsed, length_map. apply length_tl. }
  intros out Hout k v Hkv.
  apply in_map_iff in Hout. destruct Hout as (row & <- & Hrow).
  rewrite Hparsed in Hrow. apply in_map_iff in Hrow. destruct Hrow as (data & <- & _).
  set (key := fun col : Dict.dict json =>
                ("col_" ++ Py.str_of_nat
                             (or_default (index_of (JObj col) (map JObj cm)) O))%string).
  rewrite (fold_left_agree _
             (fun d col => Dict.set (key col) ((fun _ => @None string) col) d))
    in Hkv.
  - apply in_fold_set_inv in Hkv. destruct Hkv as [[]|(col & _ & -> & ->)].
    split; [reflexivity | apply prefix_col].
  - intros d col Hcol. cbv zeta.
    rewrite Hcm in Hcol.
    rewrite (enhanced_meta_has_no_Name _ col Hcol). fold (key col).
    assert (Hnone : Dict.get (key col) (AthenaQuery.parse_row cm data) = None);
      [|exact (f_equal (fun o => Dict.set (key col)
                                   (LambdaEnhanced.sanitize_value (or_default o None)) d)
                       Hnone)].
    apply mem_false_get. rewrite athena_parse_row_keys.
    intros (i & _ & Hi & Hk).
    assert (Hi' : (i < List.length (ResultSet_ColumnInfo page))%nat).
    { rewrite Hcm, length_map, length_enumerate in Hi. exact Hi. }
    destruct (nth_error_at _ i Hi') as [c Hc].
    rewrite Hcm, (enhanced_meta_name _ i c Hc) in Hk.
    destruct (Hnames c (nth_error_In _ _ Hc)) as (n & Hn & Hpre).
    unfold column_name in Hk. rewrite Hn in Hk. cbn [or_default] in Hk.
    rewrite <- Hk in Hpre. unfold key in Hpre. rewrite prefix_col in Hpre.
    discriminate Hpre.
Qed.

Lemma X12_enhanced_rows_lose_their_values_witness :
  let page := page_of [column "H1"; column "H2"] [Some "H1"; Some "H2"]
                      [[Some "a"; Some "b"]] in
  let res := {| columnMetadata := [ [("name", JStr "H1"); ("type", JStr "varchar")];
                                    [("name", JStr "H2"); ("type", JStr "varchar")] ];
                rows := [[("H1", Some "a"); ("H2", Some "b")]];
                rowCount := Some 1%Z |} in
  on_results (succeeding page) (n_results initial_world) = inr page
  /\ (forall col, In col (ResultSet_ColumnInfo page) ->
                  exists n, Name col = Some n /\ Py.startswith "col_" n = false)
  /\ fst (LambdaEnhanced.get_query_results (succeeding page) "q-1" 1000 initial_world)
     = Return res
  /\ LambdaEnhanced.sanitize_results (rows res) (columnMetadata res)
     = [[("col_0", None); ("col_1", None)]]
  /\ forall row,
       In row (LambdaEnhanced.sanitize_results (rows res) (columnMetadata res)) ->
       forall k v, In (k, v) row -> v = None /\ Py.startswith "col_" k = true.
Proof.
  cbv zeta.
  assert (Hn : forall col,
             In col (ResultSet_ColumnInfo
                       (page_of [column "H1"; column "H2"] [Some "H1"; Some "H2"]
                                [[Some "a"; Some "b"]])) ->
             exists n, Name col = Some n /\ Py.startswith "col_" n = false).
  { intros col [<-|[<-|[]]]; eexists; split; reflexivity. }
  split; [reflexivity|]. split; [exact Hn|]. split; [reflexivity|].
  split; [reflexivity|].
  refine (proj2 (X12_enhanced_rows_lose_their_values
                   (succeeding
                      (page_of [column "H1"; column "H2"] [Some "H1"; Some "H2"]
                               [[Some "a"; Some "b"]]))
                   "q-1" 1000 initial_world
                   {| clock := 0; submitted := []; n_status := 0; n_results := 1;
                      slept := [] |}
                   (page_of [column "H1"; column "H2"] [Some "H1"; Some "H2"]
                            [[Some "a"; Some "b"]])
                   _ eq_refl Hn eq_refl)).
Defined.

(** ** What the handlers submit *)

Section Submissions.
Variable P : string -> Prop.

Lemma submits_nothing {A} (m : M A) :
  (forall w r w', m w = (r, w') -> submitted w' = submitted w) -> submits_only P m.
Proof.
  intros H w r w' Hrun. exists []. split; [exact (H w r w' Hrun) | constructor].
Qed.

Lemma submits_only_pure {A} (m : M A) : pure m -> submits_only P m.
Proof.
  intro Hp. apply submits_nothing. intros w r w' Hrun.
  destruct (Hp w) as [[a Ha]|[e He]]; congruence.
Qed.

Lemma submits_only_ret {A} (a : A) : submits_only P (ret a).
Proof. apply submits_only_pure, pure_ret. Qed.

Lemma submits_only_raise {A} (e : exn) : submits_only P (@raise A e).
Proof. apply submits_only_pure, pure_raise. Qed.

Lemma submits_only_bind {A B} (m : M A) (k : A -> M B) :
  submits_only P m -> (forall a, submits_only P (k a)) -> submits_only P (bind m k).
Proof.
  intros Hm Hk w r w' Hrun. apply bind_inv in Hrun.
  destruct Hrun as (r1 & w1 & Hm1 & Hrest).
  destruct (Hm w r1 w1 Hm1) as (new1 & Hs1 & Hp1).
  destruct r1 as [a|e|].
  - destruct (Hk a w1 r w' Hrest) as (new2 & Hs2 & Hp2).
    exists (new2 ++ new1). split.
    + rewrite Hs2, Hs1, app_assoc. reflexivity.
    + apply Forall_app. split; assumption.
  - destruct Hrest as [_ ->]. exists new1. split; assumption.
  - destruct Hrest as [_ ->]. exists new1. split; assumption.
Qed.

Lemma submits_only_try_except {A} (body : M A) (handler : exn -> M A) :
  submits_only P body -> (forall e, submits_only P (handler e)) ->
  submits_only P (try_except body handler).
Proof.
  intros Hb Hh w r w' Hrun. apply try_except_inv in Hrun.
  destruct Hrun as (r1 & w1 & Hb1 & Hrest).
  destruct (Hb w r1 w1 Hb1) as (new1 & Hs1 & Hp1).
  destruct r1 as [a|e|].
  - destruct Hrest as [_ ->]. exists new1. split; assumption.
  - destruct (Hh e w1 r w' Hrest) as (new2 & Hs2 & Hp2).
    exists (new2 ++ new1). split.
    + rewrite Hs2, Hs1, app_assoc. reflexivity.
    + apply Forall_app. split; assumption.
  - destruct Hrest as [_ ->]. exists new1. split; assumption.
Qed.

Lemma submits_only_if {A} (b : bool) (m1 m2 : M A) :
  (b = true -> submits_only P m1) -> (b = false -> submits_only P m2) ->
  submits_only P (if b then m1 else m2).
Proof. destruct b; intros H1 H2; [apply H1 | apply H2]; reflexivity. Qed.

Lemma submits_only_start E q :
  P q -> submits_only P (client_start_query_execution E q).
Proof.
  intros Hq w r w' Hrun. apply client_start_submitted in Hrun.
  exists [q]. split; [exact Hrun | constructor; [exact Hq | constructor]].
Qed.

Lemma submits_only_time : submits_only P time_time.
Proof. apply submits_nothing. intros w r w' [= _ <-]. reflexivity. Qed.

Lemma submits_only_athena_poller E fuel id d :
  submits_only P (AthenaQuery.wait_for_query_completion E fuel id d).
Proof.
  apply submits_nothing. intros w r w' Hrun.
  exact (proj1 (athena_poller_frame E fuel id d w r w' Hrun)).
Qed.

Lemma submits_only_index_poller E fuel id d :
  submits_only P (Index.wait_for_query_completion E fuel id d).
Proof.
  apply submits_nothing. intros w r w' Hrun.
  exact (proj1 (index_poller_frame E fuel id d w r w' Hrun)).
Qed.

Lemma submits_only_athena_results E id n :
  submits_only P (AthenaQuery.get_query_results E id n).
Proof. apply submits_nothing. intros w r w'. apply athena_results_submitted. Qed.

Lemma submits_only_enhanced_results E id n :
  submits_only P (LambdaEnhanced.get_query_results E id n).
Proof. apply submits_nothing. intros w r w'. apply enhanced_results_submitted. Qed.

Lemma submits_only_index_results E id :
  submits_only P (Index.get_query_results E id).
Proof. apply submits_nothing. intros w r w'. apply index_results_submitted. Qed.
End Submissions.

(** A text [validate_query] of [lambda_enhanced.py] accepts, and one
    that [validate_query] of [athena_query.py] accepts. *)
Lemma submits_only_enhanced_execute E cfg fuel q db out d n :
  submits_only (fun t => fst (LambdaEnhanced.validate_query (JStr t)) = true)
               (LambdaEnhanced.execute_query E cfg fuel q db out d n).
Proof.
  unfold LambdaEnhanced.execute_query.
  destruct (LambdaEnhanced.validate_query q) as [valid msg] eqn:Hv.
  destruct valid; cbn [negb]; [|apply submits_only_raise].
  destruct q as [| | |t| |]; try apply submits_only_raise.
  apply submits_only_bind.
  { apply submits_only_start. rewrite Hv. reflexivity. }
  intro id. apply submits_only_bind; [apply submits_only_athena_poller|].
  intro st. apply submits_only_bind.
  - destruct (state st); try apply submits_only_ret.
    apply submits_only_bind; [apply submits_only_enhanced_results|].
    intro res. apply submits_only_ret.
  - intros [rows meta]. apply submits_only_ret.
Qed.

Lemma submits_only_athena_execute E cfg fuel q db out d n :
  submits_only (fun t => fst (AthenaQuery.validate_query (JStr t)) = true)
               (AthenaQuery.execute_athena_query E cfg fuel q db out d n).
Proof.
  unfold AthenaQuery.execute_athena_query.
  destruct (AthenaQuery.validate_query (JStr q)) as [valid msg] eqn:Hv.
  destruct valid; cbn [negb]; [|apply submits_only_raise].
  apply submits_only_bind.
  { apply submits_only_start. rewrite Hv. reflexivity. }
  intro id. apply submits_only_bind; [apply submits_only_athena_poller|].
  intro st. apply submits_only_bind.
  - destruct (state st); try apply submits_only_ret.
    apply submits_only_bind; [apply submits_only_athena_results|].
    intro res. apply submits_only_ret.
  - intros [rows meta]. apply submits_only_ret.
Qed.

Ltac submits :=
  repeat first
    [ apply submits_only_ret
    | apply submits_only_raise
    | apply submits_only_time
    | apply submits_only_pure, pure_py_get
    | apply submits_only_pure, pure_py_strip
    | apply submits_only_pure, pure_py_int
    | apply submits_only_pure, pure_loads
    | apply submits_only_pure, pure_not_in_templates
    | apply submits_only_pure, pure_validate_env_var
    | apply submits_only_enhanced_execute
    | apply submits_only_athena_execute
    | apply submits_only_index_results
    | apply submits_only_index_poller
    | apply submits_only_bind; [|intro]
    | apply submits_only_if; intros _
    | apply submits_only_try_except; [|intro] ].

Lemma submits_only_template E cfg fuel qt d :
  submits_only (fun t => fst (LambdaEnhanced.validate_query (JStr t)) = true)
               (LambdaEnhanced.handle_template_query E cfg fuel qt d).
Proof. unfold LambdaEnhanced.handle_template_query. submits. Qed.

Lemma submits_only_custom E cfg fuel q d :
  submits_only (fun t => fst (LambdaEnhanced.validate_query (JStr t)) = true)
               (LambdaEnhanced.handle_custom_query E cfg fuel q d).
Proof. unfold LambdaEnhanced.handle_custom_query. submits. Qed.

Lemma submits_only_batch_item E cfg fuel i q d :
  submits_only (fun t => fst (LambdaEnhanced.validate_query (JStr t)) = true)
               (LambdaEnhanced.batch_item E cfg fuel i q d).
Proof.
  unfold LambdaEnhanced.batch_item. submits.
Qed.

Lemma submits_only_batch_loop E cfg fuel d :
  forall items acc,
    submits_only (fun t => fst (LambdaEnhanced.validate_query (JStr t)) = true)
                 (LambdaEnhanced.batch_loop E cfg fuel items d acc).
Proof.
  induction items as [|[i q] items IH]; intro acc; cbn [LambdaEnhanced.batch_loop].
  - apply submits_only_ret.
  - apply submits_only_bind; [apply submits_only_batch_item|]. intro entry. apply IH.
Qed.

Lemma submits_only_call_batch E cfg fuel queries d :
  submits_only (fun t => fst (LambdaEnhanced.validate_query (JStr t)) = true)
               (LambdaEnhanced.call_batch E cfg fuel queries d).
Proof.
  destruct queries; cbn [LambdaEnhanced.call_batch]; try apply submits_only_raise;
    unfold LambdaEnhanced.batch;
    (apply submits_only_bind; [apply submits_only_batch_loop|]);
    intro results; apply submits_only_ret.
Qed.

Lemma submits_only_enhanced_handler E R cfg fuel event context :
  submits_only (fun t => fst (LambdaEnhanced.validate_query (JStr t)) = true)
               (LambdaEnhanced.lambda_handler E R cfg fuel event context).
Proof.
  unfold LambdaEnhanced.lambda_handler.
  apply submits_only_try_except.
  2:{ intro e. apply submits_only_pure. intro w.
      destruct (enhanced_except_envelope R e w) as (resp & Hr & _).
      left. exists resp. exact Hr. }
  unfold LambdaEnhanced.lambda_handler_try. cbv zeta.
  apply submits_only_bind.
  { destruct (or_default (Dict.get "body" event) JNull);
      try (destruct (negb _); apply submits_only_ret).
    destruct (String.eqb s EmptyString); submits. }
  intro body. apply submits_only_if; intros _; [submits|].
  apply submits_only_bind.
  { destruct (or_default (Dict.get "path" event) (JStr "/query")); submits. }
  intro query_type. submits.
  apply submits_only_call_batch.
Qed.

Lemma submits_only_athena_handler E R cfg fuel event context :
  submits_only (fun t => fst (AthenaQuery.validate_query (JStr t)) = true)
               (AthenaQuery.lambda_handler E R cfg fuel event context).
Proof.
  unfold AthenaQuery.lambda_handler.
  destruct context as [fn|]; [|apply submits_only_raise].
  apply submits_only_try_except.
  2:{ intro e. apply submits_only_pure. intro w.
      destruct (athena_except_envelope R e w) as (resp & Hr & _).
      left. exists resp. exact Hr. }
  unfold AthenaQuery.lambda_handler_try. cbv zeta.
  apply submits_only_bind.
  { destruct (or_default (Dict.get "body" event) JNull);
      try (destruct (negb _); apply submits_only_ret).
    submits. }
  intro body. submits.
Qed.

Lemma submits_only_bind_pure (P : string -> Prop) {A B} (m : M A) (k : A -> M B)
      (Q : A -> Prop) :
  pure m -> (forall w a, m w = (Return a, w) -> Q a) ->
  (forall a, Q a -> submits_only P (k a)) ->
  submits_only P (bind m k).
Proof.
  intros Hp HQ Hk w r w' Hrun.
  destruct (bind_pure_inv m k w r w' Hp Hrun) as [(a & Ha & Hrest)|(e & -> & ->)].
  - exact (Hk a (HQ w a Ha) w r w' Hrest).
  - exists []. split; [reflexivity | constructor].
Qed.

Lemma py_strip_stripped (x : json) (w : world) (t : string) :
  py_strip x w = (Return t, w) -> Py.strip t = t.
Proof.
  destruct x; try discriminate. intros [= <-]. apply strip_idempotent.
Qed.

Lemma submits_only_index_handler E R environ fuel event context :
  submits_only (fun t => t <> EmptyString /\ (Py.len t <= 262144)%Z
                         /\ Py.strip t = t)
               (Index.handler E R environ fuel event context).
Proof.
  unfold Index.handler.
  apply submits_only_try_except.
  2:{ intro e. apply submits_only_pure. intro w.
      destruct (index_except_envelope R e w) as (resp & Hr & _).
      left. exists resp. exact Hr. }
  unfold Index.handler_try. cbv zeta.
  apply submits_only_bind; [submits|]. intro database.
  apply submits_only_bind; [submits|]. intro bucket.
  apply submits_only_bind.
  { destruct (Dict.get "body" event) as [[]|]; submits. }
  intro body.
  apply submits_only_bind; [submits|]. intro q.
  apply (submits_only_bind_pure _ _ _ (fun t => Py.strip t = t));
    [apply pure_py_strip | intros w t; apply py_strip_stripped |].
  intros query Hstripped.
  apply submits_only_bind; [submits|]. intro mw.
  apply submits_only_bind; [submits|]. intro z.
  apply submits_only_if; [intros _; submits|]. intro Hne.
  apply submits_only_if; [intros _; submits|]. intro Hlen.
  apply submits_only_if; [intros _; submits|]. intros _.
  apply submits_only_bind.
  { apply submits_only_start. split; [|split].
    - apply String.eqb_neq. exact Hne.
    - rewrite Z.gtb_ltb in Hlen. apply Z.ltb_ge in Hlen. exact Hlen.
    - exact Hstripped. }
  intro id.
  apply submits_only_bind; [apply submits_only_index_poller|]. intro st.
  destruct (State_ st); submits.
Qed.

Lemma submits_only_weaken (P Q : string -> Prop) {A} (m : M A) :
  (forall t, P t -> Q t) -> submits_only P m -> submits_only Q m.
Proof.
  intros HPQ Hm w r w' Hrun. destruct (Hm w r w' Hrun) as (new & Hs & Hp).
  exists new. split; [exact Hs|]. revert Hp. apply Forall_impl. exact HPQ.
Qed.

Lemma accepted_not_rejected (patterns : list pattern) (t : string) :
  fst (validate_query_with patterns (JStr t)) = true -> ~ rejected_text patterns t.
Proof.
  intros Hv Hr. apply (proj1 (validate_query_with_spec patterns t)) in Hr.
  rewrite Hv in Hr. discriminate Hr.
Qed.

(** X13.  Whatever the event, the handlers hand to the engine only
    texts that have passed their checks.  [lambda_enhanced.py], the
    batch route included, and [athena_query.py] submit no text that
    [validate_query] refuses: none that is empty, longer than 262144
    characters after [strip()], or holds a match of a pattern of the
    file's deny-list.  [index.py] submits only stripped texts that are
    not empty and not longer than 262144 characters. *)
Theorem X13_handlers_submit_checked_texts :
  forall (E : Engine) (R : runtime) (cfg : config) (environ : Dict.dict string)
         (fuel : nat) (event : Dict.dict json) (context : option string),
    submits_only (fun t => ~ rejected_text LambdaEnhanced.dangerous_patterns t)
                 (LambdaEnhanced.lambda_handler E R cfg fuel event context)
    /\ submits_only (fun t => ~ rejected_text AthenaQuery.dangerous_patterns t)
                    (AthenaQuery.lambda_handler E R cfg fuel event context)
    /\ submits_only (fun t => t <> EmptyString /\ (Py.len t <= 262144)%Z
                              /\ Py.strip t = t)
                    (Index.handler E R environ fuel event context).
Proof.
  intros E R cfg environ fuel event context. split; [|split].
  - apply (submits_only_weaken
             (fun t => fst (LambdaEnhanced.validate_query (JStr t)) = true)).
    + intro t. apply accepted_not_rejected.
    + apply submits_only_enhanced_handler.
  - apply (submits_only_weaken
             (fun t => fst (AthenaQuery.validate_query (JStr t)) = true)).
    + intro t. apply accepted_not_rejected.
    + apply submits_only_athena_handler.
  - apply submits_only_index_handler.
Qed.

(** ** The status codes of the handlers *)











(** ** The bounds of [maxWaitTime] *)

Lemma out_of_range (z : Z) :
  (z < 1 \/ 900 < z)%Z -> ((z <? 1) || (z >? 900))%Z = true.
Proof.
  intros [H|H]; apply orb_true_iff; [left; apply Z.ltb_lt; exact H|].
  right. rewrite Z.gtb_ltb. apply Z.ltb_lt. exact H.
Qed.

Lemma bind_body_object (body : Dict.dict json) {B} (k : json -> M B) (w : world) :
  bind (if negb (truthy (JObj body)) then ret (JObj []) else ret (JObj body)) k w
  = k (JObj body) w.
Proof. destruct body; reflexivity. Qed.

Lemma py_strip_text_or_absent (body : Dict.dict json) :
  text_or_absent "query" body = true ->
  exists t, py_strip (match Dict.get "query" body with
                      | Some v => v
                      | None => JStr EmptyString
                      end) = ret t.
Proof.
  unfold text_or_absent.
  destruct (Dict.get "query" body) as [[| | | s | |]|]; try discriminate;
    intros _; eexists; reflexivity.
Qed.

Lemma athena_handler_refuses_deadline E R cfg fuel event fn body w :
  Dict.get "body" event = Some (JObj body) ->
  text_or_absent "query" body = true ->
  int_or_absent "maxWaitTime" body = true ->
  (deadline_of (MAX_WAIT_TIME cfg) body < 1
   \/ 900 < deadline_of (MAX_WAIT_TIME cfg) body)%Z ->
  AthenaQuery.lambda_handler E R cfg fuel event (Some fn) w
  = (Return (AthenaQuery.format_response R 400
               (JObj [ ("error", JStr "Invalid request");
                       ("message",
                        JStr ("maxWaitTime must be between 1 and 900 seconds, got "
                              ++ Py.str_of_Z (deadline_of (MAX_WAIT_TIME cfg) body))%string)
                     ])), w).
Proof.
  intros Hbody Hq Hint Hrange.
  destruct (py_strip_text_or_absent body Hq) as [t Ht].
  unfold AthenaQuery.lambda_handler, try_except, AthenaQuery.lambda_handler_try.
  rewrite Hbody. cbn [or_default]. rewrite bind_body_object.
  cbv beta iota zeta delta [bind ret py_get].
  rewrite Ht. cbv beta iota delta [ret].
  rewrite (py_int_deadline _ body Hint). cbv beta iota delta [ret].
  rewrite (out_of_range _ Hrange).
  destruct (Dict.get "outputLocation" body); reflexivity.
Qed.

Lemma enhanced_handler_refuses_deadline E R cfg fuel m p body context w :
  not_health m p = true ->
  int_or_absent "maxWaitTime" body = true ->
  (deadline_of (MAX_WAIT_TIME cfg) body < 1
   \/ 900 < deadline_of (MAX_WAIT_TIME cfg) body)%Z ->
  LambdaEnhanced.lambda_handler E R cfg fuel (request m p body) context w
  = (Return (LambdaEnhanced.format_response R 400
               (JObj [ ("error", JStr "Invalid request");
                       ("message",
                        JStr ("maxWaitTime must be between 1 and 900 seconds, got "
                              ++ Py.str_of_Z (deadline_of (MAX_WAIT_TIME cfg) body))%string)
                     ])), w).
Proof.
  intros Hh Hint Hrange. unfold not_health in Hh. apply negb_true_iff in Hh.
  unfold LambdaEnhanced.lambda_handler, try_except, LambdaEnhanced.lambda_handler_try.
  change (or_default (Dict.get "httpMethod" (request m p body)) (JStr "POST"))
    with (JStr m).
  change (or_default (Dict.get "path" (request m p body)) (JStr "/query"))
    with (JStr p).
  change (or_default (Dict.get "body" (request m p body)) JNull) with (JObj body).
  cbv beta iota zeta.
  rewrite bind_body_object.
  change (is_str (JStr m) "GET") with (String.eqb m "GET").
  rewrite in_strs_str, Hh.
  destruct (Py.startswith "/query/" p);
    cbv beta iota zeta delta [bind ret py_get];
    rewrite (py_int_deadline _ body Hint); cbv beta iota delta [ret];
    rewrite (out_of_range _ Hrange);
    destruct (Dict.get "outputLocation" body); reflexivity.
Qed.

Lemma index_handler_refuses_deadline E R environ fuel event context body w :
  Dict.get "body" event = Some (JObj body) ->
  text_or_absent "query" body = true ->
  int_or_absent "maxWaitTime" body = true ->
  (deadline_of 60 body < 1 \/ 900 < deadline_of 60 body)%Z ->
  exists resp,
    Index.handler E R environ fuel event context w = (Return resp, w)
    /\ statusCode resp = 400%Z.
Proof.
  intros Hbody Hq Hint Hrange.
  destruct (py_strip_text_or_absent body Hq) as [t Ht].
  unfold Index.handler, try_except, Index.handler_try.
  destruct (pure_validate_env_var environ "DATABASE_NAME" w) as [[db Hdb]|[e He]].
  2:{ unfold bind at 1. rewrite He.
      unfold Index.validate_env_var in He.
      destruct (Dict.get "DATABASE_NAME" environ) as [v|];
        [destruct (String.eqb v EmptyString)|];
        try discriminate He; injection He as <-; eexists; split; reflexivity. }
  unfold bind at 1. rewrite Hdb.
  destruct (pure_validate_env_var environ "S3_BUCKET" w) as [[bk Hbk]|[e He]].
  2:{ unfold bind at 1. rewrite He.
      unfold Index.validate_env_var in He.
      destruct (Dict.get "S3_BUCKET" environ) as [v|];
        [destruct (String.eqb v EmptyString)|];
        try discriminate He; injection He as <-; eexists; split; reflexivity. }
  unfold bind at 1. rewrite Hbk. cbv zeta.
  rewrite Hbody.
  cbv beta iota zeta delta [bind ret py_get].
  rewrite Ht. cbv beta iota delta [ret].
  rewrite (py_int_deadline _ body Hint). cbv beta iota delta [ret].
  rewrite (out_of_range _ Hrange).
  destruct (String.eqb t EmptyString); [eexists; split; reflexivity|].
  destruct (Py.len t >? 262144)%Z; eexists; split; reflexivity.
Qed.

Lemma index_handler_names_deadline E R environ fuel event context body q w :
  Dict.get "body" event = Some (JObj body) ->
  Dict.get "query" body = Some (JStr q) ->
  int_or_absent "maxWaitTime" body = true ->
  (deadline_of 60 body < 1 \/ 900 < deadline_of 60 body)%Z ->
  Environment.truthy_str (Dict.get "DATABASE_NAME" environ) = true ->
  Environment.truthy_str (Dict.get "S3_BUCKET" environ) = true ->
  Py.strip q <> EmptyString -> (Py.len (Py.strip q) <= 262144)%Z ->
  Index.handler E R environ fuel event context w
  = (Return (Index.format_response R 400
               (JObj [ ("error", JStr "Invalid maxWaitTime");
                       ("message",
                        JStr "maxWaitTime must be between 1 and 900 seconds") ])), w).
Proof.
  intros Hbody Hq Hint Hrange Hdb Hbk Hne Hlen.
  destruct (index_env_present environ "DATABASE_NAME" w Hdb) as (db & _ & _ & Hdb').
  destruct (index_env_present environ "S3_BUCKET" w Hbk) as (bk & _ & _ & Hbk').
  unfold Index.handler, try_except, Index.handler_try.
  unfold bind at 1. rewrite Hdb'.
  unfold bind at 1. rewrite Hbk'.
  cbv zeta. rewrite Hbody.
  cbv beta iota zeta delta [bind ret py_get py_strip].
  rewrite Hq. rewrite (py_int_deadline _ body Hint). cbv beta iota delta [ret].
  replace (String.eqb (Py.strip q) EmptyString) with false
    by (symmetry; apply String.eqb_neq; exact Hne).
  replace (Py.len (Py.strip q) >? 262144)%Z with false
    by (symmetry; rewrite Z.gtb_ltb; apply Z.ltb_ge; exact Hlen).
  rewrite (out_of_range _ Hrange). reflexivity.
Qed.

(** X15.  Take a request whose body is an object with an integer
    [maxWaitTime], or none, in which case the default applies
    ([MAX_WAIT_TIME] in [athena_query.py] and [lambda_enhanced.py], 60
    in [index.py]).  When that integer is below 1 or above 900, the
    request is refused with status 400 and nothing is handed to the
    engine.  [athena_query.py], for a [query] that is a text or
    absent, and [lambda_enhanced.py], on every route but the health
    check, answer [Invalid request] and report the value they got,
    which the interpreter prints when it has 4300 digits at most.
    [index.py], for a [query] that is a text or absent, answers with
    status 400; the answer is [Invalid maxWaitTime] when its
    environment is set and the stripped query is neither empty nor
    longer than 262144 characters, since these tests come first.  (A
    [maxWaitTime] with a fraction is no integer: [int()] truncates it
    before the test.) *)
Theorem X15_deadline_out_of_range :
  forall (E : Engine) (R : runtime) (cfg : config) (environ : Dict.dict string)
         (fuel : nat) (body : Dict.dict json) (w : world),
    int_or_absent "maxWaitTime" body = true ->
    ((deadline_of (MAX_WAIT_TIME cfg) body < 1
      \/ 900 < deadline_of (MAX_WAIT_TIME cfg) body)%Z ->
     few_digits (deadline_of (MAX_WAIT_TIME cfg) body) ->
     (forall event fn,
         Dict.get "body" event = Some (JObj body) ->
         text_or_absent "query" body = true ->
         AthenaQuery.lambda_handler E R cfg fuel event (Some fn) w
         = (Return (AthenaQuery.format_response R 400
                      (JObj [ ("error", JStr "Invalid request");
                              ("message",
                               JStr ("maxWaitTime must be between 1 and 900 seconds, got "
                                     ++ Py.str_of_Z
                                          (deadline_of (MAX_WAIT_TIME cfg) body))%string)
                            ])), w))
     /\ (forall m p context,
            not_health m p = true ->
            LambdaEnhanced.lambda_handler E R cfg fuel (request m p body) context w
            = (Return (LambdaEnhanced.format_response R 400
                         (JObj [ ("error", JStr "Invalid request");
                                 ("message",
                                  JStr ("maxWaitTime must be between 1 and 900 seconds, got "
                                        ++ Py.str_of_Z
                                             (deadline_of (MAX_WAIT_TIME cfg) body))%string)
                               ])), w)))
    /\ ((deadline_of 60 body < 1 \/ 900 < deadline_of 60 body)%Z ->
        forall event context,
          Dict.get "body" event = Some (JObj body) ->
          text_or_absent "query" body = true ->
          (exists resp,
              Index.handler E R environ fuel event context w = (Return resp, w)
              /\ statusCode resp = 400%Z)
          /\ (forall q,
                 Dict.get "query" body = Some (JStr q) ->
                 Environment.truthy_str (Dict.get "DATABASE_NAME" environ) = true ->
                 Environment.truthy_str (Dict.get "S3_BUCKET" environ) = true ->
                 Py.strip q <> EmptyString -> (Py.len (Py.strip q) <= 262144)%Z ->
                 Index.handler E R environ fuel event context w
                 = (Return (Index.format_response R 400
                              (JObj [ ("error", JStr "Invalid maxWaitTime");
                                      ("message",
                                       JStr "maxWaitTime must be between 1 and 900 seconds")
                                    ])), w))).
Proof.
  intros E R cfg environ fuel body w Hint. split.
  - intros Hrange _. split.
    + intros event fn Hbody Hq.
      apply (athena_handler_refuses_deadline E R cfg fuel event fn body w); assumption.
    + intros m p context Hh.
      apply enhanced_handler_refuses_deadline; assumption.
  - intros Hrange event context Hbody Hq. split.
    + apply (index_handler_refuses_deadline E R environ fuel event context body w);
        assumption.
    + intros q Hget Hdb Hbk Hne Hlen.
      apply (index_handler_names_deadline E R environ fuel event context body q w);
        assumption.
Qed.

Lemma X15_deadline_out_of_range_witness :
  int_or_absent "maxWaitTime" [("query", JStr "SELECT 1"); ("maxWaitTime", JInt 901)]
  = true
  /\ (900 < deadline_of (MAX_WAIT_TIME test_config)
              [("query", JStr "SELECT 1"); ("maxWaitTime", JInt 901)])%Z
  /\ few_digits (deadline_of (MAX_WAIT_TIME test_config)
                   [("query", JStr "SELECT 1"); ("maxWaitTime", JInt 901)])
  /\ AthenaQuery.lambda_handler always_running test_runtime test_config 4
       [("body", JObj [("query", JStr "SELECT 1"); ("maxWaitTime", JInt 901)])]
       (Some "f") initial_world
     = (Return (AthenaQuery.format_response test_runtime 400
                  (JObj [ ("error", JStr "Invalid request");
                          ("message",
                           JStr "maxWaitTime must be between 1 and 900 seconds, got 901")
                        ])), initial_world)
  /\ Index.handler always_running test_runtime test_environ 4
       [("body", JObj [("query", JStr "SELECT 1"); ("maxWaitTime", JInt 901)])]
       None initial_world
     = (Return (Index.format_response test_runtime 400
                  (JObj [ ("error", JStr "Invalid maxWaitTime");
                          ("message",
                           JStr "maxWaitTime must be between 1 and 900 seconds") ])),
        initial_world).
Proof.
  set (body := [("query", JStr "SELECT 1"); ("maxWaitTime", JInt 901)]).
  assert (H : (900 < deadline_of (MAX_WAIT_TIME test_config) body)%Z)
    by (vm_compute; reflexivity).
  assert (H60 : (900 < deadline_of 60 body)%Z) by (vm_compute; reflexivity).
  assert (Hd : forall default, few_digits (deadline_of default body)).
  { intro default. unfold few_digits.
    change (deadline_of default body) with 901%Z.
    apply Z.lt_le_trans with (10 ^ 3)%Z; [reflexivity|].
    apply Z.pow_le_mono_r; lia. }
  pose proof (X15_deadline_out_of_range always_running test_runtime test_config
                test_environ 4 body initial_world eq_refl) as [Ha Hi].
  split; [reflexivity|]. split; [exact H|]. split; [exact (Hd _)|]. split.
  - exact (proj1 (Ha (or_intror H) (Hd _)) [("body", JObj body)] "f" eq_refl eq_refl).
  - exact (proj2 (Hi (or_intror H60) [("body", JObj body)] None eq_refl eq_refl)
             "SELECT 1" eq_refl eq_refl eq_refl ltac:(discriminate)
             ltac:(vm_compute; discriminate)).
Defined.

(** ** The routes of [lambda_enhanced.py] *)

Lemma batch_loop_app E cfg fuel d :
  forall items1 items2 acc w,
    LambdaEnhanced.batch_loop E cfg fuel (items1 ++ items2) d acc w
    = bind (LambdaEnhanced.batch_loop E cfg fuel items1 d acc)
           (fun acc' => LambdaEnhanced.batch_loop E cfg fuel items2 d acc') w.
Proof.
  induction items1 as [|[i q] items1 IH]; intros items2 acc w;
    cbn [app LambdaEnhanced.batch_loop].
  - reflexivity.
  - unfold bind.
    destruct (LambdaEnhanced.batch_item E cfg fuel i q d w) as [[entry|e|] w1];
      [|reflexivity ..].
    rewrite IH. unfold bind. reflexivity.
Qed.

Lemma combine_seq_app {A} (l1 l2 : list A) (n : nat) :
  combine (seq n (List.length (l1 ++ l2))) (l1 ++ l2)
  = combine (seq n (List.length l1)) l1
    ++ combine (seq (n + List.length l1) (List.length l2)) l2.
Proof.
  revert n. induction l1 as [|x l1 IH]; intro n; cbn [List.length app seq combine].
  - rewrite Nat.add_0_r. reflexivity.
  - rewrite IH. replace (S n + List.length l1)%nat with (n + S (List.length l1))%nat
      by lia. reflexivity.
Qed.

Lemma batch_item_not_an_object E cfg fuel i bad d w :
  (forall o, bad <> JObj o) ->
  LambdaEnhanced.batch_item E cfg fuel i bad d w
  = (Raise (no_attribute bad "get"), w).
Proof.
  intro Hbad. unfold LambdaEnhanced.batch_item, bind.
  destruct bad; try reflexivity. contradiction (Hbad d0). reflexivity.
Qed.

Lemma batch_stops_at_bad_item E cfg fuel L d pre bad rest w :
  latency_within E L -> (0 <= d)%Z -> (Z.to_nat d + 2 <= fuel)%nat ->
  (forall o, bad <> JObj o) ->
  exists w',
    LambdaEnhanced.batch E cfg fuel (map JObj pre ++ bad :: rest) d w
    = (Raise (no_attribute bad "get"), w')
    /\ (pre = [] -> w' = w).
Proof.
  intros Hlat Hd Hf Hbad.
  destruct (batch_loop_returns E cfg fuel L d Hlat Hd Hf pre 0 [] w)
    as (entries & w' & Hrun & _).
  exists w'. split.
  - unfold LambdaEnhanced.batch, Py.enumerate.
    rewrite combine_seq_app. unfold bind at 1. rewrite batch_loop_app.
    rewrite length_map. cbn [Nat.add].
    unfold bind at 1.
    match goal with
    | |- context [LambdaEnhanced.batch_loop E cfg fuel ?l d [] w] =>
        replace (LambdaEnhanced.batch_loop E cfg fuel l d [] w)
          with (Return ([] ++ entries), w') by (symmetry; exact Hrun)
    end.
    cbn [List.length seq combine LambdaEnhanced.batch_loop]. unfold bind at 1.
    rewrite (batch_item_not_an_object E cfg fuel _ bad d w' Hbad).
    reflexivity.
  - intros ->. cbn in Hrun. injection Hrun as _ <-. reflexivity.
Qed.

Lemma enhanced_except_attribute_error R msg w :
  LambdaEnhanced.lambda_handler_except R (AttributeError msg) w
  = (Return (LambdaEnhanced.format_response R 500
               (JObj [ ("error", JStr "Internal server error");
                       ("message", JStr "An unexpected error occurred");
                       ("type", JStr "AttributeError") ])), w).
Proof. reflexivity. Qed.

Lemma enhanced_except_value_error R msg w :
  LambdaEnhanced.lambda_handler_except R (ValueError msg) w
  = (Return (LambdaEnhanced.format_response R 400
               (JObj [ ("error", JStr "Invalid request"); ("message", JStr msg) ])), w).
Proof. reflexivity. Qed.

Lemma batch_path_not_health (p : string) :
  Py.str_in p ["/batch"; "/batch/"] = true ->
  (String.eqb "POST" "GET" && Py.str_in p ["/health"; "/health/"]) = false.
Proof. reflexivity. Qed.

(** X16.  The batch route of [lambda_enhanced.py] (POST [/batch]):
    a [queries] field that is absent or falsy is refused with status
    400.  A [queries] list runs item by item, and an item that is not
    an object ends the request with status 500 and type
    [AttributeError]: the [q.get] calls stand before the [try] of the
    loop; the items before it have run by then and their results are
    lost.  A truthy [queries] that is no list (a text, an object, a
    number) gets status 500 without any engine call. *)
Theorem X16_batch_route_input :
  forall (E : Engine) (R : runtime) (cfg : config) (fuel : nat) (L : Q)
         (p : string) (body : Dict.dict json) (context : option string) (w : world),
    routable_body cfg body = true ->
    Py.str_in p ["/batch"; "/batch/"] = true ->
    (truthy (or_default (Dict.get "queries" body) (JArr [])) = false ->
     LambdaEnhanced.lambda_handler E R cfg fuel (request "POST" p body) context w
     = (Return (LambdaEnhanced.format_response R 400
                  (JObj [ ("error", JStr "Invalid request");
                          ("message", JStr "Batch query requires 'queries' array") ])),
        w))
    /\ (latency_within E L -> (902 <= fuel)%nat ->
        forall pre bad rest,
          Dict.get "queries" body = Some (JArr (map JObj pre ++ bad :: rest)) ->
          (forall o, bad <> JObj o) ->
          exists w',
            LambdaEnhanced.lambda_handler E R cfg fuel (request "POST" p body) context w
            = (Return (LambdaEnhanced.format_response R 500
                         (JObj [ ("error", JStr "Internal server error");
                                 ("message", JStr "An unexpected error occurred");
                                 ("type", JStr "AttributeError") ])), w')
            /\ (pre = [] -> w' = w))
    /\ (truthy (or_default (Dict.get "queries" body) (JArr [])) = true ->
        (forall l, Dict.get "queries" body <> Some (JArr l)) ->
        exists resp,
          LambdaEnhanced.lambda_handler E R cfg fuel (request "POST" p body) context w
          = (Return resp, w)
          /\ statusCode resp = 500%Z).
Proof.
  intros E R cfg fuel L p body context w Hbody Hp.
  destruct (enhanced_handler_try_routing E R cfg fuel "POST" p body w Hbody
              (batch_path_not_health p Hp)) as (z & Hz & Htry).
  cbv zeta in Htry. rewrite Hp in Htry. cbn [String.eqb Ascii.eqb Bool.eqb andb] in Htry.
  unfold LambdaEnhanced.lambda_handler, try_except. rewrite Htry. clear Htry.
  unfold bind at 1 3 5. unfold py_get, ret.
  fold (or_default (Dict.get "queries" body) (JArr [])).
  split; [|split].
  - intros ->. reflexivity.
  - intros Hlat Hfuel pre bad rest Hq Hbad. rewrite Hq. cbn [or_default].
    replace (truthy (JArr (map JObj pre ++ bad :: rest))) with true
      by (destruct pre; reflexivity).
    cbn [negb LambdaEnhanced.call_batch]. unfold bind at 1.
    destruct (batch_stops_at_bad_item E cfg fuel L z pre bad rest w Hlat
                ltac:(lia) ltac:(lia) Hbad) as (w' & Hrun & Hw).
    rewrite Hrun. exists w'. split; [|exact Hw].
    destruct bad; reflexivity.
  - intros Ht Hnl. rewrite Ht. cbn [negb]. unfold bind at 1.
    destruct (Dict.get "queries" body) as [[| b | n | s | l | o]|] eqn:Hq;
      cbn [or_default] in *; try discriminate Ht.
    + eexists. split; reflexivity.
    + eexists. split; reflexivity.
    + destruct s as [|c s]; [discriminate Ht|].
      cbn [LambdaEnhanced.call_batch list_ascii_of_string map].
      unfold LambdaEnhanced.batch, Py.enumerate.
      cbn [List.length seq combine LambdaEnhanced.batch_loop].
      unfold bind at 1 2. rewrite batch_item_not_an_object by discriminate.
      eexists. split; reflexivity.
    + contradiction (Hnl l). reflexivity.
    + destruct o as [|[k v] o]; [discriminate Ht|].
      cbn [LambdaEnhanced.call_batch Dict.keys map fst].
      unfold LambdaEnhanced.batch, Py.enumerate.
      cbn [List.length seq combine LambdaEnhanced.batch_loop].
      unfold bind at 1 2. rewrite batch_item_not_an_object by discriminate.
      eexists. split; reflexivity.
Qed.

Lemma X16_batch_route_input_witness :
  routable_body test_config [("queries", JArr [JStr "SELECT 1"])] = true
  /\ Py.str_in "/batch" ["/batch"; "/batch/"] = true
  /\ latency_within always_running 0 /\ (902 <= 902)%nat
  /\ status_of_run
       (LambdaEnhanced.lambda_handler always_running test_runtime test_config 902
          (request "POST" "/batch" [("queries", JArr [JStr "SELECT 1"])]) None
          initial_world)
     = Some 500%Z.
Proof.
  split; [reflexivity|]. split; [reflexivity|].
  split; [exact always_running_latency|]. split; [lia|].
  destruct (proj1 (proj2 (X16_batch_route_input always_running test_runtime test_config
                            902 0 "/batch" [("queries", JArr [JStr "SELECT 1"])] None
                            initial_world eq_refl eq_refl))
                  always_running_latency ltac:(lia)
                  [] (JStr "SELECT 1") [] eq_refl ltac:(discriminate))
    as (w' & Hrun & _).
  unfold status_of_run. rewrite Hrun. reflexivity.
Defined.

Lemma custom_path_cases (p : string) :
  Py.str_in p ["/query"; "/query/"] = true -> p = "/query" \/ p = "/query/".
Proof.
  unfold Py.str_in. cbn [existsb]. rewrite !orb_true_iff.
  intros [H|[H|H]]; [left | right | discriminate H]; apply String.eqb_eq; exact H.
Qed.

(** The [try] block of [lambda_enhanced.lambda_handler] on the custom
    route. *)
Lemma enhanced_custom_route E R cfg fuel p body w :
  routable_body cfg body = true ->
  Py.str_in p ["/query"; "/query/"] = true ->
  exists z, (1 <= z <= 900)%Z /\
    LambdaEnhanced.lambda_handler_try E R cfg fuel (request "POST" p body) w
    = (if negb (truthy (or_default (Dict.get "query" body) JNull)) then
         raise (ValueError "Custom query requires 'query' field in body")
       else
         bind (LambdaEnhanced.handle_custom_query E cfg fuel
                 (or_default (Dict.get "query" body) JNull) z)
              (fun result => ret (LambdaEnhanced.format_response R 200 (JObj result)))) w.
Proof.
  intros Hbody Hp.
  assert (Hh : (String.eqb "POST" "GET" && Py.str_in p ["/health"; "/health/"]) = false)
    by reflexivity.
  destruct (enhanced_handler_try_routing E R cfg fuel "POST" p body w Hbody Hh)
    as (z & Hz & Htry).
  exists z. split; [exact Hz|]. rewrite Htry. cbv zeta. rewrite Hp.
  destruct (custom_path_cases p Hp) as [-> | ->]; reflexivity.
Qed.

(** X17.  The custom route of [lambda_enhanced.py] (POST [/query]):
    a [query] field that is absent or falsy is refused with status 400
    by the handler; one that is truthy but no text, and a text that
    [validate_query] refuses, are refused with status 400 and the
    message of [validate_query].  Nothing is handed to the engine in
    either case. *)
Theorem X17_custom_route_input :
  forall (E : Engine) (R : runtime) (cfg : config) (fuel : nat)
         (p : string) (body : Dict.dict json) (context : option string) (w : world),
    routable_body cfg body = true ->
    Py.str_in p ["/query"; "/query/"] = true ->
    (truthy (or_default (Dict.get "query" body) JNull) = false ->
     LambdaEnhanced.lambda_handler E R cfg fuel (request "POST" p body) context w
     = (Return (LambdaEnhanced.format_response R 400
                  (JObj [ ("error", JStr "Invalid request");
                          ("message",
                           JStr "Custom query requires 'query' field in body") ])),
        w))
    /\ (truthy (or_default (Dict.get "query" body) JNull) = true ->
        fst (LambdaEnhanced.validate_query (or_default (Dict.get "query" body) JNull))
        = false ->
        LambdaEnhanced.lambda_handler E R cfg fuel (request "POST" p body) context w
        = (Return (LambdaEnhanced.format_response R 400
                     (JObj [ ("error", JStr "Invalid request");
                             ("message",
                              JStr (snd (LambdaEnhanced.validate_query
                                           (or_default (Dict.get "query" body) JNull))))
                           ])), w))
    /\ (forall q, (forall t, q <> JStr t) ->
                  LambdaEnhanced.validate_query q
                  = (false, "Query must be a non-empty string"%string)).
Proof.
  intros E R cfg fuel p body context w Hbody Hp.
  destruct (enhanced_custom_route E R cfg fuel p body w Hbody Hp) as (z & _ & Htry).
  unfold LambdaEnhanced.lambda_handler, try_except. rewrite Htry. clear Htry.
  split; [|split].
  - intros ->. reflexivity.
  - intros -> Hv. cbn [negb].
    unfold bind at 1. unfold LambdaEnhanced.handle_custom_query. unfold bind at 1.
    unfold LambdaEnhanced.execute_query.
    destruct (LambdaEnhanced.validate_query (or_default (Dict.get "query" body) JNull))
      as [valid msg].
    cbn [fst] in Hv. subst valid. reflexivity.
  - intros q Hq. destruct q; try reflexivity. contradiction (Hq s). reflexivity.
Qed.

Lemma X17_custom_route_input_witness :
  routable_body test_config [("query", JInt 5)] = true
  /\ Py.str_in "/query" ["/query"; "/query/"] = true
  /\ truthy (or_default (Dict.get "query" [("query", JInt 5)]) JNull) = true
  /\ fst (LambdaEnhanced.validate_query
            (or_default (Dict.get "query" [("query", JInt 5)]) JNull)) = false
  /\ LambdaEnhanced.lambda_handler always_running test_runtime test_config 4
       (request "POST" "/query" [("query", JInt 5)]) None initial_world
     = (Return (LambdaEnhanced.format_response test_runtime 400
                  (JObj [ ("error", JStr "Invalid request");
                          ("message", JStr "Query must be a non-empty string") ])),
        initial_world).
Proof.
  split; [reflexivity|]. split; [reflexivity|]. split; [reflexivity|].
  split; [reflexivity|].
  exact (proj1 (proj2 (X17_custom_route_input always_running test_runtime test_config 4
                         "/query" [("query", JInt 5)] None initial_world
                         eq_refl eq_refl))
               eq_refl eq_refl).
Defined.

(** ** The template route *)

Lemma templates_route_ok :
  forallb template_route_ok LambdaEnhanced.QUERY_TEMPLATES = true.
Proof. vm_compute. reflexivity. Qed.

Lemma snd_bind_ret {A B} (m : M A) (f : A -> B) (w : world) :
  snd (bind m (fun a => ret (f a)) w) = snd (m w).
Proof. unfold bind, ret. destruct (m w) as [[a|e|] w1]; reflexivity. Qed.

Lemma enhanced_handler_world E R cfg fuel event context w :
  snd (LambdaEnhanced.lambda_handler E R cfg fuel event context w)
  = snd (LambdaEnhanced.lambda_handler_try E R cfg fuel event w).
Proof.
  unfold LambdaEnhanced.lambda_handler, try_except.
  destruct (LambdaEnhanced.lambda_handler_try E R cfg fuel event w)
    as [[resp|e|] w1]; try reflexivity.
  destruct (enhanced_except_envelope R e w1) as (resp & -> & _). reflexivity.
Qed.

(** X18.  Every entry of [QUERY_TEMPLATES] can be run through the
    template route of [lambda_enhanced.py]: its text passes
    [validate_query], and a GET or POST of [/query/<name>] hands
    exactly that text to the engine, once. *)
Theorem X18_template_route_submits_the_template :
  forall (E : Engine) (R : runtime) (cfg : config) (fuel : nat)
         (m name text : string) (body : Dict.dict json) (context : option string)
         (w : world),
    routable_body cfg body = true ->
    Py.str_in m ["POST"; "GET"] = true ->
    In (name, text) LambdaEnhanced.QUERY_TEMPLATES ->
    LambdaEnhanced.validate_query (JStr text) = (true, EmptyString)
    /\ submitted (snd (LambdaEnhanced.lambda_handler E R cfg fuel
                         (request m ("/query/" ++ name) body) context w))
       = text :: submitted w.
Proof.
  intros E R cfg fuel m name text body context w Hbody Hm Hin.
  pose proof templates_route_ok as Hall. rewrite forallb_forall in Hall.
  specialize (Hall (name, text) Hin). unfold template_route_ok in Hall.
  cbn [fst snd] in Hall. repeat rewrite andb_true_iff in Hall.
  destruct Hall as ((((Hstart & Hname) & Hne) & Hget) & Hvalid).
  apply String.eqb_eq in Hname. apply negb_true_iff in Hne.
  destruct (Dict.get name LambdaEnhanced.QUERY_TEMPLATES) as [t|] eqn:Hg;
    [|discriminate Hget].
  apply String.eqb_eq in Hget. subst t.
  assert (Hv : LambdaEnhanced.validate_query (JStr text) = (true, EmptyString)).
  { destruct (LambdaEnhanced.validate_query (JStr text)) as [b msg] eqn:Hvq.
    cbn [fst] in Hvalid. subst b.
    unfold LambdaEnhanced.validate_query, validate_query_with in Hvq.
    destruct (String.eqb text EmptyString); [discriminate Hvq|].
    destruct (Py.len (Py.strip text) >? 262144)%Z; [discriminate Hvq|].
    destruct (find _ _); [discriminate Hvq|]. exact (eq_sym Hvq). }
  split; [exact Hv|].
  rewrite enhanced_handler_world.
  assert (Hh : (String.eqb m "GET"
                && Py.str_in ("/query/" ++ name)%string ["/health"; "/health/"]) = false).
  { rewrite (query_path_is_no_other_route _ _ Hstart (or_introl eq_refl)).
    apply andb_false_r. }
  destruct (enhanced_handler_try_routing E R cfg fuel m ("/query/" ++ name)%string
              body w Hbody Hh) as (z & _ & Htry).
  rewrite Htry. clear Htry. cbv zeta.
  rewrite (query_path_is_no_other_route _ _ Hstart (or_intror eq_refl)).
  rewrite andb_false_r, Hstart, Hm.
  fold (template_name ("/query/" ++ name)%string). rewrite Hname.
  cbn [truthy andb]. rewrite Hne. cbn [negb].
  assert (Hmem : Dict.mem name LambdaEnhanced.QUERY_TEMPLATES = true).
  { unfold Dict.mem. rewrite Hg. reflexivity. }
  unfold bind at 1. unfold LambdaEnhanced.not_in_templates at 1. unfold ret at 1.
  rewrite Hmem. cbn [negb].
  rewrite snd_bind_ret.
  unfold LambdaEnhanced.handle_template_query.
  unfold bind at 1. unfold LambdaEnhanced.not_in_templates at 1. unfold ret at 1.
  rewrite Hmem. cbn [negb fstr]. rewrite Hg. cbn [or_default].
  rewrite snd_bind_ret.
  destruct (LambdaEnhanced.execute_query E cfg fuel (JStr text) JNull JNull z 1000 w)
    as [r w'] eqn:Hrun.
  apply enhanced_execute_submitted in Hrun. rewrite Hv in Hrun. exact Hrun.
Qed.

Lemma X18_template_route_submits_the_template_witness :
  routable_body test_config [] = true
  /\ Py.str_in "GET" ["POST"; "GET"] = true
  /\ Dict.mem "summary_stats" LambdaEnhanced.QUERY_TEMPLATES = true
  /\ List.length
       (submitted (snd (LambdaEnhanced.lambda_handler always_running test_runtime
                          test_config 4 (request "GET" "/query/summary_stats" [])
                          None initial_world))) = 1%nat.
Proof.
  split; [reflexivity|]. split; [reflexivity|]. split; [reflexivity|].
  assert (Hin : In ("summary_stats",
                    or_default (Dict.get "summary_stats" LambdaEnhanced.QUERY_TEMPLATES)
                               EmptyString)
                   LambdaEnhanced.QUERY_TEMPLATES).
  { vm_compute. do 11 right. left. reflexivity. }
  pose proof (proj2 (X18_template_route_submits_the_template always_running
                       test_runtime test_config 4 "GET" "summary_stats" _ [] None
                       initial_world eq_refl eq_refl Hin)) as H.
  change ("/query/" ++ "summary_stats")%string with "/query/summary_stats" in H.
  rewrite H. reflexivity.
Defined.

(** ** The echo of a custom query *)

Lemma take_length (n : nat) :
  forall s, String.length (Py.take n s) = Nat.min n (String.length s).
Proof.
  unfold Py.take.
  induction n as [|n IH]; intros [|c s]; cbn [String.substring String.length Nat.min];
    try reflexivity.
  rewrite IH. reflexivity.
Qed.

Lemma take_prefix (n : nat) : forall s, String.prefix (Py.take n s) s = true.
Proof.
  unfold Py.take.
  induction n as [|n IH]; intros [|c s]; cbn [String.substring String.prefix];
    try reflexivity.
  destruct (ascii_dec c c) as [_|Hne]; [apply IH | contradiction Hne; reflexivity].
Qed.

Lemma take_all (n : nat) :
  forall s, (String.length s <= n)%nat -> Py.take n s = s.
Proof.
  unfold Py.take.
  induction n as [|n IH]; intros [|c s] H; cbn [String.substring String.length] in *;
    try reflexivity; [lia|].
  rewrite IH by lia. reflexivity.
Qed.

Lemma enhanced_execute_keys E cfg fuel q db out d n w result w' :
  LambdaEnhanced.execute_query E cfg fuel q db out d n w = (Return result, w') ->
  Dict.keys result
  = [ "queryExecutionId"; "state"; "stateChangeReason"; "rows"; "columnMetadata";
      "rowCount"; "dataScannedInBytes"; "executionTimeInMillis"; "database" ].
Proof.
  unfold LambdaEnhanced.execute_query.
  destruct (LambdaEnhanced.validate_query q) as [valid msg].
  destruct valid; cbn [negb]; [|discriminate].
  destruct q as [| | |t| |]; try discriminate.
  intro Hrun. apply bind_inv in Hrun. destruct Hrun as (r1 & w1 & _ & Hrest).
  destruct r1 as [id|e|]; [|destruct Hrest as [H _]; discriminate H ..].
  apply bind_inv in Hrest. destruct Hrest as (r2 & w2 & _ & Hrest).
  destruct r2 as [st|e|]; [|destruct Hrest as [H _]; discriminate H ..].
  apply bind_inv in Hrest. destruct Hrest as (r3 & w3 & _ & Hrest).
  destruct r3 as [[rows meta]|e|]; [|destruct Hrest as [H _]; discriminate H ..].
  injection Hrest as <- _. reflexivity.
Qed.

Lemma get_not_in_keys {V} (k : string) (d : Dict.dict V) :
  Py.str_in k (Dict.keys d) = false -> Dict.get k d = None.
Proof.
  unfold Py.str_in, Dict.keys.
  induction d as [|[k0 v0] d IH]; cbn [map existsb Dict.get fst]; [reflexivity|].
  intro H. apply orb_false_iff in H. destruct H as [H1 H2].
  rewrite H1. apply IH. exact H2.
Qed.

Lemma get_update_untouched {V} (k : string) (d1 d2 : Dict.dict V) :
  Dict.get k d2 = None -> Dict.get k (Dict.update d1 d2) = Dict.get k d1.
Proof.
  unfold Dict.update. revert d1.
  induction d2 as [|[k0 v0] d2 IH]; intros d1 H; cbn [fold_left fst snd]; [reflexivity|].
  cbn [Dict.get] in H. destruct (String.eqb k k0) eqn:Hk; [discriminate H|].
  rewrite (IH _ H), DictFacts.get_set, Hk. reflexivity.
Qed.

(** X19.  What [handle_custom_query] of [lambda_enhanced.py] returns
    for a query text echoes the text under [query], cut to its first
    500 characters, beside the message; the text handed to the engine
    is the whole text. *)
Theorem X19_custom_query_echo :
  forall (E : Engine) (cfg : config) (fuel : nat) (q : string) (d : Z)
         (w w' : world) (result : Dict.dict json),
    LambdaEnhanced.handle_custom_query E cfg fuel (JStr q) d w = (Return result, w') ->
    Dict.get "query" result = Some (JStr (Py.take 500 q))
    /\ String.length (Py.take 500 q) = Nat.min 500 (String.length q)
    /\ String.prefix (Py.take 500 q) q = true
    /\ Dict.get "message" result = Some (JStr "Custom query executed successfully")
    /\ submitted w' = q :: submitted w.
Proof.
  intros E cfg fuel q d w w' result Hrun.
  unfold LambdaEnhanced.handle_custom_query in Hrun.
  apply bind_inv in Hrun. destruct Hrun as (r1 & w1 & Hexec & Hrest).
  destruct r1 as [res|e|]; [|destruct Hrest as [H _]; discriminate H ..].
  injection Hrest as <- <-.
  pose proof (enhanced_execute_keys _ _ _ _ _ _ _ _ _ _ _ Hexec) as Hkeys.
  assert (Hecho : (if (Py.len q >? 500)%Z then Py.take 500 q else q) = Py.take 500 q).
  { unfold Py.len. destruct (Z.gtb_spec (Z.of_nat (String.length q)) 500) as [_|Hle];
      [reflexivity|]. symmetry. apply take_all. lia. }
  cbn [fstr]. rewrite Hecho.
  split.
  { rewrite get_update_untouched; [reflexivity|].
    apply get_not_in_keys. rewrite Hkeys. reflexivity. }
  split; [apply take_length|]. split; [apply take_prefix|]. split.
  { rewrite get_update_untouched; [reflexivity|].
    apply get_not_in_keys. rewrite Hkeys. reflexivity. }
  pose proof (enhanced_execute_submitted _ _ _ _ _ _ _ _ _ _ _ Hexec) as Hsub.
  destruct (LambdaEnhanced.validate_query (JStr q)) as [valid msg] eqn:Hv.
  destruct valid; [exact Hsub|].
  unfold LambdaEnhanced.execute_query in Hexec. rewrite Hv in Hexec.
  discriminate Hexec.
Qed.

Lemma X19_custom_query_echo_witness :
  let E := succeeding empty_page in
  let run := LambdaEnhanced.handle_custom_query E test_config 4 (JStr "SELECT 1") 2
               initial_world in
  exists result w',
    run = (Return result, w')
    /\ Dict.get "query" result = Some (JStr "SELECT 1").
Proof.
  cbv zeta.
  destruct (LambdaEnhanced.handle_custom_query (succeeding empty_page) test_config 4
              (JStr "SELECT 1") 2 initial_world) as [[result|e|] w'] eqn:Hrun;
    try (vm_compute in Hrun; discriminate Hrun).
  exists result, w'. split; [reflexivity|].
  exact (proj1 (X19_custom_query_echo (succeeding empty_page) test_config 4
                  "SELECT 1" 2 initial_world w' result Hrun)).
Defined.

(** ** A query that never completes *)

Lemma athena_poller_times_out E L id d fuel w :
  latency_within E L -> L <= 1 -> never_terminal E ->
  (0 <= d)%Z -> (Z.to_nat d + 2 <= fuel)%nat ->
  fst (AthenaQuery.wait_for_query_completion E fuel id d w)
  = Raise (TimeoutError (timeout_message d d id)).
Proof.
  intros Hlat HL Hnt Hd Hf.
  destruct (AthenaQuery.wait_for_query_completion E fuel id d w) as [r w'] eqn:Hrun.
  pose proof (athena_poller_post E L id d fuel w Hd Hf Hlat r w' Hrun) as Hpost.
  destruct Hpost as (_ & _ & _ & _ & _ & Hnever).
  exact (Hnever Hnt HL).
Qed.

Lemma index_poller_times_out E L id d fuel w :
  latency_within E L -> never_terminal E ->
  (0 <= d)%Z -> (Z.to_nat d + 2 <= fuel)%nat ->
  exists n, (d <= n)%Z
    /\ fst (Index.wait_for_query_completion E fuel id d w)
       = Raise (TimeoutError (timeout_message d n id)).
Proof.
  intros Hlat Hnt Hd Hf.
  destruct (Index.wait_for_query_completion E fuel id d w) as [r w'] eqn:Hrun.
  pose proof (index_poller_post E L id d fuel w Hd Hf Hlat r w' Hrun) as Hpost.
  destruct Hpost as (_ & _ & _ & _ & Hto & Hnever).
  specialize (Hnever Hnt). destruct (Hto _ Hnever) as [[Hlo _] _].
  exists (Py.int_of_Q (clock w' - clock w)). split; [|exact Hnever].
  assert (H0 : 0 <= clock w' - clock w).
  { rewrite Zle_Qle in Hd. change (inject_Z 0) with 0 in Hd. lra. }
  rewrite (int_of_Q_floor _ H0).
  pose proof (Qlt_floor (clock w' - clock w)) as Hfl.
  assert (H : inject_Z d < inject_Z (Qfloor (clock w' - clock w) + 1)) by lra.
  rewrite <- Zlt_Qlt in H. lia.
Qed.

Lemma fuel_for (d : Z) (fuel : nat) :
  (1 <= d <= 900)%Z -> (902 <= fuel)%nat ->
  (0 <= d)%Z /\ (Z.to_nat d + 2 <= fuel)%nat.
Proof. lia. Qed.

Lemma athena_handler_times_out E R cfg fuel L event fn body q id w :
  latency_within E L -> L <= 1 -> never_terminal E -> (902 <= fuel)%nat ->
  Dict.get "body" event = Some (JObj body) ->
  Dict.get "query" body = Some (JStr q) ->
  routable_body cfg body = true ->
  fst (AthenaQuery.validate_query (JStr (Py.strip q))) = true ->
  on_start E (n_start w) = inr id ->
  fst (AthenaQuery.lambda_handler E R cfg fuel event (Some fn) w)
  = Return (AthenaQuery.format_response R 408
              (JObj [ ("error", JStr "Query timeout");
                      ("message",
                       JStr (timeout_message (deadline_of (MAX_WAIT_TIME cfg) body)
                                             (deadline_of (MAX_WAIT_TIME cfg) body) id))
                    ])).
Proof.
  intros Hlat HL Hnt Hfuel Hbody Hq Hroute Hvalid Hstart.
  destruct (routable_deadline cfg body Hroute) as (Hz & _).
  destruct (fuel_for _ fuel Hz Hfuel) as [Hd Hf].
  unfold AthenaQuery.lambda_handler, try_except.
  rewrite (athena_handler_try_run E R cfg fuel event body q w Hbody Hq Hroute).
  unfold bind at 1. unfold AthenaQuery.execute_athena_query.
  destruct (AthenaQuery.validate_query (JStr (Py.strip q))) as [valid msg].
  cbn [fst] in Hvalid. subst valid. cbn [negb].
  unfold bind at 1.
  unfold AthenaQuery.start_query_execution, client_start_query_execution.
  rewrite Hstart.
  unfold bind at 1.
  match goal with
  | |- context [AthenaQuery.wait_for_query_completion E fuel id ?d ?w1] =>
      pose proof (athena_poller_times_out E L id d fuel w1 Hlat HL Hnt Hd Hf) as Hto;
      destruct (AthenaQuery.wait_for_query_completion E fuel id d w1) as [r w2]
  end.
  cbn [fst] in Hto. subst r. reflexivity.
Qed.

Lemma index_handler_times_out E R environ fuel L event context body q id db bucket w :
  latency_within E L -> never_terminal E -> (902 <= fuel)%nat ->
  Dict.get "DATABASE_NAME" environ = Some db -> db <> EmptyString ->
  Dict.get "S3_BUCKET" environ = Some bucket -> bucket <> EmptyString ->
  Dict.get "body" event = Some (JObj body) ->
  Dict.get "query" body = Some (JStr q) ->
  int_or_absent "maxWaitTime" body = true ->
  (1 <= deadline_of 60 body <= 900)%Z ->
  Py.strip q <> EmptyString -> (Py.len (Py.strip q) <= 262144)%Z ->
  on_start E (n_start w) = inr id ->
  exists n, (deadline_of 60 body <= n)%Z
    /\ fst (Index.handler E R environ fuel event context w)
       = Return (Index.format_response R 408
                   (JObj [ ("error", JStr "Query timeout");
                           ("message",
                            JStr (timeout_message (deadline_of 60 body) n id)) ])).
Proof.
  intros Hlat Hnt Hfuel Hdb Hdbne Hbk Hbkne Hbody Hq Hint Hz Hne Hlen Hstart.
  destruct (fuel_for _ fuel Hz Hfuel) as [Hd Hf].
  unfold Index.handler, try_except, Index.handler_try.
  unfold bind at 1. rewrite (index_env_ok environ _ db w Hdb Hdbne).
  unfold bind at 1. rewrite (index_env_ok environ _ bucket w Hbk Hbkne).
  cbv zeta. rewrite Hbody.
  cbv beta iota zeta delta [bind ret py_get py_strip].
  rewrite Hq. rewrite (py_int_deadline _ body Hint). cbv beta iota delta [ret].
  replace (String.eqb (Py.strip q) EmptyString) with false
    by (symmetry; apply String.eqb_neq; exact Hne).
  replace (Py.len (Py.strip q) >? 262144)%Z with false
    by (symmetry; rewrite Z.gtb_ltb; apply Z.ltb_ge; exact Hlen).
  rewrite (in_range _ Hz).
  unfold client_start_query_execution. rewrite Hstart.
  match goal with
  | |- context [Index.wait_for_query_completion E fuel id ?d ?w1] =>
      destruct (index_poller_times_out E L id d fuel w1 Hlat Hnt Hd Hf) as (n & Hn & Hto);
      destruct (Index.wait_for_query_completion E fuel id d w1) as [r w2]
  end.
  cbn [fst] in Hto. subst r. exists n. split; [exact Hn | reflexivity].
Qed.

(** X20.  A query the engine accepts and then keeps QUEUED or
    RUNNING is answered with status 408 and the poller's message.
    In [athena_query.py], when no status call takes more than a
    second, the message gives the deadline as the seconds elapsed; in
    [index.py] it gives the whole seconds elapsed, which are the
    deadline or more. *)
Theorem X20_unfinished_query_times_out :
  forall (E : Engine) (R : runtime) (cfg : config) (environ : Dict.dict string)
         (fuel : nat) (L : Q) (event : Dict.dict json) (body : Dict.dict json)
         (q id : string) (w : world),
    latency_within E L -> never_terminal E -> (902 <= fuel)%nat ->
    Dict.get "body" event = Some (JObj body) ->
    Dict.get "query" body = Some (JStr q) ->
    on_start E (n_start w) = inr id ->
    (L <= 1 ->
     routable_body cfg body = true ->
     fst (AthenaQuery.validate_query (JStr (Py.strip q))) = true ->
     forall fn,
       fst (AthenaQuery.lambda_handler E R cfg fuel event (Some fn) w)
       = Return (AthenaQuery.format_response R 408
                   (JObj [ ("error", JStr "Query timeout");
                           ("message",
                            JStr (timeout_message
                                    (deadline_of (MAX_WAIT_TIME cfg) body)
                                    (deadline_of (MAX_WAIT_TIME cfg) body) id)) ])))
    /\ (forall db bucket context,
          Dict.get "DATABASE_NAME" environ = Some db -> db <> EmptyString ->
          Dict.get "S3_BUCKET" environ = Some bucket -> bucket <> EmptyString ->
          int_or_absent "maxWaitTime" body = true ->
          (1 <= deadline_of 60 body <= 900)%Z ->
          Py.strip q <> EmptyString -> (Py.len (Py.strip q) <= 262144)%Z ->
          exists n, (deadline_of 60 body <= n)%Z
            /\ fst (Index.handler E R environ fuel event context w)
               = Return (Index.format_response R 408
                           (JObj [ ("error", JStr "Query timeout");
                                   ("message",
                                    JStr (timeout_message (deadline_of 60 body) n id))
                                 ]))).
Proof.
  intros E R cfg environ fuel L event body q id w Hlat Hnt Hfuel Hbody Hq Hstart.
  split.
  - intros HL Hroute Hvalid fn.
    apply (athena_handler_times_out E R cfg fuel L event fn body q id w); assumption.
  - intros db bucket context Hdb Hdbne Hbk Hbkne Hint Hz Hne Hlen.
    apply (index_handler_times_out E R environ fuel L event context body q id
             db bucket w); assumption.
Qed.

Lemma X20_unfinished_query_times_out_witness :
  let body := [("query", JStr "SELECT 1"); ("maxWaitTime", JInt 2)] in
  latency_within always_running 0 /\ never_terminal always_running
  /\ (902 <= 902)%nat
  /\ status_of_run
       (AthenaQuery.lambda_handler always_running test_runtime test_config 902
          [("body", JObj body)] (Some "f") initial_world)
     = Some 408%Z.
Proof.
  cbv zeta.
  split; [exact always_running_latency|].
  split; [exact always_running_never_terminal|]. split; [lia|].
  unfold status_of_run.
  rewrite (proj1 (X20_unfinished_query_times_out always_running test_runtime
                    test_config test_environ 902 0
                    [("body", JObj [("query", JStr "SELECT 1"); ("maxWaitTime", JInt 2)])]
                    [("query", JStr "SELECT 1"); ("maxWaitTime", JInt 2)]
                    "SELECT 1" "q-1" initial_world
                    always_running_latency always_running_never_terminal
                    ltac:(lia) eq_refl eq_refl eq_refl)
                 ltac:(lra) eq_refl eq_refl "f").
  reflexivity.
Defined.

(** ** The environment *)

Lemma index_env_missing environ name w :
  Environment.truthy_str (Dict.get name environ) = false ->
  Index.validate_env_var environ name w
  = (Raise (ValueError ("Required environment variable '" ++ name
                        ++ "' is not set")%string), w).
Proof.
  unfold Environment.truthy_str, Index.validate_env_var.
  destruct (Dict.get name environ) as [v|]; [|reflexivity].
  destruct (String.eqb v EmptyString); [reflexivity | discriminate].
Qed.

(** X21.  The handler of [index.py] checks its environment before it
    looks at the event: when [DATABASE_NAME] is unset or empty, and
    when it is set but [S3_BUCKET] is unset or empty, every event is
    answered with status 400, an [Invalid parameter] error that names
    the missing variable, and no engine call. *)
Theorem X21_index_environment_check :
  forall (E : Engine) (R : runtime) (environ : Dict.dict string) (fuel : nat)
         (event : Dict.dict json) (context : option string) (w : world),
    (Environment.truthy_str (Dict.get "DATABASE_NAME" environ) = false ->
     Index.handler E R environ fuel event context w
     = (Return (Index.format_response R 400
                  (JObj [ ("error", JStr "Invalid parameter");
                          ("message",
                           JStr "Required environment variable 'DATABASE_NAME' is not set")
                        ])), w))
    /\ (Environment.truthy_str (Dict.get "DATABASE_NAME" environ) = true ->
        Environment.truthy_str (Dict.get "S3_BUCKET" environ) = false ->
        Index.handler E R environ fuel event context w
        = (Return (Index.format_response R 400
                     (JObj [ ("error", JStr "Invalid parameter");
                             ("message",
                              JStr "Required environment variable 'S3_BUCKET' is not set")
                           ])), w)).
Proof.
  intros E R environ fuel event context w. split.
  - intro Hdb. unfold Index.handler, try_except, Index.handler_try.
    unfold bind at 1. rewrite (index_env_missing environ _ w Hdb). reflexivity.
  - intros Hdb Hbk. unfold Index.handler, try_except, Index.handler_try.
    destruct (index_env_present environ _ w Hdb) as (db & _ & _ & Hrun).
    unfold bind at 1. rewrite Hrun.
    unfold bind at 1. rewrite (index_env_missing environ _ w Hbk). reflexivity.
Qed.

Lemma X21_index_environment_check_witness :
  Environment.truthy_str (Dict.get "DATABASE_NAME" [("DATABASE_NAME", EmptyString)])
  = false
  /\ status_of_run (Index.handler always_running test_runtime
                      [("DATABASE_NAME", EmptyString)] 4 [] None initial_world)
     = Some 400%Z.
Proof.
  split; [reflexivity|]. unfold status_of_run.
  rewrite (proj1 (X21_index_environment_check always_running test_runtime
                    [("DATABASE_NAME", EmptyString)] 4 [] None initial_world) eq_refl).
  reflexivity.
Defined.

Lemma required_env environ name :
  match Environment.get_env_var environ name true with
  | inl e =>
      Environment.truthy_str (Dict.get name environ) = false
      /\ e = Environment.EnvironmentError
               ("Required environment variable '" ++ name ++ "' is not set")%string
  | inr value =>
      exists v, value = Some v /\ Dict.get name environ = Some v /\ v <> EmptyString
  end.
Proof.
  unfold Environment.get_env_var. cbn [andb].
  destruct (Environment.truthy_str (Dict.get name environ)) eqn:Ht; cbn [negb].
  - unfold Environment.truthy_str in Ht.
    destruct (Dict.get name environ) as [v|]; [|discriminate Ht].
    exists v. split; [reflexivity|]. split; [reflexivity|].
    apply negb_true_iff, String.eqb_neq in Ht. exact Ht.
  - split; reflexivity.
Qed.

(** X22.  The module-level assignments of [athena_query.py] and
    [lambda_enhanced.py]: the import fails with an [EnvironmentError]
    that names [DATABASE_NAME] when that variable is unset or empty.
    A configuration that loads holds the database and the bucket of
    the environment, both non-empty, and a non-empty results path,
    which is [s3://<bucket>/athena-results/] when [RESULTS_PATH] is
    unset or empty; [MAX_WAIT_TIME] is 60 when the variable is unset
    or empty.  The handler of [index.py] accepts every environment
    that loads, with the same database and bucket. *)
Theorem X22_module_constants :
  forall (environ : Dict.dict string),
    (Environment.truthy_str (Dict.get "DATABASE_NAME" environ) = false ->
     Environment.module_constants environ
     = inl (Environment.EnvironmentError
              "Required environment variable 'DATABASE_NAME' is not set"))
    /\ (forall cfg,
          Environment.module_constants environ = inr cfg ->
          Dict.get "DATABASE_NAME" environ = Some (DATABASE_NAME cfg)
          /\ DATABASE_NAME cfg <> EmptyString
          /\ Dict.get "S3_BUCKET" environ = Some (S3_BUCKET cfg)
          /\ S3_BUCKET cfg <> EmptyString
          /\ RESULTS_PATH cfg <> EmptyString
          /\ (Environment.truthy_str (Dict.get "RESULTS_PATH" environ) = false ->
              RESULTS_PATH cfg
              = ("s3://" ++ S3_BUCKET cfg ++ "/athena-results/")%string)
          /\ (Environment.truthy_str (Dict.get "MAX_WAIT_TIME" environ) = false ->
              MAX_WAIT_TIME cfg = 60%Z)
          /\ (forall w, Index.validate_env_var environ "DATABASE_NAME" w
                        = (Return (DATABASE_NAME cfg), w))
          /\ (forall w, Index.validate_env_var environ "S3_BUCKET" w
                        = (Return (S3_BUCKET cfg), w))).
Proof.
  intro environ. split.
  - intro Hdb. unfold Environment.module_constants.
    pose proof (required_env environ "DATABASE_NAME") as H.
    destruct (Environment.get_env_var environ "DATABASE_NAME" true) as [e|v].
    + destruct H as [_ ->]. reflexivity.
    + destruct H as (db & _ & Hget & Hne). rewrite Hget in Hdb.
      cbn in Hdb. apply negb_false_iff, String.eqb_eq in Hdb. contradiction.
  - intros cfg. unfold Environment.module_constants.
    pose proof (required_env environ "DATABASE_NAME") as Hdb.
    destruct (Environment.get_env_var environ "DATABASE_NAME" true) as [e|dbv];
      [discriminate|].
    destruct Hdb as (db & -> & Hdb & Hdbne).
    pose proof (required_env environ "S3_BUCKET") as Hbk.
    destruct (Environment.get_env_var environ "S3_BUCKET" true) as [e|bkv];
      [discriminate|].
    destruct Hbk as (bk & -> & Hbk & Hbkne).
    unfold Environment.get_env_var. cbn [andb or_default str_of_option].
    set (rp := if Environment.truthy_str (Dict.get "RESULTS_PATH" environ)
               then or_default (Dict.get "RESULTS_PATH" environ) EmptyString
               else ("s3://" ++ bk ++ "/athena-results/")%string).
    assert (Hrp : rp <> EmptyString).
    { unfold rp, Environment.truthy_str.
      destruct (Dict.get "RESULTS_PATH" environ) as [v|]; [|discriminate].
      destruct (String.eqb_spec v EmptyString) as [->|Hv]; cbn [negb or_default];
        [discriminate | exact Hv]. }
    assert (Hall : forall z,
               {| DATABASE_NAME := db; S3_BUCKET := bk; RESULTS_PATH := rp;
                  MAX_WAIT_TIME := z |} = cfg ->
               (Environment.truthy_str (Dict.get "MAX_WAIT_TIME" environ) = false ->
                z = 60%Z) ->
               Dict.get "DATABASE_NAME" environ = Some (DATABASE_NAME cfg)
               /\ DATABASE_NAME cfg <> EmptyString
               /\ Dict.get "S3_BUCKET" environ = Some (S3_BUCKET cfg)
               /\ S3_BUCKET cfg <> EmptyString
               /\ RESULTS_PATH cfg <> EmptyString
               /\ (Environment.truthy_str (Dict.get "RESULTS_PATH" environ) = false ->
                   RESULTS_PATH cfg
                   = ("s3://" ++ S3_BUCKET cfg ++ "/athena-results/")%string)
               /\ (Environment.truthy_str (Dict.get "MAX_WAIT_TIME" environ) = false ->
                   MAX_WAIT_TIME cfg = 60%Z)
               /\ (forall w, Index.validate_env_var environ "DATABASE_NAME" w
                             = (Return (DATABASE_NAME cfg), w))
               /\ (forall w, Index.validate_env_var environ "S3_BUCKET" w
                             = (Return (S3_BUCKET cfg), w))).
    { intros z <- Hz. cbn [DATABASE_NAME S3_BUCKET RESULTS_PATH MAX_WAIT_TIME].
      split; [exact Hdb|]. split; [exact Hdbne|]. split; [exact Hbk|].
      split; [exact Hbkne|]. split; [exact Hrp|]. split.
      { intro Hf. unfold rp. rewrite Hf. reflexivity. }
      split; [exact Hz|]. split.
      - intro w. apply index_env_ok; assumption.
      - intro w. apply index_env_ok; assumption. }
    destruct (Environment.truthy_str (Dict.get "MAX_WAIT_TIME" environ)) eqn:Hmw.
    + destruct (Py.int_of_str _) as [z|]; [|discriminate].
      intros [= Hcfg]. apply (Hall z Hcfg). discriminate.
    + intros [= Hcfg]. apply (Hall 60%Z Hcfg). reflexivity.
Qed.

Lemma X22_module_constants_witness :
  Environment.module_constants test_environ = inr test_config
  /\ RESULTS_PATH test_config <> EmptyString
  /\ MAX_WAIT_TIME test_config = 60%Z.
Proof.
  assert (H : Environment.module_constants test_environ = inr test_config)
    by reflexivity.
  split; [exact H|].
  destruct (proj2 (X22_module_constants test_environ) test_config H)
    as (_ & _ & _ & _ & Hrp & _ & Hmw & _).
  split; [exact Hrp | apply Hmw; reflexivity].
Defined.

(** ** A body that is not JSON *)

Lemma loads_fails R s msg w :
  json_loads R s = inl msg -> loads R s w = (Raise (JSONDecodeError msg), w).
Proof. intro H. unfold loads. rewrite H. reflexivity. Qed.

(** X23.  A request whose body is a text that [json.loads] cannot
    parse is answered with status 400 and the error [Invalid JSON] by
    the three handlers, before any engine call: the clause for
    [JSONDecodeError] stands before the one for [ValueError], its base
    class.  [lambda_enhanced.py] takes an empty text for an empty
    object and does not parse it; [index.py] checks its environment
    first. *)
Theorem X23_body_is_not_json :
  forall (E : Engine) (R : runtime) (cfg : config) (environ : Dict.dict string)
         (fuel : nat) (event : Dict.dict json) (s msg : string) (w : world),
    Dict.get "body" event = Some (JStr s) ->
    json_loads R s = inl msg ->
    (forall fn,
        AthenaQuery.lambda_handler E R cfg fuel event (Some fn) w
        = (Return (AthenaQuery.format_response R 400
                     (JObj [ ("error", JStr "Invalid JSON"); ("message", JStr msg) ])),
           w))
    /\ (forall context,
          s <> EmptyString ->
          LambdaEnhanced.lambda_handler E R cfg fuel event context w
          = (Return (LambdaEnhanced.format_response R 400
                       (JObj [ ("error", JStr "Invalid JSON"); ("message", JStr msg) ])),
             w))
    /\ (forall context,
          Environment.truthy_str (Dict.get "DATABASE_NAME" environ) = true ->
          Environment.truthy_str (Dict.get "S3_BUCKET" environ) = true ->
          Index.handler E R environ fuel event context w
          = (Return (Index.format_response R 400
                       (JObj [ ("error", JStr "Invalid JSON");
                               ("message",
                                JStr ("Failed to parse request body: " ++ msg)%string)
                             ])), w)).
Proof.
  intros E R cfg environ fuel event s msg w Hbody Hloads.
  split; [|split].
  - intro fn. unfold AthenaQuery.lambda_handler, try_except,
      AthenaQuery.lambda_handler_try.
    rewrite Hbody. cbn [or_default]. unfold bind at 1.
    rewrite (loads_fails R s msg w Hloads). reflexivity.
  - intros context Hne. unfold LambdaEnhanced.lambda_handler, try_except,
      LambdaEnhanced.lambda_handler_try.
    rewrite Hbody. cbn [or_default]. cbv zeta.
    replace (String.eqb s EmptyString) with false
      by (symmetry; apply String.eqb_neq; exact Hne).
    unfold bind at 1. rewrite (loads_fails R s msg w Hloads). reflexivity.
  - intros context Hdb Hbk. unfold Index.handler, try_except, Index.handler_try.
    destruct (index_env_present environ _ w Hdb) as (db & _ & _ & Hrun1).
    destruct (index_env_present environ _ w Hbk) as (bk & _ & _ & Hrun2).
    unfold bind at 1. rewrite Hrun1. unfold bind at 1. rewrite Hrun2.
    cbv zeta. rewrite Hbody. unfold bind at 1.
    rewrite (loads_fails R s msg w Hloads). reflexivity.
Qed.

Lemma X23_body_is_not_json_witness :
  Dict.get "body" [("body", JStr "{")] = Some (JStr "{")
  /\ json_loads test_runtime "{" = inl "Expecting value"
  /\ status_of_run (AthenaQuery.lambda_handler always_running test_runtime
                      test_config 4 [("body", JStr "{")] (Some "f") initial_world)
     = Some 400%Z.
Proof.
  split; [reflexivity|]. split; [reflexivity|]. unfold status_of_run.
  rewrite (proj1 (X23_body_is_not_json always_running test_runtime test_config
                    test_environ 4 [("body", JStr "{")] "{" "Expecting value"
                    initial_world eq_refl eq_refl) "f").
  reflexivity.
Defined.

(** ** A query that succeeds at once *)

Lemma zero_before_deadline (d : Z) (c : Q) :
  (1 <= d)%Z -> Py.Qltb (c - c) (inject_Z d) = true.
Proof.
  intro Hd. apply Qltb_true. rewrite Zle_Qle in Hd. change (inject_Z 1) with 1 in Hd.
  lra.
Qed.

Lemma athena_poller_first_success E fuel id d w x :
  (1 <= d)%Z ->
  on_status E (n_status w) = inr x -> Status_State x = SUCCEEDED ->
  AthenaQuery.wait_for_query_completion E (S fuel) id d w
  = (Return (mk_status x), after_status E w).
Proof.
  intros Hd Hst Hx.
  rewrite athena_poller_unfold, athena_wait_loop_step, (zero_before_deadline d _ Hd).
  rewrite Hst, Hx. reflexivity.
Qed.

Lemma index_poller_first_terminal E fuel id d w x :
  (1 <= d)%Z ->
  on_status E (n_status w) = inr x -> nonterminal (Status_State x) = false ->
  Index.wait_for_query_completion E (S fuel) id d w
  = (Return {| State_ := Status_State x;
               StateChangeReason := Status_StateChangeReason x |},
     after_status E w).
Proof.
  intros Hd Hst Hx.
  rewrite index_poller_unfold, index_wait_loop_step, (zero_before_deadline d _ Hd).
  rewrite Hst, Hx. reflexivity.
Qed.

(** X24.  When the engine accepts the query, reports SUCCEEDED at the
    first status call and returns a page, the handler answers 200 with
    the execution id, the state, the rows and the metadata that
    [get_query_results] builds from the page, and their count.
    [athena_query.py] adds the engine's statistics, the stripped query
    text and the database; [index.py] reports 0 bytes scanned and 0
    milliseconds whatever the engine's statistics are, because it
    looks for them in the status. *)
Theorem X24_query_that_succeeds_at_once :
  forall (E : Engine) (R : runtime) (cfg : config) (environ : Dict.dict string)
         (fuel : nat) (event : Dict.dict json) (body : Dict.dict json)
         (q id : string) (x : QueryExecution) (page : ResultPage) (w : world),
    Dict.get "body" event = Some (JObj body) ->
    Dict.get "query" body = Some (JStr q) ->
    on_start E (n_start w) = inr id ->
    on_status E (n_status w) = inr x -> Status_State x = SUCCEEDED ->
    on_results E (n_results w) = inr page ->
    (routable_body cfg body = true ->
     fst (AthenaQuery.validate_query (JStr (Py.strip q))) = true ->
     forall fn,
     exists res w0,
       AthenaQuery.get_query_results E id 1000 w = (Return res, w0)
       /\ fst (AthenaQuery.lambda_handler E R cfg (S fuel) event (Some fn) w)
          = Return (AthenaQuery.format_response R 200
              (JObj [ ("message", JStr "Query executed successfully");
                      ("queryExecutionId", JStr id);
                      ("state", JStr "SUCCEEDED");
                      ("stateChangeReason", json_of_option (Status_StateChangeReason x));
                      ("rows", JArr (map json_of_row (rows res)));
                      ("columnMetadata", JArr (map JObj (columnMetadata res)));
                      ("rowCount", JInt (Z.of_nat (List.length (rows res))));
                      ("dataScannedInBytes",
                       JInt (or_default (Dict.get "DataScannedInBytes"
                                           (or_default (Statistics x) [])) 0%Z));
                      ("executionTimeInMillis",
                       JInt (or_default (Dict.get "TotalExecutionTimeInMillis"
                                           (or_default (Statistics x) [])) 0%Z));
                      ("query", JStr (Py.strip q));
                      ("database", JStr (DATABASE_NAME cfg)) ])))
    /\ (Environment.truthy_str (Dict.get "DATABASE_NAME" environ) = true ->
        Environment.truthy_str (Dict.get "S3_BUCKET" environ) = true ->
        int_or_absent "maxWaitTime" body = true ->
        (1 <= deadline_of 60 body <= 900)%Z ->
        Py.strip q <> EmptyString -> (Py.len (Py.strip q) <= 262144)%Z ->
        forall context,
        exists res w0,
          Index.get_query_results E id w = (Return res, w0)
          /\ fst (Index.handler E R environ (S fuel) event context w)
             = Return (Index.format_response R 200
                 (JObj [ ("message", JStr "Query executed successfully");
                         ("queryExecutionId", JStr id);
                         ("state", JStr "SUCCEEDED");
                         ("rows", JArr (map json_of_row (rows res)));
                         ("columnMetadata", JArr (map JObj (columnMetadata res)));
                         ("rowCount", JInt (Z.of_nat (List.length (rows res))));
                         ("dataScannedInBytes", JInt 0);
                         ("executionTimeInMillis", JInt 0) ]))).
Proof.
  intros E R cfg environ fuel event body q id x page w
         Hbody Hq Hstart Hst Hx Hpage.
  split.
  - intros Hroute Hvalid fn.
    destruct (routable_deadline cfg body Hroute) as (Hz & _).
    unfold AthenaQuery.get_query_results at 1.
    unfold bind at 1. unfold client_get_query_results at 1. rewrite Hpage.
    do 2 eexists. split; [reflexivity|].
    unfold AthenaQuery.lambda_handler, try_except.
    rewrite (athena_handler_try_run E R cfg (S fuel) event body q w Hbody Hq Hroute).
    unfold bind at 1. unfold AthenaQuery.execute_athena_query.
    destruct (AthenaQuery.validate_query (JStr (Py.strip q))) as [valid msg].
    cbn [fst] in Hvalid. subst valid. cbn [negb].
    unfold bind at 1.
    unfold AthenaQuery.start_query_execution, client_start_query_execution.
    rewrite Hstart.
    unfold bind at 1.
    match goal with
    | |- context [AthenaQuery.wait_for_query_completion E (S fuel) id ?d ?w1] =>
        rewrite (athena_poller_first_success E fuel id d w1 x
                   (proj1 Hz) Hst Hx)
    end.
    cbn [mk_status state]. rewrite Hx.
    unfold bind at 1. unfold bind at 1.
    unfold AthenaQuery.get_query_results, bind, client_get_query_results.
    cbn [after_status n_results]. rewrite Hpage.
    reflexivity.
  - intros Hdb Hbk Hint Hz Hne Hlen context.
    unfold Index.get_query_results at 1.
    unfold bind at 1. unfold client_get_query_results at 1. rewrite Hpage.
    assert (Hres : exists res,
               (match ResultSet_ColumnInfo page with
                | [] => ret {| columnMetadata := []; rows := []; rowCount := None |}
                | _ :: _ =>
                    ret {| columnMetadata :=
                             map Index.column_metadata_entry (ResultSet_ColumnInfo page);
                           rows :=
                             map (Index.row_data
                                    (map Index.column_metadata_entry
                                         (ResultSet_ColumnInfo page)))
                                 (List.tl (ResultSet_Rows page));
                           rowCount := None |}
                end) = ret res).
    { destruct (ResultSet_ColumnInfo page); eexists; reflexivity. }
    destruct Hres as [res Hres].
    exists res. eexists. split; [rewrite Hres; reflexivity|].
    destruct (index_env_present environ _ w Hdb) as (db & _ & _ & Hrun1).
    destruct (index_env_present environ _ w Hbk) as (bk & _ & _ & Hrun2).
    unfold Index.handler, try_except, Index.handler_try.
    unfold bind at 1. rewrite Hrun1. unfold bind at 1. rewrite Hrun2.
    cbv zeta. rewrite Hbody.
    cbv beta iota zeta delta [bind ret py_get py_strip].
    rewrite Hq. rewrite (py_int_deadline _ body Hint). cbv beta iota delta [ret].
    replace (String.eqb (Py.strip q) EmptyString) with false
      by (symmetry; apply String.eqb_neq; exact Hne).
    replace (Py.len (Py.strip q) >? 262144)%Z with false
      by (symmetry; rewrite Z.gtb_ltb; apply Z.ltb_ge; exact Hlen).
    rewrite (in_range _ Hz).
    unfold client_start_query_execution. rewrite Hstart.
    match goal with
    | |- context [Index.wait_for_query_completion E (S fuel) id ?d ?w1] =>
        rewrite (index_poller_first_terminal E fuel id d w1 x (proj1 Hz) Hst);
          [|rewrite Hx; reflexivity]
    end.
    cbn [State_]. rewrite Hx.
    unfold Index.get_query_results, bind, client_get_query_results.
    cbn [after_status n_results]. rewrite Hpage.
    rewrite Hres. reflexivity.
Qed.

Lemma X24_query_that_succeeds_at_once_witness :
  let page := page_of [column "H1"] [Some "H1"] [[Some "a"]] in
  let body := [("query", JStr "SELECT 1")] in
  Dict.get "body" [("body", JObj body)] = Some (JObj body)
  /\ on_results (succeeding page) (n_results initial_world) = inr page
  /\ routable_body test_config body = true
  /\ fst (AthenaQuery.validate_query (JStr (Py.strip "SELECT 1"))) = true
  /\ status_of_run
       (AthenaQuery.lambda_handler (succeeding page) test_runtime test_config 1
          [("body", JObj body)] (Some "f") initial_world)
     = Some 200%Z.
Proof.
  cbv zeta.
  split; [reflexivity|]. split; [reflexivity|]. split; [reflexivity|].
  split; [reflexivity|].
  destruct (proj1 (X24_query_that_succeeds_at_once
                     (succeeding (page_of [column "H1"] [Some "H1"] [[Some "a"]]))
                     test_runtime test_config test_environ 0
                     [("body", JObj [("query", JStr "SELECT 1")])]
                     [("query", JStr "SELECT 1")] "SELECT 1" "q-1"
                     {| Status_State := SUCCEEDED; Status_StateChangeReason := None;
                        Status_SubmissionDateTime := None;
                        Status_CompletionDateTime := None;
                        Statistics := None; Query := None |}
                     (page_of [column "H1"] [Some "H1"] [[Some "a"]])
                     initial_world eq_refl eq_refl eq_refl eq_refl eq_refl eq_refl)
                  eq_refl eq_refl "f") as (res & w0 & _ & Hrun).
  unfold status_of_run. rewrite Hrun. reflexivity.
Defined.

(** ** A query that fails at once *)

Lemma athena_poller_first_failure E fuel id d w x :
  (1 <= d)%Z ->
  on_status E (n_status w) = inr x ->
  Status_State x = FAILED \/ Status_State x = CANCELLED ->
  AthenaQuery.wait_for_query_completion E (S fuel) id d w
  = (Raise (RuntimeError
              (match Status_State x with
               | FAILED => "Query execution failed: "
                           ++ str_of_option (Status_StateChangeReason x)
               | _ => "Query was cancelled"
               end)%string), after_status E w).
Proof.
  intros Hd Hst Hx.
  rewrite athena_poller_unfold, athena_wait_loop_step, (zero_before_deadline d _ Hd).
  rewrite Hst. destruct Hx as [-> | ->]; reflexivity.
Qed.

(** X25.  When the engine accepts the query and reports FAILED or
    CANCELLED at the first status call, the handlers answer 400 and
    fetch no results.  [athena_query.py] reports [Query execution
    failed] with the poller's message, in which a missing reason
    reads [None]; [index.py] reports the execution id and the state,
    and for FAILED the reason, or [Unknown error] when the engine
    gives none. *)
Theorem X25_query_that_fails_at_once :
  forall (E : Engine) (R : runtime) (cfg : config) (environ : Dict.dict string)
         (fuel : nat) (event : Dict.dict json) (body : Dict.dict json)
         (q id : string) (x : QueryExecution) (w : world),
    Dict.get "body" event = Some (JObj body) ->
    Dict.get "query" body = Some (JStr q) ->
    on_start E (n_start w) = inr id ->
    on_status E (n_status w) = inr x ->
    Status_State x = FAILED \/ Status_State x = CANCELLED ->
    (routable_body cfg body = true ->
     fst (AthenaQuery.validate_query (JStr (Py.strip q))) = true ->
     forall fn,
       let run := AthenaQuery.lambda_handler E R cfg (S fuel) event (Some fn) w in
       fst run
       = Return (AthenaQuery.format_response R 400
           (JObj [ ("error", JStr "Query execution failed");
                   ("message",
                    JStr (match Status_State x with
                          | FAILED => "Query execution failed: "
                                      ++ str_of_option (Status_StateChangeReason x)
                          | _ => "Query was cancelled"
                          end)%string) ]))
       /\ n_results (snd run) = n_results w)
    /\ (Environment.truthy_str (Dict.get "DATABASE_NAME" environ) = true ->
        Environment.truthy_str (Dict.get "S3_BUCKET" environ) = true ->
        int_or_absent "maxWaitTime" body = true ->
        (1 <= deadline_of 60 body <= 900)%Z ->
        Py.strip q <> EmptyString -> (Py.len (Py.strip q) <= 262144)%Z ->
        forall context,
          let run := Index.handler E R environ (S fuel) event context w in
          fst run
          = Return (Index.format_response R 400
              (JObj (match Status_State x with
                     | FAILED =>
                         [ ("error", JStr "Query execution failed");
                           ("queryExecutionId", JStr id);
                           ("reason",
                            JStr (or_default (Status_StateChangeReason x)
                                             "Unknown error"));
                           ("state", JStr "FAILED") ]
                     | _ =>
                         [ ("error", JStr "Query was cancelled");
                           ("queryExecutionId", JStr id);
                           ("state", JStr "CANCELLED") ]
                     end)))
          /\ n_results (snd run) = n_results w).
Proof.
  intros E R cfg environ fuel event body q id x w Hbody Hq Hstart Hst Hx.
  split.
  - intros Hroute Hvalid fn. cbv zeta.
    destruct (routable_deadline cfg body Hroute) as (Hz & _).
    destruct (AthenaQuery.lambda_handler E R cfg (S fuel) event (Some fn) w)
      as [r w'] eqn:Hrun.
    unfold AthenaQuery.lambda_handler, try_except in Hrun.
    rewrite (athena_handler_try_run E R cfg (S fuel) event body q w Hbody Hq Hroute)
      in Hrun.
    unfold bind at 1 in Hrun. unfold AthenaQuery.execute_athena_query in Hrun.
    destruct (AthenaQuery.validate_query (JStr (Py.strip q))) as [valid msg].
    cbn [fst] in Hvalid. subst valid. cbn [negb] in Hrun.
    unfold bind at 1 in Hrun.
    unfold AthenaQuery.start_query_execution, client_start_query_execution in Hrun.
    rewrite Hstart in Hrun.
    unfold bind at 1 in Hrun.
    match type of Hrun with
    | context [AthenaQuery.wait_for_query_completion E (S fuel) id ?d ?w1] =>
        rewrite (athena_poller_first_failure E fuel id d w1 x (proj1 Hz) Hst Hx)
          in Hrun
    end.
    cbn [fst snd].
    destruct Hx as [Hx | Hx]; rewrite Hx in Hrun |- *;
      injection Hrun as <- <-; split; reflexivity.
  - intros Hdb Hbk Hint Hz Hne Hlen context. cbv zeta.
    destruct (index_env_present environ _ w Hdb) as (db & _ & _ & Hrun1).
    destruct (index_env_present environ _ w Hbk) as (bk & _ & _ & Hrun2).
    destruct (Index.handler E R environ (S fuel) event context w) as [r w'] eqn:Hrun.
    unfold Index.handler, try_except, Index.handler_try in Hrun.
    unfold bind at 1 in Hrun. rewrite Hrun1 in Hrun.
    unfold bind at 1 in Hrun. rewrite Hrun2 in Hrun.
    cbv zeta in Hrun. rewrite Hbody in Hrun.
    cbv beta iota zeta delta [bind ret py_get py_strip] in Hrun.
    rewrite Hq in Hrun. rewrite (py_int_deadline _ body Hint) in Hrun.
    cbv beta iota delta [ret] in Hrun.
    replace (String.eqb (Py.strip q) EmptyString) with false in Hrun
      by (symmetry; apply String.eqb_neq; exact Hne).
    replace (Py.len (Py.strip q) >? 262144)%Z with false in Hrun
      by (symmetry; rewrite Z.gtb_ltb; apply Z.ltb_ge; exact Hlen).
    rewrite (in_range _ Hz) in Hrun.
    unfold client_start_query_execution in Hrun. rewrite Hstart in Hrun.
    match type of Hrun with
    | context [Index.wait_for_query_completion E (S fuel) id ?d ?w1] =>
        rewrite (index_poller_first_terminal E fuel id d w1 x (proj1 Hz) Hst) in Hrun;
          [|destruct Hx as [-> | ->]; reflexivity]
    end.
    cbn [State_ StateChangeReason fst snd] in Hrun |- *.
    destruct Hx as [Hx | Hx]; rewrite Hx in Hrun |- *;
      injection Hrun as <- <-; split; reflexivity.
Qed.

Lemma X25_query_that_fails_at_once_witness :
  let x := {| Status_State := FAILED; Status_StateChangeReason := None;
              Status_SubmissionDateTime := None; Status_CompletionDateTime := None;
              Statistics := None; Query := None |} in
  let E := {| on_start := fun _ => inr "q-1"; latency := fun _ => 0;
              on_status := fun _ => inr x; on_results := fun _ => inr empty_page |} in
  let body := [("query", JStr "SELECT 1")] in
  on_status E (n_status initial_world) = inr x
  /\ routable_body test_config body = true
  /\ fst (AthenaQuery.validate_query (JStr (Py.strip "SELECT 1"))) = true
  /\ fst (AthenaQuery.lambda_handler E test_runtime test_config 1
            [("body", JObj body)] (Some "f") initial_world)
     = Return (AthenaQuery.format_response test_runtime 400
                 (JObj [ ("error", JStr "Query execution failed");
                         ("message", JStr "Query execution failed: None") ])).
Proof.
  cbv zeta.
  split; [reflexivity|]. split; [reflexivity|]. split; [reflexivity|].
  exact (proj1 (proj1 (X25_query_that_fails_at_once
                         {| on_start := fun _ => inr "q-1"; latency := fun _ => 0;
                            on_status := fun _ =>
                              inr {| Status_State := FAILED;
                                     Status_StateChangeReason := None;
                                     Status_SubmissionDateTime := None;
                                     Status_CompletionDateTime := None;
                                     Statistics := None; Query := None |};
                            on_results := fun _ => inr empty_page |}
                         test_runtime test_config test_environ 0
                         [("body", JObj [("query", JStr "SELECT 1")])]
                         [("query", JStr "SELECT 1")] "SELECT 1" "q-1"
                         {| Status_State := FAILED; Status_StateChangeReason := None;
                            Status_SubmissionDateTime := None;
                            Status_CompletionDateTime := None;
                            Statistics := None; Query := None |}
                         initial_world eq_refl eq_refl eq_refl eq_refl
                         (or_introl eq_refl))
                      eq_refl eq_refl "f")).
Defined.
